(** * Verification of the fbref_scrapper pipeline

    A shallow embedding of the planning, crawling, matching, scraping
    and joining code of the repository, and the properties its
    specification states about it:

    - [Unicode]: the character operations the code takes from Python's
      [str] and [unicodedata] ([str.lower], NFD, general category,
      [str.isspace], [str.isalpha], decimal digits), with the tables of
      Unicode 14.0;
    - [Names]: [_normalize_name] / [normalize_name] and
      [_get_required_combos] of [get_player_urls_from_csv.py] and
      [filter_player_urls.py];
    - [Crawl]: [_scrape_page], [_extract_players_from_page],
      [_save_checkpoint] and [scrape_player_index] of
      [get_player_urls_from_csv.py];
    - [Merge]: [parse_transfer_season], [get_player_stats] and the loop
      of [merge_transfers_with_stats] of [merge_transfer_stats.py];
    - [Match]: [match_players] and [match_and_filter];
    - [Batches]: the slicing of [create_batches.py];
    - [Scraper]: [scrape_player_stats] and [save_results] of
      [fbref_scraper.py], and [scrape_multiple_players].

    A Python [str] is a list of code points ([list N]) wherever the code
    counts or classifies characters, and the string of its UTF-8 bytes
    ([string]) where it compares, splits at ASCII characters and
    concatenates; [int], which reads characters, decodes the bytes. *)

From Stdlib Require Import NArith ZArith Ascii String DecimalString Lia.
From stdpp Require Import gmap strings list fin_maps sorting.

Local Open Scope N_scope.

(** ** Python strings as lists of code points *)

Abbreviation str := (list N).

(** The code points of an ASCII literal of the source. *)
Fixpoint u (s : string) : str :=
  match s with
  | EmptyString => []
  | String a s' => N_of_ascii a :: u s'
  end.

(** * Character data *)

Module Unicode.

(** The tables are those of Unicode 14.0, the version of CPython 3.11,
    for every code point: the lowercase mappings of [str.lower], the
    canonical decompositions and combining classes of
    [unicodedata.normalize] and [unicodedata.combining], the general
    category Mn of [unicodedata.category], [str.isspace], [str.isalpha],
    the properties Cased and Case_Ignorable that [str.lower] looks at
    around a capital sigma, and the decimal digits that [int] reads. *)

Fixpoint table_get {V : Type} (t : list (N * V)) (c : N) : option V :=
  match t with
  | [] => None
  | (k, v) :: t' => if k =? c then Some v else table_get t' c
  end.

Definition in_ranges (rs : list (N * N)) (c : N) : bool :=
  existsb (fun r => (fst r <=? c) && (c <=? snd r)) rs.

(** Full lowercase mappings ([str.lower] of one character) that are not
    the identity. *)
Definition lower_table : list (N * list N) :=
  [
    (0x41, [0x61]); (0x42, [0x62]); (0x43, [0x63]); (0x44, [0x64]);
    (0x45, [0x65]); (0x46, [0x66]); (0x47, [0x67]); (0x48, [0x68]);
    (0x49, [0x69]); (0x4A, [0x6A]); (0x4B, [0x6B]); (0x4C, [0x6C]);
    (0x4D, [0x6D]); (0x4E, [0x6E]); (0x4F, [0x6F]); (0x50, [0x70]);
    (0x51, [0x71]); (0x52, [0x72]); (0x53, [0x73]); (0x54, [0x74]);
    (0x55, [0x75]); (0x56, [0x76]); (0x57, [0x77]); (0x58, [0x78]);
    (0x59, [0x79]); (0x5A, [0x7A]); (0xC0, [0xE0]); (0xC1, [0xE1]);
    (0xC2, [0xE2]); (0xC3, [0xE3]); (0xC4, [0xE4]); (0xC5, [0xE5]);
    (0xC6, [0xE6]); (0xC7, [0xE7]); (0xC8, [0xE8]); (0xC9, [0xE9]);
    (0xCA, [0xEA]); (0xCB, [0xEB]); (0xCC, [0xEC]); (0xCD, [0xED]);
    (0xCE, [0xEE]); (0xCF, [0xEF]); (0xD0, [0xF0]); (0xD1, [0xF1]);
    (0xD2, [0xF2]); (0xD3, [0xF3]); (0xD4, [0xF4]); (0xD5, [0xF5]);
    (0xD6, [0xF6]); (0xD8, [0xF8]); (0xD9, [0xF9]); (0xDA, [0xFA]);
    (0xDB, [0xFB]); (0xDC, [0xFC]); (0xDD, [0xFD]); (0xDE, [0xFE]);
    (0x100, [0x101]); (0x102, [0x103]); (0x104, [0x105]); (0x106, [0x107]);
    (0x108, [0x109]); (0x10A, [0x10B]); (0x10C, [0x10D]); (0x10E, [0x10F]);
    (0x110, [0x111]); (0x112, [0x113]); (0x114, [0x115]); (0x116, [0x117]);
    (0x118, [0x119]); (0x11A, [0x11B]); (0x11C, [0x11D]); (0x11E, [0x11F]);
    (0x120, [0x121]); (0x122, [0x123]); (0x124, [0x125]); (0x126, [0x127]);
    (0x128, [0x129]); (0x12A, [0x12B]); (0x12C, [0x12D]); (0x12E, [0x12F]);
    (0x130, [0x69; 0x307]); (0x132, [0x133]); (0x134, [0x135]);
    (0x136, [0x137]); (0x139, [0x13A]); (0x13B, [0x13C]); (0x13D, [0x13E]);
    (0x13F, [0x140]); (0x141, [0x142]); (0x143, [0x144]); (0x145, [0x146]);
    (0x147, [0x148]); (0x14A, [0x14B]); (0x14C, [0x14D]); (0x14E, [0x14F]);
    (0x150, [0x151]); (0x152, [0x153]); (0x154, [0x155]); (0x156, [0x157]);
    (0x158, [0x159]); (0x15A, [0x15B]); (0x15C, [0x15D]); (0x15E, [0x15F]);
    (0x160, [0x161]); (0x162, [0x163]); (0x164, [0x165]); (0x166, [0x167]);
    (0x168, [0x169]); (0x16A, [0x16B]); (0x16C, [0x16D]); (0x16E, [0x16F]);
    (0x170, [0x171]); (0x172, [0x173]); (0x174, [0x175]); (0x176, [0x177]);
    (0x178, [0xFF]); (0x179, [0x17A]); (0x17B, [0x17C]); (0x17D, [0x17E]);
    (0x181, [0x253]); (0x182, [0x183]); (0x184, [0x185]); (0x186, [0x254]);
    (0x187, [0x188]); (0x189, [0x256]); (0x18A, [0x257]); (0x18B, [0x18C]);
    (0x18E, [0x1DD]); (0x18F, [0x259]); (0x190, [0x25B]); (0x191, [0x192]);
    (0x193, [0x260]); (0x194, [0x263]); (0x196, [0x269]); (0x197, [0x268]);
    (0x198, [0x199]); (0x19C, [0x26F]); (0x19D, [0x272]); (0x19F, [0x275]);
    (0x1A0, [0x1A1]); (0x1A2, [0x1A3]); (0x1A4, [0x1A5]); (0x1A6, [0x280]);
    (0x1A7, [0x1A8]); (0x1A9, [0x283]); (0x1AC, [0x1AD]); (0x1AE, [0x288]);
    (0x1AF, [0x1B0]); (0x1B1, [0x28A]); (0x1B2, [0x28B]); (0x1B3, [0x1B4]);
    (0x1B5, [0x1B6]); (0x1B7, [0x292]); (0x1B8, [0x1B9]); (0x1BC, [0x1BD]);
    (0x1C4, [0x1C6]); (0x1C5, [0x1C6]); (0x1C7, [0x1C9]); (0x1C8, [0x1C9]);
    (0x1CA, [0x1CC]); (0x1CB, [0x1CC]); (0x1CD, [0x1CE]); (0x1CF, [0x1D0]);
    (0x1D1, [0x1D2]); (0x1D3, [0x1D4]); (0x1D5, [0x1D6]); (0x1D7, [0x1D8]);
    (0x1D9, [0x1DA]); (0x1DB, [0x1DC]); (0x1DE, [0x1DF]); (0x1E0, [0x1E1]);
    (0x1E2, [0x1E3]); (0x1E4, [0x1E5]); (0x1E6, [0x1E7]); (0x1E8, [0x1E9]);
    (0x1EA, [0x1EB]); (0x1EC, [0x1ED]); (0x1EE, [0x1EF]); (0x1F1, [0x1F3]);
    (0x1F2, [0x1F3]); (0x1F4, [0x1F5]); (0x1F6, [0x195]); (0x1F7, [0x1BF]);
    (0x1F8, [0x1F9]); (0x1FA, [0x1FB]); (0x1FC, [0x1FD]); (0x1FE, [0x1FF]);
    (0x200, [0x201]); (0x202, [0x203]); (0x204, [0x205]); (0x206, [0x207]);
    (0x208, [0x209]); (0x20A, [0x20B]); (0x20C, [0x20D]); (0x20E, [0x20F]);
    (0x210, [0x211]); (0x212, [0x213]); (0x214, [0x215]); (0x216, [0x217]);
    (0x218, [0x219]); (0x21A, [0x21B]); (0x21C, [0x21D]); (0x21E, [0x21F]);
    (0x220, [0x19E]); (0x222, [0x223]); (0x224, [0x225]); (0x226, [0x227]);
    (0x228, [0x229]); (0x22A, [0x22B]); (0x22C, [0x22D]); (0x22E, [0x22F]);
    (0x230, [0x231]); (0x232, [0x233]); (0x23A, [0x2C65]); (0x23B, [0x23C]);
    (0x23D, [0x19A]); (0x23E, [0x2C66]); (0x241, [0x242]); (0x243, [0x180]);
    (0x244, [0x289]); (0x245, [0x28C]); (0x246, [0x247]); (0x248, [0x249]);
    (0x24A, [0x24B]); (0x24C, [0x24D]); (0x24E, [0x24F]); (0x370, [0x371]);
    (0x372, [0x373]); (0x376, [0x377]); (0x37F, [0x3F3]); (0x386, [0x3AC]);
    (0x388, [0x3AD]); (0x389, [0x3AE]); (0x38A, [0x3AF]); (0x38C, [0x3CC]);
    (0x38E, [0x3CD]); (0x38F, [0x3CE]); (0x391, [0x3B1]); (0x392, [0x3B2]);
    (0x393, [0x3B3]); (0x394, [0x3B4]); (0x395, [0x3B5]); (0x396, [0x3B6]);
    (0x397, [0x3B7]); (0x398, [0x3B8]); (0x399, [0x3B9]); (0x39A, [0x3BA]);
    (0x39B, [0x3BB]); (0x39C, [0x3BC]); (0x39D, [0x3BD]); (0x39E, [0x3BE]);
    (0x39F, [0x3BF]); (0x3A0, [0x3C0]); (0x3A1, [0x3C1]); (0x3A3, [0x3C3]);
    (0x3A4, [0x3C4]); (0x3A5, [0x3C5]); (0x3A6, [0x3C6]); (0x3A7, [0x3C7]);
    (0x3A8, [0x3C8]); (0x3A9, [0x3C9]); (0x3AA, [0x3CA]); (0x3AB, [0x3CB]);
    (0x3CF, [0x3D7]); (0x3D8, [0x3D9]); (0x3DA, [0x3DB]); (0x3DC, [0x3DD]);
    (0x3DE, [0x3DF]); (0x3E0, [0x3E1]); (0x3E2, [0x3E3]); (0x3E4, [0x3E5]);
    (0x3E6, [0x3E7]); (0x3E8, [0x3E9]); (0x3EA, [0x3EB]); (0x3EC, [0x3ED]);
    (0x3EE, [0x3EF]); (0x3F4, [0x3B8]); (0x3F7, [0x3F8]); (0x3F9, [0x3F2]);
    (0x3FA, [0x3FB]); (0x3FD, [0x37B]); (0x3FE, [0x37C]); (0x3FF, [0x37D]);
    (0x400, [0x450]); (0x401, [0x451]); (0x402, [0x452]); (0x403, [0x453]);
    (0x404, [0x454]); (0x405, [0x455]); (0x406, [0x456]); (0x407, [0x457]);
    (0x408, [0x458]); (0x409, [0x459]); (0x40A, [0x45A]); (0x40B, [0x45B]);
    (0x40C, [0x45C]); (0x40D, [0x45D]); (0x40E, [0x45E]); (0x40F, [0x45F]);
    (0x410, [0x430]); (0x411, [0x431]); (0x412, [0x432]); (0x413, [0x433]);
    (0x414, [0x434]); (0x415, [0x435]); (0x416, [0x436]); (0x417, [0x437]);
    (0x418, [0x438]); (0x419, [0x439]); (0x41A, [0x43A]); (0x41B, [0x43B]);
    (0x41C, [0x43C]); (0x41D, [0x43D]); (0x41E, [0x43E]); (0x41F, [0x43F]);
    (0x420, [0x440]); (0x421, [0x441]); (0x422, [0x442]); (0x423, [0x443]);
    (0x424, [0x444]); (0x425, [0x445]); (0x426, [0x446]); (0x427, [0x447]);
    (0x428, [0x448]); (0x429, [0x449]); (0x42A, [0x44A]); (0x42B, [0x44B]);
    (0x42C, [0x44C]); (0x42D, [0x44D]); (0x42E, [0x44E]); (0x42F, [0x44F]);
    (0x460, [0x461]); (0x462, [0x463]); (0x464, [0x465]); (0x466, [0x467]);
    (0x468, [0x469]); (0x46A, [0x46B]); (0x46C, [0x46D]); (0x46E, [0x46F]);
    (0x470, [0x471]); (0x472, [0x473]); (0x474, [0x475]); (0x476, [0x477]);
    (0x478, [0x479]); (0x47A, [0x47B]); (0x47C, [0x47D]); (0x47E, [0x47F]);
    (0x480, [0x481]); (0x48A, [0x48B]); (0x48C, [0x48D]); (0x48E, [0x48F]);
    (0x490, [0x491]); (0x492, [0x493]); (0x494, [0x495]); (0x496, [0x497]);
    (0x498, [0x499]); (0x49A, [0x49B]); (0x49C, [0x49D]); (0x49E, [0x49F]);
    (0x4A0, [0x4A1]); (0x4A2, [0x4A3]); (0x4A4, [0x4A5]); (0x4A6, [0x4A7]);
    (0x4A8, [0x4A9]); (0x4AA, [0x4AB]); (0x4AC, [0x4AD]); (0x4AE, [0x4AF]);
    (0x4B0, [0x4B1]); (0x4B2, [0x4B3]); (0x4B4, [0x4B5]); (0x4B6, [0x4B7]);
    (0x4B8, [0x4B9]); (0x4BA, [0x4BB]); (0x4BC, [0x4BD]); (0x4BE, [0x4BF]);
    (0x4C0, [0x4CF]); (0x4C1, [0x4C2]); (0x4C3, [0x4C4]); (0x4C5, [0x4C6]);
    (0x4C7, [0x4C8]); (0x4C9, [0x4CA]); (0x4CB, [0x4CC]); (0x4CD, [0x4CE]);
    (0x4D0, [0x4D1]); (0x4D2, [0x4D3]); (0x4D4, [0x4D5]); (0x4D6, [0x4D7]);
    (0x4D8, [0x4D9]); (0x4DA, [0x4DB]); (0x4DC, [0x4DD]); (0x4DE, [0x4DF]);
    (0x4E0, [0x4E1]); (0x4E2, [0x4E3]); (0x4E4, [0x4E5]); (0x4E6, [0x4E7]);
    (0x4E8, [0x4E9]); (0x4EA, [0x4EB]); (0x4EC, [0x4ED]); (0x4EE, [0x4EF]);
    (0x4F0, [0x4F1]); (0x4F2, [0x4F3]); (0x4F4, [0x4F5]); (0x4F6, [0x4F7]);
    (0x4F8, [0x4F9]); (0x4FA, [0x4FB]); (0x4FC, [0x4FD]); (0x4FE, [0x4FF]);
    (0x500, [0x501]); (0x502, [0x503]); (0x504, [0x505]); (0x506, [0x507]);
    (0x508, [0x509]); (0x50A, [0x50B]); (0x50C, [0x50D]); (0x50E, [0x50F]);
    (0x510, [0x511]); (0x512, [0x513]); (0x514, [0x515]); (0x516, [0x517]);
    (0x518, [0x519]); (0x51A, [0x51B]); (0x51C, [0x51D]); (0x51E, [0x51F]);
    (0x520, [0x521]); (0x522, [0x523]); (0x524, [0x525]); (0x526, [0x527]);
    (0x528, [0x529]); (0x52A, [0x52B]); (0x52C, [0x52D]); (0x52E, [0x52F]);
    (0x531, [0x561]); (0x532, [0x562]); (0x533, [0x563]); (0x534, [0x564]);
    (0x535, [0x565]); (0x536, [0x566]); (0x537, [0x567]); (0x538, [0x568]);
    (0x539, [0x569]); (0x53A, [0x56A]); (0x53B, [0x56B]); (0x53C, [0x56C]);
    (0x53D, [0x56D]); (0x53E, [0x56E]); (0x53F, [0x56F]); (0x540, [0x570]);
    (0x541, [0x571]); (0x542, [0x572]); (0x543, [0x573]); (0x544, [0x574]);
    (0x545, [0x575]); (0x546, [0x576]); (0x547, [0x577]); (0x548, [0x578]);
    (0x549, [0x579]); (0x54A, [0x57A]); (0x54B, [0x57B]); (0x54C, [0x57C]);
    (0x54D, [0x57D]); (0x54E, [0x57E]); (0x54F, [0x57F]); (0x550, [0x580]);
    (0x551, [0x581]); (0x552, [0x582]); (0x553, [0x583]); (0x554, [0x584]);
    (0x555, [0x585]); (0x556, [0x586]); (0x10A0, [0x2D00]);
    (0x10A1, [0x2D01]); (0x10A2, [0x2D02]); (0x10A3, [0x2D03]);
    (0x10A4, [0x2D04]); (0x10A5, [0x2D05]); (0x10A6, [0x2D06]);
    (0x10A7, [0x2D07]); (0x10A8, [0x2D08]); (0x10A9, [0x2D09]);
    (0x10AA, [0x2D0A]); (0x10AB, [0x2D0B]); (0x10AC, [0x2D0C]);
    (0x10AD, [0x2D0D]); (0x10AE, [0x2D0E]); (0x10AF, [0x2D0F]);
    (0x10B0, [0x2D10]); (0x10B1, [0x2D11]); (0x10B2, [0x2D12]);
    (0x10B3, [0x2D13]); (0x10B4, [0x2D14]); (0x10B5, [0x2D15]);
    (0x10B6, [0x2D16]); (0x10B7, [0x2D17]); (0x10B8, [0x2D18]);
    (0x10B9, [0x2D19]); (0x10BA, [0x2D1A]); (0x10BB, [0x2D1B]);
    (0x10BC, [0x2D1C]); (0x10BD, [0x2D1D]); (0x10BE, [0x2D1E]);
    (0x10BF, [0x2D1F]); (0x10C0, [0x2D20]); (0x10C1, [0x2D21]);
    (0x10C2, [0x2D22]); (0x10C3, [0x2D23]); (0x10C4, [0x2D24]);
    (0x10C5, [0x2D25]); (0x10C7, [0x2D27]); (0x10CD, [0x2D2D]);
    (0x13A0, [0xAB70]); (0x13A1, [0xAB71]); (0x13A2, [0xAB72]);
    (0x13A3, [0xAB73]); (0x13A4, [0xAB74]); (0x13A5, [0xAB75]);
    (0x13A6, [0xAB76]); (0x13A7, [0xAB77]); (0x13A8, [0xAB78]);
    (0x13A9, [0xAB79]); (0x13AA, [0xAB7A]); (0x13AB, [0xAB7B]);
    (0x13AC, [0xAB7C]); (0x13AD, [0xAB7D]); (0x13AE, [0xAB7E]);
    (0x13AF, [0xAB7F]); (0x13B0, [0xAB80]); (0x13B1, [0xAB81]);
    (0x13B2, [0xAB82]); (0x13B3, [0xAB83]); (0x13B4, [0xAB84]);
    (0x13B5, [0xAB85]); (0x13B6, [0xAB86]); (0x13B7, [0xAB87]);
    (0x13B8, [0xAB88]); (0x13B9, [0xAB89]); (0x13BA, [0xAB8A]);
    (0x13BB, [0xAB8B]); (0x13BC, [0xAB8C]); (0x13BD, [0xAB8D]);
    (0x13BE, [0xAB8E]); (0x13BF, [0xAB8F]); (0x13C0, [0xAB90]);
    (0x13C1, [0xAB91]); (0x13C2, [0xAB92]); (0x13C3, [0xAB93]);
    (0x13C4, [0xAB94]); (0x13C5, [0xAB95]); (0x13C6, [0xAB96]);
    (0x13C7, [0xAB97]); (0x13C8, [0xAB98]); (0x13C9, [0xAB99]);
    (0x13CA, [0xAB9A]); (0x13CB, [0xAB9B]); (0x13CC, [0xAB9C]);
    (0x13CD, [0xAB9D]); (0x13CE, [0xAB9E]); (0x13CF, [0xAB9F]);
    (0x13D0, [0xABA0]); (0x13D1, [0xABA1]); (0x13D2, [0xABA2]);
    (0x13D3, [0xABA3]); (0x13D4, [0xABA4]); (0x13D5, [0xABA5]);
    (0x13D6, [0xABA6]); (0x13D7, [0xABA7]); (0x13D8, [0xABA8]);
    (0x13D9, [0xABA9]); (0x13DA, [0xABAA]); (0x13DB, [0xABAB]);
    (0x13DC, [0xABAC]); (0x13DD, [0xABAD]); (0x13DE, [0xABAE]);
    (0x13DF, [0xABAF]); (0x13E0, [0xABB0]); (0x13E1, [0xABB1]);
    (0x13E2, [0xABB2]); (0x13E3, [0xABB3]); (0x13E4, [0xABB4]);
    (0x13E5, [0xABB5]); (0x13E6, [0xABB6]); (0x13E7, [0xABB7]);
    (0x13E8, [0xABB8]); (0x13E9, [0xABB9]); (0x13EA, [0xABBA]);
    (0x13EB, [0xABBB]); (0x13EC, [0xABBC]); (0x13ED, [0xABBD]);
    (0x13EE, [0xABBE]); (0x13EF, [0xABBF]); (0x13F0, [0x13F8]);
    (0x13F1, [0x13F9]); (0x13F2, [0x13FA]); (0x13F3, [0x13FB]);
    (0x13F4, [0x13FC]); (0x13F5, [0x13FD]); (0x1C90, [0x10D0]);
    (0x1C91, [0x10D1]); (0x1C92, [0x10D2]); (0x1C93, [0x10D3]);
    (0x1C94, [0x10D4]); (0x1C95, [0x10D5]); (0x1C96, [0x10D6]);
    (0x1C97, [0x10D7]); (0x1C98, [0x10D8]); (0x1C99, [0x10D9]);
    (0x1C9A, [0x10DA]); (0x1C9B, [0x10DB]); (0x1C9C, [0x10DC]);
    (0x1C9D, [0x10DD]); (0x1C9E, [0x10DE]); (0x1C9F, [0x10DF]);
    (0x1CA0, [0x10E0]); (0x1CA1, [0x10E1]); (0x1CA2, [0x10E2]);
    (0x1CA3, [0x10E3]); (0x1CA4, [0x10E4]); (0x1CA5, [0x10E5]);
    (0x1CA6, [0x10E6]); (0x1CA7, [0x10E7]); (0x1CA8, [0x10E8]);
    (0x1CA9, [0x10E9]); (0x1CAA, [0x10EA]); (0x1CAB, [0x10EB]);
    (0x1CAC, [0x10EC]); (0x1CAD, [0x10ED]); (0x1CAE, [0x10EE]);
    (0x1CAF, [0x10EF]); (0x1CB0, [0x10F0]); (0x1CB1, [0x10F1]);
    (0x1CB2, [0x10F2]); (0x1CB3, [0x10F3]); (0x1CB4, [0x10F4]);
    (0x1CB5, [0x10F5]); (0x1CB6, [0x10F6]); (0x1CB7, [0x10F7]);
    (0x1CB8, [0x10F8]); (0x1CB9, [0x10F9]); (0x1CBA, [0x10FA]);
    (0x1CBD, [0x10FD]); (0x1CBE, [0x10FE]); (0x1CBF, [0x10FF]);
    (0x1E00, [0x1E01]); (0x1E02, [0x1E03]); (0x1E04, [0x1E05]);
    (0x1E06, [0x1E07]); (0x1E08, [0x1E09]); (0x1E0A, [0x1E0B]);
    (0x1E0C, [0x1E0D]); (0x1E0E, [0x1E0F]); (0x1E10, [0x1E11]);
    (0x1E12, [0x1E13]); (0x1E14, [0x1E15]); (0x1E16, [0x1E17]);
    (0x1E18, [0x1E19]); (0x1E1A, [0x1E1B]); (0x1E1C, [0x1E1D]);
    (0x1E1E, [0x1E1F]); (0x1E20, [0x1E21]); (0x1E22, [0x1E23]);
    (0x1E24, [0x1E25]); (0x1E26, [0x1E27]); (0x1E28, [0x1E29]);
    (0x1E2A, [0x1E2B]); (0x1E2C, [0x1E2D]); (0x1E2E, [0x1E2F]);
    (0x1E30, [0x1E31]); (0x1E32, [0x1E33]); (0x1E34, [0x1E35]);
    (0x1E36, [0x1E37]); (0x1E38, [0x1E39]); (0x1E3A, [0x1E3B]);
    (0x1E3C, [0x1E3D]); (0x1E3E, [0x1E3F]); (0x1E40, [0x1E41]);
    (0x1E42, [0x1E43]); (0x1E44, [0x1E45]); (0x1E46, [0x1E47]);
    (0x1E48, [0x1E49]); (0x1E4A, [0x1E4B]); (0x1E4C, [0x1E4D]);
    (0x1E4E, [0x1E4F]); (0x1E50, [0x1E51]); (0x1E52, [0x1E53]);
    (0x1E54, [0x1E55]); (0x1E56, [0x1E57]); (0x1E58, [0x1E59]);
    (0x1E5A, [0x1E5B]); (0x1E5C, [0x1E5D]); (0x1E5E, [0x1E5F]);
    (0x1E60, [0x1E61]); (0x1E62, [0x1E63]); (0x1E64, [0x1E65]);
    (0x1E66, [0x1E67]); (0x1E68, [0x1E69]); (0x1E6A, [0x1E6B]);
    (0x1E6C, [0x1E6D]); (0x1E6E, [0x1E6F]); (0x1E70, [0x1E71]);
    (0x1E72, [0x1E73]); (0x1E74, [0x1E75]); (0x1E76, [0x1E77]);
    (0x1E78, [0x1E79]); (0x1E7A, [0x1E7B]); (0x1E7C, [0x1E7D]);
    (0x1E7E, [0x1E7F]); (0x1E80, [0x1E81]); (0x1E82, [0x1E83]);
    (0x1E84, [0x1E85]); (0x1E86, [0x1E87]); (0x1E88, [0x1E89]);
    (0x1E8A, [0x1E8B]); (0x1E8C, [0x1E8D]); (0x1E8E, [0x1E8F]);
    (0x1E90, [0x1E91]); (0x1E92, [0x1E93]); (0x1E94, [0x1E95]);
    (0x1E9E, [0xDF]); (0x1EA0, [0x1EA1]); (0x1EA2, [0x1EA3]);
    (0x1EA4, [0x1EA5]); (0x1EA6, [0x1EA7]); (0x1EA8, [0x1EA9]);
    (0x1EAA, [0x1EAB]); (0x1EAC, [0x1EAD]); (0x1EAE, [0x1EAF]);
    (0x1EB0, [0x1EB1]); (0x1EB2, [0x1EB3]); (0x1EB4, [0x1EB5]);
    (0x1EB6, [0x1EB7]); (0x1EB8, [0x1EB9]); (0x1EBA, [0x1EBB]);
    (0x1EBC, [0x1EBD]); (0x1EBE, [0x1EBF]); (0x1EC0, [0x1EC1]);
    (0x1EC2, [0x1EC3]); (0x1EC4, [0x1EC5]); (0x1EC6, [0x1EC7]);
    (0x1EC8, [0x1EC9]); (0x1ECA, [0x1ECB]); (0x1ECC, [0x1ECD]);
    (0x1ECE, [0x1ECF]); (0x1ED0, [0x1ED1]); (0x1ED2, [0x1ED3]);
    (0x1ED4, [0x1ED5]); (0x1ED6, [0x1ED7]); (0x1ED8, [0x1ED9]);
    (0x1EDA, [0x1EDB]); (0x1EDC, [0x1EDD]); (0x1EDE, [0x1EDF]);
    (0x1EE0, [0x1EE1]); (0x1EE2, [0x1EE3]); (0x1EE4, [0x1EE5]);
    (0x1EE6, [0x1EE7]); (0x1EE8, [0x1EE9]); (0x1EEA, [0x1EEB]);
    (0x1EEC, [0x1EED]); (0x1EEE, [0x1EEF]); (0x1EF0, [0x1EF1]);
    (0x1EF2, [0x1EF3]); (0x1EF4, [0x1EF5]); (0x1EF6, [0x1EF7]);
    (0x1EF8, [0x1EF9]); (0x1EFA, [0x1EFB]); (0x1EFC, [0x1EFD]);
    (0x1EFE, [0x1EFF]); (0x1F08, [0x1F00]); (0x1F09, [0x1F01]);
    (0x1F0A, [0x1F02]); (0x1F0B, [0x1F03]); (0x1F0C, [0x1F04]);
    (0x1F0D, [0x1F05]); (0x1F0E, [0x1F06]); (0x1F0F, [0x1F07]);
    (0x1F18, [0x1F10]); (0x1F19, [0x1F11]); (0x1F1A, [0x1F12]);
    (0x1F1B, [0x1F13]); (0x1F1C, [0x1F14]); (0x1F1D, [0x1F15]);
    (0x1F28, [0x1F20]); (0x1F29, [0x1F21]); (0x1F2A, [0x1F22]);
    (0x1F2B, [0x1F23]); (0x1F2C, [0x1F24]); (0x1F2D, [0x1F25]);
    (0x1F2E, [0x1F26]); (0x1F2F, [0x1F27]); (0x1F38, [0x1F30]);
    (0x1F39, [0x1F31]); (0x1F3A, [0x1F32]); (0x1F3B, [0x1F33]);
    (0x1F3C, [0x1F34]); (0x1F3D, [0x1F35]); (0x1F3E, [0x1F36]);
    (0x1F3F, [0x1F37]); (0x1F48, [0x1F40]); (0x1F49, [0x1F41]);
    (0x1F4A, [0x1F42]); (0x1F4B, [0x1F43]); (0x1F4C, [0x1F44]);
    (0x1F4D, [0x1F45]); (0x1F59, [0x1F51]); (0x1F5B, [0x1F53]);
    (0x1F5D, [0x1F55]); (0x1F5F, [0x1F57]); (0x1F68, [0x1F60]);
    (0x1F69, [0x1F61]); (0x1F6A, [0x1F62]); (0x1F6B, [0x1F63]);
    (0x1F6C, [0x1F64]); (0x1F6D, [0x1F65]); (0x1F6E, [0x1F66]);
    (0x1F6F, [0x1F67]); (0x1F88, [0x1F80]); (0x1F89, [0x1F81]);
    (0x1F8A, [0x1F82]); (0x1F8B, [0x1F83]); (0x1F8C, [0x1F84]);
    (0x1F8D, [0x1F85]); (0x1F8E, [0x1F86]); (0x1F8F, [0x1F87]);
    (0x1F98, [0x1F90]); (0x1F99, [0x1F91]); (0x1F9A, [0x1F92]);
    (0x1F9B, [0x1F93]); (0x1F9C, [0x1F94]); (0x1F9D, [0x1F95]);
    (0x1F9E, [0x1F96]); (0x1F9F, [0x1F97]); (0x1FA8, [0x1FA0]);
    (0x1FA9, [0x1FA1]); (0x1FAA, [0x1FA2]); (0x1FAB, [0x1FA3]);
    (0x1FAC, [0x1FA4]); (0x1FAD, [0x1FA5]); (0x1FAE, [0x1FA6]);
    (0x1FAF, [0x1FA7]); (0x1FB8, [0x1FB0]); (0x1FB9, [0x1FB1]);
    (0x1FBA, [0x1F70]); (0x1FBB, [0x1F71]); (0x1FBC, [0x1FB3]);
    (0x1FC8, [0x1F72]); (0x1FC9, [0x1F73]); (0x1FCA, [0x1F74]);
    (0x1FCB, [0x1F75]); (0x1FCC, [0x1FC3]); (0x1FD8, [0x1FD0]);
    (0x1FD9, [0x1FD1]); (0x1FDA, [0x1F76]); (0x1FDB, [0x1F77]);
    (0x1FE8, [0x1FE0]); (0x1FE9, [0x1FE1]); (0x1FEA, [0x1F7A]);
    (0x1FEB, [0x1F7B]); (0x1FEC, [0x1FE5]); (0x1FF8, [0x1F78]);
    (0x1FF9, [0x1F79]); (0x1FFA, [0x1F7C]); (0x1FFB, [0x1F7D]);
    (0x1FFC, [0x1FF3]); (0x2126, [0x3C9]); (0x212A, [0x6B]); (0x212B, [0xE5]);
    (0x2132, [0x214E]); (0x2160, [0x2170]); (0x2161, [0x2171]);
    (0x2162, [0x2172]); (0x2163, [0x2173]); (0x2164, [0x2174]);
    (0x2165, [0x2175]); (0x2166, [0x2176]); (0x2167, [0x2177]);
    (0x2168, [0x2178]); (0x2169, [0x2179]); (0x216A, [0x217A]);
    (0x216B, [0x217B]); (0x216C, [0x217C]); (0x216D, [0x217D]);
    (0x216E, [0x217E]); (0x216F, [0x217F]); (0x2183, [0x2184]);
    (0x24B6, [0x24D0]); (0x24B7, [0x24D1]); (0x24B8, [0x24D2]);
    (0x24B9, [0x24D3]); (0x24BA, [0x24D4]); (0x24BB, [0x24D5]);
    (0x24BC, [0x24D6]); (0x24BD, [0x24D7]); (0x24BE, [0x24D8]);
    (0x24BF, [0x24D9]); (0x24C0, [0x24DA]); (0x24C1, [0x24DB]);
    (0x24C2, [0x24DC]); (0x24C3, [0x24DD]); (0x24C4, [0x24DE]);
    (0x24C5, [0x24DF]); (0x24C6, [0x24E0]); (0x24C7, [0x24E1]);
    (0x24C8, [0x24E2]); (0x24C9, [0x24E3]); (0x24CA, [0x24E4]);
    (0x24CB, [0x24E5]); (0x24CC, [0x24E6]); (0x24CD, [0x24E7]);
    (0x24CE, [0x24E8]); (0x24CF, [0x24E9]); (0x2C00, [0x2C30]);
    (0x2C01, [0x2C31]); (0x2C02, [0x2C32]); (0x2C03, [0x2C33]);
    (0x2C04, [0x2C34]); (0x2C05, [0x2C35]); (0x2C06, [0x2C36]);
    (0x2C07, [0x2C37]); (0x2C08, [0x2C38]); (0x2C09, [0x2C39]);
    (0x2C0A, [0x2C3A]); (0x2C0B, [0x2C3B]); (0x2C0C, [0x2C3C]);
    (0x2C0D, [0x2C3D]); (0x2C0E, [0x2C3E]); (0x2C0F, [0x2C3F]);
    (0x2C10, [0x2C40]); (0x2C11, [0x2C41]); (0x2C12, [0x2C42]);
    (0x2C13, [0x2C43]); (0x2C14, [0x2C44]); (0x2C15, [0x2C45]);
    (0x2C16, [0x2C46]); (0x2C17, [0x2C47]); (0x2C18, [0x2C48]);
    (0x2C19, [0x2C49]); (0x2C1A, [0x2C4A]); (0x2C1B, [0x2C4B]);
    (0x2C1C, [0x2C4C]); (0x2C1D, [0x2C4D]); (0x2C1E, [0x2C4E]);
    (0x2C1F, [0x2C4F]); (0x2C20, [0x2C50]); (0x2C21, [0x2C51]);
    (0x2C22, [0x2C52]); (0x2C23, [0x2C53]); (0x2C24, [0x2C54]);
    (0x2C25, [0x2C55]); (0x2C26, [0x2C56]); (0x2C27, [0x2C57]);
    (0x2C28, [0x2C58]); (0x2C29, [0x2C59]); (0x2C2A, [0x2C5A]);
    (0x2C2B, [0x2C5B]); (0x2C2C, [0x2C5C]); (0x2C2D, [0x2C5D]);
    (0x2C2E, [0x2C5E]); (0x2C2F, [0x2C5F]); (0x2C60, [0x2C61]);
    (0x2C62, [0x26B]); (0x2C63, [0x1D7D]); (0x2C64, [0x27D]);
    (0x2C67, [0x2C68]); (0x2C69, [0x2C6A]); (0x2C6B, [0x2C6C]);
    (0x2C6D, [0x251]); (0x2C6E, [0x271]); (0x2C6F, [0x250]);
    (0x2C70, [0x252]); (0x2C72, [0x2C73]); (0x2C75, [0x2C76]);
    (0x2C7E, [0x23F]); (0x2C7F, [0x240]); (0x2C80, [0x2C81]);
    (0x2C82, [0x2C83]); (0x2C84, [0x2C85]); (0x2C86, [0x2C87]);
    (0x2C88, [0x2C89]); (0x2C8A, [0x2C8B]); (0x2C8C, [0x2C8D]);
    (0x2C8E, [0x2C8F]); (0x2C90, [0x2C91]); (0x2C92, [0x2C93]);
    (0x2C94, [0x2C95]); (0x2C96, [0x2C97]); (0x2C98, [0x2C99]);
    (0x2C9A, [0x2C9B]); (0x2C9C, [0x2C9D]); (0x2C9E, [0x2C9F]);
    (0x2CA0, [0x2CA1]); (0x2CA2, [0x2CA3]); (0x2CA4, [0x2CA5]);
    (0x2CA6, [0x2CA7]); (0x2CA8, [0x2CA9]); (0x2CAA, [0x2CAB]);
    (0x2CAC, [0x2CAD]); (0x2CAE, [0x2CAF]); (0x2CB0, [0x2CB1]);
    (0x2CB2, [0x2CB3]); (0x2CB4, [0x2CB5]); (0x2CB6, [0x2CB7]);
    (0x2CB8, [0x2CB9]); (0x2CBA, [0x2CBB]); (0x2CBC, [0x2CBD]);
    (0x2CBE, [0x2CBF]); (0x2CC0, [0x2CC1]); (0x2CC2, [0x2CC3]);
    (0x2CC4, [0x2CC5]); (0x2CC6, [0x2CC7]); (0x2CC8, [0x2CC9]);
    (0x2CCA, [0x2CCB]); (0x2CCC, [0x2CCD]); (0x2CCE, [0x2CCF]);
    (0x2CD0, [0x2CD1]); (0x2CD2, [0x2CD3]); (0x2CD4, [0x2CD5]);
    (0x2CD6, [0x2CD7]); (0x2CD8, [0x2CD9]); (0x2CDA, [0x2CDB]);
    (0x2CDC, [0x2CDD]); (0x2CDE, [0x2CDF]); (0x2CE0, [0x2CE1]);
    (0x2CE2, [0x2CE3]); (0x2CEB, [0x2CEC]); (0x2CED, [0x2CEE]);
    (0x2CF2, [0x2CF3]); (0xA640, [0xA641]); (0xA642, [0xA643]);
    (0xA644, [0xA645]); (0xA646, [0xA647]); (0xA648, [0xA649]);
    (0xA64A, [0xA64B]); (0xA64C, [0xA64D]); (0xA64E, [0xA64F]);
    (0xA650, [0xA651]); (0xA652, [0xA653]); (0xA654, [0xA655]);
    (0xA656, [0xA657]); (0xA658, [0xA659]); (0xA65A, [0xA65B]);
    (0xA65C, [0xA65D]); (0xA65E, [0xA65F]); (0xA660, [0xA661]);
    (0xA662, [0xA663]); (0xA664, [0xA665]); (0xA666, [0xA667]);
    (0xA668, [0xA669]); (0xA66A, [0xA66B]); (0xA66C, [0xA66D]);
    (0xA680, [0xA681]); (0xA682, [0xA683]); (0xA684, [0xA685]);
    (0xA686, [0xA687]); (0xA688, [0xA689]); (0xA68A, [0xA68B]);
    (0xA68C, [0xA68D]); (0xA68E, [0xA68F]); (0xA690, [0xA691]);
    (0xA692, [0xA693]); (0xA694, [0xA695]); (0xA696, [0xA697]);
    (0xA698, [0xA699]); (0xA69A, [0xA69B]); (0xA722, [0xA723]);
    (0xA724, [0xA725]); (0xA726, [0xA727]); (0xA728, [0xA729]);
    (0xA72A, [0xA72B]); (0xA72C, [0xA72D]); (0xA72E, [0xA72F]);
    (0xA732, [0xA733]); (0xA734, [0xA735]); (0xA736, [0xA737]);
    (0xA738, [0xA739]); (0xA73A, [0xA73B]); (0xA73C, [0xA73D]);
    (0xA73E, [0xA73F]); (0xA740, [0xA741]); (0xA742, [0xA743]);
    (0xA744, [0xA745]); (0xA746, [0xA747]); (0xA748, [0xA749]);
    (0xA74A, [0xA74B]); (0xA74C, [0xA74D]); (0xA74E, [0xA74F]);
    (0xA750, [0xA751]); (0xA752, [0xA753]); (0xA754, [0xA755]);
    (0xA756, [0xA757]); (0xA758, [0xA759]); (0xA75A, [0xA75B]);
    (0xA75C, [0xA75D]); (0xA75E, [0xA75F]); (0xA760, [0xA761]);
    (0xA762, [0xA763]); (0xA764, [0xA765]); (0xA766, [0xA767]);
    (0xA768, [0xA769]); (0xA76A, [0xA76B]); (0xA76C, [0xA76D]);
    (0xA76E, [0xA76F]); (0xA779, [0xA77A]); (0xA77B, [0xA77C]);
    (0xA77D, [0x1D79]); (0xA77E, [0xA77F]); (0xA780, [0xA781]);
    (0xA782, [0xA783]); (0xA784, [0xA785]); (0xA786, [0xA787]);
    (0xA78B, [0xA78C]); (0xA78D, [0x265]); (0xA790, [0xA791]);
    (0xA792, [0xA793]); (0xA796, [0xA797]); (0xA798, [0xA799]);
    (0xA79A, [0xA79B]); (0xA79C, [0xA79D]); (0xA79E, [0xA79F]);
    (0xA7A0, [0xA7A1]); (0xA7A2, [0xA7A3]); (0xA7A4, [0xA7A5]);
    (0xA7A6, [0xA7A7]); (0xA7A8, [0xA7A9]); (0xA7AA, [0x266]);
    (0xA7AB, [0x25C]); (0xA7AC, [0x261]); (0xA7AD, [0x26C]);
    (0xA7AE, [0x26A]); (0xA7B0, [0x29E]); (0xA7B1, [0x287]);
    (0xA7B2, [0x29D]); (0xA7B3, [0xAB53]); (0xA7B4, [0xA7B5]);
    (0xA7B6, [0xA7B7]); (0xA7B8, [0xA7B9]); (0xA7BA, [0xA7BB]);
    (0xA7BC, [0xA7BD]); (0xA7BE, [0xA7BF]); (0xA7C0, [0xA7C1]);
    (0xA7C2, [0xA7C3]); (0xA7C4, [0xA794]); (0xA7C5, [0x282]);
    (0xA7C6, [0x1D8E]); (0xA7C7, [0xA7C8]); (0xA7C9, [0xA7CA]);
    (0xA7D0, [0xA7D1]); (0xA7D6, [0xA7D7]); (0xA7D8, [0xA7D9]);
    (0xA7F5, [0xA7F6]); (0xFF21, [0xFF41]); (0xFF22, [0xFF42]);
    (0xFF23, [0xFF43]); (0xFF24, [0xFF44]); (0xFF25, [0xFF45]);
    (0xFF26, [0xFF46]); (0xFF27, [0xFF47]); (0xFF28, [0xFF48]);
    (0xFF29, [0xFF49]); (0xFF2A, [0xFF4A]); (0xFF2B, [0xFF4B]);
    (0xFF2C, [0xFF4C]); (0xFF2D, [0xFF4D]); (0xFF2E, [0xFF4E]);
    (0xFF2F, [0xFF4F]); (0xFF30, [0xFF50]); (0xFF31, [0xFF51]);
    (0xFF32, [0xFF52]); (0xFF33, [0xFF53]); (0xFF34, [0xFF54]);
    (0xFF35, [0xFF55]); (0xFF36, [0xFF56]); (0xFF37, [0xFF57]);
    (0xFF38, [0xFF58]); (0xFF39, [0xFF59]); (0xFF3A, [0xFF5A]);
    (0x10400, [0x10428]); (0x10401, [0x10429]); (0x10402, [0x1042A]);
    (0x10403, [0x1042B]); (0x10404, [0x1042C]); (0x10405, [0x1042D]);
    (0x10406, [0x1042E]); (0x10407, [0x1042F]); (0x10408, [0x10430]);
    (0x10409, [0x10431]); (0x1040A, [0x10432]); (0x1040B, [0x10433]);
    (0x1040C, [0x10434]); (0x1040D, [0x10435]); (0x1040E, [0x10436]);
    (0x1040F, [0x10437]); (0x10410, [0x10438]); (0x10411, [0x10439]);
    (0x10412, [0x1043A]); (0x10413, [0x1043B]); (0x10414, [0x1043C]);
    (0x10415, [0x1043D]); (0x10416, [0x1043E]); (0x10417, [0x1043F]);
    (0x10418, [0x10440]); (0x10419, [0x10441]); (0x1041A, [0x10442]);
    (0x1041B, [0x10443]); (0x1041C, [0x10444]); (0x1041D, [0x10445]);
    (0x1041E, [0x10446]); (0x1041F, [0x10447]); (0x10420, [0x10448]);
    (0x10421, [0x10449]); (0x10422, [0x1044A]); (0x10423, [0x1044B]);
    (0x10424, [0x1044C]); (0x10425, [0x1044D]); (0x10426, [0x1044E]);
    (0x10427, [0x1044F]); (0x104B0, [0x104D8]); (0x104B1, [0x104D9]);
    (0x104B2, [0x104DA]); (0x104B3, [0x104DB]); (0x104B4, [0x104DC]);
    (0x104B5, [0x104DD]); (0x104B6, [0x104DE]); (0x104B7, [0x104DF]);
    (0x104B8, [0x104E0]); (0x104B9, [0x104E1]); (0x104BA, [0x104E2]);
    (0x104BB, [0x104E3]); (0x104BC, [0x104E4]); (0x104BD, [0x104E5]);
    (0x104BE, [0x104E6]); (0x104BF, [0x104E7]); (0x104C0, [0x104E8]);
    (0x104C1, [0x104E9]); (0x104C2, [0x104EA]); (0x104C3, [0x104EB]);
    (0x104C4, [0x104EC]); (0x104C5, [0x104ED]); (0x104C6, [0x104EE]);
    (0x104C7, [0x104EF]); (0x104C8, [0x104F0]); (0x104C9, [0x104F1]);
    (0x104CA, [0x104F2]); (0x104CB, [0x104F3]); (0x104CC, [0x104F4]);
    (0x104CD, [0x104F5]); (0x104CE, [0x104F6]); (0x104CF, [0x104F7]);
    (0x104D0, [0x104F8]); (0x104D1, [0x104F9]); (0x104D2, [0x104FA]);
    (0x104D3, [0x104FB]); (0x10570, [0x10597]); (0x10571, [0x10598]);
    (0x10572, [0x10599]); (0x10573, [0x1059A]); (0x10574, [0x1059B]);
    (0x10575, [0x1059C]); (0x10576, [0x1059D]); (0x10577, [0x1059E]);
    (0x10578, [0x1059F]); (0x10579, [0x105A0]); (0x1057A, [0x105A1]);
    (0x1057C, [0x105A3]); (0x1057D, [0x105A4]); (0x1057E, [0x105A5]);
    (0x1057F, [0x105A6]); (0x10580, [0x105A7]); (0x10581, [0x105A8]);
    (0x10582, [0x105A9]); (0x10583, [0x105AA]); (0x10584, [0x105AB]);
    (0x10585, [0x105AC]); (0x10586, [0x105AD]); (0x10587, [0x105AE]);
    (0x10588, [0x105AF]); (0x10589, [0x105B0]); (0x1058A, [0x105B1]);
    (0x1058C, [0x105B3]); (0x1058D, [0x105B4]); (0x1058E, [0x105B5]);
    (0x1058F, [0x105B6]); (0x10590, [0x105B7]); (0x10591, [0x105B8]);
    (0x10592, [0x105B9]); (0x10594, [0x105BB]); (0x10595, [0x105BC]);
    (0x10C80, [0x10CC0]); (0x10C81, [0x10CC1]); (0x10C82, [0x10CC2]);
    (0x10C83, [0x10CC3]); (0x10C84, [0x10CC4]); (0x10C85, [0x10CC5]);
    (0x10C86, [0x10CC6]); (0x10C87, [0x10CC7]); (0x10C88, [0x10CC8]);
    (0x10C89, [0x10CC9]); (0x10C8A, [0x10CCA]); (0x10C8B, [0x10CCB]);
    (0x10C8C, [0x10CCC]); (0x10C8D, [0x10CCD]); (0x10C8E, [0x10CCE]);
    (0x10C8F, [0x10CCF]); (0x10C90, [0x10CD0]); (0x10C91, [0x10CD1]);
    (0x10C92, [0x10CD2]); (0x10C93, [0x10CD3]); (0x10C94, [0x10CD4]);
    (0x10C95, [0x10CD5]); (0x10C96, [0x10CD6]); (0x10C97, [0x10CD7]);
    (0x10C98, [0x10CD8]); (0x10C99, [0x10CD9]); (0x10C9A, [0x10CDA]);
    (0x10C9B, [0x10CDB]); (0x10C9C, [0x10CDC]); (0x10C9D, [0x10CDD]);
    (0x10C9E, [0x10CDE]); (0x10C9F, [0x10CDF]); (0x10CA0, [0x10CE0]);
    (0x10CA1, [0x10CE1]); (0x10CA2, [0x10CE2]); (0x10CA3, [0x10CE3]);
    (0x10CA4, [0x10CE4]); (0x10CA5, [0x10CE5]); (0x10CA6, [0x10CE6]);
    (0x10CA7, [0x10CE7]); (0x10CA8, [0x10CE8]); (0x10CA9, [0x10CE9]);
    (0x10CAA, [0x10CEA]); (0x10CAB, [0x10CEB]); (0x10CAC, [0x10CEC]);
    (0x10CAD, [0x10CED]); (0x10CAE, [0x10CEE]); (0x10CAF, [0x10CEF]);
    (0x10CB0, [0x10CF0]); (0x10CB1, [0x10CF1]); (0x10CB2, [0x10CF2]);
    (0x118A0, [0x118C0]); (0x118A1, [0x118C1]); (0x118A2, [0x118C2]);
    (0x118A3, [0x118C3]); (0x118A4, [0x118C4]); (0x118A5, [0x118C5]);
    (0x118A6, [0x118C6]); (0x118A7, [0x118C7]); (0x118A8, [0x118C8]);
    (0x118A9, [0x118C9]); (0x118AA, [0x118CA]); (0x118AB, [0x118CB]);
    (0x118AC, [0x118CC]); (0x118AD, [0x118CD]); (0x118AE, [0x118CE]);
    (0x118AF, [0x118CF]); (0x118B0, [0x118D0]); (0x118B1, [0x118D1]);
    (0x118B2, [0x118D2]); (0x118B3, [0x118D3]); (0x118B4, [0x118D4]);
    (0x118B5, [0x118D5]); (0x118B6, [0x118D6]); (0x118B7, [0x118D7]);
    (0x118B8, [0x118D8]); (0x118B9, [0x118D9]); (0x118BA, [0x118DA]);
    (0x118BB, [0x118DB]); (0x118BC, [0x118DC]); (0x118BD, [0x118DD]);
    (0x118BE, [0x118DE]); (0x118BF, [0x118DF]); (0x16E40, [0x16E60]);
    (0x16E41, [0x16E61]); (0x16E42, [0x16E62]); (0x16E43, [0x16E63]);
    (0x16E44, [0x16E64]); (0x16E45, [0x16E65]); (0x16E46, [0x16E66]);
    (0x16E47, [0x16E67]); (0x16E48, [0x16E68]); (0x16E49, [0x16E69]);
    (0x16E4A, [0x16E6A]); (0x16E4B, [0x16E6B]); (0x16E4C, [0x16E6C]);
    (0x16E4D, [0x16E6D]); (0x16E4E, [0x16E6E]); (0x16E4F, [0x16E6F]);
    (0x16E50, [0x16E70]); (0x16E51, [0x16E71]); (0x16E52, [0x16E72]);
    (0x16E53, [0x16E73]); (0x16E54, [0x16E74]); (0x16E55, [0x16E75]);
    (0x16E56, [0x16E76]); (0x16E57, [0x16E77]); (0x16E58, [0x16E78]);
    (0x16E59, [0x16E79]); (0x16E5A, [0x16E7A]); (0x16E5B, [0x16E7B]);
    (0x16E5C, [0x16E7C]); (0x16E5D, [0x16E7D]); (0x16E5E, [0x16E7E]);
    (0x16E5F, [0x16E7F]); (0x1E900, [0x1E922]); (0x1E901, [0x1E923]);
    (0x1E902, [0x1E924]); (0x1E903, [0x1E925]); (0x1E904, [0x1E926]);
    (0x1E905, [0x1E927]); (0x1E906, [0x1E928]); (0x1E907, [0x1E929]);
    (0x1E908, [0x1E92A]); (0x1E909, [0x1E92B]); (0x1E90A, [0x1E92C]);
    (0x1E90B, [0x1E92D]); (0x1E90C, [0x1E92E]); (0x1E90D, [0x1E92F]);
    (0x1E90E, [0x1E930]); (0x1E90F, [0x1E931]); (0x1E910, [0x1E932]);
    (0x1E911, [0x1E933]); (0x1E912, [0x1E934]); (0x1E913, [0x1E935]);
    (0x1E914, [0x1E936]); (0x1E915, [0x1E937]); (0x1E916, [0x1E938]);
    (0x1E917, [0x1E939]); (0x1E918, [0x1E93A]); (0x1E919, [0x1E93B]);
    (0x1E91A, [0x1E93C]); (0x1E91B, [0x1E93D]); (0x1E91C, [0x1E93E]);
    (0x1E91D, [0x1E93F]); (0x1E91E, [0x1E940]); (0x1E91F, [0x1E941]);
    (0x1E920, [0x1E942]); (0x1E921, [0x1E943]) ].

(** Full canonical decompositions that are not the identity, but for
    the Hangul syllables, which are decomposed by rule. *)
Definition decomp_table : list (N * list N) :=
  [
    (0xC0, [0x41; 0x300]); (0xC1, [0x41; 0x301]); (0xC2, [0x41; 0x302]);
    (0xC3, [0x41; 0x303]); (0xC4, [0x41; 0x308]); (0xC5, [0x41; 0x30A]);
    (0xC7, [0x43; 0x327]); (0xC8, [0x45; 0x300]); (0xC9, [0x45; 0x301]);
    (0xCA, [0x45; 0x302]); (0xCB, [0x45; 0x308]); (0xCC, [0x49; 0x300]);
    (0xCD, [0x49; 0x301]); (0xCE, [0x49; 0x302]); (0xCF, [0x49; 0x308]);
    (0xD1, [0x4E; 0x303]); (0xD2, [0x4F; 0x300]); (0xD3, [0x4F; 0x301]);
    (0xD4, [0x4F; 0x302]); (0xD5, [0x4F; 0x303]); (0xD6, [0x4F; 0x308]);
    (0xD9, [0x55; 0x300]); (0xDA, [0x55; 0x301]); (0xDB, [0x55; 0x302]);
    (0xDC, [0x55; 0x308]); (0xDD, [0x59; 0x301]); (0xE0, [0x61; 0x300]);
    (0xE1, [0x61; 0x301]); (0xE2, [0x61; 0x302]); (0xE3, [0x61; 0x303]);
    (0xE4, [0x61; 0x308]); (0xE5, [0x61; 0x30A]); (0xE7, [0x63; 0x327]);
    (0xE8, [0x65; 0x300]); (0xE9, [0x65; 0x301]); (0xEA, [0x65; 0x302]);
    (0xEB, [0x65; 0x308]); (0xEC, [0x69; 0x300]); (0xED, [0x69; 0x301]);
    (0xEE, [0x69; 0x302]); (0xEF, [0x69; 0x308]); (0xF1, [0x6E; 0x303]);
    (0xF2, [0x6F; 0x300]); (0xF3, [0x6F; 0x301]); (0xF4, [0x6F; 0x302]);
    (0xF5, [0x6F; 0x303]); (0xF6, [0x6F; 0x308]); (0xF9, [0x75; 0x300]);
    (0xFA, [0x75; 0x301]); (0xFB, [0x75; 0x302]); (0xFC, [0x75; 0x308]);
    (0xFD, [0x79; 0x301]); (0xFF, [0x79; 0x308]); (0x100, [0x41; 0x304]);
    (0x101, [0x61; 0x304]); (0x102, [0x41; 0x306]); (0x103, [0x61; 0x306]);
    (0x104, [0x41; 0x328]); (0x105, [0x61; 0x328]); (0x106, [0x43; 0x301]);
    (0x107, [0x63; 0x301]); (0x108, [0x43; 0x302]); (0x109, [0x63; 0x302]);
    (0x10A, [0x43; 0x307]); (0x10B, [0x63; 0x307]); (0x10C, [0x43; 0x30C]);
    (0x10D, [0x63; 0x30C]); (0x10E, [0x44; 0x30C]); (0x10F, [0x64; 0x30C]);
    (0x112, [0x45; 0x304]); (0x113, [0x65; 0x304]); (0x114, [0x45; 0x306]);
    (0x115, [0x65; 0x306]); (0x116, [0x45; 0x307]); (0x117, [0x65; 0x307]);
    (0x118, [0x45; 0x328]); (0x119, [0x65; 0x328]); (0x11A, [0x45; 0x30C]);
    (0x11B, [0x65; 0x30C]); (0x11C, [0x47; 0x302]); (0x11D, [0x67; 0x302]);
    (0x11E, [0x47; 0x306]); (0x11F, [0x67; 0x306]); (0x120, [0x47; 0x307]);
    (0x121, [0x67; 0x307]); (0x122, [0x47; 0x327]); (0x123, [0x67; 0x327]);
    (0x124, [0x48; 0x302]); (0x125, [0x68; 0x302]); (0x128, [0x49; 0x303]);
    (0x129, [0x69; 0x303]); (0x12A, [0x49; 0x304]); (0x12B, [0x69; 0x304]);
    (0x12C, [0x49; 0x306]); (0x12D, [0x69; 0x306]); (0x12E, [0x49; 0x328]);
    (0x12F, [0x69; 0x328]); (0x130, [0x49; 0x307]); (0x134, [0x4A; 0x302]);
    (0x135, [0x6A; 0x302]); (0x136, [0x4B; 0x327]); (0x137, [0x6B; 0x327]);
    (0x139, [0x4C; 0x301]); (0x13A, [0x6C; 0x301]); (0x13B, [0x4C; 0x327]);
    (0x13C, [0x6C; 0x327]); (0x13D, [0x4C; 0x30C]); (0x13E, [0x6C; 0x30C]);
    (0x143, [0x4E; 0x301]); (0x144, [0x6E; 0x301]); (0x145, [0x4E; 0x327]);
    (0x146, [0x6E; 0x327]); (0x147, [0x4E; 0x30C]); (0x148, [0x6E; 0x30C]);
    (0x14C, [0x4F; 0x304]); (0x14D, [0x6F; 0x304]); (0x14E, [0x4F; 0x306]);
    (0x14F, [0x6F; 0x306]); (0x150, [0x4F; 0x30B]); (0x151, [0x6F; 0x30B]);
    (0x154, [0x52; 0x301]); (0x155, [0x72; 0x301]); (0x156, [0x52; 0x327]);
    (0x157, [0x72; 0x327]); (0x158, [0x52; 0x30C]); (0x159, [0x72; 0x30C]);
    (0x15A, [0x53; 0x301]); (0x15B, [0x73; 0x301]); (0x15C, [0x53; 0x302]);
    (0x15D, [0x73; 0x302]); (0x15E, [0x53; 0x327]); (0x15F, [0x73; 0x327]);
    (0x160, [0x53; 0x30C]); (0x161, [0x73; 0x30C]); (0x162, [0x54; 0x327]);
    (0x163, [0x74; 0x327]); (0x164, [0x54; 0x30C]); (0x165, [0x74; 0x30C]);
    (0x168, [0x55; 0x303]); (0x169, [0x75; 0x303]); (0x16A, [0x55; 0x304]);
    (0x16B, [0x75; 0x304]); (0x16C, [0x55; 0x306]); (0x16D, [0x75; 0x306]);
    (0x16E, [0x55; 0x30A]); (0x16F, [0x75; 0x30A]); (0x170, [0x55; 0x30B]);
    (0x171, [0x75; 0x30B]); (0x172, [0x55; 0x328]); (0x173, [0x75; 0x328]);
    (0x174, [0x57; 0x302]); (0x175, [0x77; 0x302]); (0x176, [0x59; 0x302]);
    (0x177, [0x79; 0x302]); (0x178, [0x59; 0x308]); (0x179, [0x5A; 0x301]);
    (0x17A, [0x7A; 0x301]); (0x17B, [0x5A; 0x307]); (0x17C, [0x7A; 0x307]);
    (0x17D, [0x5A; 0x30C]); (0x17E, [0x7A; 0x30C]); (0x1A0, [0x4F; 0x31B]);
    (0x1A1, [0x6F; 0x31B]); (0x1AF, [0x55; 0x31B]); (0x1B0, [0x75; 0x31B]);
    (0x1CD, [0x41; 0x30C]); (0x1CE, [0x61; 0x30C]); (0x1CF, [0x49; 0x30C]);
    (0x1D0, [0x69; 0x30C]); (0x1D1, [0x4F; 0x30C]); (0x1D2, [0x6F; 0x30C]);
    (0x1D3, [0x55; 0x30C]); (0x1D4, [0x75; 0x30C]);
    (0x1D5, [0x55; 0x308; 0x304]); (0x1D6, [0x75; 0x308; 0x304]);
    (0x1D7, [0x55; 0x308; 0x301]); (0x1D8, [0x75; 0x308; 0x301]);
    (0x1D9, [0x55; 0x308; 0x30C]); (0x1DA, [0x75; 0x308; 0x30C]);
    (0x1DB, [0x55; 0x308; 0x300]); (0x1DC, [0x75; 0x308; 0x300]);
    (0x1DE, [0x41; 0x308; 0x304]); (0x1DF, [0x61; 0x308; 0x304]);
    (0x1E0, [0x41; 0x307; 0x304]); (0x1E1, [0x61; 0x307; 0x304]);
    (0x1E2, [0xC6; 0x304]); (0x1E3, [0xE6; 0x304]); (0x1E6, [0x47; 0x30C]);
    (0x1E7, [0x67; 0x30C]); (0x1E8, [0x4B; 0x30C]); (0x1E9, [0x6B; 0x30C]);
    (0x1EA, [0x4F; 0x328]); (0x1EB, [0x6F; 0x328]);
    (0x1EC, [0x4F; 0x328; 0x304]); (0x1ED, [0x6F; 0x328; 0x304]);
    (0x1EE, [0x1B7; 0x30C]); (0x1EF, [0x292; 0x30C]); (0x1F0, [0x6A; 0x30C]);
    (0x1F4, [0x47; 0x301]); (0x1F5, [0x67; 0x301]); (0x1F8, [0x4E; 0x300]);
    (0x1F9, [0x6E; 0x300]); (0x1FA, [0x41; 0x30A; 0x301]);
    (0x1FB, [0x61; 0x30A; 0x301]); (0x1FC, [0xC6; 0x301]);
    (0x1FD, [0xE6; 0x301]); (0x1FE, [0xD8; 0x301]); (0x1FF, [0xF8; 0x301]);
    (0x200, [0x41; 0x30F]); (0x201, [0x61; 0x30F]); (0x202, [0x41; 0x311]);
    (0x203, [0x61; 0x311]); (0x204, [0x45; 0x30F]); (0x205, [0x65; 0x30F]);
    (0x206, [0x45; 0x311]); (0x207, [0x65; 0x311]); (0x208, [0x49; 0x30F]);
    (0x209, [0x69; 0x30F]); (0x20A, [0x49; 0x311]); (0x20B, [0x69; 0x311]);
    (0x20C, [0x4F; 0x30F]); (0x20D, [0x6F; 0x30F]); (0x20E, [0x4F; 0x311]);
    (0x20F, [0x6F; 0x311]); (0x210, [0x52; 0x30F]); (0x211, [0x72; 0x30F]);
    (0x212, [0x52; 0x311]); (0x213, [0x72; 0x311]); (0x214, [0x55; 0x30F]);
    (0x215, [0x75; 0x30F]); (0x216, [0x55; 0x311]); (0x217, [0x75; 0x311]);
    (0x218, [0x53; 0x326]); (0x219, [0x73; 0x326]); (0x21A, [0x54; 0x326]);
    (0x21B, [0x74; 0x326]); (0x21E, [0x48; 0x30C]); (0x21F, [0x68; 0x30C]);
    (0x226, [0x41; 0x307]); (0x227, [0x61; 0x307]); (0x228, [0x45; 0x327]);
    (0x229, [0x65; 0x327]); (0x22A, [0x4F; 0x308; 0x304]);
    (0x22B, [0x6F; 0x308; 0x304]); (0x22C, [0x4F; 0x303; 0x304]);
    (0x22D, [0x6F; 0x303; 0x304]); (0x22E, [0x4F; 0x307]);
    (0x22F, [0x6F; 0x307]); (0x230, [0x4F; 0x307; 0x304]);
    (0x231, [0x6F; 0x307; 0x304]); (0x232, [0x59; 0x304]);
    (0x233, [0x79; 0x304]); (0x340, [0x300]); (0x341, [0x301]);
    (0x343, [0x313]); (0x344, [0x308; 0x301]); (0x374, [0x2B9]);
    (0x37E, [0x3B]); (0x385, [0xA8; 0x301]); (0x386, [0x391; 0x301]);
    (0x387, [0xB7]); (0x388, [0x395; 0x301]); (0x389, [0x397; 0x301]);
    (0x38A, [0x399; 0x301]); (0x38C, [0x39F; 0x301]); (0x38E, [0x3A5; 0x301]);
    (0x38F, [0x3A9; 0x301]); (0x390, [0x3B9; 0x308; 0x301]);
    (0x3AA, [0x399; 0x308]); (0x3AB, [0x3A5; 0x308]); (0x3AC, [0x3B1; 0x301]);
    (0x3AD, [0x3B5; 0x301]); (0x3AE, [0x3B7; 0x301]); (0x3AF, [0x3B9; 0x301]);
    (0x3B0, [0x3C5; 0x308; 0x301]); (0x3CA, [0x3B9; 0x308]);
    (0x3CB, [0x3C5; 0x308]); (0x3CC, [0x3BF; 0x301]); (0x3CD, [0x3C5; 0x301]);
    (0x3CE, [0x3C9; 0x301]); (0x3D3, [0x3D2; 0x301]); (0x3D4, [0x3D2; 0x308]);
    (0x400, [0x415; 0x300]); (0x401, [0x415; 0x308]); (0x403, [0x413; 0x301]);
    (0x407, [0x406; 0x308]); (0x40C, [0x41A; 0x301]); (0x40D, [0x418; 0x300]);
    (0x40E, [0x423; 0x306]); (0x419, [0x418; 0x306]); (0x439, [0x438; 0x306]);
    (0x450, [0x435; 0x300]); (0x451, [0x435; 0x308]); (0x453, [0x433; 0x301]);
    (0x457, [0x456; 0x308]); (0x45C, [0x43A; 0x301]); (0x45D, [0x438; 0x300]);
    (0x45E, [0x443; 0x306]); (0x476, [0x474; 0x30F]); (0x477, [0x475; 0x30F]);
    (0x4C1, [0x416; 0x306]); (0x4C2, [0x436; 0x306]); (0x4D0, [0x410; 0x306]);
    (0x4D1, [0x430; 0x306]); (0x4D2, [0x410; 0x308]); (0x4D3, [0x430; 0x308]);
    (0x4D6, [0x415; 0x306]); (0x4D7, [0x435; 0x306]); (0x4DA, [0x4D8; 0x308]);
    (0x4DB, [0x4D9; 0x308]); (0x4DC, [0x416; 0x308]); (0x4DD, [0x436; 0x308]);
    (0x4DE, [0x417; 0x308]); (0x4DF, [0x437; 0x308]); (0x4E2, [0x418; 0x304]);
    (0x4E3, [0x438; 0x304]); (0x4E4, [0x418; 0x308]); (0x4E5, [0x438; 0x308]);
    (0x4E6, [0x41E; 0x308]); (0x4E7, [0x43E; 0x308]); (0x4EA, [0x4E8; 0x308]);
    (0x4EB, [0x4E9; 0x308]); (0x4EC, [0x42D; 0x308]); (0x4ED, [0x44D; 0x308]);
    (0x4EE, [0x423; 0x304]); (0x4EF, [0x443; 0x304]); (0x4F0, [0x423; 0x308]);
    (0x4F1, [0x443; 0x308]); (0x4F2, [0x423; 0x30B]); (0x4F3, [0x443; 0x30B]);
    (0x4F4, [0x427; 0x308]); (0x4F5, [0x447; 0x308]); (0x4F8, [0x42B; 0x308]);
    (0x4F9, [0x44B; 0x308]); (0x622, [0x627; 0x653]); (0x623, [0x627; 0x654]);
    (0x624, [0x648; 0x654]); (0x625, [0x627; 0x655]); (0x626, [0x64A; 0x654]);
    (0x6C0, [0x6D5; 0x654]); (0x6C2, [0x6C1; 0x654]); (0x6D3, [0x6D2; 0x654]);
    (0x929, [0x928; 0x93C]); (0x931, [0x930; 0x93C]); (0x934, [0x933; 0x93C]);
    (0x958, [0x915; 0x93C]); (0x959, [0x916; 0x93C]); (0x95A, [0x917; 0x93C]);
    (0x95B, [0x91C; 0x93C]); (0x95C, [0x921; 0x93C]); (0x95D, [0x922; 0x93C]);
    (0x95E, [0x92B; 0x93C]); (0x95F, [0x92F; 0x93C]); (0x9CB, [0x9C7; 0x9BE]);
    (0x9CC, [0x9C7; 0x9D7]); (0x9DC, [0x9A1; 0x9BC]); (0x9DD, [0x9A2; 0x9BC]);
    (0x9DF, [0x9AF; 0x9BC]); (0xA33, [0xA32; 0xA3C]); (0xA36, [0xA38; 0xA3C]);
    (0xA59, [0xA16; 0xA3C]); (0xA5A, [0xA17; 0xA3C]); (0xA5B, [0xA1C; 0xA3C]);
    (0xA5E, [0xA2B; 0xA3C]); (0xB48, [0xB47; 0xB56]); (0xB4B, [0xB47; 0xB3E]);
    (0xB4C, [0xB47; 0xB57]); (0xB5C, [0xB21; 0xB3C]); (0xB5D, [0xB22; 0xB3C]);
    (0xB94, [0xB92; 0xBD7]); (0xBCA, [0xBC6; 0xBBE]); (0xBCB, [0xBC7; 0xBBE]);
    (0xBCC, [0xBC6; 0xBD7]); (0xC48, [0xC46; 0xC56]); (0xCC0, [0xCBF; 0xCD5]);
    (0xCC7, [0xCC6; 0xCD5]); (0xCC8, [0xCC6; 0xCD6]); (0xCCA, [0xCC6; 0xCC2]);
    (0xCCB, [0xCC6; 0xCC2; 0xCD5]); (0xD4A, [0xD46; 0xD3E]);
    (0xD4B, [0xD47; 0xD3E]); (0xD4C, [0xD46; 0xD57]); (0xDDA, [0xDD9; 0xDCA]);
    (0xDDC, [0xDD9; 0xDCF]); (0xDDD, [0xDD9; 0xDCF; 0xDCA]);
    (0xDDE, [0xDD9; 0xDDF]); (0xF43, [0xF42; 0xFB7]); (0xF4D, [0xF4C; 0xFB7]);
    (0xF52, [0xF51; 0xFB7]); (0xF57, [0xF56; 0xFB7]); (0xF5C, [0xF5B; 0xFB7]);
    (0xF69, [0xF40; 0xFB5]); (0xF73, [0xF71; 0xF72]); (0xF75, [0xF71; 0xF74]);
    (0xF76, [0xFB2; 0xF80]); (0xF78, [0xFB3; 0xF80]); (0xF81, [0xF71; 0xF80]);
    (0xF93, [0xF92; 0xFB7]); (0xF9D, [0xF9C; 0xFB7]); (0xFA2, [0xFA1; 0xFB7]);
    (0xFA7, [0xFA6; 0xFB7]); (0xFAC, [0xFAB; 0xFB7]); (0xFB9, [0xF90; 0xFB5]);
    (0x1026, [0x1025; 0x102E]); (0x1B06, [0x1B05; 0x1B35]);
    (0x1B08, [0x1B07; 0x1B35]); (0x1B0A, [0x1B09; 0x1B35]);
    (0x1B0C, [0x1B0B; 0x1B35]); (0x1B0E, [0x1B0D; 0x1B35]);
    (0x1B12, [0x1B11; 0x1B35]); (0x1B3B, [0x1B3A; 0x1B35]);
    (0x1B3D, [0x1B3C; 0x1B35]); (0x1B40, [0x1B3E; 0x1B35]);
    (0x1B41, [0x1B3F; 0x1B35]); (0x1B43, [0x1B42; 0x1B35]);
    (0x1E00, [0x41; 0x325]); (0x1E01, [0x61; 0x325]); (0x1E02, [0x42; 0x307]);
    (0x1E03, [0x62; 0x307]); (0x1E04, [0x42; 0x323]); (0x1E05, [0x62; 0x323]);
    (0x1E06, [0x42; 0x331]); (0x1E07, [0x62; 0x331]);
    (0x1E08, [0x43; 0x327; 0x301]); (0x1E09, [0x63; 0x327; 0x301]);
    (0x1E0A, [0x44; 0x307]); (0x1E0B, [0x64; 0x307]); (0x1E0C, [0x44; 0x323]);
    (0x1E0D, [0x64; 0x323]); (0x1E0E, [0x44; 0x331]); (0x1E0F, [0x64; 0x331]);
    (0x1E10, [0x44; 0x327]); (0x1E11, [0x64; 0x327]); (0x1E12, [0x44; 0x32D]);
    (0x1E13, [0x64; 0x32D]); (0x1E14, [0x45; 0x304; 0x300]);
    (0x1E15, [0x65; 0x304; 0x300]); (0x1E16, [0x45; 0x304; 0x301]);
    (0x1E17, [0x65; 0x304; 0x301]); (0x1E18, [0x45; 0x32D]);
    (0x1E19, [0x65; 0x32D]); (0x1E1A, [0x45; 0x330]); (0x1E1B, [0x65; 0x330]);
    (0x1E1C, [0x45; 0x327; 0x306]); (0x1E1D, [0x65; 0x327; 0x306]);
    (0x1E1E, [0x46; 0x307]); (0x1E1F, [0x66; 0x307]); (0x1E20, [0x47; 0x304]);
    (0x1E21, [0x67; 0x304]); (0x1E22, [0x48; 0x307]); (0x1E23, [0x68; 0x307]);
    (0x1E24, [0x48; 0x323]); (0x1E25, [0x68; 0x323]); (0x1E26, [0x48; 0x308]);
    (0x1E27, [0x68; 0x308]); (0x1E28, [0x48; 0x327]); (0x1E29, [0x68; 0x327]);
    (0x1E2A, [0x48; 0x32E]); (0x1E2B, [0x68; 0x32E]); (0x1E2C, [0x49; 0x330]);
    (0x1E2D, [0x69; 0x330]); (0x1E2E, [0x49; 0x308; 0x301]);
    (0x1E2F, [0x69; 0x308; 0x301]); (0x1E30, [0x4B; 0x301]);
    (0x1E31, [0x6B; 0x301]); (0x1E32, [0x4B; 0x323]); (0x1E33, [0x6B; 0x323]);
    (0x1E34, [0x4B; 0x331]); (0x1E35, [0x6B; 0x331]); (0x1E36, [0x4C; 0x323]);
    (0x1E37, [0x6C; 0x323]); (0x1E38, [0x4C; 0x323; 0x304]);
    (0x1E39, [0x6C; 0x323; 0x304]); (0x1E3A, [0x4C; 0x331]);
    (0x1E3B, [0x6C; 0x331]); (0x1E3C, [0x4C; 0x32D]); (0x1E3D, [0x6C; 0x32D]);
    (0x1E3E, [0x4D; 0x301]); (0x1E3F, [0x6D; 0x301]); (0x1E40, [0x4D; 0x307]);
    (0x1E41, [0x6D; 0x307]); (0x1E42, [0x4D; 0x323]); (0x1E43, [0x6D; 0x323]);
    (0x1E44, [0x4E; 0x307]); (0x1E45, [0x6E; 0x307]); (0x1E46, [0x4E; 0x323]);
    (0x1E47, [0x6E; 0x323]); (0x1E48, [0x4E; 0x331]); (0x1E49, [0x6E; 0x331]);
    (0x1E4A, [0x4E; 0x32D]); (0x1E4B, [0x6E; 0x32D]);
    (0x1E4C, [0x4F; 0x303; 0x301]); (0x1E4D, [0x6F; 0x303; 0x301]);
    (0x1E4E, [0x4F; 0x303; 0x308]); (0x1E4F, [0x6F; 0x303; 0x308]);
    (0x1E50, [0x4F; 0x304; 0x300]); (0x1E51, [0x6F; 0x304; 0x300]);
    (0x1E52, [0x4F; 0x304; 0x301]); (0x1E53, [0x6F; 0x304; 0x301]);
    (0x1E54, [0x50; 0x301]); (0x1E55, [0x70; 0x301]); (0x1E56, [0x50; 0x307]);
    (0x1E57, [0x70; 0x307]); (0x1E58, [0x52; 0x307]); (0x1E59, [0x72; 0x307]);
    (0x1E5A, [0x52; 0x323]); (0x1E5B, [0x72; 0x323]);
    (0x1E5C, [0x52; 0x323; 0x304]); (0x1E5D, [0x72; 0x323; 0x304]);
    (0x1E5E, [0x52; 0x331]); (0x1E5F, [0x72; 0x331]); (0x1E60, [0x53; 0x307]);
    (0x1E61, [0x73; 0x307]); (0x1E62, [0x53; 0x323]); (0x1E63, [0x73; 0x323]);
    (0x1E64, [0x53; 0x301; 0x307]); (0x1E65, [0x73; 0x301; 0x307]);
    (0x1E66, [0x53; 0x30C; 0x307]); (0x1E67, [0x73; 0x30C; 0x307]);
    (0x1E68, [0x53; 0x323; 0x307]); (0x1E69, [0x73; 0x323; 0x307]);
    (0x1E6A, [0x54; 0x307]); (0x1E6B, [0x74; 0x307]); (0x1E6C, [0x54; 0x323]);
    (0x1E6D, [0x74; 0x323]); (0x1E6E, [0x54; 0x331]); (0x1E6F, [0x74; 0x331]);
    (0x1E70, [0x54; 0x32D]); (0x1E71, [0x74; 0x32D]); (0x1E72, [0x55; 0x324]);
    (0x1E73, [0x75; 0x324]); (0x1E74, [0x55; 0x330]); (0x1E75, [0x75; 0x330]);
    (0x1E76, [0x55; 0x32D]); (0x1E77, [0x75; 0x32D]);
    (0x1E78, [0x55; 0x303; 0x301]); (0x1E79, [0x75; 0x303; 0x301]);
    (0x1E7A, [0x55; 0x304; 0x308]); (0x1E7B, [0x75; 0x304; 0x308]);
    (0x1E7C, [0x56; 0x303]); (0x1E7D, [0x76; 0x303]); (0x1E7E, [0x56; 0x323]);
    (0x1E7F, [0x76; 0x323]); (0x1E80, [0x57; 0x300]); (0x1E81, [0x77; 0x300]);
    (0x1E82, [0x57; 0x301]); (0x1E83, [0x77; 0x301]); (0x1E84, [0x57; 0x308]);
    (0x1E85, [0x77; 0x308]); (0x1E86, [0x57; 0x307]); (0x1E87, [0x77; 0x307]);
    (0x1E88, [0x57; 0x323]); (0x1E89, [0x77; 0x323]); (0x1E8A, [0x58; 0x307]);
    (0x1E8B, [0x78; 0x307]); (0x1E8C, [0x58; 0x308]); (0x1E8D, [0x78; 0x308]);
    (0x1E8E, [0x59; 0x307]); (0x1E8F, [0x79; 0x307]); (0x1E90, [0x5A; 0x302]);
    (0x1E91, [0x7A; 0x302]); (0x1E92, [0x5A; 0x323]); (0x1E93, [0x7A; 0x323]);
    (0x1E94, [0x5A; 0x331]); (0x1E95, [0x7A; 0x331]); (0x1E96, [0x68; 0x331]);
    (0x1E97, [0x74; 0x308]); (0x1E98, [0x77; 0x30A]); (0x1E99, [0x79; 0x30A]);
    (0x1E9B, [0x17F; 0x307]); (0x1EA0, [0x41; 0x323]);
    (0x1EA1, [0x61; 0x323]); (0x1EA2, [0x41; 0x309]); (0x1EA3, [0x61; 0x309]);
    (0x1EA4, [0x41; 0x302; 0x301]); (0x1EA5, [0x61; 0x302; 0x301]);
    (0x1EA6, [0x41; 0x302; 0x300]); (0x1EA7, [0x61; 0x302; 0x300]);
    (0x1EA8, [0x41; 0x302; 0x309]); (0x1EA9, [0x61; 0x302; 0x309]);
    (0x1EAA, [0x41; 0x302; 0x303]); (0x1EAB, [0x61; 0x302; 0x303]);
    (0x1EAC, [0x41; 0x323; 0x302]); (0x1EAD, [0x61; 0x323; 0x302]);
    (0x1EAE, [0x41; 0x306; 0x301]); (0x1EAF, [0x61; 0x306; 0x301]);
    (0x1EB0, [0x41; 0x306; 0x300]); (0x1EB1, [0x61; 0x306; 0x300]);
    (0x1EB2, [0x41; 0x306; 0x309]); (0x1EB3, [0x61; 0x306; 0x309]);
    (0x1EB4, [0x41; 0x306; 0x303]); (0x1EB5, [0x61; 0x306; 0x303]);
    (0x1EB6, [0x41; 0x323; 0x306]); (0x1EB7, [0x61; 0x323; 0x306]);
    (0x1EB8, [0x45; 0x323]); (0x1EB9, [0x65; 0x323]); (0x1EBA, [0x45; 0x309]);
    (0x1EBB, [0x65; 0x309]); (0x1EBC, [0x45; 0x303]); (0x1EBD, [0x65; 0x303]);
    (0x1EBE, [0x45; 0x302; 0x301]); (0x1EBF, [0x65; 0x302; 0x301]);
    (0x1EC0, [0x45; 0x302; 0x300]); (0x1EC1, [0x65; 0x302; 0x300]);
    (0x1EC2, [0x45; 0x302; 0x309]); (0x1EC3, [0x65; 0x302; 0x309]);
    (0x1EC4, [0x45; 0x302; 0x303]); (0x1EC5, [0x65; 0x302; 0x303]);
    (0x1EC6, [0x45; 0x323; 0x302]); (0x1EC7, [0x65; 0x323; 0x302]);
    (0x1EC8, [0x49; 0x309]); (0x1EC9, [0x69; 0x309]); (0x1ECA, [0x49; 0x323]);
    (0x1ECB, [0x69; 0x323]); (0x1ECC, [0x4F; 0x323]); (0x1ECD, [0x6F; 0x323]);
    (0x1ECE, [0x4F; 0x309]); (0x1ECF, [0x6F; 0x309]);
    (0x1ED0, [0x4F; 0x302; 0x301]); (0x1ED1, [0x6F; 0x302; 0x301]);
    (0x1ED2, [0x4F; 0x302; 0x300]); (0x1ED3, [0x6F; 0x302; 0x300]);
    (0x1ED4, [0x4F; 0x302; 0x309]); (0x1ED5, [0x6F; 0x302; 0x309]);
    (0x1ED6, [0x4F; 0x302; 0x303]); (0x1ED7, [0x6F; 0x302; 0x303]);
    (0x1ED8, [0x4F; 0x323; 0x302]); (0x1ED9, [0x6F; 0x323; 0x302]);
    (0x1EDA, [0x4F; 0x31B; 0x301]); (0x1EDB, [0x6F; 0x31B; 0x301]);
    (0x1EDC, [0x4F; 0x31B; 0x300]); (0x1EDD, [0x6F; 0x31B; 0x300]);
    (0x1EDE, [0x4F; 0x31B; 0x309]); (0x1EDF, [0x6F; 0x31B; 0x309]);
    (0x1EE0, [0x4F; 0x31B; 0x303]); (0x1EE1, [0x6F; 0x31B; 0x303]);
    (0x1EE2, [0x4F; 0x31B; 0x323]); (0x1EE3, [0x6F; 0x31B; 0x323]);
    (0x1EE4, [0x55; 0x323]); (0x1EE5, [0x75; 0x323]); (0x1EE6, [0x55; 0x309]);
    (0x1EE7, [0x75; 0x309]); (0x1EE8, [0x55; 0x31B; 0x301]);
    (0x1EE9, [0x75; 0x31B; 0x301]); (0x1EEA, [0x55; 0x31B; 0x300]);
    (0x1EEB, [0x75; 0x31B; 0x300]); (0x1EEC, [0x55; 0x31B; 0x309]);
    (0x1EED, [0x75; 0x31B; 0x309]); (0x1EEE, [0x55; 0x31B; 0x303]);
    (0x1EEF, [0x75; 0x31B; 0x303]); (0x1EF0, [0x55; 0x31B; 0x323]);
    (0x1EF1, [0x75; 0x31B; 0x323]); (0x1EF2, [0x59; 0x300]);
    (0x1EF3, [0x79; 0x300]); (0x1EF4, [0x59; 0x323]); (0x1EF5, [0x79; 0x323]);
    (0x1EF6, [0x59; 0x309]); (0x1EF7, [0x79; 0x309]); (0x1EF8, [0x59; 0x303]);
    (0x1EF9, [0x79; 0x303]); (0x1F00, [0x3B1; 0x313]);
    (0x1F01, [0x3B1; 0x314]); (0x1F02, [0x3B1; 0x313; 0x300]);
    (0x1F03, [0x3B1; 0x314; 0x300]); (0x1F04, [0x3B1; 0x313; 0x301]);
    (0x1F05, [0x3B1; 0x314; 0x301]); (0x1F06, [0x3B1; 0x313; 0x342]);
    (0x1F07, [0x3B1; 0x314; 0x342]); (0x1F08, [0x391; 0x313]);
    (0x1F09, [0x391; 0x314]); (0x1F0A, [0x391; 0x313; 0x300]);
    (0x1F0B, [0x391; 0x314; 0x300]); (0x1F0C, [0x391; 0x313; 0x301]);
    (0x1F0D, [0x391; 0x314; 0x301]); (0x1F0E, [0x391; 0x313; 0x342]);
    (0x1F0F, [0x391; 0x314; 0x342]); (0x1F10, [0x3B5; 0x313]);
    (0x1F11, [0x3B5; 0x314]); (0x1F12, [0x3B5; 0x313; 0x300]);
    (0x1F13, [0x3B5; 0x314; 0x300]); (0x1F14, [0x3B5; 0x313; 0x301]);
    (0x1F15, [0x3B5; 0x314; 0x301]); (0x1F18, [0x395; 0x313]);
    (0x1F19, [0x395; 0x314]); (0x1F1A, [0x395; 0x313; 0x300]);
    (0x1F1B, [0x395; 0x314; 0x300]); (0x1F1C, [0x395; 0x313; 0x301]);
    (0x1F1D, [0x395; 0x314; 0x301]); (0x1F20, [0x3B7; 0x313]);
    (0x1F21, [0x3B7; 0x314]); (0x1F22, [0x3B7; 0x313; 0x300]);
    (0x1F23, [0x3B7; 0x314; 0x300]); (0x1F24, [0x3B7; 0x313; 0x301]);
    (0x1F25, [0x3B7; 0x314; 0x301]); (0x1F26, [0x3B7; 0x313; 0x342]);
    (0x1F27, [0x3B7; 0x314; 0x342]); (0x1F28, [0x397; 0x313]);
    (0x1F29, [0x397; 0x314]); (0x1F2A, [0x397; 0x313; 0x300]);
    (0x1F2B, [0x397; 0x314; 0x300]); (0x1F2C, [0x397; 0x313; 0x301]);
    (0x1F2D, [0x397; 0x314; 0x301]); (0x1F2E, [0x397; 0x313; 0x342]);
    (0x1F2F, [0x397; 0x314; 0x342]); (0x1F30, [0x3B9; 0x313]);
    (0x1F31, [0x3B9; 0x314]); (0x1F32, [0x3B9; 0x313; 0x300]);
    (0x1F33, [0x3B9; 0x314; 0x300]); (0x1F34, [0x3B9; 0x313; 0x301]);
    (0x1F35, [0x3B9; 0x314; 0x301]); (0x1F36, [0x3B9; 0x313; 0x342]);
    (0x1F37, [0x3B9; 0x314; 0x342]); (0x1F38, [0x399; 0x313]);
    (0x1F39, [0x399; 0x314]); (0x1F3A, [0x399; 0x313; 0x300]);
    (0x1F3B, [0x399; 0x314; 0x300]); (0x1F3C, [0x399; 0x313; 0x301]);
    (0x1F3D, [0x399; 0x314; 0x301]); (0x1F3E, [0x399; 0x313; 0x342]);
    (0x1F3F, [0x399; 0x314; 0x342]); (0x1F40, [0x3BF; 0x313]);
    (0x1F41, [0x3BF; 0x314]); (0x1F42, [0x3BF; 0x313; 0x300]);
    (0x1F43, [0x3BF; 0x314; 0x300]); (0x1F44, [0x3BF; 0x313; 0x301]);
    (0x1F45, [0x3BF; 0x314; 0x301]); (0x1F48, [0x39F; 0x313]);
    (0x1F49, [0x39F; 0x314]); (0x1F4A, [0x39F; 0x313; 0x300]);
    (0x1F4B, [0x39F; 0x314; 0x300]); (0x1F4C, [0x39F; 0x313; 0x301]);
    (0x1F4D, [0x39F; 0x314; 0x301]); (0x1F50, [0x3C5; 0x313]);
    (0x1F51, [0x3C5; 0x314]); (0x1F52, [0x3C5; 0x313; 0x300]);
    (0x1F53, [0x3C5; 0x314; 0x300]); (0x1F54, [0x3C5; 0x313; 0x301]);
    (0x1F55, [0x3C5; 0x314; 0x301]); (0x1F56, [0x3C5; 0x313; 0x342]);
    (0x1F57, [0x3C5; 0x314; 0x342]); (0x1F59, [0x3A5; 0x314]);
    (0x1F5B, [0x3A5; 0x314; 0x300]); (0x1F5D, [0x3A5; 0x314; 0x301]);
    (0x1F5F, [0x3A5; 0x314; 0x342]); (0x1F60, [0x3C9; 0x313]);
    (0x1F61, [0x3C9; 0x314]); (0x1F62, [0x3C9; 0x313; 0x300]);
    (0x1F63, [0x3C9; 0x314; 0x300]); (0x1F64, [0x3C9; 0x313; 0x301]);
    (0x1F65, [0x3C9; 0x314; 0x301]); (0x1F66, [0x3C9; 0x313; 0x342]);
    (0x1F67, [0x3C9; 0x314; 0x342]); (0x1F68, [0x3A9; 0x313]);
    (0x1F69, [0x3A9; 0x314]); (0x1F6A, [0x3A9; 0x313; 0x300]);
    (0x1F6B, [0x3A9; 0x314; 0x300]); (0x1F6C, [0x3A9; 0x313; 0x301]);
    (0x1F6D, [0x3A9; 0x314; 0x301]); (0x1F6E, [0x3A9; 0x313; 0x342]);
    (0x1F6F, [0x3A9; 0x314; 0x342]); (0x1F70, [0x3B1; 0x300]);
    (0x1F71, [0x3B1; 0x301]); (0x1F72, [0x3B5; 0x300]);
    (0x1F73, [0x3B5; 0x301]); (0x1F74, [0x3B7; 0x300]);
    (0x1F75, [0x3B7; 0x301]); (0x1F76, [0x3B9; 0x300]);
    (0x1F77, [0x3B9; 0x301]); (0x1F78, [0x3BF; 0x300]);
    (0x1F79, [0x3BF; 0x301]); (0x1F7A, [0x3C5; 0x300]);
    (0x1F7B, [0x3C5; 0x301]); (0x1F7C, [0x3C9; 0x300]);
    (0x1F7D, [0x3C9; 0x301]); (0x1F80, [0x3B1; 0x313; 0x345]);
    (0x1F81, [0x3B1; 0x314; 0x345]); (0x1F82, [0x3B1; 0x313; 0x300; 0x345]);
    (0x1F83, [0x3B1; 0x314; 0x300; 0x345]);
    (0x1F84, [0x3B1; 0x313; 0x301; 0x345]);
    (0x1F85, [0x3B1; 0x314; 0x301; 0x345]);
    (0x1F86, [0x3B1; 0x313; 0x342; 0x345]);
    (0x1F87, [0x3B1; 0x314; 0x342; 0x345]); (0x1F88, [0x391; 0x313; 0x345]);
    (0x1F89, [0x391; 0x314; 0x345]); (0x1F8A, [0x391; 0x313; 0x300; 0x345]);
    (0x1F8B, [0x391; 0x314; 0x300; 0x345]);
    (0x1F8C, [0x391; 0x313; 0x301; 0x345]);
    (0x1F8D, [0x391; 0x314; 0x301; 0x345]);
    (0x1F8E, [0x391; 0x313; 0x342; 0x345]);
    (0x1F8F, [0x391; 0x314; 0x342; 0x345]); (0x1F90, [0x3B7; 0x313; 0x345]);
    (0x1F91, [0x3B7; 0x314; 0x345]); (0x1F92, [0x3B7; 0x313; 0x300; 0x345]);
    (0x1F93, [0x3B7; 0x314; 0x300; 0x345]);
    (0x1F94, [0x3B7; 0x313; 0x301; 0x345]);
    (0x1F95, [0x3B7; 0x314; 0x301; 0x345]);
    (0x1F96, [0x3B7; 0x313; 0x342; 0x345]);
    (0x1F97, [0x3B7; 0x314; 0x342; 0x345]); (0x1F98, [0x397; 0x313; 0x345]);
    (0x1F99, [0x397; 0x314; 0x345]); (0x1F9A, [0x397; 0x313; 0x300; 0x345]);
    (0x1F9B, [0x397; 0x314; 0x300; 0x345]);
    (0x1F9C, [0x397; 0x313; 0x301; 0x345]);
    (0x1F9D, [0x397; 0x314; 0x301; 0x345]);
    (0x1F9E, [0x397; 0x313; 0x342; 0x345]);
    (0x1F9F, [0x397; 0x314; 0x342; 0x345]); (0x1FA0, [0x3C9; 0x313; 0x345]);
    (0x1FA1, [0x3C9; 0x314; 0x345]); (0x1FA2, [0x3C9; 0x313; 0x300; 0x345]);
    (0x1FA3, [0x3C9; 0x314; 0x300; 0x345]);
    (0x1FA4, [0x3C9; 0x313; 0x301; 0x345]);
    (0x1FA5, [0x3C9; 0x314; 0x301; 0x345]);
    (0x1FA6, [0x3C9; 0x313; 0x342; 0x345]);
    (0x1FA7, [0x3C9; 0x314; 0x342; 0x345]); (0x1FA8, [0x3A9; 0x313; 0x345]);
    (0x1FA9, [0x3A9; 0x314; 0x345]); (0x1FAA, [0x3A9; 0x313; 0x300; 0x345]);
    (0x1FAB, [0x3A9; 0x314; 0x300; 0x345]);
    (0x1FAC, [0x3A9; 0x313; 0x301; 0x345]);
    (0x1FAD, [0x3A9; 0x314; 0x301; 0x345]);
    (0x1FAE, [0x3A9; 0x313; 0x342; 0x345]);
    (0x1FAF, [0x3A9; 0x314; 0x342; 0x345]); (0x1FB0, [0x3B1; 0x306]);
    (0x1FB1, [0x3B1; 0x304]); (0x1FB2, [0x3B1; 0x300; 0x345]);
    (0x1FB3, [0x3B1; 0x345]); (0x1FB4, [0x3B1; 0x301; 0x345]);
    (0x1FB6, [0x3B1; 0x342]); (0x1FB7, [0x3B1; 0x342; 0x345]);
    (0x1FB8, [0x391; 0x306]); (0x1FB9, [0x391; 0x304]);
    (0x1FBA, [0x391; 0x300]); (0x1FBB, [0x391; 0x301]);
    (0x1FBC, [0x391; 0x345]); (0x1FBE, [0x3B9]); (0x1FC1, [0xA8; 0x342]);
    (0x1FC2, [0x3B7; 0x300; 0x345]); (0x1FC3, [0x3B7; 0x345]);
    (0x1FC4, [0x3B7; 0x301; 0x345]); (0x1FC6, [0x3B7; 0x342]);
    (0x1FC7, [0x3B7; 0x342; 0x345]); (0x1FC8, [0x395; 0x300]);
    (0x1FC9, [0x395; 0x301]); (0x1FCA, [0x397; 0x300]);
    (0x1FCB, [0x397; 0x301]); (0x1FCC, [0x397; 0x345]);
    (0x1FCD, [0x1FBF; 0x300]); (0x1FCE, [0x1FBF; 0x301]);
    (0x1FCF, [0x1FBF; 0x342]); (0x1FD0, [0x3B9; 0x306]);
    (0x1FD1, [0x3B9; 0x304]); (0x1FD2, [0x3B9; 0x308; 0x300]);
    (0x1FD3, [0x3B9; 0x308; 0x301]); (0x1FD6, [0x3B9; 0x342]);
    (0x1FD7, [0x3B9; 0x308; 0x342]); (0x1FD8, [0x399; 0x306]);
    (0x1FD9, [0x399; 0x304]); (0x1FDA, [0x399; 0x300]);
    (0x1FDB, [0x399; 0x301]); (0x1FDD, [0x1FFE; 0x300]);
    (0x1FDE, [0x1FFE; 0x301]); (0x1FDF, [0x1FFE; 0x342]);
    (0x1FE0, [0x3C5; 0x306]); (0x1FE1, [0x3C5; 0x304]);
    (0x1FE2, [0x3C5; 0x308; 0x300]); (0x1FE3, [0x3C5; 0x308; 0x301]);
    (0x1FE4, [0x3C1; 0x313]); (0x1FE5, [0x3C1; 0x314]);
    (0x1FE6, [0x3C5; 0x342]); (0x1FE7, [0x3C5; 0x308; 0x342]);
    (0x1FE8, [0x3A5; 0x306]); (0x1FE9, [0x3A5; 0x304]);
    (0x1FEA, [0x3A5; 0x300]); (0x1FEB, [0x3A5; 0x301]);
    (0x1FEC, [0x3A1; 0x314]); (0x1FED, [0xA8; 0x300]);
    (0x1FEE, [0xA8; 0x301]); (0x1FEF, [0x60]);
    (0x1FF2, [0x3C9; 0x300; 0x345]); (0x1FF3, [0x3C9; 0x345]);
    (0x1FF4, [0x3C9; 0x301; 0x345]); (0x1FF6, [0x3C9; 0x342]);
    (0x1FF7, [0x3C9; 0x342; 0x345]); (0x1FF8, [0x39F; 0x300]);
    (0x1FF9, [0x39F; 0x301]); (0x1FFA, [0x3A9; 0x300]);
    (0x1FFB, [0x3A9; 0x301]); (0x1FFC, [0x3A9; 0x345]); (0x1FFD, [0xB4]);
    (0x2000, [0x2002]); (0x2001, [0x2003]); (0x2126, [0x3A9]);
    (0x212A, [0x4B]); (0x212B, [0x41; 0x30A]); (0x219A, [0x2190; 0x338]);
    (0x219B, [0x2192; 0x338]); (0x21AE, [0x2194; 0x338]);
    (0x21CD, [0x21D0; 0x338]); (0x21CE, [0x21D4; 0x338]);
    (0x21CF, [0x21D2; 0x338]); (0x2204, [0x2203; 0x338]);
    (0x2209, [0x2208; 0x338]); (0x220C, [0x220B; 0x338]);
    (0x2224, [0x2223; 0x338]); (0x2226, [0x2225; 0x338]);
    (0x2241, [0x223C; 0x338]); (0x2244, [0x2243; 0x338]);
    (0x2247, [0x2245; 0x338]); (0x2249, [0x2248; 0x338]);
    (0x2260, [0x3D; 0x338]); (0x2262, [0x2261; 0x338]);
    (0x226D, [0x224D; 0x338]); (0x226E, [0x3C; 0x338]);
    (0x226F, [0x3E; 0x338]); (0x2270, [0x2264; 0x338]);
    (0x2271, [0x2265; 0x338]); (0x2274, [0x2272; 0x338]);
    (0x2275, [0x2273; 0x338]); (0x2278, [0x2276; 0x338]);
    (0x2279, [0x2277; 0x338]); (0x2280, [0x227A; 0x338]);
    (0x2281, [0x227B; 0x338]); (0x2284, [0x2282; 0x338]);
    (0x2285, [0x2283; 0x338]); (0x2288, [0x2286; 0x338]);
    (0x2289, [0x2287; 0x338]); (0x22AC, [0x22A2; 0x338]);
    (0x22AD, [0x22A8; 0x338]); (0x22AE, [0x22A9; 0x338]);
    (0x22AF, [0x22AB; 0x338]); (0x22E0, [0x227C; 0x338]);
    (0x22E1, [0x227D; 0x338]); (0x22E2, [0x2291; 0x338]);
    (0x22E3, [0x2292; 0x338]); (0x22EA, [0x22B2; 0x338]);
    (0x22EB, [0x22B3; 0x338]); (0x22EC, [0x22B4; 0x338]);
    (0x22ED, [0x22B5; 0x338]); (0x2329, [0x3008]); (0x232A, [0x3009]);
    (0x2ADC, [0x2ADD; 0x338]); (0x304C, [0x304B; 0x3099]);
    (0x304E, [0x304D; 0x3099]); (0x3050, [0x304F; 0x3099]);
    (0x3052, [0x3051; 0x3099]); (0x3054, [0x3053; 0x3099]);
    (0x3056, [0x3055; 0x3099]); (0x3058, [0x3057; 0x3099]);
    (0x305A, [0x3059; 0x3099]); (0x305C, [0x305B; 0x3099]);
    (0x305E, [0x305D; 0x3099]); (0x3060, [0x305F; 0x3099]);
    (0x3062, [0x3061; 0x3099]); (0x3065, [0x3064; 0x3099]);
    (0x3067, [0x3066; 0x3099]); (0x3069, [0x3068; 0x3099]);
    (0x3070, [0x306F; 0x3099]); (0x3071, [0x306F; 0x309A]);
    (0x3073, [0x3072; 0x3099]); (0x3074, [0x3072; 0x309A]);
    (0x3076, [0x3075; 0x3099]); (0x3077, [0x3075; 0x309A]);
    (0x3079, [0x3078; 0x3099]); (0x307A, [0x3078; 0x309A]);
    (0x307C, [0x307B; 0x3099]); (0x307D, [0x307B; 0x309A]);
    (0x3094, [0x3046; 0x3099]); (0x309E, [0x309D; 0x3099]);
    (0x30AC, [0x30AB; 0x3099]); (0x30AE, [0x30AD; 0x3099]);
    (0x30B0, [0x30AF; 0x3099]); (0x30B2, [0x30B1; 0x3099]);
    (0x30B4, [0x30B3; 0x3099]); (0x30B6, [0x30B5; 0x3099]);
    (0x30B8, [0x30B7; 0x3099]); (0x30BA, [0x30B9; 0x3099]);
    (0x30BC, [0x30BB; 0x3099]); (0x30BE, [0x30BD; 0x3099]);
    (0x30C0, [0x30BF; 0x3099]); (0x30C2, [0x30C1; 0x3099]);
    (0x30C5, [0x30C4; 0x3099]); (0x30C7, [0x30C6; 0x3099]);
    (0x30C9, [0x30C8; 0x3099]); (0x30D0, [0x30CF; 0x3099]);
    (0x30D1, [0x30CF; 0x309A]); (0x30D3, [0x30D2; 0x3099]);
    (0x30D4, [0x30D2; 0x309A]); (0x30D6, [0x30D5; 0x3099]);
    (0x30D7, [0x30D5; 0x309A]); (0x30D9, [0x30D8; 0x3099]);
    (0x30DA, [0x30D8; 0x309A]); (0x30DC, [0x30DB; 0x3099]);
    (0x30DD, [0x30DB; 0x309A]); (0x30F4, [0x30A6; 0x3099]);
    (0x30F7, [0x30EF; 0x3099]); (0x30F8, [0x30F0; 0x3099]);
    (0x30F9, [0x30F1; 0x3099]); (0x30FA, [0x30F2; 0x3099]);
    (0x30FE, [0x30FD; 0x3099]); (0xF900, [0x8C48]); (0xF901, [0x66F4]);
    (0xF902, [0x8ECA]); (0xF903, [0x8CC8]); (0xF904, [0x6ED1]);
    (0xF905, [0x4E32]); (0xF906, [0x53E5]); (0xF907, [0x9F9C]);
    (0xF908, [0x9F9C]); (0xF909, [0x5951]); (0xF90A, [0x91D1]);
    (0xF90B, [0x5587]); (0xF90C, [0x5948]); (0xF90D, [0x61F6]);
    (0xF90E, [0x7669]); (0xF90F, [0x7F85]); (0xF910, [0x863F]);
    (0xF911, [0x87BA]); (0xF912, [0x88F8]); (0xF913, [0x908F]);
    (0xF914, [0x6A02]); (0xF915, [0x6D1B]); (0xF916, [0x70D9]);
    (0xF917, [0x73DE]); (0xF918, [0x843D]); (0xF919, [0x916A]);
    (0xF91A, [0x99F1]); (0xF91B, [0x4E82]); (0xF91C, [0x5375]);
    (0xF91D, [0x6B04]); (0xF91E, [0x721B]); (0xF91F, [0x862D]);
    (0xF920, [0x9E1E]); (0xF921, [0x5D50]); (0xF922, [0x6FEB]);
    (0xF923, [0x85CD]); (0xF924, [0x8964]); (0xF925, [0x62C9]);
    (0xF926, [0x81D8]); (0xF927, [0x881F]); (0xF928, [0x5ECA]);
    (0xF929, [0x6717]); (0xF92A, [0x6D6A]); (0xF92B, [0x72FC]);
    (0xF92C, [0x90CE]); (0xF92D, [0x4F86]); (0xF92E, [0x51B7]);
    (0xF92F, [0x52DE]); (0xF930, [0x64C4]); (0xF931, [0x6AD3]);
    (0xF932, [0x7210]); (0xF933, [0x76E7]); (0xF934, [0x8001]);
    (0xF935, [0x8606]); (0xF936, [0x865C]); (0xF937, [0x8DEF]);
    (0xF938, [0x9732]); (0xF939, [0x9B6F]); (0xF93A, [0x9DFA]);
    (0xF93B, [0x788C]); (0xF93C, [0x797F]); (0xF93D, [0x7DA0]);
    (0xF93E, [0x83C9]); (0xF93F, [0x9304]); (0xF940, [0x9E7F]);
    (0xF941, [0x8AD6]); (0xF942, [0x58DF]); (0xF943, [0x5F04]);
    (0xF944, [0x7C60]); (0xF945, [0x807E]); (0xF946, [0x7262]);
    (0xF947, [0x78CA]); (0xF948, [0x8CC2]); (0xF949, [0x96F7]);
    (0xF94A, [0x58D8]); (0xF94B, [0x5C62]); (0xF94C, [0x6A13]);
    (0xF94D, [0x6DDA]); (0xF94E, [0x6F0F]); (0xF94F, [0x7D2F]);
    (0xF950, [0x7E37]); (0xF951, [0x964B]); (0xF952, [0x52D2]);
    (0xF953, [0x808B]); (0xF954, [0x51DC]); (0xF955, [0x51CC]);
    (0xF956, [0x7A1C]); (0xF957, [0x7DBE]); (0xF958, [0x83F1]);
    (0xF959, [0x9675]); (0xF95A, [0x8B80]); (0xF95B, [0x62CF]);
    (0xF95C, [0x6A02]); (0xF95D, [0x8AFE]); (0xF95E, [0x4E39]);
    (0xF95F, [0x5BE7]); (0xF960, [0x6012]); (0xF961, [0x7387]);
    (0xF962, [0x7570]); (0xF963, [0x5317]); (0xF964, [0x78FB]);
    (0xF965, [0x4FBF]); (0xF966, [0x5FA9]); (0xF967, [0x4E0D]);
    (0xF968, [0x6CCC]); (0xF969, [0x6578]); (0xF96A, [0x7D22]);
    (0xF96B, [0x53C3]); (0xF96C, [0x585E]); (0xF96D, [0x7701]);
    (0xF96E, [0x8449]); (0xF96F, [0x8AAA]); (0xF970, [0x6BBA]);
    (0xF971, [0x8FB0]); (0xF972, [0x6C88]); (0xF973, [0x62FE]);
    (0xF974, [0x82E5]); (0xF975, [0x63A0]); (0xF976, [0x7565]);
    (0xF977, [0x4EAE]); (0xF978, [0x5169]); (0xF979, [0x51C9]);
    (0xF97A, [0x6881]); (0xF97B, [0x7CE7]); (0xF97C, [0x826F]);
    (0xF97D, [0x8AD2]); (0xF97E, [0x91CF]); (0xF97F, [0x52F5]);
    (0xF980, [0x5442]); (0xF981, [0x5973]); (0xF982, [0x5EEC]);
    (0xF983, [0x65C5]); (0xF984, [0x6FFE]); (0xF985, [0x792A]);
    (0xF986, [0x95AD]); (0xF987, [0x9A6A]); (0xF988, [0x9E97]);
    (0xF989, [0x9ECE]); (0xF98A, [0x529B]); (0xF98B, [0x66C6]);
    (0xF98C, [0x6B77]); (0xF98D, [0x8F62]); (0xF98E, [0x5E74]);
    (0xF98F, [0x6190]); (0xF990, [0x6200]); (0xF991, [0x649A]);
    (0xF992, [0x6F23]); (0xF993, [0x7149]); (0xF994, [0x7489]);
    (0xF995, [0x79CA]); (0xF996, [0x7DF4]); (0xF997, [0x806F]);
    (0xF998, [0x8F26]); (0xF999, [0x84EE]); (0xF99A, [0x9023]);
    (0xF99B, [0x934A]); (0xF99C, [0x5217]); (0xF99D, [0x52A3]);
    (0xF99E, [0x54BD]); (0xF99F, [0x70C8]); (0xF9A0, [0x88C2]);
    (0xF9A1, [0x8AAA]); (0xF9A2, [0x5EC9]); (0xF9A3, [0x5FF5]);
    (0xF9A4, [0x637B]); (0xF9A5, [0x6BAE]); (0xF9A6, [0x7C3E]);
    (0xF9A7, [0x7375]); (0xF9A8, [0x4EE4]); (0xF9A9, [0x56F9]);
    (0xF9AA, [0x5BE7]); (0xF9AB, [0x5DBA]); (0xF9AC, [0x601C]);
    (0xF9AD, [0x73B2]); (0xF9AE, [0x7469]); (0xF9AF, [0x7F9A]);
    (0xF9B0, [0x8046]); (0xF9B1, [0x9234]); (0xF9B2, [0x96F6]);
    (0xF9B3, [0x9748]); (0xF9B4, [0x9818]); (0xF9B5, [0x4F8B]);
    (0xF9B6, [0x79AE]); (0xF9B7, [0x91B4]); (0xF9B8, [0x96B8]);
    (0xF9B9, [0x60E1]); (0xF9BA, [0x4E86]); (0xF9BB, [0x50DA]);
    (0xF9BC, [0x5BEE]); (0xF9BD, [0x5C3F]); (0xF9BE, [0x6599]);
    (0xF9BF, [0x6A02]); (0xF9C0, [0x71CE]); (0xF9C1, [0x7642]);
    (0xF9C2, [0x84FC]); (0xF9C3, [0x907C]); (0xF9C4, [0x9F8D]);
    (0xF9C5, [0x6688]); (0xF9C6, [0x962E]); (0xF9C7, [0x5289]);
    (0xF9C8, [0x677B]); (0xF9C9, [0x67F3]); (0xF9CA, [0x6D41]);
    (0xF9CB, [0x6E9C]); (0xF9CC, [0x7409]); (0xF9CD, [0x7559]);
    (0xF9CE, [0x786B]); (0xF9CF, [0x7D10]); (0xF9D0, [0x985E]);
    (0xF9D1, [0x516D]); (0xF9D2, [0x622E]); (0xF9D3, [0x9678]);
    (0xF9D4, [0x502B]); (0xF9D5, [0x5D19]); (0xF9D6, [0x6DEA]);
    (0xF9D7, [0x8F2A]); (0xF9D8, [0x5F8B]); (0xF9D9, [0x6144]);
    (0xF9DA, [0x6817]); (0xF9DB, [0x7387]); (0xF9DC, [0x9686]);
    (0xF9DD, [0x5229]); (0xF9DE, [0x540F]); (0xF9DF, [0x5C65]);
    (0xF9E0, [0x6613]); (0xF9E1, [0x674E]); (0xF9E2, [0x68A8]);
    (0xF9E3, [0x6CE5]); (0xF9E4, [0x7406]); (0xF9E5, [0x75E2]);
    (0xF9E6, [0x7F79]); (0xF9E7, [0x88CF]); (0xF9E8, [0x88E1]);
    (0xF9E9, [0x91CC]); (0xF9EA, [0x96E2]); (0xF9EB, [0x533F]);
    (0xF9EC, [0x6EBA]); (0xF9ED, [0x541D]); (0xF9EE, [0x71D0]);
    (0xF9EF, [0x7498]); (0xF9F0, [0x85FA]); (0xF9F1, [0x96A3]);
    (0xF9F2, [0x9C57]); (0xF9F3, [0x9E9F]); (0xF9F4, [0x6797]);
    (0xF9F5, [0x6DCB]); (0xF9F6, [0x81E8]); (0xF9F7, [0x7ACB]);
    (0xF9F8, [0x7B20]); (0xF9F9, [0x7C92]); (0xF9FA, [0x72C0]);
    (0xF9FB, [0x7099]); (0xF9FC, [0x8B58]); (0xF9FD, [0x4EC0]);
    (0xF9FE, [0x8336]); (0xF9FF, [0x523A]); (0xFA00, [0x5207]);
    (0xFA01, [0x5EA6]); (0xFA02, [0x62D3]); (0xFA03, [0x7CD6]);
    (0xFA04, [0x5B85]); (0xFA05, [0x6D1E]); (0xFA06, [0x66B4]);
    (0xFA07, [0x8F3B]); (0xFA08, [0x884C]); (0xFA09, [0x964D]);
    (0xFA0A, [0x898B]); (0xFA0B, [0x5ED3]); (0xFA0C, [0x5140]);
    (0xFA0D, [0x55C0]); (0xFA10, [0x585A]); (0xFA12, [0x6674]);
    (0xFA15, [0x51DE]); (0xFA16, [0x732A]); (0xFA17, [0x76CA]);
    (0xFA18, [0x793C]); (0xFA19, [0x795E]); (0xFA1A, [0x7965]);
    (0xFA1B, [0x798F]); (0xFA1C, [0x9756]); (0xFA1D, [0x7CBE]);
    (0xFA1E, [0x7FBD]); (0xFA20, [0x8612]); (0xFA22, [0x8AF8]);
    (0xFA25, [0x9038]); (0xFA26, [0x90FD]); (0xFA2A, [0x98EF]);
    (0xFA2B, [0x98FC]); (0xFA2C, [0x9928]); (0xFA2D, [0x9DB4]);
    (0xFA2E, [0x90DE]); (0xFA2F, [0x96B7]); (0xFA30, [0x4FAE]);
    (0xFA31, [0x50E7]); (0xFA32, [0x514D]); (0xFA33, [0x52C9]);
    (0xFA34, [0x52E4]); (0xFA35, [0x5351]); (0xFA36, [0x559D]);
    (0xFA37, [0x5606]); (0xFA38, [0x5668]); (0xFA39, [0x5840]);
    (0xFA3A, [0x58A8]); (0xFA3B, [0x5C64]); (0xFA3C, [0x5C6E]);
    (0xFA3D, [0x6094]); (0xFA3E, [0x6168]); (0xFA3F, [0x618E]);
    (0xFA40, [0x61F2]); (0xFA41, [0x654F]); (0xFA42, [0x65E2]);
    (0xFA43, [0x6691]); (0xFA44, [0x6885]); (0xFA45, [0x6D77]);
    (0xFA46, [0x6E1A]); (0xFA47, [0x6F22]); (0xFA48, [0x716E]);
    (0xFA49, [0x722B]); (0xFA4A, [0x7422]); (0xFA4B, [0x7891]);
    (0xFA4C, [0x793E]); (0xFA4D, [0x7949]); (0xFA4E, [0x7948]);
    (0xFA4F, [0x7950]); (0xFA50, [0x7956]); (0xFA51, [0x795D]);
    (0xFA52, [0x798D]); (0xFA53, [0x798E]); (0xFA54, [0x7A40]);
    (0xFA55, [0x7A81]); (0xFA56, [0x7BC0]); (0xFA57, [0x7DF4]);
    (0xFA58, [0x7E09]); (0xFA59, [0x7E41]); (0xFA5A, [0x7F72]);
    (0xFA5B, [0x8005]); (0xFA5C, [0x81ED]); (0xFA5D, [0x8279]);
    (0xFA5E, [0x8279]); (0xFA5F, [0x8457]); (0xFA60, [0x8910]);
    (0xFA61, [0x8996]); (0xFA62, [0x8B01]); (0xFA63, [0x8B39]);
    (0xFA64, [0x8CD3]); (0xFA65, [0x8D08]); (0xFA66, [0x8FB6]);
    (0xFA67, [0x9038]); (0xFA68, [0x96E3]); (0xFA69, [0x97FF]);
    (0xFA6A, [0x983B]); (0xFA6B, [0x6075]); (0xFA6C, [0x242EE]);
    (0xFA6D, [0x8218]); (0xFA70, [0x4E26]); (0xFA71, [0x51B5]);
    (0xFA72, [0x5168]); (0xFA73, [0x4F80]); (0xFA74, [0x5145]);
    (0xFA75, [0x5180]); (0xFA76, [0x52C7]); (0xFA77, [0x52FA]);
    (0xFA78, [0x559D]); (0xFA79, [0x5555]); (0xFA7A, [0x5599]);
    (0xFA7B, [0x55E2]); (0xFA7C, [0x585A]); (0xFA7D, [0x58B3]);
    (0xFA7E, [0x5944]); (0xFA7F, [0x5954]); (0xFA80, [0x5A62]);
    (0xFA81, [0x5B28]); (0xFA82, [0x5ED2]); (0xFA83, [0x5ED9]);
    (0xFA84, [0x5F69]); (0xFA85, [0x5FAD]); (0xFA86, [0x60D8]);
    (0xFA87, [0x614E]); (0xFA88, [0x6108]); (0xFA89, [0x618E]);
    (0xFA8A, [0x6160]); (0xFA8B, [0x61F2]); (0xFA8C, [0x6234]);
    (0xFA8D, [0x63C4]); (0xFA8E, [0x641C]); (0xFA8F, [0x6452]);
    (0xFA90, [0x6556]); (0xFA91, [0x6674]); (0xFA92, [0x6717]);
    (0xFA93, [0x671B]); (0xFA94, [0x6756]); (0xFA95, [0x6B79]);
    (0xFA96, [0x6BBA]); (0xFA97, [0x6D41]); (0xFA98, [0x6EDB]);
    (0xFA99, [0x6ECB]); (0xFA9A, [0x6F22]); (0xFA9B, [0x701E]);
    (0xFA9C, [0x716E]); (0xFA9D, [0x77A7]); (0xFA9E, [0x7235]);
    (0xFA9F, [0x72AF]); (0xFAA0, [0x732A]); (0xFAA1, [0x7471]);
    (0xFAA2, [0x7506]); (0xFAA3, [0x753B]); (0xFAA4, [0x761D]);
    (0xFAA5, [0x761F]); (0xFAA6, [0x76CA]); (0xFAA7, [0x76DB]);
    (0xFAA8, [0x76F4]); (0xFAA9, [0x774A]); (0xFAAA, [0x7740]);
    (0xFAAB, [0x78CC]); (0xFAAC, [0x7AB1]); (0xFAAD, [0x7BC0]);
    (0xFAAE, [0x7C7B]); (0xFAAF, [0x7D5B]); (0xFAB0, [0x7DF4]);
    (0xFAB1, [0x7F3E]); (0xFAB2, [0x8005]); (0xFAB3, [0x8352]);
    (0xFAB4, [0x83EF]); (0xFAB5, [0x8779]); (0xFAB6, [0x8941]);
    (0xFAB7, [0x8986]); (0xFAB8, [0x8996]); (0xFAB9, [0x8ABF]);
    (0xFABA, [0x8AF8]); (0xFABB, [0x8ACB]); (0xFABC, [0x8B01]);
    (0xFABD, [0x8AFE]); (0xFABE, [0x8AED]); (0xFABF, [0x8B39]);
    (0xFAC0, [0x8B8A]); (0xFAC1, [0x8D08]); (0xFAC2, [0x8F38]);
    (0xFAC3, [0x9072]); (0xFAC4, [0x9199]); (0xFAC5, [0x9276]);
    (0xFAC6, [0x967C]); (0xFAC7, [0x96E3]); (0xFAC8, [0x9756]);
    (0xFAC9, [0x97DB]); (0xFACA, [0x97FF]); (0xFACB, [0x980B]);
    (0xFACC, [0x983B]); (0xFACD, [0x9B12]); (0xFACE, [0x9F9C]);
    (0xFACF, [0x2284A]); (0xFAD0, [0x22844]); (0xFAD1, [0x233D5]);
    (0xFAD2, [0x3B9D]); (0xFAD3, [0x4018]); (0xFAD4, [0x4039]);
    (0xFAD5, [0x25249]); (0xFAD6, [0x25CD0]); (0xFAD7, [0x27ED3]);
    (0xFAD8, [0x9F43]); (0xFAD9, [0x9F8E]); (0xFB1D, [0x5D9; 0x5B4]);
    (0xFB1F, [0x5F2; 0x5B7]); (0xFB2A, [0x5E9; 0x5C1]);
    (0xFB2B, [0x5E9; 0x5C2]); (0xFB2C, [0x5E9; 0x5BC; 0x5C1]);
    (0xFB2D, [0x5E9; 0x5BC; 0x5C2]); (0xFB2E, [0x5D0; 0x5B7]);
    (0xFB2F, [0x5D0; 0x5B8]); (0xFB30, [0x5D0; 0x5BC]);
    (0xFB31, [0x5D1; 0x5BC]); (0xFB32, [0x5D2; 0x5BC]);
    (0xFB33, [0x5D3; 0x5BC]); (0xFB34, [0x5D4; 0x5BC]);
    (0xFB35, [0x5D5; 0x5BC]); (0xFB36, [0x5D6; 0x5BC]);
    (0xFB38, [0x5D8; 0x5BC]); (0xFB39, [0x5D9; 0x5BC]);
    (0xFB3A, [0x5DA; 0x5BC]); (0xFB3B, [0x5DB; 0x5BC]);
    (0xFB3C, [0x5DC; 0x5BC]); (0xFB3E, [0x5DE; 0x5BC]);
    (0xFB40, [0x5E0; 0x5BC]); (0xFB41, [0x5E1; 0x5BC]);
    (0xFB43, [0x5E3; 0x5BC]); (0xFB44, [0x5E4; 0x5BC]);
    (0xFB46, [0x5E6; 0x5BC]); (0xFB47, [0x5E7; 0x5BC]);
    (0xFB48, [0x5E8; 0x5BC]); (0xFB49, [0x5E9; 0x5BC]);
    (0xFB4A, [0x5EA; 0x5BC]); (0xFB4B, [0x5D5; 0x5B9]);
    (0xFB4C, [0x5D1; 0x5BF]); (0xFB4D, [0x5DB; 0x5BF]);
    (0xFB4E, [0x5E4; 0x5BF]); (0x1109A, [0x11099; 0x110BA]);
    (0x1109C, [0x1109B; 0x110BA]); (0x110AB, [0x110A5; 0x110BA]);
    (0x1112E, [0x11131; 0x11127]); (0x1112F, [0x11132; 0x11127]);
    (0x1134B, [0x11347; 0x1133E]); (0x1134C, [0x11347; 0x11357]);
    (0x114BB, [0x114B9; 0x114BA]); (0x114BC, [0x114B9; 0x114B0]);
    (0x114BE, [0x114B9; 0x114BD]); (0x115BA, [0x115B8; 0x115AF]);
    (0x115BB, [0x115B9; 0x115AF]); (0x11938, [0x11935; 0x11930]);
    (0x1D15E, [0x1D157; 0x1D165]); (0x1D15F, [0x1D158; 0x1D165]);
    (0x1D160, [0x1D158; 0x1D165; 0x1D16E]);
    (0x1D161, [0x1D158; 0x1D165; 0x1D16F]);
    (0x1D162, [0x1D158; 0x1D165; 0x1D170]);
    (0x1D163, [0x1D158; 0x1D165; 0x1D171]);
    (0x1D164, [0x1D158; 0x1D165; 0x1D172]); (0x1D1BB, [0x1D1B9; 0x1D165]);
    (0x1D1BC, [0x1D1BA; 0x1D165]); (0x1D1BD, [0x1D1B9; 0x1D165; 0x1D16E]);
    (0x1D1BE, [0x1D1BA; 0x1D165; 0x1D16E]);
    (0x1D1BF, [0x1D1B9; 0x1D165; 0x1D16F]);
    (0x1D1C0, [0x1D1BA; 0x1D165; 0x1D16F]); (0x2F800, [0x4E3D]);
    (0x2F801, [0x4E38]); (0x2F802, [0x4E41]); (0x2F803, [0x20122]);
    (0x2F804, [0x4F60]); (0x2F805, [0x4FAE]); (0x2F806, [0x4FBB]);
    (0x2F807, [0x5002]); (0x2F808, [0x507A]); (0x2F809, [0x5099]);
    (0x2F80A, [0x50E7]); (0x2F80B, [0x50CF]); (0x2F80C, [0x349E]);
    (0x2F80D, [0x2063A]); (0x2F80E, [0x514D]); (0x2F80F, [0x5154]);
    (0x2F810, [0x5164]); (0x2F811, [0x5177]); (0x2F812, [0x2051C]);
    (0x2F813, [0x34B9]); (0x2F814, [0x5167]); (0x2F815, [0x518D]);
    (0x2F816, [0x2054B]); (0x2F817, [0x5197]); (0x2F818, [0x51A4]);
    (0x2F819, [0x4ECC]); (0x2F81A, [0x51AC]); (0x2F81B, [0x51B5]);
    (0x2F81C, [0x291DF]); (0x2F81D, [0x51F5]); (0x2F81E, [0x5203]);
    (0x2F81F, [0x34DF]); (0x2F820, [0x523B]); (0x2F821, [0x5246]);
    (0x2F822, [0x5272]); (0x2F823, [0x5277]); (0x2F824, [0x3515]);
    (0x2F825, [0x52C7]); (0x2F826, [0x52C9]); (0x2F827, [0x52E4]);
    (0x2F828, [0x52FA]); (0x2F829, [0x5305]); (0x2F82A, [0x5306]);
    (0x2F82B, [0x5317]); (0x2F82C, [0x5349]); (0x2F82D, [0x5351]);
    (0x2F82E, [0x535A]); (0x2F82F, [0x5373]); (0x2F830, [0x537D]);
    (0x2F831, [0x537F]); (0x2F832, [0x537F]); (0x2F833, [0x537F]);
    (0x2F834, [0x20A2C]); (0x2F835, [0x7070]); (0x2F836, [0x53CA]);
    (0x2F837, [0x53DF]); (0x2F838, [0x20B63]); (0x2F839, [0x53EB]);
    (0x2F83A, [0x53F1]); (0x2F83B, [0x5406]); (0x2F83C, [0x549E]);
    (0x2F83D, [0x5438]); (0x2F83E, [0x5448]); (0x2F83F, [0x5468]);
    (0x2F840, [0x54A2]); (0x2F841, [0x54F6]); (0x2F842, [0x5510]);
    (0x2F843, [0x5553]); (0x2F844, [0x5563]); (0x2F845, [0x5584]);
    (0x2F846, [0x5584]); (0x2F847, [0x5599]); (0x2F848, [0x55AB]);
    (0x2F849, [0x55B3]); (0x2F84A, [0x55C2]); (0x2F84B, [0x5716]);
    (0x2F84C, [0x5606]); (0x2F84D, [0x5717]); (0x2F84E, [0x5651]);
    (0x2F84F, [0x5674]); (0x2F850, [0x5207]); (0x2F851, [0x58EE]);
    (0x2F852, [0x57CE]); (0x2F853, [0x57F4]); (0x2F854, [0x580D]);
    (0x2F855, [0x578B]); (0x2F856, [0x5832]); (0x2F857, [0x5831]);
    (0x2F858, [0x58AC]); (0x2F859, [0x214E4]); (0x2F85A, [0x58F2]);
    (0x2F85B, [0x58F7]); (0x2F85C, [0x5906]); (0x2F85D, [0x591A]);
    (0x2F85E, [0x5922]); (0x2F85F, [0x5962]); (0x2F860, [0x216A8]);
    (0x2F861, [0x216EA]); (0x2F862, [0x59EC]); (0x2F863, [0x5A1B]);
    (0x2F864, [0x5A27]); (0x2F865, [0x59D8]); (0x2F866, [0x5A66]);
    (0x2F867, [0x36EE]); (0x2F868, [0x36FC]); (0x2F869, [0x5B08]);
    (0x2F86A, [0x5B3E]); (0x2F86B, [0x5B3E]); (0x2F86C, [0x219C8]);
    (0x2F86D, [0x5BC3]); (0x2F86E, [0x5BD8]); (0x2F86F, [0x5BE7]);
    (0x2F870, [0x5BF3]); (0x2F871, [0x21B18]); (0x2F872, [0x5BFF]);
    (0x2F873, [0x5C06]); (0x2F874, [0x5F53]); (0x2F875, [0x5C22]);
    (0x2F876, [0x3781]); (0x2F877, [0x5C60]); (0x2F878, [0x5C6E]);
    (0x2F879, [0x5CC0]); (0x2F87A, [0x5C8D]); (0x2F87B, [0x21DE4]);
    (0x2F87C, [0x5D43]); (0x2F87D, [0x21DE6]); (0x2F87E, [0x5D6E]);
    (0x2F87F, [0x5D6B]); (0x2F880, [0x5D7C]); (0x2F881, [0x5DE1]);
    (0x2F882, [0x5DE2]); (0x2F883, [0x382F]); (0x2F884, [0x5DFD]);
    (0x2F885, [0x5E28]); (0x2F886, [0x5E3D]); (0x2F887, [0x5E69]);
    (0x2F888, [0x3862]); (0x2F889, [0x22183]); (0x2F88A, [0x387C]);
    (0x2F88B, [0x5EB0]); (0x2F88C, [0x5EB3]); (0x2F88D, [0x5EB6]);
    (0x2F88E, [0x5ECA]); (0x2F88F, [0x2A392]); (0x2F890, [0x5EFE]);
    (0x2F891, [0x22331]); (0x2F892, [0x22331]); (0x2F893, [0x8201]);
    (0x2F894, [0x5F22]); (0x2F895, [0x5F22]); (0x2F896, [0x38C7]);
    (0x2F897, [0x232B8]); (0x2F898, [0x261DA]); (0x2F899, [0x5F62]);
    (0x2F89A, [0x5F6B]); (0x2F89B, [0x38E3]); (0x2F89C, [0x5F9A]);
    (0x2F89D, [0x5FCD]); (0x2F89E, [0x5FD7]); (0x2F89F, [0x5FF9]);
    (0x2F8A0, [0x6081]); (0x2F8A1, [0x393A]); (0x2F8A2, [0x391C]);
    (0x2F8A3, [0x6094]); (0x2F8A4, [0x226D4]); (0x2F8A5, [0x60C7]);
    (0x2F8A6, [0x6148]); (0x2F8A7, [0x614C]); (0x2F8A8, [0x614E]);
    (0x2F8A9, [0x614C]); (0x2F8AA, [0x617A]); (0x2F8AB, [0x618E]);
    (0x2F8AC, [0x61B2]); (0x2F8AD, [0x61A4]); (0x2F8AE, [0x61AF]);
    (0x2F8AF, [0x61DE]); (0x2F8B0, [0x61F2]); (0x2F8B1, [0x61F6]);
    (0x2F8B2, [0x6210]); (0x2F8B3, [0x621B]); (0x2F8B4, [0x625D]);
    (0x2F8B5, [0x62B1]); (0x2F8B6, [0x62D4]); (0x2F8B7, [0x6350]);
    (0x2F8B8, [0x22B0C]); (0x2F8B9, [0x633D]); (0x2F8BA, [0x62FC]);
    (0x2F8BB, [0x6368]); (0x2F8BC, [0x6383]); (0x2F8BD, [0x63E4]);
    (0x2F8BE, [0x22BF1]); (0x2F8BF, [0x6422]); (0x2F8C0, [0x63C5]);
    (0x2F8C1, [0x63A9]); (0x2F8C2, [0x3A2E]); (0x2F8C3, [0x6469]);
    (0x2F8C4, [0x647E]); (0x2F8C5, [0x649D]); (0x2F8C6, [0x6477]);
    (0x2F8C7, [0x3A6C]); (0x2F8C8, [0x654F]); (0x2F8C9, [0x656C]);
    (0x2F8CA, [0x2300A]); (0x2F8CB, [0x65E3]); (0x2F8CC, [0x66F8]);
    (0x2F8CD, [0x6649]); (0x2F8CE, [0x3B19]); (0x2F8CF, [0x6691]);
    (0x2F8D0, [0x3B08]); (0x2F8D1, [0x3AE4]); (0x2F8D2, [0x5192]);
    (0x2F8D3, [0x5195]); (0x2F8D4, [0x6700]); (0x2F8D5, [0x669C]);
    (0x2F8D6, [0x80AD]); (0x2F8D7, [0x43D9]); (0x2F8D8, [0x6717]);
    (0x2F8D9, [0x671B]); (0x2F8DA, [0x6721]); (0x2F8DB, [0x675E]);
    (0x2F8DC, [0x6753]); (0x2F8DD, [0x233C3]); (0x2F8DE, [0x3B49]);
    (0x2F8DF, [0x67FA]); (0x2F8E0, [0x6785]); (0x2F8E1, [0x6852]);
    (0x2F8E2, [0x6885]); (0x2F8E3, [0x2346D]); (0x2F8E4, [0x688E]);
    (0x2F8E5, [0x681F]); (0x2F8E6, [0x6914]); (0x2F8E7, [0x3B9D]);
    (0x2F8E8, [0x6942]); (0x2F8E9, [0x69A3]); (0x2F8EA, [0x69EA]);
    (0x2F8EB, [0x6AA8]); (0x2F8EC, [0x236A3]); (0x2F8ED, [0x6ADB]);
    (0x2F8EE, [0x3C18]); (0x2F8EF, [0x6B21]); (0x2F8F0, [0x238A7]);
    (0x2F8F1, [0x6B54]); (0x2F8F2, [0x3C4E]); (0x2F8F3, [0x6B72]);
    (0x2F8F4, [0x6B9F]); (0x2F8F5, [0x6BBA]); (0x2F8F6, [0x6BBB]);
    (0x2F8F7, [0x23A8D]); (0x2F8F8, [0x21D0B]); (0x2F8F9, [0x23AFA]);
    (0x2F8FA, [0x6C4E]); (0x2F8FB, [0x23CBC]); (0x2F8FC, [0x6CBF]);
    (0x2F8FD, [0x6CCD]); (0x2F8FE, [0x6C67]); (0x2F8FF, [0x6D16]);
    (0x2F900, [0x6D3E]); (0x2F901, [0x6D77]); (0x2F902, [0x6D41]);
    (0x2F903, [0x6D69]); (0x2F904, [0x6D78]); (0x2F905, [0x6D85]);
    (0x2F906, [0x23D1E]); (0x2F907, [0x6D34]); (0x2F908, [0x6E2F]);
    (0x2F909, [0x6E6E]); (0x2F90A, [0x3D33]); (0x2F90B, [0x6ECB]);
    (0x2F90C, [0x6EC7]); (0x2F90D, [0x23ED1]); (0x2F90E, [0x6DF9]);
    (0x2F90F, [0x6F6E]); (0x2F910, [0x23F5E]); (0x2F911, [0x23F8E]);
    (0x2F912, [0x6FC6]); (0x2F913, [0x7039]); (0x2F914, [0x701E]);
    (0x2F915, [0x701B]); (0x2F916, [0x3D96]); (0x2F917, [0x704A]);
    (0x2F918, [0x707D]); (0x2F919, [0x7077]); (0x2F91A, [0x70AD]);
    (0x2F91B, [0x20525]); (0x2F91C, [0x7145]); (0x2F91D, [0x24263]);
    (0x2F91E, [0x719C]); (0x2F91F, [0x243AB]); (0x2F920, [0x7228]);
    (0x2F921, [0x7235]); (0x2F922, [0x7250]); (0x2F923, [0x24608]);
    (0x2F924, [0x7280]); (0x2F925, [0x7295]); (0x2F926, [0x24735]);
    (0x2F927, [0x24814]); (0x2F928, [0x737A]); (0x2F929, [0x738B]);
    (0x2F92A, [0x3EAC]); (0x2F92B, [0x73A5]); (0x2F92C, [0x3EB8]);
    (0x2F92D, [0x3EB8]); (0x2F92E, [0x7447]); (0x2F92F, [0x745C]);
    (0x2F930, [0x7471]); (0x2F931, [0x7485]); (0x2F932, [0x74CA]);
    (0x2F933, [0x3F1B]); (0x2F934, [0x7524]); (0x2F935, [0x24C36]);
    (0x2F936, [0x753E]); (0x2F937, [0x24C92]); (0x2F938, [0x7570]);
    (0x2F939, [0x2219F]); (0x2F93A, [0x7610]); (0x2F93B, [0x24FA1]);
    (0x2F93C, [0x24FB8]); (0x2F93D, [0x25044]); (0x2F93E, [0x3FFC]);
    (0x2F93F, [0x4008]); (0x2F940, [0x76F4]); (0x2F941, [0x250F3]);
    (0x2F942, [0x250F2]); (0x2F943, [0x25119]); (0x2F944, [0x25133]);
    (0x2F945, [0x771E]); (0x2F946, [0x771F]); (0x2F947, [0x771F]);
    (0x2F948, [0x774A]); (0x2F949, [0x4039]); (0x2F94A, [0x778B]);
    (0x2F94B, [0x4046]); (0x2F94C, [0x4096]); (0x2F94D, [0x2541D]);
    (0x2F94E, [0x784E]); (0x2F94F, [0x788C]); (0x2F950, [0x78CC]);
    (0x2F951, [0x40E3]); (0x2F952, [0x25626]); (0x2F953, [0x7956]);
    (0x2F954, [0x2569A]); (0x2F955, [0x256C5]); (0x2F956, [0x798F]);
    (0x2F957, [0x79EB]); (0x2F958, [0x412F]); (0x2F959, [0x7A40]);
    (0x2F95A, [0x7A4A]); (0x2F95B, [0x7A4F]); (0x2F95C, [0x2597C]);
    (0x2F95D, [0x25AA7]); (0x2F95E, [0x25AA7]); (0x2F95F, [0x7AEE]);
    (0x2F960, [0x4202]); (0x2F961, [0x25BAB]); (0x2F962, [0x7BC6]);
    (0x2F963, [0x7BC9]); (0x2F964, [0x4227]); (0x2F965, [0x25C80]);
    (0x2F966, [0x7CD2]); (0x2F967, [0x42A0]); (0x2F968, [0x7CE8]);
    (0x2F969, [0x7CE3]); (0x2F96A, [0x7D00]); (0x2F96B, [0x25F86]);
    (0x2F96C, [0x7D63]); (0x2F96D, [0x4301]); (0x2F96E, [0x7DC7]);
    (0x2F96F, [0x7E02]); (0x2F970, [0x7E45]); (0x2F971, [0x4334]);
    (0x2F972, [0x26228]); (0x2F973, [0x26247]); (0x2F974, [0x4359]);
    (0x2F975, [0x262D9]); (0x2F976, [0x7F7A]); (0x2F977, [0x2633E]);
    (0x2F978, [0x7F95]); (0x2F979, [0x7FFA]); (0x2F97A, [0x8005]);
    (0x2F97B, [0x264DA]); (0x2F97C, [0x26523]); (0x2F97D, [0x8060]);
    (0x2F97E, [0x265A8]); (0x2F97F, [0x8070]); (0x2F980, [0x2335F]);
    (0x2F981, [0x43D5]); (0x2F982, [0x80B2]); (0x2F983, [0x8103]);
    (0x2F984, [0x440B]); (0x2F985, [0x813E]); (0x2F986, [0x5AB5]);
    (0x2F987, [0x267A7]); (0x2F988, [0x267B5]); (0x2F989, [0x23393]);
    (0x2F98A, [0x2339C]); (0x2F98B, [0x8201]); (0x2F98C, [0x8204]);
    (0x2F98D, [0x8F9E]); (0x2F98E, [0x446B]); (0x2F98F, [0x8291]);
    (0x2F990, [0x828B]); (0x2F991, [0x829D]); (0x2F992, [0x52B3]);
    (0x2F993, [0x82B1]); (0x2F994, [0x82B3]); (0x2F995, [0x82BD]);
    (0x2F996, [0x82E6]); (0x2F997, [0x26B3C]); (0x2F998, [0x82E5]);
    (0x2F999, [0x831D]); (0x2F99A, [0x8363]); (0x2F99B, [0x83AD]);
    (0x2F99C, [0x8323]); (0x2F99D, [0x83BD]); (0x2F99E, [0x83E7]);
    (0x2F99F, [0x8457]); (0x2F9A0, [0x8353]); (0x2F9A1, [0x83CA]);
    (0x2F9A2, [0x83CC]); (0x2F9A3, [0x83DC]); (0x2F9A4, [0x26C36]);
    (0x2F9A5, [0x26D6B]); (0x2F9A6, [0x26CD5]); (0x2F9A7, [0x452B]);
    (0x2F9A8, [0x84F1]); (0x2F9A9, [0x84F3]); (0x2F9AA, [0x8516]);
    (0x2F9AB, [0x273CA]); (0x2F9AC, [0x8564]); (0x2F9AD, [0x26F2C]);
    (0x2F9AE, [0x455D]); (0x2F9AF, [0x4561]); (0x2F9B0, [0x26FB1]);
    (0x2F9B1, [0x270D2]); (0x2F9B2, [0x456B]); (0x2F9B3, [0x8650]);
    (0x2F9B4, [0x865C]); (0x2F9B5, [0x8667]); (0x2F9B6, [0x8669]);
    (0x2F9B7, [0x86A9]); (0x2F9B8, [0x8688]); (0x2F9B9, [0x870E]);
    (0x2F9BA, [0x86E2]); (0x2F9BB, [0x8779]); (0x2F9BC, [0x8728]);
    (0x2F9BD, [0x876B]); (0x2F9BE, [0x8786]); (0x2F9BF, [0x45D7]);
    (0x2F9C0, [0x87E1]); (0x2F9C1, [0x8801]); (0x2F9C2, [0x45F9]);
    (0x2F9C3, [0x8860]); (0x2F9C4, [0x8863]); (0x2F9C5, [0x27667]);
    (0x2F9C6, [0x88D7]); (0x2F9C7, [0x88DE]); (0x2F9C8, [0x4635]);
    (0x2F9C9, [0x88FA]); (0x2F9CA, [0x34BB]); (0x2F9CB, [0x278AE]);
    (0x2F9CC, [0x27966]); (0x2F9CD, [0x46BE]); (0x2F9CE, [0x46C7]);
    (0x2F9CF, [0x8AA0]); (0x2F9D0, [0x8AED]); (0x2F9D1, [0x8B8A]);
    (0x2F9D2, [0x8C55]); (0x2F9D3, [0x27CA8]); (0x2F9D4, [0x8CAB]);
    (0x2F9D5, [0x8CC1]); (0x2F9D6, [0x8D1B]); (0x2F9D7, [0x8D77]);
    (0x2F9D8, [0x27F2F]); (0x2F9D9, [0x20804]); (0x2F9DA, [0x8DCB]);
    (0x2F9DB, [0x8DBC]); (0x2F9DC, [0x8DF0]); (0x2F9DD, [0x208DE]);
    (0x2F9DE, [0x8ED4]); (0x2F9DF, [0x8F38]); (0x2F9E0, [0x285D2]);
    (0x2F9E1, [0x285ED]); (0x2F9E2, [0x9094]); (0x2F9E3, [0x90F1]);
    (0x2F9E4, [0x9111]); (0x2F9E5, [0x2872E]); (0x2F9E6, [0x911B]);
    (0x2F9E7, [0x9238]); (0x2F9E8, [0x92D7]); (0x2F9E9, [0x92D8]);
    (0x2F9EA, [0x927C]); (0x2F9EB, [0x93F9]); (0x2F9EC, [0x9415]);
    (0x2F9ED, [0x28BFA]); (0x2F9EE, [0x958B]); (0x2F9EF, [0x4995]);
    (0x2F9F0, [0x95B7]); (0x2F9F1, [0x28D77]); (0x2F9F2, [0x49E6]);
    (0x2F9F3, [0x96C3]); (0x2F9F4, [0x5DB2]); (0x2F9F5, [0x9723]);
    (0x2F9F6, [0x29145]); (0x2F9F7, [0x2921A]); (0x2F9F8, [0x4A6E]);
    (0x2F9F9, [0x4A76]); (0x2F9FA, [0x97E0]); (0x2F9FB, [0x2940A]);
    (0x2F9FC, [0x4AB2]); (0x2F9FD, [0x29496]); (0x2F9FE, [0x980B]);
    (0x2F9FF, [0x980B]); (0x2FA00, [0x9829]); (0x2FA01, [0x295B6]);
    (0x2FA02, [0x98E2]); (0x2FA03, [0x4B33]); (0x2FA04, [0x9929]);
    (0x2FA05, [0x99A7]); (0x2FA06, [0x99C2]); (0x2FA07, [0x99FE]);
    (0x2FA08, [0x4BCE]); (0x2FA09, [0x29B30]); (0x2FA0A, [0x9B12]);
    (0x2FA0B, [0x9C40]); (0x2FA0C, [0x9CFD]); (0x2FA0D, [0x4CCE]);
    (0x2FA0E, [0x4CED]); (0x2FA0F, [0x9D67]); (0x2FA10, [0x2A0CE]);
    (0x2FA11, [0x4CF8]); (0x2FA12, [0x2A105]); (0x2FA13, [0x2A20E]);
    (0x2FA14, [0x2A291]); (0x2FA15, [0x9EBB]); (0x2FA16, [0x4D56]);
    (0x2FA17, [0x9EF9]); (0x2FA18, [0x9EFE]); (0x2FA19, [0x9F05]);
    (0x2FA1A, [0x9F0F]); (0x2FA1B, [0x9F16]); (0x2FA1C, [0x9F3B]);
    (0x2FA1D, [0x2A600]) ].

(** Canonical combining classes that are not zero: (first, last, class). *)
Definition ccc_table : list (N * N * N) :=
  [
    (0x300, 0x314, 230); (0x315, 0x315, 232); (0x316, 0x319, 220);
    (0x31A, 0x31A, 232); (0x31B, 0x31B, 216); (0x31C, 0x320, 220);
    (0x321, 0x322, 202); (0x323, 0x326, 220); (0x327, 0x328, 202);
    (0x329, 0x333, 220); (0x334, 0x338, 1); (0x339, 0x33C, 220);
    (0x33D, 0x344, 230); (0x345, 0x345, 240); (0x346, 0x346, 230);
    (0x347, 0x349, 220); (0x34A, 0x34C, 230); (0x34D, 0x34E, 220);
    (0x350, 0x352, 230); (0x353, 0x356, 220); (0x357, 0x357, 230);
    (0x358, 0x358, 232); (0x359, 0x35A, 220); (0x35B, 0x35B, 230);
    (0x35C, 0x35C, 233); (0x35D, 0x35E, 234); (0x35F, 0x35F, 233);
    (0x360, 0x361, 234); (0x362, 0x362, 233); (0x363, 0x36F, 230);
    (0x483, 0x487, 230); (0x591, 0x591, 220); (0x592, 0x595, 230);
    (0x596, 0x596, 220); (0x597, 0x599, 230); (0x59A, 0x59A, 222);
    (0x59B, 0x59B, 220); (0x59C, 0x5A1, 230); (0x5A2, 0x5A7, 220);
    (0x5A8, 0x5A9, 230); (0x5AA, 0x5AA, 220); (0x5AB, 0x5AC, 230);
    (0x5AD, 0x5AD, 222); (0x5AE, 0x5AE, 228); (0x5AF, 0x5AF, 230);
    (0x5B0, 0x5B0, 10); (0x5B1, 0x5B1, 11); (0x5B2, 0x5B2, 12);
    (0x5B3, 0x5B3, 13); (0x5B4, 0x5B4, 14); (0x5B5, 0x5B5, 15);
    (0x5B6, 0x5B6, 16); (0x5B7, 0x5B7, 17); (0x5B8, 0x5B8, 18);
    (0x5B9, 0x5BA, 19); (0x5BB, 0x5BB, 20); (0x5BC, 0x5BC, 21);
    (0x5BD, 0x5BD, 22); (0x5BF, 0x5BF, 23); (0x5C1, 0x5C1, 24);
    (0x5C2, 0x5C2, 25); (0x5C4, 0x5C4, 230); (0x5C5, 0x5C5, 220);
    (0x5C7, 0x5C7, 18); (0x610, 0x617, 230); (0x618, 0x618, 30);
    (0x619, 0x619, 31); (0x61A, 0x61A, 32); (0x64B, 0x64B, 27);
    (0x64C, 0x64C, 28); (0x64D, 0x64D, 29); (0x64E, 0x64E, 30);
    (0x64F, 0x64F, 31); (0x650, 0x650, 32); (0x651, 0x651, 33);
    (0x652, 0x652, 34); (0x653, 0x654, 230); (0x655, 0x656, 220);
    (0x657, 0x65B, 230); (0x65C, 0x65C, 220); (0x65D, 0x65E, 230);
    (0x65F, 0x65F, 220); (0x670, 0x670, 35); (0x6D6, 0x6DC, 230);
    (0x6DF, 0x6E2, 230); (0x6E3, 0x6E3, 220); (0x6E4, 0x6E4, 230);
    (0x6E7, 0x6E8, 230); (0x6EA, 0x6EA, 220); (0x6EB, 0x6EC, 230);
    (0x6ED, 0x6ED, 220); (0x711, 0x711, 36); (0x730, 0x730, 230);
    (0x731, 0x731, 220); (0x732, 0x733, 230); (0x734, 0x734, 220);
    (0x735, 0x736, 230); (0x737, 0x739, 220); (0x73A, 0x73A, 230);
    (0x73B, 0x73C, 220); (0x73D, 0x73D, 230); (0x73E, 0x73E, 220);
    (0x73F, 0x741, 230); (0x742, 0x742, 220); (0x743, 0x743, 230);
    (0x744, 0x744, 220); (0x745, 0x745, 230); (0x746, 0x746, 220);
    (0x747, 0x747, 230); (0x748, 0x748, 220); (0x749, 0x74A, 230);
    (0x7EB, 0x7F1, 230); (0x7F2, 0x7F2, 220); (0x7F3, 0x7F3, 230);
    (0x7FD, 0x7FD, 220); (0x816, 0x819, 230); (0x81B, 0x823, 230);
    (0x825, 0x827, 230); (0x829, 0x82D, 230); (0x859, 0x85B, 220);
    (0x898, 0x898, 230); (0x899, 0x89B, 220); (0x89C, 0x89F, 230);
    (0x8CA, 0x8CE, 230); (0x8CF, 0x8D3, 220); (0x8D4, 0x8E1, 230);
    (0x8E3, 0x8E3, 220); (0x8E4, 0x8E5, 230); (0x8E6, 0x8E6, 220);
    (0x8E7, 0x8E8, 230); (0x8E9, 0x8E9, 220); (0x8EA, 0x8EC, 230);
    (0x8ED, 0x8EF, 220); (0x8F0, 0x8F0, 27); (0x8F1, 0x8F1, 28);
    (0x8F2, 0x8F2, 29); (0x8F3, 0x8F5, 230); (0x8F6, 0x8F6, 220);
    (0x8F7, 0x8F8, 230); (0x8F9, 0x8FA, 220); (0x8FB, 0x8FF, 230);
    (0x93C, 0x93C, 7); (0x94D, 0x94D, 9); (0x951, 0x951, 230);
    (0x952, 0x952, 220); (0x953, 0x954, 230); (0x9BC, 0x9BC, 7);
    (0x9CD, 0x9CD, 9); (0x9FE, 0x9FE, 230); (0xA3C, 0xA3C, 7);
    (0xA4D, 0xA4D, 9); (0xABC, 0xABC, 7); (0xACD, 0xACD, 9);
    (0xB3C, 0xB3C, 7); (0xB4D, 0xB4D, 9); (0xBCD, 0xBCD, 9);
    (0xC3C, 0xC3C, 7); (0xC4D, 0xC4D, 9); (0xC55, 0xC55, 84);
    (0xC56, 0xC56, 91); (0xCBC, 0xCBC, 7); (0xCCD, 0xCCD, 9);
    (0xD3B, 0xD3C, 9); (0xD4D, 0xD4D, 9); (0xDCA, 0xDCA, 9);
    (0xE38, 0xE39, 103); (0xE3A, 0xE3A, 9); (0xE48, 0xE4B, 107);
    (0xEB8, 0xEB9, 118); (0xEBA, 0xEBA, 9); (0xEC8, 0xECB, 122);
    (0xF18, 0xF19, 220); (0xF35, 0xF35, 220); (0xF37, 0xF37, 220);
    (0xF39, 0xF39, 216); (0xF71, 0xF71, 129); (0xF72, 0xF72, 130);
    (0xF74, 0xF74, 132); (0xF7A, 0xF7D, 130); (0xF80, 0xF80, 130);
    (0xF82, 0xF83, 230); (0xF84, 0xF84, 9); (0xF86, 0xF87, 230);
    (0xFC6, 0xFC6, 220); (0x1037, 0x1037, 7); (0x1039, 0x103A, 9);
    (0x108D, 0x108D, 220); (0x135D, 0x135F, 230); (0x1714, 0x1715, 9);
    (0x1734, 0x1734, 9); (0x17D2, 0x17D2, 9); (0x17DD, 0x17DD, 230);
    (0x18A9, 0x18A9, 228); (0x1939, 0x1939, 222); (0x193A, 0x193A, 230);
    (0x193B, 0x193B, 220); (0x1A17, 0x1A17, 230); (0x1A18, 0x1A18, 220);
    (0x1A60, 0x1A60, 9); (0x1A75, 0x1A7C, 230); (0x1A7F, 0x1A7F, 220);
    (0x1AB0, 0x1AB4, 230); (0x1AB5, 0x1ABA, 220); (0x1ABB, 0x1ABC, 230);
    (0x1ABD, 0x1ABD, 220); (0x1ABF, 0x1AC0, 220); (0x1AC1, 0x1AC2, 230);
    (0x1AC3, 0x1AC4, 220); (0x1AC5, 0x1AC9, 230); (0x1ACA, 0x1ACA, 220);
    (0x1ACB, 0x1ACE, 230); (0x1B34, 0x1B34, 7); (0x1B44, 0x1B44, 9);
    (0x1B6B, 0x1B6B, 230); (0x1B6C, 0x1B6C, 220); (0x1B6D, 0x1B73, 230);
    (0x1BAA, 0x1BAB, 9); (0x1BE6, 0x1BE6, 7); (0x1BF2, 0x1BF3, 9);
    (0x1C37, 0x1C37, 7); (0x1CD0, 0x1CD2, 230); (0x1CD4, 0x1CD4, 1);
    (0x1CD5, 0x1CD9, 220); (0x1CDA, 0x1CDB, 230); (0x1CDC, 0x1CDF, 220);
    (0x1CE0, 0x1CE0, 230); (0x1CE2, 0x1CE8, 1); (0x1CED, 0x1CED, 220);
    (0x1CF4, 0x1CF4, 230); (0x1CF8, 0x1CF9, 230); (0x1DC0, 0x1DC1, 230);
    (0x1DC2, 0x1DC2, 220); (0x1DC3, 0x1DC9, 230); (0x1DCA, 0x1DCA, 220);
    (0x1DCB, 0x1DCC, 230); (0x1DCD, 0x1DCD, 234); (0x1DCE, 0x1DCE, 214);
    (0x1DCF, 0x1DCF, 220); (0x1DD0, 0x1DD0, 202); (0x1DD1, 0x1DF5, 230);
    (0x1DF6, 0x1DF6, 232); (0x1DF7, 0x1DF8, 228); (0x1DF9, 0x1DF9, 220);
    (0x1DFA, 0x1DFA, 218); (0x1DFB, 0x1DFB, 230); (0x1DFC, 0x1DFC, 233);
    (0x1DFD, 0x1DFD, 220); (0x1DFE, 0x1DFE, 230); (0x1DFF, 0x1DFF, 220);
    (0x20D0, 0x20D1, 230); (0x20D2, 0x20D3, 1); (0x20D4, 0x20D7, 230);
    (0x20D8, 0x20DA, 1); (0x20DB, 0x20DC, 230); (0x20E1, 0x20E1, 230);
    (0x20E5, 0x20E6, 1); (0x20E7, 0x20E7, 230); (0x20E8, 0x20E8, 220);
    (0x20E9, 0x20E9, 230); (0x20EA, 0x20EB, 1); (0x20EC, 0x20EF, 220);
    (0x20F0, 0x20F0, 230); (0x2CEF, 0x2CF1, 230); (0x2D7F, 0x2D7F, 9);
    (0x2DE0, 0x2DFF, 230); (0x302A, 0x302A, 218); (0x302B, 0x302B, 228);
    (0x302C, 0x302C, 232); (0x302D, 0x302D, 222); (0x302E, 0x302F, 224);
    (0x3099, 0x309A, 8); (0xA66F, 0xA66F, 230); (0xA674, 0xA67D, 230);
    (0xA69E, 0xA69F, 230); (0xA6F0, 0xA6F1, 230); (0xA806, 0xA806, 9);
    (0xA82C, 0xA82C, 9); (0xA8C4, 0xA8C4, 9); (0xA8E0, 0xA8F1, 230);
    (0xA92B, 0xA92D, 220); (0xA953, 0xA953, 9); (0xA9B3, 0xA9B3, 7);
    (0xA9C0, 0xA9C0, 9); (0xAAB0, 0xAAB0, 230); (0xAAB2, 0xAAB3, 230);
    (0xAAB4, 0xAAB4, 220); (0xAAB7, 0xAAB8, 230); (0xAABE, 0xAABF, 230);
    (0xAAC1, 0xAAC1, 230); (0xAAF6, 0xAAF6, 9); (0xABED, 0xABED, 9);
    (0xFB1E, 0xFB1E, 26); (0xFE20, 0xFE26, 230); (0xFE27, 0xFE2D, 220);
    (0xFE2E, 0xFE2F, 230); (0x101FD, 0x101FD, 220); (0x102E0, 0x102E0, 220);
    (0x10376, 0x1037A, 230); (0x10A0D, 0x10A0D, 220); (0x10A0F, 0x10A0F, 230);
    (0x10A38, 0x10A38, 230); (0x10A39, 0x10A39, 1); (0x10A3A, 0x10A3A, 220);
    (0x10A3F, 0x10A3F, 9); (0x10AE5, 0x10AE5, 230); (0x10AE6, 0x10AE6, 220);
    (0x10D24, 0x10D27, 230); (0x10EAB, 0x10EAC, 230); (0x10F46, 0x10F47, 220);
    (0x10F48, 0x10F4A, 230); (0x10F4B, 0x10F4B, 220); (0x10F4C, 0x10F4C, 230);
    (0x10F4D, 0x10F50, 220); (0x10F82, 0x10F82, 230); (0x10F83, 0x10F83, 220);
    (0x10F84, 0x10F84, 230); (0x10F85, 0x10F85, 220); (0x11046, 0x11046, 9);
    (0x11070, 0x11070, 9); (0x1107F, 0x1107F, 9); (0x110B9, 0x110B9, 9);
    (0x110BA, 0x110BA, 7); (0x11100, 0x11102, 230); (0x11133, 0x11134, 9);
    (0x11173, 0x11173, 7); (0x111C0, 0x111C0, 9); (0x111CA, 0x111CA, 7);
    (0x11235, 0x11235, 9); (0x11236, 0x11236, 7); (0x112E9, 0x112E9, 7);
    (0x112EA, 0x112EA, 9); (0x1133B, 0x1133C, 7); (0x1134D, 0x1134D, 9);
    (0x11366, 0x1136C, 230); (0x11370, 0x11374, 230); (0x11442, 0x11442, 9);
    (0x11446, 0x11446, 7); (0x1145E, 0x1145E, 230); (0x114C2, 0x114C2, 9);
    (0x114C3, 0x114C3, 7); (0x115BF, 0x115BF, 9); (0x115C0, 0x115C0, 7);
    (0x1163F, 0x1163F, 9); (0x116B6, 0x116B6, 9); (0x116B7, 0x116B7, 7);
    (0x1172B, 0x1172B, 9); (0x11839, 0x11839, 9); (0x1183A, 0x1183A, 7);
    (0x1193D, 0x1193E, 9); (0x11943, 0x11943, 7); (0x119E0, 0x119E0, 9);
    (0x11A34, 0x11A34, 9); (0x11A47, 0x11A47, 9); (0x11A99, 0x11A99, 9);
    (0x11C3F, 0x11C3F, 9); (0x11D42, 0x11D42, 7); (0x11D44, 0x11D45, 9);
    (0x11D97, 0x11D97, 9); (0x16AF0, 0x16AF4, 1); (0x16B30, 0x16B36, 230);
    (0x16FF0, 0x16FF1, 6); (0x1BC9E, 0x1BC9E, 1); (0x1D165, 0x1D166, 216);
    (0x1D167, 0x1D169, 1); (0x1D16D, 0x1D16D, 226); (0x1D16E, 0x1D172, 216);
    (0x1D17B, 0x1D182, 220); (0x1D185, 0x1D189, 230); (0x1D18A, 0x1D18B, 220);
    (0x1D1AA, 0x1D1AD, 230); (0x1D242, 0x1D244, 230); (0x1E000, 0x1E006, 230);
    (0x1E008, 0x1E018, 230); (0x1E01B, 0x1E021, 230); (0x1E023, 0x1E024, 230);
    (0x1E026, 0x1E02A, 230); (0x1E130, 0x1E136, 230); (0x1E2AE, 0x1E2AE, 230);
    (0x1E2EC, 0x1E2EF, 230); (0x1E8D0, 0x1E8D6, 220); (0x1E944, 0x1E949, 230);
    (0x1E94A, 0x1E94A, 7) ].

(** General category Mn (nonspacing mark). *)
Definition Mn_ranges : list (N * N) :=
  [
    (0x300, 0x36F); (0x483, 0x487); (0x591, 0x5BD); (0x5BF, 0x5BF);
    (0x5C1, 0x5C2); (0x5C4, 0x5C5); (0x5C7, 0x5C7); (0x610, 0x61A);
    (0x64B, 0x65F); (0x670, 0x670); (0x6D6, 0x6DC); (0x6DF, 0x6E4);
    (0x6E7, 0x6E8); (0x6EA, 0x6ED); (0x711, 0x711); (0x730, 0x74A);
    (0x7A6, 0x7B0); (0x7EB, 0x7F3); (0x7FD, 0x7FD); (0x816, 0x819);
    (0x81B, 0x823); (0x825, 0x827); (0x829, 0x82D); (0x859, 0x85B);
    (0x898, 0x89F); (0x8CA, 0x8E1); (0x8E3, 0x902); (0x93A, 0x93A);
    (0x93C, 0x93C); (0x941, 0x948); (0x94D, 0x94D); (0x951, 0x957);
    (0x962, 0x963); (0x981, 0x981); (0x9BC, 0x9BC); (0x9C1, 0x9C4);
    (0x9CD, 0x9CD); (0x9E2, 0x9E3); (0x9FE, 0x9FE); (0xA01, 0xA02);
    (0xA3C, 0xA3C); (0xA41, 0xA42); (0xA47, 0xA48); (0xA4B, 0xA4D);
    (0xA51, 0xA51); (0xA70, 0xA71); (0xA75, 0xA75); (0xA81, 0xA82);
    (0xABC, 0xABC); (0xAC1, 0xAC5); (0xAC7, 0xAC8); (0xACD, 0xACD);
    (0xAE2, 0xAE3); (0xAFA, 0xAFF); (0xB01, 0xB01); (0xB3C, 0xB3C);
    (0xB3F, 0xB3F); (0xB41, 0xB44); (0xB4D, 0xB4D); (0xB55, 0xB56);
    (0xB62, 0xB63); (0xB82, 0xB82); (0xBC0, 0xBC0); (0xBCD, 0xBCD);
    (0xC00, 0xC00); (0xC04, 0xC04); (0xC3C, 0xC3C); (0xC3E, 0xC40);
    (0xC46, 0xC48); (0xC4A, 0xC4D); (0xC55, 0xC56); (0xC62, 0xC63);
    (0xC81, 0xC81); (0xCBC, 0xCBC); (0xCBF, 0xCBF); (0xCC6, 0xCC6);
    (0xCCC, 0xCCD); (0xCE2, 0xCE3); (0xD00, 0xD01); (0xD3B, 0xD3C);
    (0xD41, 0xD44); (0xD4D, 0xD4D); (0xD62, 0xD63); (0xD81, 0xD81);
    (0xDCA, 0xDCA); (0xDD2, 0xDD4); (0xDD6, 0xDD6); (0xE31, 0xE31);
    (0xE34, 0xE3A); (0xE47, 0xE4E); (0xEB1, 0xEB1); (0xEB4, 0xEBC);
    (0xEC8, 0xECD); (0xF18, 0xF19); (0xF35, 0xF35); (0xF37, 0xF37);
    (0xF39, 0xF39); (0xF71, 0xF7E); (0xF80, 0xF84); (0xF86, 0xF87);
    (0xF8D, 0xF97); (0xF99, 0xFBC); (0xFC6, 0xFC6); (0x102D, 0x1030);
    (0x1032, 0x1037); (0x1039, 0x103A); (0x103D, 0x103E); (0x1058, 0x1059);
    (0x105E, 0x1060); (0x1071, 0x1074); (0x1082, 0x1082); (0x1085, 0x1086);
    (0x108D, 0x108D); (0x109D, 0x109D); (0x135D, 0x135F); (0x1712, 0x1714);
    (0x1732, 0x1733); (0x1752, 0x1753); (0x1772, 0x1773); (0x17B4, 0x17B5);
    (0x17B7, 0x17BD); (0x17C6, 0x17C6); (0x17C9, 0x17D3); (0x17DD, 0x17DD);
    (0x180B, 0x180D); (0x180F, 0x180F); (0x1885, 0x1886); (0x18A9, 0x18A9);
    (0x1920, 0x1922); (0x1927, 0x1928); (0x1932, 0x1932); (0x1939, 0x193B);
    (0x1A17, 0x1A18); (0x1A1B, 0x1A1B); (0x1A56, 0x1A56); (0x1A58, 0x1A5E);
    (0x1A60, 0x1A60); (0x1A62, 0x1A62); (0x1A65, 0x1A6C); (0x1A73, 0x1A7C);
    (0x1A7F, 0x1A7F); (0x1AB0, 0x1ABD); (0x1ABF, 0x1ACE); (0x1B00, 0x1B03);
    (0x1B34, 0x1B34); (0x1B36, 0x1B3A); (0x1B3C, 0x1B3C); (0x1B42, 0x1B42);
    (0x1B6B, 0x1B73); (0x1B80, 0x1B81); (0x1BA2, 0x1BA5); (0x1BA8, 0x1BA9);
    (0x1BAB, 0x1BAD); (0x1BE6, 0x1BE6); (0x1BE8, 0x1BE9); (0x1BED, 0x1BED);
    (0x1BEF, 0x1BF1); (0x1C2C, 0x1C33); (0x1C36, 0x1C37); (0x1CD0, 0x1CD2);
    (0x1CD4, 0x1CE0); (0x1CE2, 0x1CE8); (0x1CED, 0x1CED); (0x1CF4, 0x1CF4);
    (0x1CF8, 0x1CF9); (0x1DC0, 0x1DFF); (0x20D0, 0x20DC); (0x20E1, 0x20E1);
    (0x20E5, 0x20F0); (0x2CEF, 0x2CF1); (0x2D7F, 0x2D7F); (0x2DE0, 0x2DFF);
    (0x302A, 0x302D); (0x3099, 0x309A); (0xA66F, 0xA66F); (0xA674, 0xA67D);
    (0xA69E, 0xA69F); (0xA6F0, 0xA6F1); (0xA802, 0xA802); (0xA806, 0xA806);
    (0xA80B, 0xA80B); (0xA825, 0xA826); (0xA82C, 0xA82C); (0xA8C4, 0xA8C5);
    (0xA8E0, 0xA8F1); (0xA8FF, 0xA8FF); (0xA926, 0xA92D); (0xA947, 0xA951);
    (0xA980, 0xA982); (0xA9B3, 0xA9B3); (0xA9B6, 0xA9B9); (0xA9BC, 0xA9BD);
    (0xA9E5, 0xA9E5); (0xAA29, 0xAA2E); (0xAA31, 0xAA32); (0xAA35, 0xAA36);
    (0xAA43, 0xAA43); (0xAA4C, 0xAA4C); (0xAA7C, 0xAA7C); (0xAAB0, 0xAAB0);
    (0xAAB2, 0xAAB4); (0xAAB7, 0xAAB8); (0xAABE, 0xAABF); (0xAAC1, 0xAAC1);
    (0xAAEC, 0xAAED); (0xAAF6, 0xAAF6); (0xABE5, 0xABE5); (0xABE8, 0xABE8);
    (0xABED, 0xABED); (0xFB1E, 0xFB1E); (0xFE00, 0xFE0F); (0xFE20, 0xFE2F);
    (0x101FD, 0x101FD); (0x102E0, 0x102E0); (0x10376, 0x1037A);
    (0x10A01, 0x10A03); (0x10A05, 0x10A06); (0x10A0C, 0x10A0F);
    (0x10A38, 0x10A3A); (0x10A3F, 0x10A3F); (0x10AE5, 0x10AE6);
    (0x10D24, 0x10D27); (0x10EAB, 0x10EAC); (0x10F46, 0x10F50);
    (0x10F82, 0x10F85); (0x11001, 0x11001); (0x11038, 0x11046);
    (0x11070, 0x11070); (0x11073, 0x11074); (0x1107F, 0x11081);
    (0x110B3, 0x110B6); (0x110B9, 0x110BA); (0x110C2, 0x110C2);
    (0x11100, 0x11102); (0x11127, 0x1112B); (0x1112D, 0x11134);
    (0x11173, 0x11173); (0x11180, 0x11181); (0x111B6, 0x111BE);
    (0x111C9, 0x111CC); (0x111CF, 0x111CF); (0x1122F, 0x11231);
    (0x11234, 0x11234); (0x11236, 0x11237); (0x1123E, 0x1123E);
    (0x112DF, 0x112DF); (0x112E3, 0x112EA); (0x11300, 0x11301);
    (0x1133B, 0x1133C); (0x11340, 0x11340); (0x11366, 0x1136C);
    (0x11370, 0x11374); (0x11438, 0x1143F); (0x11442, 0x11444);
    (0x11446, 0x11446); (0x1145E, 0x1145E); (0x114B3, 0x114B8);
    (0x114BA, 0x114BA); (0x114BF, 0x114C0); (0x114C2, 0x114C3);
    (0x115B2, 0x115B5); (0x115BC, 0x115BD); (0x115BF, 0x115C0);
    (0x115DC, 0x115DD); (0x11633, 0x1163A); (0x1163D, 0x1163D);
    (0x1163F, 0x11640); (0x116AB, 0x116AB); (0x116AD, 0x116AD);
    (0x116B0, 0x116B5); (0x116B7, 0x116B7); (0x1171D, 0x1171F);
    (0x11722, 0x11725); (0x11727, 0x1172B); (0x1182F, 0x11837);
    (0x11839, 0x1183A); (0x1193B, 0x1193C); (0x1193E, 0x1193E);
    (0x11943, 0x11943); (0x119D4, 0x119D7); (0x119DA, 0x119DB);
    (0x119E0, 0x119E0); (0x11A01, 0x11A0A); (0x11A33, 0x11A38);
    (0x11A3B, 0x11A3E); (0x11A47, 0x11A47); (0x11A51, 0x11A56);
    (0x11A59, 0x11A5B); (0x11A8A, 0x11A96); (0x11A98, 0x11A99);
    (0x11C30, 0x11C36); (0x11C38, 0x11C3D); (0x11C3F, 0x11C3F);
    (0x11C92, 0x11CA7); (0x11CAA, 0x11CB0); (0x11CB2, 0x11CB3);
    (0x11CB5, 0x11CB6); (0x11D31, 0x11D36); (0x11D3A, 0x11D3A);
    (0x11D3C, 0x11D3D); (0x11D3F, 0x11D45); (0x11D47, 0x11D47);
    (0x11D90, 0x11D91); (0x11D95, 0x11D95); (0x11D97, 0x11D97);
    (0x11EF3, 0x11EF4); (0x16AF0, 0x16AF4); (0x16B30, 0x16B36);
    (0x16F4F, 0x16F4F); (0x16F8F, 0x16F92); (0x16FE4, 0x16FE4);
    (0x1BC9D, 0x1BC9E); (0x1CF00, 0x1CF2D); (0x1CF30, 0x1CF46);
    (0x1D167, 0x1D169); (0x1D17B, 0x1D182); (0x1D185, 0x1D18B);
    (0x1D1AA, 0x1D1AD); (0x1D242, 0x1D244); (0x1DA00, 0x1DA36);
    (0x1DA3B, 0x1DA6C); (0x1DA75, 0x1DA75); (0x1DA84, 0x1DA84);
    (0x1DA9B, 0x1DA9F); (0x1DAA1, 0x1DAAF); (0x1E000, 0x1E006);
    (0x1E008, 0x1E018); (0x1E01B, 0x1E021); (0x1E023, 0x1E024);
    (0x1E026, 0x1E02A); (0x1E130, 0x1E136); (0x1E2AE, 0x1E2AE);
    (0x1E2EC, 0x1E2EF); (0x1E8D0, 0x1E8D6); (0x1E944, 0x1E94A);
    (0xE0100, 0xE01EF) ].

(** [str.isspace]. *)
Definition space_ranges : list (N * N) :=
  [
    (0x9, 0xD); (0x1C, 0x20); (0x85, 0x85); (0xA0, 0xA0); (0x1680, 0x1680);
    (0x2000, 0x200A); (0x2028, 0x2029); (0x202F, 0x202F); (0x205F, 0x205F);
    (0x3000, 0x3000) ].

(** [str.isalpha]: the letter categories Lu, Ll, Lt, Lm and Lo. *)
Definition alpha_ranges : list (N * N) :=
  [
    (0x41, 0x5A); (0x61, 0x7A); (0xAA, 0xAA); (0xB5, 0xB5); (0xBA, 0xBA);
    (0xC0, 0xD6); (0xD8, 0xF6); (0xF8, 0x2C1); (0x2C6, 0x2D1); (0x2E0, 0x2E4);
    (0x2EC, 0x2EC); (0x2EE, 0x2EE); (0x370, 0x374); (0x376, 0x377);
    (0x37A, 0x37D); (0x37F, 0x37F); (0x386, 0x386); (0x388, 0x38A);
    (0x38C, 0x38C); (0x38E, 0x3A1); (0x3A3, 0x3F5); (0x3F7, 0x481);
    (0x48A, 0x52F); (0x531, 0x556); (0x559, 0x559); (0x560, 0x588);
    (0x5D0, 0x5EA); (0x5EF, 0x5F2); (0x620, 0x64A); (0x66E, 0x66F);
    (0x671, 0x6D3); (0x6D5, 0x6D5); (0x6E5, 0x6E6); (0x6EE, 0x6EF);
    (0x6FA, 0x6FC); (0x6FF, 0x6FF); (0x710, 0x710); (0x712, 0x72F);
    (0x74D, 0x7A5); (0x7B1, 0x7B1); (0x7CA, 0x7EA); (0x7F4, 0x7F5);
    (0x7FA, 0x7FA); (0x800, 0x815); (0x81A, 0x81A); (0x824, 0x824);
    (0x828, 0x828); (0x840, 0x858); (0x860, 0x86A); (0x870, 0x887);
    (0x889, 0x88E); (0x8A0, 0x8C9); (0x904, 0x939); (0x93D, 0x93D);
    (0x950, 0x950); (0x958, 0x961); (0x971, 0x980); (0x985, 0x98C);
    (0x98F, 0x990); (0x993, 0x9A8); (0x9AA, 0x9B0); (0x9B2, 0x9B2);
    (0x9B6, 0x9B9); (0x9BD, 0x9BD); (0x9CE, 0x9CE); (0x9DC, 0x9DD);
    (0x9DF, 0x9E1); (0x9F0, 0x9F1); (0x9FC, 0x9FC); (0xA05, 0xA0A);
    (0xA0F, 0xA10); (0xA13, 0xA28); (0xA2A, 0xA30); (0xA32, 0xA33);
    (0xA35, 0xA36); (0xA38, 0xA39); (0xA59, 0xA5C); (0xA5E, 0xA5E);
    (0xA72, 0xA74); (0xA85, 0xA8D); (0xA8F, 0xA91); (0xA93, 0xAA8);
    (0xAAA, 0xAB0); (0xAB2, 0xAB3); (0xAB5, 0xAB9); (0xABD, 0xABD);
    (0xAD0, 0xAD0); (0xAE0, 0xAE1); (0xAF9, 0xAF9); (0xB05, 0xB0C);
    (0xB0F, 0xB10); (0xB13, 0xB28); (0xB2A, 0xB30); (0xB32, 0xB33);
    (0xB35, 0xB39); (0xB3D, 0xB3D); (0xB5C, 0xB5D); (0xB5F, 0xB61);
    (0xB71, 0xB71); (0xB83, 0xB83); (0xB85, 0xB8A); (0xB8E, 0xB90);
    (0xB92, 0xB95); (0xB99, 0xB9A); (0xB9C, 0xB9C); (0xB9E, 0xB9F);
    (0xBA3, 0xBA4); (0xBA8, 0xBAA); (0xBAE, 0xBB9); (0xBD0, 0xBD0);
    (0xC05, 0xC0C); (0xC0E, 0xC10); (0xC12, 0xC28); (0xC2A, 0xC39);
    (0xC3D, 0xC3D); (0xC58, 0xC5A); (0xC5D, 0xC5D); (0xC60, 0xC61);
    (0xC80, 0xC80); (0xC85, 0xC8C); (0xC8E, 0xC90); (0xC92, 0xCA8);
    (0xCAA, 0xCB3); (0xCB5, 0xCB9); (0xCBD, 0xCBD); (0xCDD, 0xCDE);
    (0xCE0, 0xCE1); (0xCF1, 0xCF2); (0xD04, 0xD0C); (0xD0E, 0xD10);
    (0xD12, 0xD3A); (0xD3D, 0xD3D); (0xD4E, 0xD4E); (0xD54, 0xD56);
    (0xD5F, 0xD61); (0xD7A, 0xD7F); (0xD85, 0xD96); (0xD9A, 0xDB1);
    (0xDB3, 0xDBB); (0xDBD, 0xDBD); (0xDC0, 0xDC6); (0xE01, 0xE30);
    (0xE32, 0xE33); (0xE40, 0xE46); (0xE81, 0xE82); (0xE84, 0xE84);
    (0xE86, 0xE8A); (0xE8C, 0xEA3); (0xEA5, 0xEA5); (0xEA7, 0xEB0);
    (0xEB2, 0xEB3); (0xEBD, 0xEBD); (0xEC0, 0xEC4); (0xEC6, 0xEC6);
    (0xEDC, 0xEDF); (0xF00, 0xF00); (0xF40, 0xF47); (0xF49, 0xF6C);
    (0xF88, 0xF8C); (0x1000, 0x102A); (0x103F, 0x103F); (0x1050, 0x1055);
    (0x105A, 0x105D); (0x1061, 0x1061); (0x1065, 0x1066); (0x106E, 0x1070);
    (0x1075, 0x1081); (0x108E, 0x108E); (0x10A0, 0x10C5); (0x10C7, 0x10C7);
    (0x10CD, 0x10CD); (0x10D0, 0x10FA); (0x10FC, 0x1248); (0x124A, 0x124D);
    (0x1250, 0x1256); (0x1258, 0x1258); (0x125A, 0x125D); (0x1260, 0x1288);
    (0x128A, 0x128D); (0x1290, 0x12B0); (0x12B2, 0x12B5); (0x12B8, 0x12BE);
    (0x12C0, 0x12C0); (0x12C2, 0x12C5); (0x12C8, 0x12D6); (0x12D8, 0x1310);
    (0x1312, 0x1315); (0x1318, 0x135A); (0x1380, 0x138F); (0x13A0, 0x13F5);
    (0x13F8, 0x13FD); (0x1401, 0x166C); (0x166F, 0x167F); (0x1681, 0x169A);
    (0x16A0, 0x16EA); (0x16F1, 0x16F8); (0x1700, 0x1711); (0x171F, 0x1731);
    (0x1740, 0x1751); (0x1760, 0x176C); (0x176E, 0x1770); (0x1780, 0x17B3);
    (0x17D7, 0x17D7); (0x17DC, 0x17DC); (0x1820, 0x1878); (0x1880, 0x1884);
    (0x1887, 0x18A8); (0x18AA, 0x18AA); (0x18B0, 0x18F5); (0x1900, 0x191E);
    (0x1950, 0x196D); (0x1970, 0x1974); (0x1980, 0x19AB); (0x19B0, 0x19C9);
    (0x1A00, 0x1A16); (0x1A20, 0x1A54); (0x1AA7, 0x1AA7); (0x1B05, 0x1B33);
    (0x1B45, 0x1B4C); (0x1B83, 0x1BA0); (0x1BAE, 0x1BAF); (0x1BBA, 0x1BE5);
    (0x1C00, 0x1C23); (0x1C4D, 0x1C4F); (0x1C5A, 0x1C7D); (0x1C80, 0x1C88);
    (0x1C90, 0x1CBA); (0x1CBD, 0x1CBF); (0x1CE9, 0x1CEC); (0x1CEE, 0x1CF3);
    (0x1CF5, 0x1CF6); (0x1CFA, 0x1CFA); (0x1D00, 0x1DBF); (0x1E00, 0x1F15);
    (0x1F18, 0x1F1D); (0x1F20, 0x1F45); (0x1F48, 0x1F4D); (0x1F50, 0x1F57);
    (0x1F59, 0x1F59); (0x1F5B, 0x1F5B); (0x1F5D, 0x1F5D); (0x1F5F, 0x1F7D);
    (0x1F80, 0x1FB4); (0x1FB6, 0x1FBC); (0x1FBE, 0x1FBE); (0x1FC2, 0x1FC4);
    (0x1FC6, 0x1FCC); (0x1FD0, 0x1FD3); (0x1FD6, 0x1FDB); (0x1FE0, 0x1FEC);
    (0x1FF2, 0x1FF4); (0x1FF6, 0x1FFC); (0x2071, 0x2071); (0x207F, 0x207F);
    (0x2090, 0x209C); (0x2102, 0x2102); (0x2107, 0x2107); (0x210A, 0x2113);
    (0x2115, 0x2115); (0x2119, 0x211D); (0x2124, 0x2124); (0x2126, 0x2126);
    (0x2128, 0x2128); (0x212A, 0x212D); (0x212F, 0x2139); (0x213C, 0x213F);
    (0x2145, 0x2149); (0x214E, 0x214E); (0x2183, 0x2184); (0x2C00, 0x2CE4);
    (0x2CEB, 0x2CEE); (0x2CF2, 0x2CF3); (0x2D00, 0x2D25); (0x2D27, 0x2D27);
    (0x2D2D, 0x2D2D); (0x2D30, 0x2D67); (0x2D6F, 0x2D6F); (0x2D80, 0x2D96);
    (0x2DA0, 0x2DA6); (0x2DA8, 0x2DAE); (0x2DB0, 0x2DB6); (0x2DB8, 0x2DBE);
    (0x2DC0, 0x2DC6); (0x2DC8, 0x2DCE); (0x2DD0, 0x2DD6); (0x2DD8, 0x2DDE);
    (0x2E2F, 0x2E2F); (0x3005, 0x3006); (0x3031, 0x3035); (0x303B, 0x303C);
    (0x3041, 0x3096); (0x309D, 0x309F); (0x30A1, 0x30FA); (0x30FC, 0x30FF);
    (0x3105, 0x312F); (0x3131, 0x318E); (0x31A0, 0x31BF); (0x31F0, 0x31FF);
    (0x3400, 0x4DBF); (0x4E00, 0xA48C); (0xA4D0, 0xA4FD); (0xA500, 0xA60C);
    (0xA610, 0xA61F); (0xA62A, 0xA62B); (0xA640, 0xA66E); (0xA67F, 0xA69D);
    (0xA6A0, 0xA6E5); (0xA717, 0xA71F); (0xA722, 0xA788); (0xA78B, 0xA7CA);
    (0xA7D0, 0xA7D1); (0xA7D3, 0xA7D3); (0xA7D5, 0xA7D9); (0xA7F2, 0xA801);
    (0xA803, 0xA805); (0xA807, 0xA80A); (0xA80C, 0xA822); (0xA840, 0xA873);
    (0xA882, 0xA8B3); (0xA8F2, 0xA8F7); (0xA8FB, 0xA8FB); (0xA8FD, 0xA8FE);
    (0xA90A, 0xA925); (0xA930, 0xA946); (0xA960, 0xA97C); (0xA984, 0xA9B2);
    (0xA9CF, 0xA9CF); (0xA9E0, 0xA9E4); (0xA9E6, 0xA9EF); (0xA9FA, 0xA9FE);
    (0xAA00, 0xAA28); (0xAA40, 0xAA42); (0xAA44, 0xAA4B); (0xAA60, 0xAA76);
    (0xAA7A, 0xAA7A); (0xAA7E, 0xAAAF); (0xAAB1, 0xAAB1); (0xAAB5, 0xAAB6);
    (0xAAB9, 0xAABD); (0xAAC0, 0xAAC0); (0xAAC2, 0xAAC2); (0xAADB, 0xAADD);
    (0xAAE0, 0xAAEA); (0xAAF2, 0xAAF4); (0xAB01, 0xAB06); (0xAB09, 0xAB0E);
    (0xAB11, 0xAB16); (0xAB20, 0xAB26); (0xAB28, 0xAB2E); (0xAB30, 0xAB5A);
    (0xAB5C, 0xAB69); (0xAB70, 0xABE2); (0xAC00, 0xD7A3); (0xD7B0, 0xD7C6);
    (0xD7CB, 0xD7FB); (0xF900, 0xFA6D); (0xFA70, 0xFAD9); (0xFB00, 0xFB06);
    (0xFB13, 0xFB17); (0xFB1D, 0xFB1D); (0xFB1F, 0xFB28); (0xFB2A, 0xFB36);
    (0xFB38, 0xFB3C); (0xFB3E, 0xFB3E); (0xFB40, 0xFB41); (0xFB43, 0xFB44);
    (0xFB46, 0xFBB1); (0xFBD3, 0xFD3D); (0xFD50, 0xFD8F); (0xFD92, 0xFDC7);
    (0xFDF0, 0xFDFB); (0xFE70, 0xFE74); (0xFE76, 0xFEFC); (0xFF21, 0xFF3A);
    (0xFF41, 0xFF5A); (0xFF66, 0xFFBE); (0xFFC2, 0xFFC7); (0xFFCA, 0xFFCF);
    (0xFFD2, 0xFFD7); (0xFFDA, 0xFFDC); (0x10000, 0x1000B);
    (0x1000D, 0x10026); (0x10028, 0x1003A); (0x1003C, 0x1003D);
    (0x1003F, 0x1004D); (0x10050, 0x1005D); (0x10080, 0x100FA);
    (0x10280, 0x1029C); (0x102A0, 0x102D0); (0x10300, 0x1031F);
    (0x1032D, 0x10340); (0x10342, 0x10349); (0x10350, 0x10375);
    (0x10380, 0x1039D); (0x103A0, 0x103C3); (0x103C8, 0x103CF);
    (0x10400, 0x1049D); (0x104B0, 0x104D3); (0x104D8, 0x104FB);
    (0x10500, 0x10527); (0x10530, 0x10563); (0x10570, 0x1057A);
    (0x1057C, 0x1058A); (0x1058C, 0x10592); (0x10594, 0x10595);
    (0x10597, 0x105A1); (0x105A3, 0x105B1); (0x105B3, 0x105B9);
    (0x105BB, 0x105BC); (0x10600, 0x10736); (0x10740, 0x10755);
    (0x10760, 0x10767); (0x10780, 0x10785); (0x10787, 0x107B0);
    (0x107B2, 0x107BA); (0x10800, 0x10805); (0x10808, 0x10808);
    (0x1080A, 0x10835); (0x10837, 0x10838); (0x1083C, 0x1083C);
    (0x1083F, 0x10855); (0x10860, 0x10876); (0x10880, 0x1089E);
    (0x108E0, 0x108F2); (0x108F4, 0x108F5); (0x10900, 0x10915);
    (0x10920, 0x10939); (0x10980, 0x109B7); (0x109BE, 0x109BF);
    (0x10A00, 0x10A00); (0x10A10, 0x10A13); (0x10A15, 0x10A17);
    (0x10A19, 0x10A35); (0x10A60, 0x10A7C); (0x10A80, 0x10A9C);
    (0x10AC0, 0x10AC7); (0x10AC9, 0x10AE4); (0x10B00, 0x10B35);
    (0x10B40, 0x10B55); (0x10B60, 0x10B72); (0x10B80, 0x10B91);
    (0x10C00, 0x10C48); (0x10C80, 0x10CB2); (0x10CC0, 0x10CF2);
    (0x10D00, 0x10D23); (0x10E80, 0x10EA9); (0x10EB0, 0x10EB1);
    (0x10F00, 0x10F1C); (0x10F27, 0x10F27); (0x10F30, 0x10F45);
    (0x10F70, 0x10F81); (0x10FB0, 0x10FC4); (0x10FE0, 0x10FF6);
    (0x11003, 0x11037); (0x11071, 0x11072); (0x11075, 0x11075);
    (0x11083, 0x110AF); (0x110D0, 0x110E8); (0x11103, 0x11126);
    (0x11144, 0x11144); (0x11147, 0x11147); (0x11150, 0x11172);
    (0x11176, 0x11176); (0x11183, 0x111B2); (0x111C1, 0x111C4);
    (0x111DA, 0x111DA); (0x111DC, 0x111DC); (0x11200, 0x11211);
    (0x11213, 0x1122B); (0x11280, 0x11286); (0x11288, 0x11288);
    (0x1128A, 0x1128D); (0x1128F, 0x1129D); (0x1129F, 0x112A8);
    (0x112B0, 0x112DE); (0x11305, 0x1130C); (0x1130F, 0x11310);
    (0x11313, 0x11328); (0x1132A, 0x11330); (0x11332, 0x11333);
    (0x11335, 0x11339); (0x1133D, 0x1133D); (0x11350, 0x11350);
    (0x1135D, 0x11361); (0x11400, 0x11434); (0x11447, 0x1144A);
    (0x1145F, 0x11461); (0x11480, 0x114AF); (0x114C4, 0x114C5);
    (0x114C7, 0x114C7); (0x11580, 0x115AE); (0x115D8, 0x115DB);
    (0x11600, 0x1162F); (0x11644, 0x11644); (0x11680, 0x116AA);
    (0x116B8, 0x116B8); (0x11700, 0x1171A); (0x11740, 0x11746);
    (0x11800, 0x1182B); (0x118A0, 0x118DF); (0x118FF, 0x11906);
    (0x11909, 0x11909); (0x1190C, 0x11913); (0x11915, 0x11916);
    (0x11918, 0x1192F); (0x1193F, 0x1193F); (0x11941, 0x11941);
    (0x119A0, 0x119A7); (0x119AA, 0x119D0); (0x119E1, 0x119E1);
    (0x119E3, 0x119E3); (0x11A00, 0x11A00); (0x11A0B, 0x11A32);
    (0x11A3A, 0x11A3A); (0x11A50, 0x11A50); (0x11A5C, 0x11A89);
    (0x11A9D, 0x11A9D); (0x11AB0, 0x11AF8); (0x11C00, 0x11C08);
    (0x11C0A, 0x11C2E); (0x11C40, 0x11C40); (0x11C72, 0x11C8F);
    (0x11D00, 0x11D06); (0x11D08, 0x11D09); (0x11D0B, 0x11D30);
    (0x11D46, 0x11D46); (0x11D60, 0x11D65); (0x11D67, 0x11D68);
    (0x11D6A, 0x11D89); (0x11D98, 0x11D98); (0x11EE0, 0x11EF2);
    (0x11FB0, 0x11FB0); (0x12000, 0x12399); (0x12480, 0x12543);
    (0x12F90, 0x12FF0); (0x13000, 0x1342E); (0x14400, 0x14646);
    (0x16800, 0x16A38); (0x16A40, 0x16A5E); (0x16A70, 0x16ABE);
    (0x16AD0, 0x16AED); (0x16B00, 0x16B2F); (0x16B40, 0x16B43);
    (0x16B63, 0x16B77); (0x16B7D, 0x16B8F); (0x16E40, 0x16E7F);
    (0x16F00, 0x16F4A); (0x16F50, 0x16F50); (0x16F93, 0x16F9F);
    (0x16FE0, 0x16FE1); (0x16FE3, 0x16FE3); (0x17000, 0x187F7);
    (0x18800, 0x18CD5); (0x18D00, 0x18D08); (0x1AFF0, 0x1AFF3);
    (0x1AFF5, 0x1AFFB); (0x1AFFD, 0x1AFFE); (0x1B000, 0x1B122);
    (0x1B150, 0x1B152); (0x1B164, 0x1B167); (0x1B170, 0x1B2FB);
    (0x1BC00, 0x1BC6A); (0x1BC70, 0x1BC7C); (0x1BC80, 0x1BC88);
    (0x1BC90, 0x1BC99); (0x1D400, 0x1D454); (0x1D456, 0x1D49C);
    (0x1D49E, 0x1D49F); (0x1D4A2, 0x1D4A2); (0x1D4A5, 0x1D4A6);
    (0x1D4A9, 0x1D4AC); (0x1D4AE, 0x1D4B9); (0x1D4BB, 0x1D4BB);
    (0x1D4BD, 0x1D4C3); (0x1D4C5, 0x1D505); (0x1D507, 0x1D50A);
    (0x1D50D, 0x1D514); (0x1D516, 0x1D51C); (0x1D51E, 0x1D539);
    (0x1D53B, 0x1D53E); (0x1D540, 0x1D544); (0x1D546, 0x1D546);
    (0x1D54A, 0x1D550); (0x1D552, 0x1D6A5); (0x1D6A8, 0x1D6C0);
    (0x1D6C2, 0x1D6DA); (0x1D6DC, 0x1D6FA); (0x1D6FC, 0x1D714);
    (0x1D716, 0x1D734); (0x1D736, 0x1D74E); (0x1D750, 0x1D76E);
    (0x1D770, 0x1D788); (0x1D78A, 0x1D7A8); (0x1D7AA, 0x1D7C2);
    (0x1D7C4, 0x1D7CB); (0x1DF00, 0x1DF1E); (0x1E100, 0x1E12C);
    (0x1E137, 0x1E13D); (0x1E14E, 0x1E14E); (0x1E290, 0x1E2AD);
    (0x1E2C0, 0x1E2EB); (0x1E7E0, 0x1E7E6); (0x1E7E8, 0x1E7EB);
    (0x1E7ED, 0x1E7EE); (0x1E7F0, 0x1E7FE); (0x1E800, 0x1E8C4);
    (0x1E900, 0x1E943); (0x1E94B, 0x1E94B); (0x1EE00, 0x1EE03);
    (0x1EE05, 0x1EE1F); (0x1EE21, 0x1EE22); (0x1EE24, 0x1EE24);
    (0x1EE27, 0x1EE27); (0x1EE29, 0x1EE32); (0x1EE34, 0x1EE37);
    (0x1EE39, 0x1EE39); (0x1EE3B, 0x1EE3B); (0x1EE42, 0x1EE42);
    (0x1EE47, 0x1EE47); (0x1EE49, 0x1EE49); (0x1EE4B, 0x1EE4B);
    (0x1EE4D, 0x1EE4F); (0x1EE51, 0x1EE52); (0x1EE54, 0x1EE54);
    (0x1EE57, 0x1EE57); (0x1EE59, 0x1EE59); (0x1EE5B, 0x1EE5B);
    (0x1EE5D, 0x1EE5D); (0x1EE5F, 0x1EE5F); (0x1EE61, 0x1EE62);
    (0x1EE64, 0x1EE64); (0x1EE67, 0x1EE6A); (0x1EE6C, 0x1EE72);
    (0x1EE74, 0x1EE77); (0x1EE79, 0x1EE7C); (0x1EE7E, 0x1EE7E);
    (0x1EE80, 0x1EE89); (0x1EE8B, 0x1EE9B); (0x1EEA1, 0x1EEA3);
    (0x1EEA5, 0x1EEA9); (0x1EEAB, 0x1EEBB); (0x20000, 0x2A6DF);
    (0x2A700, 0x2B738); (0x2B740, 0x2B81D); (0x2B820, 0x2CEA1);
    (0x2CEB0, 0x2EBE0); (0x2F800, 0x2FA1D); (0x30000, 0x3134A) ].

(** The property Cased. *)
Definition cased_ranges : list (N * N) :=
  [
    (0x41, 0x5A); (0x61, 0x7A); (0xAA, 0xAA); (0xB5, 0xB5); (0xBA, 0xBA);
    (0xC0, 0xD6); (0xD8, 0xF6); (0xF8, 0x1BA); (0x1BC, 0x1BF); (0x1C4, 0x293);
    (0x295, 0x2B8); (0x2C0, 0x2C1); (0x2E0, 0x2E4); (0x345, 0x345);
    (0x370, 0x373); (0x376, 0x377); (0x37A, 0x37D); (0x37F, 0x37F);
    (0x386, 0x386); (0x388, 0x38A); (0x38C, 0x38C); (0x38E, 0x3A1);
    (0x3A3, 0x3F5); (0x3F7, 0x481); (0x48A, 0x52F); (0x531, 0x556);
    (0x560, 0x588); (0x10A0, 0x10C5); (0x10C7, 0x10C7); (0x10CD, 0x10CD);
    (0x10D0, 0x10FA); (0x10FD, 0x10FF); (0x13A0, 0x13F5); (0x13F8, 0x13FD);
    (0x1C80, 0x1C88); (0x1C90, 0x1CBA); (0x1CBD, 0x1CBF); (0x1D00, 0x1DBF);
    (0x1E00, 0x1F15); (0x1F18, 0x1F1D); (0x1F20, 0x1F45); (0x1F48, 0x1F4D);
    (0x1F50, 0x1F57); (0x1F59, 0x1F59); (0x1F5B, 0x1F5B); (0x1F5D, 0x1F5D);
    (0x1F5F, 0x1F7D); (0x1F80, 0x1FB4); (0x1FB6, 0x1FBC); (0x1FBE, 0x1FBE);
    (0x1FC2, 0x1FC4); (0x1FC6, 0x1FCC); (0x1FD0, 0x1FD3); (0x1FD6, 0x1FDB);
    (0x1FE0, 0x1FEC); (0x1FF2, 0x1FF4); (0x1FF6, 0x1FFC); (0x2071, 0x2071);
    (0x207F, 0x207F); (0x2090, 0x209C); (0x2102, 0x2102); (0x2107, 0x2107);
    (0x210A, 0x2113); (0x2115, 0x2115); (0x2119, 0x211D); (0x2124, 0x2124);
    (0x2126, 0x2126); (0x2128, 0x2128); (0x212A, 0x212D); (0x212F, 0x2134);
    (0x2139, 0x2139); (0x213C, 0x213F); (0x2145, 0x2149); (0x214E, 0x214E);
    (0x2160, 0x217F); (0x2183, 0x2184); (0x24B6, 0x24E9); (0x2C00, 0x2CE4);
    (0x2CEB, 0x2CEE); (0x2CF2, 0x2CF3); (0x2D00, 0x2D25); (0x2D27, 0x2D27);
    (0x2D2D, 0x2D2D); (0xA640, 0xA66D); (0xA680, 0xA69D); (0xA722, 0xA787);
    (0xA78B, 0xA78E); (0xA790, 0xA7CA); (0xA7D0, 0xA7D1); (0xA7D3, 0xA7D3);
    (0xA7D5, 0xA7D9); (0xA7F5, 0xA7F6); (0xA7F8, 0xA7FA); (0xAB30, 0xAB5A);
    (0xAB5C, 0xAB68); (0xAB70, 0xABBF); (0xFB00, 0xFB06); (0xFB13, 0xFB17);
    (0xFF21, 0xFF3A); (0xFF41, 0xFF5A); (0x10400, 0x1044F);
    (0x104B0, 0x104D3); (0x104D8, 0x104FB); (0x10570, 0x1057A);
    (0x1057C, 0x1058A); (0x1058C, 0x10592); (0x10594, 0x10595);
    (0x10597, 0x105A1); (0x105A3, 0x105B1); (0x105B3, 0x105B9);
    (0x105BB, 0x105BC); (0x10780, 0x10780); (0x10783, 0x10785);
    (0x10787, 0x107B0); (0x107B2, 0x107BA); (0x10C80, 0x10CB2);
    (0x10CC0, 0x10CF2); (0x118A0, 0x118DF); (0x16E40, 0x16E7F);
    (0x1D400, 0x1D454); (0x1D456, 0x1D49C); (0x1D49E, 0x1D49F);
    (0x1D4A2, 0x1D4A2); (0x1D4A5, 0x1D4A6); (0x1D4A9, 0x1D4AC);
    (0x1D4AE, 0x1D4B9); (0x1D4BB, 0x1D4BB); (0x1D4BD, 0x1D4C3);
    (0x1D4C5, 0x1D505); (0x1D507, 0x1D50A); (0x1D50D, 0x1D514);
    (0x1D516, 0x1D51C); (0x1D51E, 0x1D539); (0x1D53B, 0x1D53E);
    (0x1D540, 0x1D544); (0x1D546, 0x1D546); (0x1D54A, 0x1D550);
    (0x1D552, 0x1D6A5); (0x1D6A8, 0x1D6C0); (0x1D6C2, 0x1D6DA);
    (0x1D6DC, 0x1D6FA); (0x1D6FC, 0x1D714); (0x1D716, 0x1D734);
    (0x1D736, 0x1D74E); (0x1D750, 0x1D76E); (0x1D770, 0x1D788);
    (0x1D78A, 0x1D7A8); (0x1D7AA, 0x1D7C2); (0x1D7C4, 0x1D7CB);
    (0x1DF00, 0x1DF09); (0x1DF0B, 0x1DF1E); (0x1E900, 0x1E943);
    (0x1F130, 0x1F149); (0x1F150, 0x1F169); (0x1F170, 0x1F189) ].

(** The property Case_Ignorable. *)
Definition case_ignorable_ranges : list (N * N) :=
  [
    (0x27, 0x27); (0x2E, 0x2E); (0x3A, 0x3A); (0x5E, 0x5E); (0x60, 0x60);
    (0xA8, 0xA8); (0xAD, 0xAD); (0xAF, 0xAF); (0xB4, 0xB4); (0xB7, 0xB8);
    (0x2B0, 0x36F); (0x374, 0x375); (0x37A, 0x37A); (0x384, 0x385);
    (0x387, 0x387); (0x483, 0x489); (0x559, 0x559); (0x55F, 0x55F);
    (0x591, 0x5BD); (0x5BF, 0x5BF); (0x5C1, 0x5C2); (0x5C4, 0x5C5);
    (0x5C7, 0x5C7); (0x5F4, 0x5F4); (0x600, 0x605); (0x610, 0x61A);
    (0x61C, 0x61C); (0x640, 0x640); (0x64B, 0x65F); (0x670, 0x670);
    (0x6D6, 0x6DD); (0x6DF, 0x6E8); (0x6EA, 0x6ED); (0x70F, 0x70F);
    (0x711, 0x711); (0x730, 0x74A); (0x7A6, 0x7B0); (0x7EB, 0x7F5);
    (0x7FA, 0x7FA); (0x7FD, 0x7FD); (0x816, 0x82D); (0x859, 0x85B);
    (0x888, 0x888); (0x890, 0x891); (0x898, 0x89F); (0x8C9, 0x902);
    (0x93A, 0x93A); (0x93C, 0x93C); (0x941, 0x948); (0x94D, 0x94D);
    (0x951, 0x957); (0x962, 0x963); (0x971, 0x971); (0x981, 0x981);
    (0x9BC, 0x9BC); (0x9C1, 0x9C4); (0x9CD, 0x9CD); (0x9E2, 0x9E3);
    (0x9FE, 0x9FE); (0xA01, 0xA02); (0xA3C, 0xA3C); (0xA41, 0xA42);
    (0xA47, 0xA48); (0xA4B, 0xA4D); (0xA51, 0xA51); (0xA70, 0xA71);
    (0xA75, 0xA75); (0xA81, 0xA82); (0xABC, 0xABC); (0xAC1, 0xAC5);
    (0xAC7, 0xAC8); (0xACD, 0xACD); (0xAE2, 0xAE3); (0xAFA, 0xAFF);
    (0xB01, 0xB01); (0xB3C, 0xB3C); (0xB3F, 0xB3F); (0xB41, 0xB44);
    (0xB4D, 0xB4D); (0xB55, 0xB56); (0xB62, 0xB63); (0xB82, 0xB82);
    (0xBC0, 0xBC0); (0xBCD, 0xBCD); (0xC00, 0xC00); (0xC04, 0xC04);
    (0xC3C, 0xC3C); (0xC3E, 0xC40); (0xC46, 0xC48); (0xC4A, 0xC4D);
    (0xC55, 0xC56); (0xC62, 0xC63); (0xC81, 0xC81); (0xCBC, 0xCBC);
    (0xCBF, 0xCBF); (0xCC6, 0xCC6); (0xCCC, 0xCCD); (0xCE2, 0xCE3);
    (0xD00, 0xD01); (0xD3B, 0xD3C); (0xD41, 0xD44); (0xD4D, 0xD4D);
    (0xD62, 0xD63); (0xD81, 0xD81); (0xDCA, 0xDCA); (0xDD2, 0xDD4);
    (0xDD6, 0xDD6); (0xE31, 0xE31); (0xE34, 0xE3A); (0xE46, 0xE4E);
    (0xEB1, 0xEB1); (0xEB4, 0xEBC); (0xEC6, 0xEC6); (0xEC8, 0xECD);
    (0xF18, 0xF19); (0xF35, 0xF35); (0xF37, 0xF37); (0xF39, 0xF39);
    (0xF71, 0xF7E); (0xF80, 0xF84); (0xF86, 0xF87); (0xF8D, 0xF97);
    (0xF99, 0xFBC); (0xFC6, 0xFC6); (0x102D, 0x1030); (0x1032, 0x1037);
    (0x1039, 0x103A); (0x103D, 0x103E); (0x1058, 0x1059); (0x105E, 0x1060);
    (0x1071, 0x1074); (0x1082, 0x1082); (0x1085, 0x1086); (0x108D, 0x108D);
    (0x109D, 0x109D); (0x10FC, 0x10FC); (0x135D, 0x135F); (0x1712, 0x1714);
    (0x1732, 0x1733); (0x1752, 0x1753); (0x1772, 0x1773); (0x17B4, 0x17B5);
    (0x17B7, 0x17BD); (0x17C6, 0x17C6); (0x17C9, 0x17D3); (0x17D7, 0x17D7);
    (0x17DD, 0x17DD); (0x180B, 0x180F); (0x1843, 0x1843); (0x1885, 0x1886);
    (0x18A9, 0x18A9); (0x1920, 0x1922); (0x1927, 0x1928); (0x1932, 0x1932);
    (0x1939, 0x193B); (0x1A17, 0x1A18); (0x1A1B, 0x1A1B); (0x1A56, 0x1A56);
    (0x1A58, 0x1A5E); (0x1A60, 0x1A60); (0x1A62, 0x1A62); (0x1A65, 0x1A6C);
    (0x1A73, 0x1A7C); (0x1A7F, 0x1A7F); (0x1AA7, 0x1AA7); (0x1AB0, 0x1ACE);
    (0x1B00, 0x1B03); (0x1B34, 0x1B34); (0x1B36, 0x1B3A); (0x1B3C, 0x1B3C);
    (0x1B42, 0x1B42); (0x1B6B, 0x1B73); (0x1B80, 0x1B81); (0x1BA2, 0x1BA5);
    (0x1BA8, 0x1BA9); (0x1BAB, 0x1BAD); (0x1BE6, 0x1BE6); (0x1BE8, 0x1BE9);
    (0x1BED, 0x1BED); (0x1BEF, 0x1BF1); (0x1C2C, 0x1C33); (0x1C36, 0x1C37);
    (0x1C78, 0x1C7D); (0x1CD0, 0x1CD2); (0x1CD4, 0x1CE0); (0x1CE2, 0x1CE8);
    (0x1CED, 0x1CED); (0x1CF4, 0x1CF4); (0x1CF8, 0x1CF9); (0x1D2C, 0x1D6A);
    (0x1D78, 0x1D78); (0x1D9B, 0x1DFF); (0x1FBD, 0x1FBD); (0x1FBF, 0x1FC1);
    (0x1FCD, 0x1FCF); (0x1FDD, 0x1FDF); (0x1FED, 0x1FEF); (0x1FFD, 0x1FFE);
    (0x200B, 0x200F); (0x2018, 0x2019); (0x2024, 0x2024); (0x2027, 0x2027);
    (0x202A, 0x202E); (0x2060, 0x2064); (0x2066, 0x206F); (0x2071, 0x2071);
    (0x207F, 0x207F); (0x2090, 0x209C); (0x20D0, 0x20F0); (0x2C7C, 0x2C7D);
    (0x2CEF, 0x2CF1); (0x2D6F, 0x2D6F); (0x2D7F, 0x2D7F); (0x2DE0, 0x2DFF);
    (0x2E2F, 0x2E2F); (0x3005, 0x3005); (0x302A, 0x302D); (0x3031, 0x3035);
    (0x303B, 0x303B); (0x3099, 0x309E); (0x30FC, 0x30FE); (0xA015, 0xA015);
    (0xA4F8, 0xA4FD); (0xA60C, 0xA60C); (0xA66F, 0xA672); (0xA674, 0xA67D);
    (0xA67F, 0xA67F); (0xA69C, 0xA69F); (0xA6F0, 0xA6F1); (0xA700, 0xA721);
    (0xA770, 0xA770); (0xA788, 0xA78A); (0xA7F2, 0xA7F4); (0xA7F8, 0xA7F9);
    (0xA802, 0xA802); (0xA806, 0xA806); (0xA80B, 0xA80B); (0xA825, 0xA826);
    (0xA82C, 0xA82C); (0xA8C4, 0xA8C5); (0xA8E0, 0xA8F1); (0xA8FF, 0xA8FF);
    (0xA926, 0xA92D); (0xA947, 0xA951); (0xA980, 0xA982); (0xA9B3, 0xA9B3);
    (0xA9B6, 0xA9B9); (0xA9BC, 0xA9BD); (0xA9CF, 0xA9CF); (0xA9E5, 0xA9E6);
    (0xAA29, 0xAA2E); (0xAA31, 0xAA32); (0xAA35, 0xAA36); (0xAA43, 0xAA43);
    (0xAA4C, 0xAA4C); (0xAA70, 0xAA70); (0xAA7C, 0xAA7C); (0xAAB0, 0xAAB0);
    (0xAAB2, 0xAAB4); (0xAAB7, 0xAAB8); (0xAABE, 0xAABF); (0xAAC1, 0xAAC1);
    (0xAADD, 0xAADD); (0xAAEC, 0xAAED); (0xAAF3, 0xAAF4); (0xAAF6, 0xAAF6);
    (0xAB5B, 0xAB5F); (0xAB69, 0xAB6B); (0xABE5, 0xABE5); (0xABE8, 0xABE8);
    (0xABED, 0xABED); (0xFB1E, 0xFB1E); (0xFBB2, 0xFBC2); (0xFE00, 0xFE0F);
    (0xFE13, 0xFE13); (0xFE20, 0xFE2F); (0xFE52, 0xFE52); (0xFE55, 0xFE55);
    (0xFEFF, 0xFEFF); (0xFF07, 0xFF07); (0xFF0E, 0xFF0E); (0xFF1A, 0xFF1A);
    (0xFF3E, 0xFF3E); (0xFF40, 0xFF40); (0xFF70, 0xFF70); (0xFF9E, 0xFF9F);
    (0xFFE3, 0xFFE3); (0xFFF9, 0xFFFB); (0x101FD, 0x101FD);
    (0x102E0, 0x102E0); (0x10376, 0x1037A); (0x10780, 0x10785);
    (0x10787, 0x107B0); (0x107B2, 0x107BA); (0x10A01, 0x10A03);
    (0x10A05, 0x10A06); (0x10A0C, 0x10A0F); (0x10A38, 0x10A3A);
    (0x10A3F, 0x10A3F); (0x10AE5, 0x10AE6); (0x10D24, 0x10D27);
    (0x10EAB, 0x10EAC); (0x10F46, 0x10F50); (0x10F82, 0x10F85);
    (0x11001, 0x11001); (0x11038, 0x11046); (0x11070, 0x11070);
    (0x11073, 0x11074); (0x1107F, 0x11081); (0x110B3, 0x110B6);
    (0x110B9, 0x110BA); (0x110BD, 0x110BD); (0x110C2, 0x110C2);
    (0x110CD, 0x110CD); (0x11100, 0x11102); (0x11127, 0x1112B);
    (0x1112D, 0x11134); (0x11173, 0x11173); (0x11180, 0x11181);
    (0x111B6, 0x111BE); (0x111C9, 0x111CC); (0x111CF, 0x111CF);
    (0x1122F, 0x11231); (0x11234, 0x11234); (0x11236, 0x11237);
    (0x1123E, 0x1123E); (0x112DF, 0x112DF); (0x112E3, 0x112EA);
    (0x11300, 0x11301); (0x1133B, 0x1133C); (0x11340, 0x11340);
    (0x11366, 0x1136C); (0x11370, 0x11374); (0x11438, 0x1143F);
    (0x11442, 0x11444); (0x11446, 0x11446); (0x1145E, 0x1145E);
    (0x114B3, 0x114B8); (0x114BA, 0x114BA); (0x114BF, 0x114C0);
    (0x114C2, 0x114C3); (0x115B2, 0x115B5); (0x115BC, 0x115BD);
    (0x115BF, 0x115C0); (0x115DC, 0x115DD); (0x11633, 0x1163A);
    (0x1163D, 0x1163D); (0x1163F, 0x11640); (0x116AB, 0x116AB);
    (0x116AD, 0x116AD); (0x116B0, 0x116B5); (0x116B7, 0x116B7);
    (0x1171D, 0x1171F); (0x11722, 0x11725); (0x11727, 0x1172B);
    (0x1182F, 0x11837); (0x11839, 0x1183A); (0x1193B, 0x1193C);
    (0x1193E, 0x1193E); (0x11943, 0x11943); (0x119D4, 0x119D7);
    (0x119DA, 0x119DB); (0x119E0, 0x119E0); (0x11A01, 0x11A0A);
    (0x11A33, 0x11A38); (0x11A3B, 0x11A3E); (0x11A47, 0x11A47);
    (0x11A51, 0x11A56); (0x11A59, 0x11A5B); (0x11A8A, 0x11A96);
    (0x11A98, 0x11A99); (0x11C30, 0x11C36); (0x11C38, 0x11C3D);
    (0x11C3F, 0x11C3F); (0x11C92, 0x11CA7); (0x11CAA, 0x11CB0);
    (0x11CB2, 0x11CB3); (0x11CB5, 0x11CB6); (0x11D31, 0x11D36);
    (0x11D3A, 0x11D3A); (0x11D3C, 0x11D3D); (0x11D3F, 0x11D45);
    (0x11D47, 0x11D47); (0x11D90, 0x11D91); (0x11D95, 0x11D95);
    (0x11D97, 0x11D97); (0x11EF3, 0x11EF4); (0x13430, 0x13438);
    (0x16AF0, 0x16AF4); (0x16B30, 0x16B36); (0x16B40, 0x16B43);
    (0x16F4F, 0x16F4F); (0x16F8F, 0x16F9F); (0x16FE0, 0x16FE1);
    (0x16FE3, 0x16FE4); (0x1AFF0, 0x1AFF3); (0x1AFF5, 0x1AFFB);
    (0x1AFFD, 0x1AFFE); (0x1BC9D, 0x1BC9E); (0x1BCA0, 0x1BCA3);
    (0x1CF00, 0x1CF2D); (0x1CF30, 0x1CF46); (0x1D167, 0x1D169);
    (0x1D173, 0x1D182); (0x1D185, 0x1D18B); (0x1D1AA, 0x1D1AD);
    (0x1D242, 0x1D244); (0x1DA00, 0x1DA36); (0x1DA3B, 0x1DA6C);
    (0x1DA75, 0x1DA75); (0x1DA84, 0x1DA84); (0x1DA9B, 0x1DA9F);
    (0x1DAA1, 0x1DAAF); (0x1E000, 0x1E006); (0x1E008, 0x1E018);
    (0x1E01B, 0x1E021); (0x1E023, 0x1E024); (0x1E026, 0x1E02A);
    (0x1E130, 0x1E13D); (0x1E2AE, 0x1E2AE); (0x1E2EC, 0x1E2EF);
    (0x1E8D0, 0x1E8D6); (0x1E944, 0x1E94B); (0x1F3FB, 0x1F3FF);
    (0xE0001, 0xE0001); (0xE0020, 0xE007F); (0xE0100, 0xE01EF) ].

Definition lower_cp (c : N) : list N :=
  match table_get lower_table c with
  | Some l => l
  | None => [c]
  end.

Definition cased (c : N) : bool := in_ranges cased_ranges c.

Definition case_ignorable (c : N) : bool := in_ranges case_ignorable_ranges c.

Fixpoint skip_ignorable (s : str) : str :=
  match s with
  | [] => []
  | c :: s' => if case_ignorable c then skip_ignorable s' else s
  end.

(** Whether a capital sigma is the last letter of a word: the nearest
    character before it that is not case-ignorable is cased, and the
    nearest such character after it, if there is one, is not.  [before]
    is the text before the sigma, nearest character first. *)
Definition final_sigma (before after : str) : bool :=
  match skip_ignorable before with
  | c :: _ =>
      cased c
      && match skip_ignorable after with
         | d :: _ => negb (cased d)
         | [] => true
         end
  | [] => false
  end.

(** [name.lower()], character by character; only the capital sigma
    (U+03A3) depends on its neighbours.  [before] is the text already
    read, last character first. *)
Fixpoint lower_from (before : str) (s : str) : str :=
  match s with
  | [] => []
  | c :: s' =>
      (if c =? 0x3A3
       then [if final_sigma before s' then 0x3C2 else 0x3C3]
       else lower_cp c)
      ++ lower_from (c :: before) s'
  end.

Definition lower (s : str) : str := lower_from [] s.

(** The Hangul syllables (U+AC00 to U+D7A3) decompose into two or three
    jamo. *)
Definition hangul_syllable (c : N) : bool :=
  (0xAC00 <=? c) && (c <=? 0xD7A3).

Definition decomp_hangul (c : N) : list N :=
  let s := c - 0xAC00 in
  let l := 0x1100 + s / 588 in
  let v := 0x1161 + (s mod 588) / 28 in
  let t := s mod 28 in
  if t =? 0 then [l; v] else [l; v; 0x11A7 + t].

Definition decomp (c : N) : list N :=
  if hangul_syllable c then decomp_hangul c
  else match table_get decomp_table c with
       | Some l => l
       | None => [c]
       end.

Fixpoint ccc_get (t : list (N * N * N)) (c : N) : N :=
  match t with
  | [] => 0
  | (lo, hi, k) :: t' => if (lo <=? c) && (c <=? hi) then k else ccc_get t' c
  end.

(** [unicodedata.combining(c)] *)
Definition ccc (c : N) : N := ccc_get ccc_table c.

(** [unicodedata.category(c) == 'Mn'] *)
Definition is_Mn (c : N) : bool := in_ranges Mn_ranges c.

(** [c.isspace()] *)
Definition isspace (c : N) : bool := in_ranges space_ranges c.

(** [c.isalpha()] *)
Definition isalpha (c : N) : bool := in_ranges alpha_ranges c.

(** The decimal digits: the zero of every run of ten. *)
Definition decimal_zeros : list N :=
  [
    0x30; 0x660; 0x6F0; 0x7C0; 0x966; 0x9E6; 0xA66; 0xAE6; 0xB66; 0xBE6;
    0xC66; 0xCE6; 0xD66; 0xDE6; 0xE50; 0xED0; 0xF20; 0x1040; 0x1090; 0x17E0;
    0x1810; 0x1946; 0x19D0; 0x1A80; 0x1A90; 0x1B50; 0x1BB0; 0x1C40; 0x1C50;
    0xA620; 0xA8D0; 0xA900; 0xA9D0; 0xA9F0; 0xAA50; 0xABF0; 0xFF10; 0x104A0;
    0x10D30; 0x11066; 0x110F0; 0x11136; 0x111D0; 0x112F0; 0x11450; 0x114D0;
    0x11650; 0x116C0; 0x11730; 0x118E0; 0x11950; 0x11C50; 0x11D50; 0x11DA0;
    0x16A60; 0x16AC0; 0x16B50; 0x1D7CE; 0x1D7D8; 0x1D7E2; 0x1D7EC; 0x1D7F6;
    0x1E140; 0x1E2F0; 0x1E950; 0x1FBF0 ].

(** [unicodedata.decimal(c)], if [c] is a decimal digit. *)
Definition decimal (c : N) : option N :=
  match List.find (fun z => (z <=? c) && (c <=? z + 9)) decimal_zeros with
  | Some z => Some (c - z)
  | None => None
  end.

(** The canonical ordering of NFD: a combining character (class not 0)
    moves left over every neighbour of a strictly greater class.  The
    accumulator holds the text already ordered, last character first. *)
Fixpoint insert_mark (c : N) (racc : list N) : list N :=
  match racc with
  | [] => [c]
  | d :: r => if ccc c <? ccc d then d :: insert_mark c r else c :: racc
  end.

Definition reorder_step (racc : list N) (c : N) : list N :=
  if ccc c =? 0 then c :: racc else insert_mark c racc.

Definition canonical_order (s : str) : str :=
  rev (fold_left reorder_step s []).

(** [unicodedata.normalize('NFD', s)] *)
Definition nfd (s : str) : str := canonical_order (flat_map decomp s).

(** ** Notions used in the statements *)

(** A character that lowercasing and decomposition leave as it is. *)
Definition stable (e : N) : Prop := lower_cp e = [e] ∧ decomp e = [e].

#[global] Instance stable_dec e : Decision (stable e).
Proof. unfold stable. apply _. Defined.

(** The jamo that the Hangul syllables decompose into. *)
Definition jamo_ranges : list (N * N) :=
  [ (0x1100, 0x1112); (0x1161, 0x1175); (0x11A8, 0x11C2) ].

(** A character that the first half of the normalisation leaves as it
    is, and that combines only if it is a nonspacing mark. *)
Definition settled (e : N) : Prop :=
  lower_cp e = [e] ∧ decomp e = [e] ∧ (ccc e = 0 ∨ is_Mn e = true).

(** A character on which every step of the normalisation is the
    identity. *)
Definition fixed (e : N) : Prop :=
  lower_cp e = [e] ∧ decomp e = [e] ∧ ccc e = 0 ∧ is_Mn e = false.

#[global] Instance settled_dec e : Decision (settled e).
Proof. unfold settled. apply _. Defined.

(** The code points of a list of ranges, one by one. *)
Definition enumerate (rs : list (N * N)) : list N :=
  flat_map
    (fun r => map N.of_nat
                (seq (N.to_nat (fst r)) (N.to_nat (snd r) - N.to_nat (fst r) + 1)))
    rs.

End Unicode.

(** * Name normalisation and crawl planning *)

Module Names.
Import Unicode.

(** [s.split()]: the maximal runs of characters that are not white
    space.  [cur] is the run being read, last character first. *)
Fixpoint split_from (cur : str) (s : str) : list str :=
  match s with
  | [] => match cur with [] => [] | _ :: _ => [rev cur] end
  | c :: s' =>
      if isspace c then
        match cur with
        | [] => split_from [] s'
        | _ :: _ => rev cur :: split_from [] s'
        end
      else split_from (c :: cur) s'
  end.

Definition split (s : str) : list str := split_from [] s.

(** [sep.join(words)] *)
Fixpoint join (sep : str) (words : list str) : str :=
  match words with
  | [] => []
  | w :: rest =>
      match rest with
      | [] => w
      | _ :: _ => w ++ sep ++ join sep rest
      end
  end.

(** [PlayerURLFinder._normalize_name] *)
Definition _normalize_name (name : str) : str :=
  (* Convert to lowercase *)
  let name := lower name in
  (* Remove accents/diacritics *)
  let name := List.filter (fun c => negb (is_Mn c)) (nfd name) in
  (* Remove extra whitespace *)
  join (u " ") (split name).

(** [normalize_name] of [filter_player_urls.py], the same text. *)
Definition normalize_name (name : str) : str :=
  let name := lower name in
  let name := List.filter (fun c => negb (is_Mn c)) (nfd name) in
  join (u " ") (split name).

(** The order of [sorted] on [str]: by code point, a proper prefix
    first. *)
Fixpoint str_leb (a b : str) : bool :=
  match a, b with
  | [], _ => true
  | _ :: _, [] => false
  | x :: a', y :: b' =>
      if x <? y then true else if y <? x then false else str_leb a' b'
  end.

Definition str_le (a b : str) : Prop := str_leb a b = true.

#[global] Instance str_le_dec : RelDecision str_le.
Proof. intros a b. unfold str_le. apply _. Defined.

(** [sorted(xs)] on strings. *)
Definition sorted (xs : list str) : list str := merge_sort str_le xs.

(** What [_get_required_combos] holds while it reads the names: the set
    [required_combos] and the records it has sent to [logger.warning]. *)
Record combos_state := {
  required_combos : gset str;
  warnings : list str
}.

Definition too_short_message (name : str) : str :=
  u "Player name too short after normalization: " ++ name.

(** One turn of [for name in player_names]. *)
Definition combos_step (st : combos_state) (name : str) : combos_state :=
  (* Normalize the name *)
  let normalized := _normalize_name name in
  (* Remove non-alphabetic characters *)
  let cleaned := List.filter isalpha normalized in
  (* Get first two letters *)
  if (2 <=? length cleaned)%nat then
    let combo := take 2 cleaned in
    {| required_combos := {[combo]} ∪ required_combos st;
       warnings := warnings st |}
  else if (length cleaned =? 1)%nat then
    {| required_combos := required_combos st;
       warnings := warnings st ++ [too_short_message name] |}
  else st.

Definition combos_loop (player_names : list str) : combos_state :=
  fold_left combos_step player_names
    {| required_combos := ∅; warnings := [] |}.

(** [PlayerURLFinder._get_required_combos]: the list it returns. *)
Definition _get_required_combos (player_names : list str) : list str :=
  sorted (elements (required_combos (combos_loop player_names))).

(** The warnings [_get_required_combos] logs; they are not part of what
    it returns. *)
Definition _get_required_combos_warnings (player_names : list str)
  : list str :=
  warnings (combos_loop player_names).

(** The letters of a name that [_get_required_combos] takes the combo
    from. *)
Definition cleaned (name : str) : str :=
  List.filter isalpha (_normalize_name name).

(** [PlayerURLFinder._generate_two_letter_combos] *)
Definition ascii_lowercase : str := u "abcdefghijklmnopqrstuvwxyz".

Definition _generate_two_letter_combos : list str :=
  flat_map (fun first => map (fun second => [first; second]) ascii_lowercase)
    ascii_lowercase.

(** ** Notions used in the statements *)

(** A run of characters without white space, and a word: such a run
    that is not empty. *)
Definition no_space (w : str) : Prop := Forall (fun c => isspace c = false) w.

Definition word (w : str) : Prop := w ≠ [] ∧ no_space w.

(** Every combining character of the name is a nonspacing mark. *)
Definition marks_nonspacing (n : str) : Prop :=
  Forall (fun c => ccc c = 0 ∨ is_Mn c = true) n.

(** Names used in the examples. *)
Definition kylian_mbappe : str := u "Kylian Mbapp" ++ [0xE9].
Definition orjan_nyland : str := [0xD8] ++ u "rjan Nyland".
Definition stem_and_dot : str := [0x1D16D; 0xFE0F; 0x1D165].
Definition stefan_radu : str := [0x218] ++ u "tefan Radu".
Definition ngolo_kante : str := u "N'Golo Kant" ++ [0xE9].
Definition ya : str := [0x42F].

End Names.


(** * The index crawl *)

Module Crawl.
Import Unicode Names.

(** ** String operations of [str] used by the crawler *)

(** [s.startswith(p)] *)
Fixpoint startswith (p s : str) : bool :=
  match p, s with
  | [], _ => true
  | _ :: _, [] => false
  | a :: p', b :: s' => (a =? b) && startswith p' s'
  end.

(** [p in s] *)
Fixpoint contains (p s : str) : bool :=
  startswith p s ||
  match s with
  | [] => false
  | _ :: s' => contains p s'
  end.

(** [s.count(c)] for a one-character [c] *)
Definition count (c : N) (s : str) : nat :=
  List.length (List.filter (N.eqb c) s).

(** ** Pages *)

(** An anchor [link] of [soup.find_all('a', href=True)]: [link['href']]
    and [link.get_text(strip=True)]. *)
Record link := {
  href : str;
  text : str
}.

(** A parsed page, as far as the crawler reads it: its anchors with an
    [href], in document order. *)
Abbreviation soup := (list link).

(** What [self.scraper.get(url, timeout=30)] does: it raises, or returns
    a response with a status code and a body. *)
Inductive response :=
| RequestException
| Response (status_code : N) (content : soup).

(** What the run reads from outside: the answer to its [k]-th request
    (counted from 1), and the clock at that moment. *)
Record world := {
  get : nat -> str -> response;
  now : nat -> str
}.

Definition base_url : str := u "https://fbref.com".
Definition player_index_url : str := u "https://fbref.com/en/players/".

(** [response.raise_for_status()] raises on 4xx and 5xx. *)
Definition raises_for_status (status_code : N) : bool :=
  (400 <=? status_code) && (status_code <? 600).

(** [PlayerURLFinder._scrape_page]: [None] on a 404 and on every
    exception alike. *)
Definition _scrape_page (w : world) (k : nat) (url : str) : option soup :=
  match get w k url with
  | RequestException => None
  | Response status_code content =>
      if status_code =? 404 then None
      else if raises_for_status status_code then None
      else Some content
  end.

(** The body of [for link in soup.find_all('a', href=True)]. *)
Definition extract_link (players : gmap str str) (l : link)
  : gmap str str :=
  (* Player URLs have format: /en/players/{id}/{name} *)
  if contains (u "/players/") (href l)
     && (4 <=? count 0x2F (href l))%nat then
    (* Skip if it's already a stats page or matchlog *)
    if contains (u "-Stats") (href l) || contains (u "matchlogs") (href l)
    then players
    else
      let player_name := text l in
      (* Skip empty names or very short names *)
      if (List.length player_name <? 3)%nat then players
      else
        let stats_url :=
          if startswith (u "/") (href l)
          then base_url ++ href l ++ u "-Stats"
          else base_url ++ u "/" ++ href l ++ u "-Stats" in
        (* Avoid duplicates *)
        match players !! player_name with
        | None => <[player_name := stats_url]> players
        | Some _ => players
        end
  else players.

(** [PlayerURLFinder._extract_players_from_page] *)
Definition _extract_players_from_page (page : soup) : gmap str str :=
  fold_left extract_link page ∅.

(** ** Checkpoints *)

(** The JSON object of the checkpoint file; [json.load] gives a [dict]
    whose keys the crawler reads with [.get]. *)
Record checkpoint_data := {
  cd_players : option (gmap str str);
  cd_processed_combos : option (list str);
  cd_timestamp : option str
}.

(** The variables of [scrape_player_index], the URLs it has requested
    (oldest first) and the content of the checkpoint file. *)
Record crawl_state := {
  all_players : gmap str str;
  processed_combos : gset str;
  requested : list str;
  checkpoint_file : option checkpoint_data
}.

(** [PlayerURLFinder._save_checkpoint]: what the file holds once
    [json.dump] has returned.  The code opens the file for writing,
    which empties it, and then writes; what the file holds in between,
    and a run that is interrupted there, are not described. *)
Definition _save_checkpoint (players : gmap str str)
    (processed : list str) (timestamp : str) : checkpoint_data :=
  {| cd_players := Some players;
     cd_processed_combos := Some processed;
     cd_timestamp := Some timestamp |}.

Definition combo_url (combo : str) : str :=
  player_index_url ++ combo ++ u "/".

(** The body of [for idx, combo in enumerate(remaining_combos, 1)]. *)
Definition crawl_step (w : world) (idx : nat) (combo : str)
    (st : crawl_state) : crawl_state :=
  let url := combo_url combo in
  let soup := _scrape_page w idx url in
  (* if soup: a BeautifulSoup object is true whatever it contains *)
  let all_players' :=
    match soup with
    | Some page =>
        let players_on_page := _extract_players_from_page page in
        (* all_players.update(players_on_page) *)
        players_on_page ∪ all_players st
    | None => all_players st
    end in
  let processed' := {[combo]} ∪ processed_combos st in
  (* Save checkpoint every 50 pages *)
  let file' :=
    if (idx mod 50 =? 0)%nat
    then Some (_save_checkpoint all_players' (elements processed') (now w idx))
    else checkpoint_file st in
  {| all_players := all_players';
     processed_combos := processed';
     requested := requested st ++ [url];
     checkpoint_file := file' |}.

Fixpoint crawl_loop (w : world) (idx : nat) (remaining_combos : list str)
    (st : crawl_state) : crawl_state :=
  match remaining_combos with
  | [] => st
  | combo :: rest => crawl_loop w (S idx) rest (crawl_step w idx combo st)
  end.

(** The state after the checkpoint has been read. *)
Definition load_checkpoint (resume : bool) (file : option checkpoint_data)
  : crawl_state :=
  match resume, file with
  | true, Some checkpoint =>
      {| all_players := default ∅ (cd_players checkpoint);
         processed_combos :=
           list_to_set (default [] (cd_processed_combos checkpoint));
         requested := [];
         checkpoint_file := file |}
  | _, _ =>
      {| all_players := ∅; processed_combos := ∅;
         requested := []; checkpoint_file := file |}
  end.

Definition remaining_of (combos : list str) (processed : gset str)
  : list str :=
  filter (fun c => c ∉ processed) combos.

(** [PlayerURLFinder.scrape_player_index]; it returns [all_players] of
    the final state. *)
Definition scrape_player_index (w : world) (file : option checkpoint_data)
    (resume : bool) (target_combos : option (list str)) : crawl_state :=
  let st := load_checkpoint resume file in
  let combos :=
    match target_combos with
    | Some combos => combos
    | None => _generate_two_letter_combos
    end in
  let remaining_combos := remaining_of combos (processed_combos st) in
  let st := crawl_loop w 1 remaining_combos st in
  (* Final save *)
  {| all_players := all_players st;
     processed_combos := processed_combos st;
     requested := requested st;
     checkpoint_file :=
       Some (_save_checkpoint (all_players st)
               (elements (processed_combos st))
               (now w (List.length remaining_combos))) |}.

(** ** Notions used in the statements *)

(** A fetch that gave no page: the request raised, or the status was
    404 or another error status. *)
Definition failed (r : response) : Prop :=
  match r with
  | RequestException => True
  | Response status_code _ =>
      status_code = 404 ∨ raises_for_status status_code = true
  end.

(** The pages a run gets for the shards it requests, in the order of
    the requests; [idx] is the number of the first request. *)
Fixpoint fetched (w : world) (idx : nat) (remaining_combos : list str)
  : list soup :=
  match remaining_combos with
  | [] => []
  | combo :: rest =>
      match _scrape_page w idx (combo_url combo) with
      | Some page => page :: fetched w (S idx) rest
      | None => fetched w (S idx) rest
      end
  end.

(** The links [_extract_players_from_page] takes a player from. *)
Definition is_player_link (l : link) : bool :=
  contains (u "/players/") (href l)
  && (4 <=? count 0x2F (href l))%nat
  && negb (contains (u "-Stats") (href l) || contains (u "matchlogs") (href l))
  && negb (List.length (text l) <? 3)%nat.

Definition stats_url (l : link) : str :=
  if startswith (u "/") (href l)
  then base_url ++ href l ++ u "-Stats"
  else base_url ++ u "/" ++ href l ++ u "-Stats".

(** The URL of the first player link of the page with the given text. *)
Fixpoint first_url (name : str) (page : soup) : option str :=
  match page with
  | [] => None
  | l :: rest =>
      if is_player_link l && bool_decide (text l = name)
      then Some (stats_url l)
      else first_url name rest
  end.

(** Inputs used in the examples: a site that cannot be reached, and a
    site whose every index page lists one player "Ab Cd" under the
    given id. *)
Definition offline : world :=
  {| get := fun _ _ => RequestException;
     now := fun _ => u "2025-01-01 00:00:00" |}.

Definition page_of (id : str) : soup :=
  [ {| href := u "/en/players/" ++ id ++ u "/Ab-Cd"; text := u "Ab Cd" |} ].

Definition site_listing (id : nat -> str) : world :=
  {| get := fun k _ => Response 200 (page_of (id k));
     now := fun _ => u "2025-01-01 00:00:00" |}.

Definition stats_url_of (id : str) : str :=
  u "https://fbref.com/en/players/" ++ id ++ u "/Ab-Cd-Stats".

Definition old_checkpoint : checkpoint_data :=
  {| cd_players := Some {[ u "Ab Cd" := stats_url_of (u "11111111") ]};
     cd_processed_combos := Some [u "aa"];
     cd_timestamp := Some (u "2024-12-31 00:00:00") |}.

End Crawl.


(** * Joining transfers with the statistics of the season before *)

Module Merge.

Local Open Scope string_scope.
Local Open Scope Z_scope.

(** ** Exceptions *)

Inductive exn := ValueError | KeyError | AttributeError | IndexError.

Inductive result (A : Type) :=
| Return (a : A)
| Raise (e : exn).
Arguments Return {A} a.
Arguments Raise {A} e.

#[global] Instance result_ret : MRet result := fun A a => Return a.

#[global] Instance result_bind : MBind result := fun A B k r =>
  match r with
  | Return a => k a
  | Raise e => Raise e
  end.

(** ** String operations of [str] and [int] used by the join *)

(** [s.split(sep)] for a one-character [sep]; never empty. *)
Fixpoint split (sep : ascii) (s : string) : list string :=
  match s with
  | EmptyString => [EmptyString]
  | String a s' =>
      if Ascii.eqb a sep then EmptyString :: split sep s'
      else
        match split sep s' with
        | p :: ps => String a p :: ps
        | [] => [String a EmptyString]
        end
  end.

(** [s.replace(a, t)] for a one-character [a] *)
Fixpoint replace (a : ascii) (t : string) (s : string) : string :=
  match s with
  | EmptyString => EmptyString
  | String b s' =>
      if Ascii.eqb b a then t ++ replace a t s' else String b (replace a t s')
  end.

(** A [str] is given here by its UTF-8 bytes (a surrogate, which a
    [str] may hold, by its three bytes); splitting at ["/"], replacing
    a space or an apostrophe, comparing and concatenating work on the
    bytes as they do on the characters.  [int] looks at the characters:
    [utf8_decode] gives them, and [None] for bytes that are no [str]. *)
Definition continuation (b : N) : bool := ((0x80 <=? b) && (b <=? 0xBF))%N.

Fixpoint utf8_decode (bs : list N) : option (list N) :=
  match bs with
  | [] => Some []
  | b0 :: r0 =>
      if (b0 <? 0x80)%N then cons b0 <$> utf8_decode r0
      else if ((0xC2 <=? b0) && (b0 <=? 0xDF))%N then
        match r0 with
        | b1 :: r1 =>
            if continuation b1
            then cons ((b0 - 0xC0) * 0x40 + (b1 - 0x80))%N <$> utf8_decode r1
            else None
        | _ => None
        end
      else if ((0xE0 <=? b0) && (b0 <=? 0xEF))%N then
        match r0 with
        | b1 :: b2 :: r2 =>
            let c := ((b0 - 0xE0) * 0x1000 + (b1 - 0x80) * 0x40
                      + (b2 - 0x80))%N in
            if continuation b1 && continuation b2 && (0x800 <=? c)%N
            then cons c <$> utf8_decode r2
            else None
        | _ => None
        end
      else if ((0xF0 <=? b0) && (b0 <=? 0xF4))%N then
        match r0 with
        | b1 :: b2 :: b3 :: r3 =>
            let c := ((b0 - 0xF0) * 0x40000 + (b1 - 0x80) * 0x1000
                      + (b2 - 0x80) * 0x40 + (b3 - 0x80))%N in
            if continuation b1 && continuation b2 && continuation b3
               && (0x10000 <=? c)%N && (c <=? 0x10FFFF)%N
            then cons c <$> utf8_decode r3
            else None
        | _ => None
        end
      else None
  end.

(** What [int] makes of the characters before it reads them
    ([_PyUnicode_TransformDecimalAndSpaceToASCII]): a character below
    U+007F stays, white space becomes a space, a decimal digit its ASCII
    digit, and at anything else the text ends with a question mark. *)
Fixpoint to_ascii (cps : list N) : list N :=
  match cps with
  | [] => []
  | c :: rest =>
      if (c <? 127)%N then c :: to_ascii rest
      else if Unicode.isspace c then 32%N :: to_ascii rest
      else match Unicode.decimal c with
           | Some d => (48 + d)%N :: to_ascii rest
           | None => [63%N]
           end
  end.

(** The white space [int] skips at both ends ([Py_ISSPACE]). *)
Definition is_space (c : N) : bool :=
  ((9 <=? c) && (c <=? 13) || (c =? 32))%N.

Definition is_digit (c : N) : bool := ((48 <=? c) && (c <=? 57))%N.

Definition digit_value (c : N) : Z := Z.of_N c - 48.

Fixpoint lstrip (s : list N) : list N :=
  match s with
  | c :: s' => if is_space c then lstrip s' else s
  | [] => []
  end.

Definition strip (s : list N) : list N :=
  rev (lstrip (rev (lstrip s))).

(** The digits of an [int] literal: digits, with single underscores
    between them.  [after_digit] tells whether the last character was a
    digit, [count] how many digits have been read. *)
Fixpoint int_digits (acc : Z) (count : nat) (after_digit : bool)
    (s : list N) : option (Z * nat) :=
  match s with
  | [] => if after_digit then Some (acc, count) else None
  | c :: s' =>
      if is_digit c
      then int_digits (10 * acc + digit_value c) (S count) true s'
      else if (c =? 95)%N then
        if after_digit then int_digits acc count false s' else None
      else None
  end.

(** The most digits [int] reads ([sys.int_info.default_max_str_digits]). *)
Definition max_str_digits : nat := 4300.

(** [int(s)] in base 10: white space around, a sign, the digits.  A
    string it cannot read, or one with too many digits, raises
    [ValueError]. *)
Definition int (s : string) : result Z :=
  match utf8_decode (u s) with
  | Some cps =>
      let body := strip (to_ascii cps) in
      let parsed :=
        match body with
        | c :: digits =>
            if (c =? 43)%N then int_digits 0 0 false digits
            else if (c =? 45)%N
            then prod_map Z.opp id <$> int_digits 0 0 false digits
            else int_digits 0 0 false body
        | [] => None
        end in
      match parsed with
      | Some (z, count) =>
          if (max_str_digits <? count)%nat then Raise ValueError
          else Return z
      | None => Raise ValueError
      end
  | None => Raise ValueError
  end.

(** [f"{z}"] for an [int] *)
Definition format_int (z : Z) : string := NilZero.string_of_int (Z.to_int z).

(** [parse_transfer_season] *)
Definition parse_transfer_season (season_str : string) : result string :=
  (* Parse the transfer season *)
  let parts := split "/" season_str in
  part0 ← match parts with
           | p :: _ => Return p
           | [] => Raise IndexError
           end;
  start_year ← int ("20" ++ part0);
  (* Get PREVIOUS season *)
  let prev_start := start_year - 1 in
  let prev_end := start_year in
  Return (format_int prev_start ++ "-" ++ format_int prev_end).

(** ** Tables *)

(** A cell of a table read by [pd.read_csv]: a number, a text, or a
    missing value.  The numbers are those of an integer column
    ([int64], from -2^63 to 2^63 - 1, and no missing value in the
    column); a column of decimal fractions or with a missing value is a
    [float64] column, which pandas sums in floating point and which is
    not described. *)
Inductive cell :=
| Num (z : Z)
| Text (s : string)
| NaN.

(** Whether [select_dtypes(include='number')] keeps a column. *)
Inductive dtype := Number | Object.

#[global] Instance dtype_eq_dec : EqDecision dtype.
Proof. solve_decision. Defined.

#[global] Instance cell_eq_dec : EqDecision cell.
Proof. solve_decision. Defined.

(** A [DataFrame]: the columns with their dtype, and the rows, each
    with one cell per column. *)
Record DataFrame := {
  columns : list (string * dtype);
  rows : list (list cell)
}.

(** A [Series]: labels with their values, in order. *)
Abbreviation Series := (list (string * cell)).

(** [series[label]] *)
Fixpoint series_get (label : string) (s : Series) : option cell :=
  match s with
  | [] => None
  | (l, v) :: s' => if String.eqb l label then Some v else series_get label s'
  end.

(** [series[label] = value]: the value of an existing label is replaced
    where it stands, a new label is added at the end. *)
Fixpoint series_set (label : string) (value : cell) (s : Series) : Series :=
  match s with
  | [] => [(label, value)]
  | (l, v) :: s' =>
      if String.eqb l label then (l, value) :: s'
      else (l, v) :: series_set label value s'
  end.

(** The position of a column. *)
Fixpoint column_index (label : string) (cols : list (string * dtype))
  : option nat :=
  match cols with
  | [] => None
  | (l, _) :: cols' =>
      if String.eqb l label then Some O
      else S <$> column_index label cols'
  end.

Definition cell_at (j : nat) (row : list cell) : cell := nth j row NaN.

(** [frame.iloc[i]] for a row of the frame *)
Definition row_series (cols : list (string * dtype)) (row : list cell)
  : Series :=
  zip (map fst cols) row.

(** The sum of the numbers of a column. *)
Definition column_total (j : nat) (rs : list (list cell)) : Z :=
  fold_right (fun row acc =>
                match cell_at j row with
                | Num z => z + acc
                | _ => acc
                end) 0 rs.

(** 64-bit arithmetic: a sum beyond [int64] wraps around. *)
Definition wrap64 (z : Z) : Z := (z + 2 ^ 63) mod 2 ^ 64 - 2 ^ 63.

(** [frame[label].sum()] for an integer column. *)
Definition column_sum (j : nat) (rs : list (list cell)) : Z :=
  wrap64 (column_total j rs).

(** [frame.select_dtypes(include='number').sum()] *)
Fixpoint numeric_sums (j : nat) (cols : list (string * dtype))
    (rs : list (list cell)) : Series :=
  match cols with
  | [] => []
  | (l, Number) :: cols' =>
      (l, Num (column_sum j rs)) :: numeric_sums (S j) cols' rs
  | (_, Object) :: cols' => numeric_sums (S j) cols' rs
  end.

(** The loop [for col in season_stats.select_dtypes(exclude='number')]
    of [get_player_stats], over the columns from position [j] on. *)
Fixpoint add_first_values (j : nat) (cols : list (string * dtype))
    (first : list cell) (combined : Series) : Series :=
  match cols with
  | [] => combined
  | (_, Number) :: cols' => add_first_values (S j) cols' first combined
  | (col, Object) :: cols' =>
      let combined :=
        (* Don't include club/comp since we're combining *)
        if String.eqb col "Squad" || String.eqb col "Comp" then combined
        else series_set col (cell_at j first) combined in
      add_first_values (S j) cols' first combined
  end.

(** ** Files *)

Inductive file :=
| Unreadable
| Csv (df : DataFrame).

(** The files under the working directory. *)
Abbreviation files := (string -> option file).

(** [glob.has_magic]: the pattern has a wildcard character. *)
Definition has_magic (pattern : string) : bool :=
  existsb (fun a => Ascii.eqb a "*" || Ascii.eqb a "?" || Ascii.eqb a "[")
    (list_ascii_of_string pattern).

(** [glob.glob] of a pattern without wildcard characters: the path
    itself when the file exists.  A pattern with [*], [?] or [[] is
    matched against the names in the directory, which are not
    described: the statements that depend on which file is found are
    about patterns for which [has_magic] is false. *)
Definition glob (fs : files) (pattern : string) : list string :=
  match fs pattern with
  | Some _ => [pattern]
  | None => []
  end.

(** The path [get_player_stats] looks for. *)
Definition stats_path (player_name stats_type : string) : string :=
  (* Clean player name for file matching *)
  let clean_name := replace "'" "" (replace " " "_" player_name) in
  "outputs/" ++ clean_name ++ "_" ++ stats_type ++ ".csv".

(** The rows of the season. *)
Definition season_rows (k : nat) (target_season : string)
    (rs : list (list cell)) : list (list cell) :=
  List.filter (fun row => bool_decide (cell_at k row = Text target_season)) rs.

(** [get_player_stats] *)
Definition get_player_stats (fs : files) (player_name target_season : string)
    (stats_type : string) : option Series :=
  (* Find the stats file *)
  let pattern := stats_path player_name stats_type in
  match glob fs pattern with
  | [] => None
  | path :: _ =>
      match fs path with
      | Some (Csv df) =>
          (* Filter for target season *)
          match column_index "Season" (columns df) with
          | None => None
          | Some k =>
              let season_stats := season_rows k target_season (rows df) in
              match season_stats with
              | [] => None
              | [row] => Some (row_series (columns df) row)
              | first :: _ =>
                  (* Sum numeric columns, keep first value for non-numeric *)
                  let combined := numeric_sums 0 (columns df) season_stats in
                  let combined :=
                    add_first_values 0 (columns df) first combined in
                  let combined := series_set "Squad" (Text "Combined") combined in
                  let combined :=
                    series_set "Season" (Text target_season) combined in
                  Some combined
              end
          end
      | _ => None
      end
  end.

(** ** The loop of [merge_transfers_with_stats] *)

(** [cell.split], [cell.replace]: only a [str] has the method. *)
Definition as_str (c : cell) : result string :=
  match c with
  | Text s => Return s
  | _ => Raise AttributeError
  end.

Definition item (label : string) (s : Series) : result cell :=
  match series_get label s with
  | Some v => Return v
  | None => Raise KeyError
  end.

Record not_found_entry := {
  nf_Player : string;
  nf_Transfer_Season : string;
  nf_Looking_For : string
}.

Record merge_state := {
  results : list Series;
  not_found : list not_found_entry
}.

(** [for col, val in stats.items(): if col not in skip:
    merged_row[prefix + col] = val] *)
Definition add_prefixed (prefix : string) (skip : list string)
    (stats : Series) (merged_row : Series) : Series :=
  fold_left
    (fun row cv =>
       if existsb (String.eqb (fst cv)) skip then row
       else series_set (prefix ++ fst cv) (snd cv) row)
    stats merged_row.

(** The body of [for idx, transfer in transfers.iterrows()]. *)
Definition merge_step (fs : files) (st : merge_state) (transfer : Series)
  : result merge_state :=
  player_cell ← item "Player" transfer;
  season_cell ← item "Season" transfer;
  (* Get previous season in FBref format *)
  transfer_season ← as_str season_cell;
  prev_season ← parse_transfer_season transfer_season;
  (* Get stats *)
  player_name ← as_str player_cell;
  let standard_stats :=
    get_player_stats fs player_name prev_season "standard_stats" in
  let defensive_stats :=
    get_player_stats fs player_name prev_season "defensive_actions" in
  match standard_stats with
  | Some standard =>
      let merged_row := transfer in
      let merged_row := add_prefixed "Stats_" ["Season"] standard merged_row in
      let merged_row :=
        match defensive_stats with
        | Some defensive =>
            add_prefixed "Def_" ["Season"; "Squad"; "Comp"] defensive merged_row
        | None => merged_row
        end in
      let merged_row :=
        series_set "Stats_Season" (Text prev_season) merged_row in
      Return {| results := results st ++ [merged_row];
                not_found := not_found st |}
  | None =>
      Return {| results := results st;
                not_found := not_found st ++
                  [ {| nf_Player := player_name;
                       nf_Transfer_Season := transfer_season;
                       nf_Looking_For := prev_season |} ] |}
  end.

Fixpoint merge_loop (fs : files) (transfers : list Series) (st : merge_state)
  : result merge_state :=
  match transfers with
  | [] => Return st
  | transfer :: rest =>
      st' ← merge_step fs st transfer;
      merge_loop fs rest st'
  end.

(** Lines 107 to 149 of [merge_transfers_with_stats]: the two lists
    when the loop ends, or the exception that ended it. *)
Definition merge_transfers_with_stats (fs : files) (transfers : list Series)
  : result merge_state :=
  merge_loop fs transfers {| results := []; not_found := [] |}.

(** ** Notions used in the statements *)


(** The row [get_player_stats] builds from several rows of a season. *)
Definition combined_row (cols : list (string * dtype)) (target_season : string)
    (season_stats : list (list cell)) (first : list cell) : Series :=
  series_set "Season" (Text target_season)
    (series_set "Squad" (Text "Combined")
       (add_first_values 0 cols first (numeric_sums 0 cols season_stats))).




(** The character of a decimal digit, and a season string that starts
    with two of them and a slash. *)
Definition digit_char (d : nat) : ascii := ascii_of_nat (48 + d).

Definition season_string (a b : nat) (rest : string) : string :=
  String (digit_char a) (String (digit_char b) ("/" ++ rest)).

(** A row the loop can read: a text in [Player] and in [Season], and a
    season that [parse_transfer_season] accepts. *)
Definition readable (transfer : Series) : Prop :=
  ∃ player season prev,
    series_get "Player" transfer = Some (Text player)
    ∧ series_get "Season" transfer = Some (Text season)
    ∧ parse_transfer_season season = Return prev.

(** A label that is none of the labels the loop adds to a row. *)
Definition own_label (l : string) : Prop :=
  (∀ col, l ≠ "Stats_" ++ col) ∧ (∀ col, l ≠ "Def_" ++ col).

(** A string without a slash. *)
Definition no_slash (s : string) : Prop :=
  Forall (fun a => a ≠ "/"%char) (list_ascii_of_string s).

(** What a merged record has to do with a transfer: it keeps the
    cells of the transfer under the transfer's own labels, and has the
    season before the transfer's under [Stats_Season]. *)
Definition merged_from (transfer row : Series) : Prop :=
  ∃ season prev,
    series_get "Season" transfer = Some (Text season)
    ∧ parse_transfer_season season = Return prev
    ∧ series_get "Stats_Season" row = Some (Text prev)
    ∧ ∀ l, own_label l → series_get l row = series_get l transfer.

(** What a not-found record has to do with a transfer: it names the
    player and the season of the transfer and the season before it, for
    which [get_player_stats] has no standard statistics. *)
Definition reported_from (fs : files) (transfer : Series)
    (entry : not_found_entry) : Prop :=
  series_get "Player" transfer = Some (Text (nf_Player entry))
  ∧ series_get "Season" transfer = Some (Text (nf_Transfer_Season entry))
  ∧ parse_transfer_season (nf_Transfer_Season entry)
    = Return (nf_Looking_For entry)
  ∧ get_player_stats fs (nf_Player entry) (nf_Looking_For entry)
      "standard_stats" = None.

(** A transfer whose player has file names without wildcard
    characters. *)
Definition literal_paths (transfer : Series) : Prop :=
  ∀ player,
    series_get "Player" transfer = Some (Text player) →
    has_magic (stats_path player "standard_stats") = false.

(** Inputs used in the examples: the statistics of one player with two
    clubs in 2009-2010, and three transfers of which the second has a
    season that is no number. *)
Definition two_clubs : DataFrame :=
  {| columns := [("Season", Object); ("Squad", Object); ("Comp", Object);
                 ("Gls", Number); ("Nation", Object)];
     rows := [ [Text "2009-2010"; Text "Lyon"; Text "Ligue 1"; Num 5; Text "fr"];
               [Text "2009-2010"; Text "Real Madrid"; Text "La Liga"; Num 7;
                Text "fr"];
               [Text "2010-2011"; Text "Real Madrid"; Text "La Liga"; Num 9;
                Text "fr"] ] |}.

Definition one_player : files :=
  fun path =>
    if String.eqb path "outputs/Karim_Benzema_standard_stats.csv"
    then Some (Csv two_clubs)
    else None.

Definition transfer (player season : string) : Series :=
  [("Player", Text player); ("Season", Text season)].

Definition three_transfers : list Series :=
  [ transfer "Karim Benzema" "10/11";
    transfer "Luka Modric" "xx/yy";
    transfer "Karim Benzema" "11/12" ].

(** Two transfers the loop can read, and what it makes of them. *)
Definition two_transfers : list Series :=
  [ transfer "Karim Benzema" "10/11"; transfer "Luka Modric" "12/13" ].

Definition two_transfers_merged : merge_state :=
  {| results :=
       [ [("Player", Text "Karim Benzema"); ("Season", Text "10/11");
          ("Stats_Gls", Num 12); ("Stats_Nation", Text "fr");
          ("Stats_Squad", Text "Combined");
          ("Stats_Season", Text "2009-2010")] ];
     not_found :=
       [ {| nf_Player := "Luka Modric";
            nf_Transfer_Season := "12/13";
            nf_Looking_For := "2011-2012" |} ] |}.

End Merge.


(** * Matching names against the index *)

Module Match.
Import Unicode Names.

(** The items of a [dict], in the order in which [dict.items()] yields
    them; the keys are distinct. *)
Abbreviation items := (list (str * str)).

(** The lookup table of [match_players]:
    [{self._normalize_name(name): (name, url) for name, url in
    index_players.items()}].  A later item replaces an earlier one with
    the same normalised name. *)
Definition normalized_index_of (index_players : items)
  : gmap str (str * str) :=
  fold_left (fun m item => <[_normalize_name item.1 := item]> m)
    index_players ∅.

(** The variables [matched] and [unmatched]. *)
Record match_state := {
  matched : gmap str str;
  unmatched : list str
}.

(** The body of [for csv_name in csv_players]. *)
Definition match_step (normalized_index : gmap str (str * str))
    (st : match_state) (csv_name : str) : match_state :=
  let normalized_csv := _normalize_name csv_name in
  match normalized_index !! normalized_csv with
  | Some (original_name, url) =>
      {| matched := <[csv_name := url]> (matched st);
         unmatched := unmatched st |}
  | None =>
      {| matched := matched st;
         unmatched := unmatched st ++ [csv_name] |}
  end.

(** [PlayerURLFinder.match_players] *)
Definition match_players (csv_players : list str) (index_players : items)
  : match_state :=
  (* Create normalized lookup dictionary *)
  let normalized_index := normalized_index_of index_players in
  fold_left (match_step normalized_index) csv_players
    {| matched := ∅; unmatched := [] |}.

(** What [match_and_filter] does: it returns, or the division in its
    summary lines raises. *)
Inductive outcome :=
| Returned (st : match_state)
| ZeroDivisionError.

(** [match_and_filter] of [filter_player_urls.py]: the same text, with
    [normalize_name]; before it returns it prints
    [len(matched)/(len(csv_players))*100]. *)
Definition match_and_filter (csv_players : list str) (all_urls : items)
  : outcome :=
  let normalized_index : gmap str (str * str) :=
    fold_left (fun m item => <[normalize_name item.1 := item]> m)
      all_urls ∅ in
  let st :=
    fold_left
      (fun st csv_name =>
         let normalized_csv := normalize_name csv_name in
         match normalized_index !! normalized_csv with
         | Some (original_name, url) =>
             {| matched := <[csv_name := url]> (matched st);
                unmatched := unmatched st |}
         | None =>
             {| matched := matched st;
                unmatched := unmatched st ++ [csv_name] |}
         end)
      csv_players {| matched := ∅; unmatched := [] |} in
  if (List.length csv_players =? 0)%nat then ZeroDivisionError
  else Returned st.

(** ** Notions used in the statements *)

(** The last item of the index whose name has the given normalised
    form. *)
Fixpoint last_with (key : str) (index_players : items)
  : option (str * str) :=
  match index_players with
  | [] => None
  | item :: rest =>
      match last_with key rest with
      | Some found => Some found
      | None =>
          if bool_decide (_normalize_name item.1 = key) then Some item
          else None
      end
  end.

(** The URL [match_players] gives a name of the CSV file, if any. *)
Definition url_for (index_players : items) (csv_name : str) : option str :=
  snd <$> last_with (_normalize_name csv_name) index_players.

(** Inputs used in the examples: an index with one player, spelt
    without the accent, and three names of a CSV file. *)
Definition one_entry : items :=
  [ (u "Kylian Mbappe", u "https://fbref.com/en/players/42fd9c7f/Kylian-Mbappe-Stats") ].

Definition three_names : list str :=
  [ kylian_mbappe; u "Erling Haaland"; u "KYLIAN  MBAPPE" ].

End Match.

(** * Splitting the players into batches *)

Module Batches.

(** [math.ceil(total / 4)]; the quotient by 4 is exact in floating
    point. *)
Definition batch_size (total : nat) : nat :=
  if (total mod 4 =? 0)%nat then (total / 4)%nat else (total / 4 + 1)%nat.

(** [xs[start:end]] for indices that are not negative. *)
Definition slice {A : Type} (xs : list A) (start_idx end_idx : nat) : list A :=
  take (end_idx - start_idx) (drop start_idx xs).

(** The batch of turn [i] of [for i in range(4)] in [main]:
    [players_list[start_idx:end_idx]]. *)
Definition batch {A : Type} (players_list : list A) (i : nat) : list A :=
  let total := List.length players_list in
  let start_idx := (i * batch_size total)%nat in
  let end_idx := Nat.min ((i + 1) * batch_size total) total in
  slice players_list start_idx end_idx.

(** The four batches [main] of [create_batches.py] writes, in the order
    batch_1 to batch_4. *)
Definition batches {A : Type} (players_list : list A) : list (list A) :=
  map (batch players_list) [0; 1; 2; 3]%nat.

End Batches.

(** * Scraping the statistics of the players *)

Module Scraper.
Import Merge.

Local Open Scope string_scope.

(** ** Pages and requests *)

(** What [soup.find('h1')] and [h1.get_text(strip=True)] give: the
    text of the first [h1], no [h1], or an exception. *)
Inductive heading :=
| Heading (text : string)
| NoHeading
| HeadingError.

(** A player page as far as the scraper reads it: its heading, and
    what [_extract_table_by_id] makes of the table with a given id: a
    frame, or nothing when the table is missing or cannot be read. *)
Record player_page := {
  h1 : heading;
  table_by_id : string -> option DataFrame
}.

(** What [self.scraper.get(url, timeout=30)] does. *)
Inductive response :=
| RequestException
| Response (status_code : N) (content : player_page).

(** What the scraper meets outside: the answer to its [k]-th request
    (counted from 1), the clock, whether [os.makedirs(dir,
    exist_ok=True)] succeeds, whether a file can be written at a path
    ([to_csv] writes the whole file or raises and leaves the files as
    they were), and what [pd.read_csv] makes of the file that [to_csv]
    writes for a frame. *)
Record world := {
  get : nat -> string -> response;
  now : nat -> string;
  makedirs : string -> bool;
  writable : string -> bool;
  reread : DataFrame -> file
}.

(** [FBrefScraper._make_request]: [None] on every exception, also the
    one of [raise_for_status] on 4xx and 5xx. *)
Definition _make_request (w : world) (k : nat) (url : string)
  : option player_page :=
  match get w k url with
  | RequestException => None
  | Response status_code content =>
      if ((400 <=? status_code) && (status_code <? 600))%N then None
      else Some content
  end.

(** ** Results *)

(** The values of the [results] dict: the [player_info] dict, or a
    frame. *)
Inductive value :=
| Info (info : list (string * string))
| Frame (df : DataFrame).

(** A [dict] with [str] keys: its items in order. *)
Abbreviation dict V := (list (string * V)).

(** [d.get(key)] *)
Fixpoint dict_get {V : Type} (key : string) (d : dict V) : option V :=
  match d with
  | [] => None
  | (k, v) :: d' => if String.eqb k key then Some v else dict_get key d'
  end.

(** [d[key] = v] *)
Fixpoint dict_set {V : Type} (key : string) (v : V) (d : dict V) : dict V :=
  match d with
  | [] => [(key, v)]
  | (k, v') :: d' =>
      if String.eqb k key then (k, v) :: d' else (k, v') :: dict_set key v d'
  end.

(** [FBrefScraper._extract_player_info] *)
Definition _extract_player_info (page : player_page) (scrape_date : string)
  : list (string * string) :=
  let info := [("scrape_date", scrape_date)] in
  (* Try to extract player name from h1 tag *)
  match h1 page with
  | Heading text => dict_set "player_name" text info
  | NoHeading => info
  | HeadingError => dict_set "player_name" "Unknown" info
  end.

Definition tables_to_scrape : list (string * string) :=
  [ ("standard_stats", "stats_standard_dom_lg");
    ("defensive_actions", "stats_defense_dom_lg") ].

(** The loop [for table_name, table_id in tables_to_scrape.items()]. *)
Definition scrape_tables (page : player_page) (results : dict value)
  : dict value :=
  fold_left
    (fun results table =>
       match table_by_id page (snd table) with
       | Some df => dict_set (fst table) (Frame df) results
       | None => results
       end)
    tables_to_scrape results.

(** [FBrefScraper.scrape_player_stats]: the empty dict when the request
    fails. *)
Definition scrape_player_stats (w : world) (k : nat) (player_url : string)
  : dict value :=
  (* Make request *)
  match _make_request w k player_url with
  | None => []
  | Some soup =>
      (* Extract player info *)
      let player_info := _extract_player_info soup (now w k) in
      (* Scrape all tables *)
      scrape_tables soup [("player_info", Info player_info)]
  end.

(** ** Files *)

(** [os.path.join(a, b)] on POSIX. *)
Definition absolute (s : string) : bool :=
  match s with
  | String a _ => Ascii.eqb a "/"
  | EmptyString => false
  end.

Fixpoint ends_with_slash (s : string) : bool :=
  match s with
  | EmptyString => false
  | String a EmptyString => Ascii.eqb a "/"
  | String _ s' => ends_with_slash s'
  end.

Definition path_join (a b : string) : string :=
  if absolute b then b
  else if String.eqb a "" || ends_with_slash a then a ++ b
  else a ++ "/" ++ b.

(** [value.to_csv(filepath, index=False)], seen from [pd.read_csv]. *)
Definition write (fs : files) (filepath : string) (content : file) : files :=
  fun path => if String.eqb path filepath then Some content else fs path.

(** The name [save_results] files a player under:
    [results.get('player_info', {}).get('player_name', 'player')].
    [scrape_player_stats] stores the info dict under [player_info],
    never a frame. *)
Definition player_name_of (results : dict value) : string :=
  match dict_get "player_info" results with
  | Some (Info info) => default "player" (dict_get "player_name" info)
  | _ => "player"
  end.

Definition clean (player_name : string) : string :=
  replace "'" "" (replace " " "_" player_name).

(** The path of the file for the frame under [key]. *)
Definition filepath_of (output_dir player_name_clean key : string) : string :=
  let filename := player_name_clean ++ "_" ++ key ++ ".csv" in
  path_join output_dir filename.

(** The loop [for key, value in results.items()] of [save_results]:
    the files afterwards, and whether the loop came to its end ([true])
    or [to_csv] raised ([false]). *)
Fixpoint save_frames (w : world) (output_dir player_name_clean : string)
    (items : dict value) (fs : files) : files * bool :=
  match items with
  | [] => (fs, true)
  | (key, Frame df) :: rest =>
      let filepath := filepath_of output_dir player_name_clean key in
      if writable w filepath
      then save_frames w output_dir player_name_clean rest
             (write fs filepath (reread w df))
      else (fs, false)
  | (_, Info _) :: rest =>
      save_frames w output_dir player_name_clean rest fs
  end.

(** [FBrefScraper.save_results]: the files afterwards, and whether it
    returned ([true]) or raised ([false]). *)
Definition save_results (w : world) (results : dict value)
    (output_dir : string) (fs : files) : files * bool :=
  (* Create output directory if it doesn't exist *)
  if makedirs w output_dir then
    let player_name := player_name_of results in
    let player_name_clean := clean player_name in
    (* Save each DataFrame to CSV *)
    save_frames w output_dir player_name_clean results fs
  else (fs, false).

(** ** Many players *)

(** The argument of [scrape_multiple_players]: a dict from names to
    URLs, or a list of URLs. *)
Inductive player_urls :=
| UrlDict (players : dict string)
| UrlList (urls : list string).

(** [{f"Player_{i}": url for i, url in enumerate(player_urls)}] *)
Definition numbered (urls : list string) : dict string :=
  fold_left
    (fun players iu =>
       dict_set ("Player_" ++ format_int (Z.of_nat (fst iu))) (snd iu) players)
    (imap (fun i url => (i, url)) urls) [].

(** The files and the variable [results_collection]. *)
Record scrape_state := {
  outputs : files;
  results_collection : dict (dict value)
}.

(** The body of [for idx, (name, url) in enumerate(players.items(), 1)]:
    an exception of [save_results] is caught, and the player is left
    out of the collection. *)
Definition scrape_one (w : world) (idx : nat) (player : string * string)
    (st : scrape_state) : scrape_state :=
  let results := scrape_player_stats w idx (snd player) in
  match results with
  | _ :: _ =>
      (* Save results immediately *)
      match save_results w results "outputs" (outputs st) with
      | (fs, true) =>
          {| outputs := fs;
             results_collection :=
               dict_set (fst player) results (results_collection st) |}
      | (fs, false) =>
          {| outputs := fs; results_collection := results_collection st |}
      end
  | [] => st
  end.

Fixpoint scrape_loop (w : world) (idx : nat) (players : dict string)
    (st : scrape_state) : scrape_state :=
  match players with
  | [] => st
  | player :: rest => scrape_loop w (S idx) rest (scrape_one w idx player st)
  end.

(** [scrape_multiple_players] *)
Definition scrape_multiple_players (w : world) (urls : player_urls)
    (fs : files) : scrape_state :=
  (* Handle both list and dict inputs *)
  let players :=
    match urls with
    | UrlDict players => players
    | UrlList urls => numbered urls
    end in
  scrape_loop w 1 players {| outputs := fs; results_collection := [] |}.

(** ** Notions used in the statements *)

(** The request for the player with number [idx] gives a page, and all
    its tables can be saved. *)
Definition no_files : files := fun _ => None.

Definition scraped (w : world) (idx : nat) (url : string) : Prop :=
  scrape_player_stats w idx url ≠ []
  ∧ snd (save_results w (scrape_player_stats w idx url) "outputs" no_files)
    = true.

(** Every table of every collected player has a file. *)
Definition on_disk (st : scrape_state) : Prop :=
  ∀ name results key df,
    dict_get name (results_collection st) = Some results ->
    (key, Frame df) ∈ results ->
    is_Some (outputs st
               (filepath_of "outputs" (clean (player_name_of results)) key)).

(** The name a page is filed under. *)
Definition page_name (page : player_page) : string :=
  match h1 page with
  | Heading text => text
  | NoHeading => "player"
  | HeadingError => "Unknown"
  end.

(** Inputs used in the examples: a site with one page for every
    address, with the standard table only. *)
Definition benzema_page : player_page :=
  {| h1 := Heading "Karim Benzema";
     table_by_id := fun id =>
       if String.eqb id "stats_standard_dom_lg" then Some two_clubs else None |}.

Definition benzema_site : world :=
  {| get := fun _ _ => Response 200 benzema_page;
     now := fun _ => "2025-01-01 00:00:00";
     makedirs := fun _ => true;
     writable := fun _ => true;
     reread := Csv |}.

End Scraper.

(** * Properties of the character data *)

Module UnicodeFacts.
Import Unicode.

#[global] Opaque lower_table decomp_table ccc_table Mn_ranges alpha_ranges
  cased_ranges case_ignorable_ranges.

Lemma table_get_Some {V : Type} (t : list (N * V)) c v :
  table_get t c = Some v → (c, v) ∈ t.
Proof.
  induction t as [|[k w] t IH]; simpl; [done|].
  destruct (N.eqb_spec k c) as [->|_].
  - intros [= ->]. left.
  - intros Hget. right. auto.
Qed.

Lemma in_ranges_enumerate (rs : list (N * N)) (c : N) :
  in_ranges rs c = true → c ∈ enumerate rs.
Proof.
  unfold in_ranges, enumerate. intros H.
  apply existsb_exists in H as ([lo hi] & Hin & Hc).
  apply andb_true_iff in Hc as [Hlo Hhi].
  apply N.leb_le in Hlo, Hhi. cbn [fst snd] in Hlo, Hhi.
  apply list_elem_of_In, in_flat_map. exists (lo, hi).
  split; [exact Hin|]. cbn [fst snd].
  apply in_map_iff. exists (N.to_nat c).
  split; [apply N2Nat.id|]. apply in_seq. lia.
Qed.

Lemma settled_fixed e : settled e → is_Mn e = false → fixed e.
Proof.
  intros (Hl & Hd & [Hc | Hm]) Hn.
  - repeat split; assumption.
  - rewrite Hm in Hn. discriminate.
Qed.

Lemma fixed_space : fixed 0x20.
Proof. repeat split; vm_compute; reflexivity. Qed.

(** Lowercase mappings end in stable characters, also after their
    decomposition. *)
Lemma lower_table_stable :
  Forall (fun kl => Forall (fun d => Forall stable (decomp d)) kl.2)
    lower_table.
Proof. apply (bool_decide_unpack _). vm_compute. exact I. Qed.

(** A character without a lowercase mapping decomposes into stable
    characters. *)
Lemma decomp_table_stable :
  Forall (fun kl => table_get lower_table kl.1 = None → Forall stable kl.2)
    decomp_table.
Proof. apply (bool_decide_unpack _). vm_compute. exact I. Qed.

Lemma sigma_stable :
  Forall (fun d => Forall stable (decomp d)) [0x3C2; 0x3C3].
Proof. apply (bool_decide_unpack _). vm_compute. exact I. Qed.

Lemma sigma_lowered : lower_cp 0x3A3 ≠ [0x3A3].
Proof. vm_compute. discriminate. Qed.

Lemma jamo_stable : Forall stable (enumerate jamo_ranges).
Proof. apply (bool_decide_unpack _). vm_compute. exact I. Qed.

Lemma jamo_range_stable c : in_ranges jamo_ranges c = true → stable c.
Proof.
  intros Hc. apply in_ranges_enumerate in Hc.
  pose proof jamo_stable as Hall. rewrite Forall_forall in Hall.
  by apply Hall.
Qed.

Lemma jamo_stable_l q : q < 19 → stable (0x1100 + q).
Proof.
  intros Hq. apply jamo_range_stable. unfold in_ranges, jamo_ranges.
  cbn [existsb fst snd]. apply orb_true_iff. left.
  apply andb_true_iff. split; apply N.leb_le; lia.
Qed.

Lemma jamo_stable_v q : q < 21 → stable (0x1161 + q).
Proof.
  intros Hq. apply jamo_range_stable. unfold in_ranges, jamo_ranges.
  cbn [existsb fst snd]. apply orb_true_iff. right.
  apply orb_true_iff. left.
  apply andb_true_iff. split; apply N.leb_le; lia.
Qed.

Lemma jamo_stable_t q : q ≠ 0 → q < 28 → stable (0x11A7 + q).
Proof.
  intros Hne Hq. apply jamo_range_stable. unfold in_ranges, jamo_ranges.
  cbn [existsb fst snd]. apply orb_true_iff. right.
  apply orb_true_iff. right. apply orb_true_iff. left.
  apply andb_true_iff. split; apply N.leb_le; lia.
Qed.

Lemma decomp_hangul_stable c :
  hangul_syllable c = true → Forall stable (decomp_hangul c).
Proof.
  unfold hangul_syllable. intros Hc.
  apply andb_true_iff in Hc as [Hlo Hhi]. apply N.leb_le in Hlo, Hhi.
  unfold decomp_hangul. cbn zeta.
  assert (Hs : c - 0xAC00 < 11172) by lia.
  pose proof (N.mod_lt (c - 0xAC00) 588 ltac:(discriminate)) as Hm.
  pose proof (N.mod_lt (c - 0xAC00) 28 ltac:(discriminate)) as Ht.
  assert (Hl : (c - 0xAC00) / 588 < 19).
  { apply N.Div0.div_lt_upper_bound. revert Hs. generalize (c - 0xAC00).
    intros s Hs. lia. }
  assert (Hv : (c - 0xAC00) mod 588 / 28 < 21).
  { apply N.Div0.div_lt_upper_bound. revert Hm.
    generalize ((c - 0xAC00) mod 588). intros m Hm. lia. }
  destruct (N.eqb_spec ((c - 0xAC00) mod 28) 0) as [_|Hne].
  - apply Forall_cons. split; [by apply jamo_stable_l|].
    apply Forall_singleton. by apply jamo_stable_v.
  - apply Forall_cons. split; [by apply jamo_stable_l|].
    apply Forall_cons. split; [by apply jamo_stable_v|].
    apply Forall_singleton. by apply jamo_stable_t.
Qed.

Lemma lower_decomp_stable c :
  Forall (fun d => Forall stable (decomp d)) (lower_cp c).
Proof.
  unfold lower_cp.
  destruct (table_get lower_table c) as [l|] eqn:Hlow.
  - apply table_get_Some in Hlow.
    pose proof lower_table_stable as Hall.
    rewrite Forall_forall in Hall. exact (Hall _ Hlow).
  - apply Forall_singleton. unfold decomp.
    destruct (hangul_syllable c) eqn:Hh; [by apply decomp_hangul_stable|].
    destruct (table_get decomp_table c) as [l|] eqn:Hdec.
    + apply table_get_Some in Hdec.
      pose proof decomp_table_stable as Hall.
      rewrite Forall_forall in Hall. exact (Hall _ Hdec Hlow).
    + apply Forall_singleton. split.
      * unfold lower_cp. rewrite Hlow. reflexivity.
      * unfold decomp. rewrite Hh, Hdec. reflexivity.
Qed.

(** Whatever the text, lowercasing and decomposing it gives stable
    characters. *)
Lemma lower_from_stable s :
  ∀ before, Forall (fun d => Forall stable (decomp d)) (lower_from before s).
Proof.
  induction s as [|c s IH]; intros before; cbn [lower_from]; [constructor|].
  apply Forall_app. split; [|apply IH].
  destruct (c =? 0x3A3); [|apply lower_decomp_stable].
  pose proof sigma_stable as Hsig.
  apply Forall_cons in Hsig as [H2 Hsig]. apply Forall_cons in Hsig as [H3 _].
  destruct (final_sigma before s); by apply Forall_singleton.
Qed.

(** ** Lists of characters *)

Lemma flat_map_Forall {A B : Type} (P : B → Prop) (g : A → list B) s :
  Forall (fun c => Forall P (g c)) s → Forall P (flat_map g s).
Proof.
  induction 1 as [|c s Hc _ IH]; simpl; [constructor|].
  apply Forall_app. done.
Qed.

Lemma flat_map_id (g : N → list N) s :
  Forall (fun c => g c = [c]) s → flat_map g s = s.
Proof.
  induction 1 as [|c s Hc _ IH]; simpl; [done|]. by rewrite Hc, IH.
Qed.

Lemma filter_Forall {A : Type} (P : A → Prop) (f : A → bool) s :
  Forall P s → Forall P (List.filter f s).
Proof.
  induction 1 as [|c s Hc _ IH]; simpl; [constructor|].
  destruct (f c); [constructor|]; done.
Qed.

Lemma filter_true {A : Type} (f : A → bool) s :
  Forall (fun c => f c = true) (List.filter f s).
Proof.
  induction s as [|c s IH]; simpl; [constructor|].
  destruct (f c) eqn:Hf; [constructor|]; done.
Qed.

Lemma filter_id {A : Type} (f : A → bool) s :
  Forall (fun c => f c = true) s → List.filter f s = s.
Proof.
  induction 1 as [|c s Hc _ IH]; simpl; [done|]. by rewrite Hc, IH.
Qed.

(** ** The canonical ordering *)

Lemma insert_mark_Forall (P : N → Prop) c racc :
  P c → Forall P racc → Forall P (insert_mark c racc).
Proof.
  intros Hc. induction 1 as [|d r Hd Hr IH]; simpl.
  - by apply Forall_singleton.
  - destruct (ccc c <? ccc d); repeat constructor; done.
Qed.

Lemma reorder_Forall (P : N → Prop) s racc :
  Forall P s → Forall P racc → Forall P (fold_left reorder_step s racc).
Proof.
  intros Hs. revert racc.
  induction Hs as [|c s Hc _ IH]; intros racc Hracc; simpl; [done|].
  apply IH. unfold reorder_step.
  destruct (ccc c =? 0); [by constructor | by apply insert_mark_Forall].
Qed.

Lemma canonical_order_Forall (P : N → Prop) s :
  Forall P s → Forall P (canonical_order s).
Proof.
  intros Hs. unfold canonical_order. apply Forall_rev.
  apply reorder_Forall; [done | constructor].
Qed.

Lemma reorder_starters s racc :
  Forall (fun c => ccc c = 0) s →
  fold_left reorder_step s racc = rev s ++ racc.
Proof.
  intros Hs. revert racc.
  induction Hs as [|c s Hc _ IH]; intros racc; simpl; [done|].
  rewrite IH. unfold reorder_step. rewrite Hc. simpl.
  by rewrite <- app_assoc.
Qed.

(** Text without combining characters is in canonical order. *)
Lemma canonical_order_starters s :
  Forall (fun c => ccc c = 0) s → canonical_order s = s.
Proof.
  intros Hs. unfold canonical_order.
  rewrite reorder_starters by done.
  rewrite app_nil_r. apply rev_involutive.
Qed.

Lemma nfd_Forall (P : N → Prop) s :
  Forall (fun c => Forall P (decomp c)) s → Forall P (nfd s).
Proof.
  intros Hs. apply canonical_order_Forall. by apply flat_map_Forall.
Qed.

Lemma nfd_fixed s : Forall fixed s → nfd s = s.
Proof.
  intros Hs. unfold nfd.
  rewrite flat_map_id.
  - apply canonical_order_starters.
    eapply Forall_impl; [exact Hs|]. by intros c (_ & _ & Hc & _).
  - eapply Forall_impl; [exact Hs|]. by intros c (_ & Hd & _).
Qed.

Lemma lower_from_Forall (Q : N → Prop) s :
  Forall (fun c => c ≠ 0x3A3 ∧ Forall Q (lower_cp c)) s →
  ∀ before, Forall Q (lower_from before s).
Proof.
  induction 1 as [|c s [Hc Hl] _ IH]; intros before; cbn [lower_from];
    [constructor|].
  apply Forall_app. split; [|apply IH].
  by destruct (N.eqb_spec c 0x3A3).
Qed.

Lemma lower_from_fixed s : ∀ before, Forall fixed s → lower_from before s = s.
Proof.
  induction s as [|c s IH]; intros before Hs; cbn [lower_from]; [done|].
  apply Forall_cons in Hs as [(Hl & _) Hs].
  destruct (N.eqb_spec c 0x3A3) as [->|_]; [by destruct sigma_lowered|].
  rewrite Hl, (IH _ Hs). reflexivity.
Qed.

Lemma lower_fixed s : Forall fixed s → lower s = s.
Proof. apply lower_from_fixed. Qed.

End UnicodeFacts.

(** * Properties of the normalisation and of the crawl plan *)

Module NamesFacts.
Import Unicode UnicodeFacts Names.

(** ** [split] and [join] *)

Lemma rev_not_nil {A : Type} (l : list A) : l ≠ [] → rev l ≠ [].
Proof.
  intros Hl Hrev. apply Hl. rewrite <- (rev_involutive l), Hrev. reflexivity.
Qed.

Lemma split_from_words cur s :
  no_space cur → Forall word (split_from cur s).
Proof.
  revert cur. induction s as [|c s IH]; intros cur Hcur; simpl.
  - destruct cur as [|a cur]; [constructor|].
    apply Forall_singleton. split.
    + apply rev_not_nil. discriminate.
    + by apply Forall_rev.
  - destruct (isspace c) eqn:Hc.
    + destruct cur as [|a cur].
      * apply IH. constructor.
      * constructor; [|apply IH; constructor].
        split; [apply rev_not_nil; discriminate | by apply Forall_rev].
    + apply IH. by constructor.
Qed.

Lemma split_words s : Forall word (split s).
Proof. apply split_from_words. constructor. Qed.

Lemma split_from_Forall (P : N → Prop) cur s :
  Forall P cur → Forall P s → Forall (Forall P) (split_from cur s).
Proof.
  intros Hcur Hs. revert cur Hcur.
  induction Hs as [|c s Hc _ IH]; intros cur Hcur; simpl.
  - destruct cur; [constructor|].
    apply Forall_singleton. by apply Forall_rev.
  - destruct (isspace c).
    + destruct cur.
      * apply IH. constructor.
      * constructor; [by apply Forall_rev | apply IH; constructor].
    + apply IH. by constructor.
Qed.

Lemma join_Forall (P : N → Prop) sep ws :
  Forall P sep → Forall (Forall P) ws → Forall P (join sep ws).
Proof.
  intros Hsep. induction 1 as [|w ws Hw Hws IH]; simpl; [constructor|].
  destruct ws; [done|].
  apply Forall_app. split; [done|]. apply Forall_app. done.
Qed.

Lemma split_from_run w cur rest :
  no_space w → split_from cur (w ++ rest) = split_from (rev w ++ cur) rest.
Proof.
  intros Hw. revert cur.
  induction Hw as [|c w Hc _ IH]; intros cur; simpl; [done|].
  rewrite Hc, IH. by rewrite <- app_assoc.
Qed.

Lemma space_is_space : isspace 0x20 = true.
Proof. vm_compute. reflexivity. Qed.

(** Splitting what [join] made of words gives the words back. *)
Lemma split_join ws : Forall word ws → split (join [0x20] ws) = ws.
Proof.
  unfold split.
  induction 1 as [|w ws [Hne Hw] Hws IH]; simpl; [done|].
  assert (Hrev : rev w ≠ []) by by apply rev_not_nil.
  destruct ws as [|w' ws].
  - rewrite <- (app_nil_r w) at 1.
    rewrite split_from_run by done. rewrite app_nil_r. simpl.
    destruct (rev w) eqn:Hr; [done|].
    by rewrite <- Hr, rev_involutive.
  - rewrite split_from_run by done. rewrite app_nil_r.
    cbn [app split_from]. rewrite space_is_space.
    destruct (rev w) eqn:Hr; [done|].
    rewrite <- Hr, rev_involutive. f_equal. exact IH.
Qed.

(** ** Idempotence *)

Lemma normalize_unfold name :
  _normalize_name name =
  join [0x20]
    (split (List.filter (fun c => negb (is_Mn c)) (nfd (lower name)))).
Proof. reflexivity. Qed.

Lemma stripped_fixed n :
  marks_nonspacing (nfd (lower n)) →
  Forall fixed (List.filter (fun c => negb (is_Mn c)) (nfd (lower n))).
Proof.
  intros Hn.
  assert (Hs : Forall settled (nfd (lower n))).
  { pose proof (nfd_Forall stable _ (lower_from_stable n [])) as Hst.
    fold (lower n) in Hst.
    pose proof (proj2 (Forall_and _ _) (conj Hst Hn)) as Hboth.
    eapply Forall_impl; [exact Hboth|].
    intros c [[Hl Hd] Hc]. repeat split; assumption. }
  pose proof (filter_true (fun c => negb (is_Mn c)) (nfd (lower n))) as Ht.
  pose proof (filter_Forall settled (fun c => negb (is_Mn c)) _ Hs) as Hf.
  revert Ht Hf.
  generalize (List.filter (fun c => negb (is_Mn c)) (nfd (lower n))).
  intros l Ht Hf. induction l as [|c l IH]; [constructor|].
  apply Forall_cons in Ht as [Hc Ht]. apply Forall_cons in Hf as [Hsc Hf].
  constructor; [|by apply IH].
  apply settled_fixed; [done|].
  by destruct (is_Mn c).
Qed.

Lemma normalize_fixed n :
  marks_nonspacing (nfd (lower n)) → Forall fixed (_normalize_name n).
Proof.
  intros Hn. rewrite normalize_unfold.
  apply join_Forall.
  - apply Forall_singleton, fixed_space.
  - apply split_from_Forall; [constructor | by apply stripped_fixed].
Qed.

Lemma normalize_of_fixed t :
  Forall fixed t → _normalize_name t = join [0x20] (split t).
Proof.
  intros Ht. rewrite normalize_unfold.
  rewrite (lower_fixed t Ht), (nfd_fixed t Ht).
  rewrite filter_id; [done|].
  eapply Forall_impl; [exact Ht|].
  intros c (_ & _ & _ & Hm). by rewrite Hm.
Qed.

Lemma normalize_idempotent n :
  marks_nonspacing (nfd (lower n)) →
  _normalize_name (_normalize_name n) = _normalize_name n.
Proof.
  intros Hn.
  rewrite (normalize_of_fixed _ (normalize_fixed n Hn)).
  rewrite normalize_unfold.
  by rewrite split_join by apply split_words.
Qed.

(** C6 (as amended): for every name such that every combining character
    of the text the accents are stripped from -- the canonical
    decomposition of the lowercased name -- is a nonspacing mark
    (category Mn), normalising twice gives what normalising once gives,
    for [_normalize_name] and for [normalize_name]. *)
Theorem normalize_idempotent_nonspacing (n : str) :
  marks_nonspacing (nfd (lower n)) →
  _normalize_name (_normalize_name n) = _normalize_name n
  ∧ normalize_name (normalize_name n) = normalize_name n.
Proof.
  intros Hn. split.
  - by apply normalize_idempotent.
  - change (_normalize_name (_normalize_name n) = _normalize_name n).
    by apply normalize_idempotent.
Qed.

Lemma normalize_idempotent_nonspacing_witness :
  marks_nonspacing (nfd (lower stefan_radu))
  ∧ _normalize_name (_normalize_name stefan_radu) = _normalize_name stefan_radu.
Proof.
  assert (H : marks_nonspacing (nfd (lower stefan_radu))).
  { apply (bool_decide_unpack _). vm_compute. exact I. }
  split; [exact H|].
  exact (proj1 (normalize_idempotent_nonspacing stefan_radu H)).
Defined.

(** C6 (as stated) fails: a combining augmentation dot (U+1D16D, class
    226), a variation selector (U+FE0F, category Mn, class 0) and a
    combining stem (U+1D165, class 216), all three lowercase and in
    canonical order.  Without the selector the second normalisation puts
    the stem before the dot. *)
Lemma normalize_not_idempotent :
  _normalize_name stem_and_dot = [0x1D16D; 0x1D165]
  ∧ _normalize_name (_normalize_name stem_and_dot) = [0x1D165; 0x1D16D]
  ∧ _normalize_name (_normalize_name stem_and_dot)
    ≠ _normalize_name stem_and_dot.
Proof.
  split; [|split].
  - vm_compute. reflexivity.
  - vm_compute. reflexivity.
  - vm_compute. discriminate.
Qed.

(** ** The crawl plan *)

Lemma combos_loop_state names st :
  required_combos (fold_left combos_step names st)
  = required_combos st
    ∪ list_to_set
        (map (fun name => take 2 (cleaned name))
           (List.filter (fun name => (2 <=? List.length (cleaned name))%nat)
              names))
  ∧ warnings (fold_left combos_step names st)
    = warnings st
      ++ map too_short_message
           (List.filter (fun name => (List.length (cleaned name) =? 1)%nat)
              names).
Proof.
  revert st. induction names as [|name names IH]; intros st.
  - cbn [fold_left List.filter map list_to_set].
    split; [by rewrite (right_id_L ∅ (∪)) | by rewrite app_nil_r].
  - cbn [fold_left].
    destruct (IH (combos_step st name)) as [-> ->]. clear IH.
    unfold combos_step. fold (cleaned name). cbn [List.filter].
    destruct (2 <=? List.length (cleaned name))%nat eqn:H2.
    + assert ((List.length (cleaned name) =? 1)%nat = false) as ->.
      { apply Nat.eqb_neq. apply Nat.leb_le in H2. lia. }
      cbn [required_combos warnings map list_to_set].
      split; [|reflexivity].
      apply set_eq. intros x. rewrite !elem_of_union. tauto.
    + destruct (List.length (cleaned name) =? 1)%nat;
        cbn [required_combos warnings map].
      * split; [reflexivity | by rewrite <- app_assoc].
      * split; reflexivity.
Qed.

#[global] Instance str_le_total : Total str_le.
Proof.
  intros a. unfold str_le.
  induction a as [|x a IH]; intros [|y b]; simpl; auto.
  destruct (N.ltb_spec x y); [auto|].
  destruct (N.ltb_spec y x); [auto|].
  apply IH.
Qed.

Lemma elem_of_required_combos names s :
  s ∈ _get_required_combos names ↔
  ∃ name, name ∈ names
          ∧ (2 ≤ List.length (cleaned name))%nat
          ∧ s = take 2 (cleaned name).
Proof.
  unfold _get_required_combos, sorted, combos_loop.
  rewrite merge_sort_Permutation, elem_of_elements.
  rewrite (proj1 (combos_loop_state names _)). simpl.
  rewrite elem_of_union, elem_of_list_to_set, list_elem_of_fmap.
  split.
  - intros [Hs | (name & -> & Hin)]; [by apply not_elem_of_empty in Hs|].
    apply list_elem_of_In, filter_In in Hin as [Hin Hlen].
    exists name. split; [by apply list_elem_of_In|].
    split; [|reflexivity].
    exact (proj1 (Nat.leb_le 2 (List.length (cleaned name))) Hlen).
  - intros (name & Hin & Hlen & ->). right.
    exists name. split; [reflexivity|].
    apply list_elem_of_In, filter_In.
    split; [by apply list_elem_of_In|].
    exact (proj2 (Nat.leb_le 2 (List.length (cleaned name))) Hlen).
Qed.

(** Every combo is two letters in the sense of [str.isalpha]. *)
Lemma combo_two_letters names s :
  s ∈ _get_required_combos names →
  List.length s = 2%nat ∧ Forall (fun c => isalpha c = true) s.
Proof.
  intros (name & _ & Hlen & ->)%elem_of_required_combos. split.
  - rewrite length_take. lia.
  - apply Forall_take. apply filter_true.
Qed.

(** C8: [_get_required_combos] returns exactly the first two letters of
    the cleaned form of each name that has at least two, sorted and
    without duplicates, where the cleaned form of a name is what
    [str.isalpha] keeps of [_normalize_name]: lowercased, decomposed,
    without nonspacing marks, without anything that is no letter.  For
    "Kylian Mbappé" that is "ky"; "Ștefan Radu" gives "st" (the comma
    below is a mark), "N'Golo Kanté" gives "ng" (the apostrophe is no
    letter), and a second name on "ky" adds nothing. *)
Theorem required_combos_exact (names : list str) :
  (∀ s, s ∈ _get_required_combos names ↔
        ∃ name, name ∈ names
                ∧ (2 ≤ List.length (cleaned name))%nat
                ∧ s = take 2 (cleaned name))
  ∧ (∀ name,
       cleaned name
       = List.filter isalpha
           (join [0x20]
              (split
                 (List.filter (fun c => negb (is_Mn c)) (nfd (lower name))))))
  ∧ Sorted str_le (_get_required_combos names)
  ∧ NoDup (_get_required_combos names)
  ∧ _get_required_combos [kylian_mbappe] = [u "ky"]
  ∧ _get_required_combos
      [stefan_radu; ngolo_kante; kylian_mbappe; u "KYLE Walker"]
    = [u "ky"; u "ng"; u "st"].
Proof.
  split; [|split; [|split; [|split; [|split]]]].
  - intros s. apply elem_of_required_combos.
  - reflexivity.
  - apply (Sorted_merge_sort str_le).
  - unfold _get_required_combos, sorted.
    rewrite merge_sort_Permutation. apply NoDup_elements.
  - vm_compute. reflexivity.
  - vm_compute. reflexivity.
Qed.

(** C7 (as amended): [_get_required_combos] logs one warning, in input
    order, for every name whose cleaned form has exactly one letter,
    and none for any other name; the warnings are logged, not
    returned.  The Cyrillic name U+042F has one letter and is warned
    about; "A." has one letter too; "10" and "Kylian Mbappé" are
    not. *)
Theorem short_names_warned (names : list str) :
  _get_required_combos_warnings names
  = map too_short_message
      (List.filter (fun name => (List.length (cleaned name) =? 1)%nat) names)
  ∧ _get_required_combos_warnings [u "10"; ya; kylian_mbappe; u "A."]
    = [too_short_message ya; too_short_message (u "A.")].
Proof.
  split.
  - unfold _get_required_combos_warnings, combos_loop.
    by rewrite (proj2 (combos_loop_state names _)).
  - vm_compute. reflexivity.
Qed.

(** C7 (as stated) fails: the name "10" has no letter; it gets no combo
    and no warning. *)
Lemma letterless_name_unreported :
  List.length (cleaned (u "10")) = 0%nat
  ∧ _get_required_combos [u "10"] = []
  ∧ _get_required_combos_warnings [u "10"] = [].
Proof. repeat split; vm_compute; reflexivity. Qed.

(** C9, at a name the code can receive: "Ørjan Nyland" gives the combo
    "ør", which is none of the 676 of [_generate_two_letter_combos]. *)
Theorem combo_outside_universe :
  _get_required_combos [orjan_nyland] = [[0xF8; 0x72]]
  ∧ ([0xF8; 0x72] ∉ _generate_two_letter_combos)
  ∧ List.length _generate_two_letter_combos = 676%nat.
Proof.
  split; [vm_compute; reflexivity|].
  split; [|vm_compute; reflexivity].
  apply (bool_decide_unpack _). vm_compute. exact I.
Qed.

End NamesFacts.

(** * Properties of the index crawl *)

Module CrawlFacts.
Import Unicode Names Crawl.

(** ** What the loop does to the state *)

Lemma crawl_step_processed w idx combo st :
  processed_combos (crawl_step w idx combo st)
  = {[combo]} ∪ processed_combos st.
Proof. reflexivity. Qed.

Lemma crawl_loop_processed w idx combos st :
  processed_combos (crawl_loop w idx combos st)
  = list_to_set combos ∪ processed_combos st.
Proof.
  revert idx st. induction combos as [|combo combos IH]; intros idx st; simpl.
  - by rewrite (left_id_L ∅ (∪)).
  - rewrite IH, crawl_step_processed. by rewrite (assoc_L (∪)), (comm_L (∪) _ {[combo]}).
Qed.

Lemma crawl_loop_requested w idx combos st :
  requested (crawl_loop w idx combos st)
  = requested st ++ map combo_url combos.
Proof.
  revert idx st. induction combos as [|combo combos IH]; intros idx st; simpl.
  - by rewrite app_nil_r.
  - rewrite IH. simpl. by rewrite <- app_assoc.
Qed.

#[global] Instance combo_url_inj : Inj (=) (=) combo_url.
Proof.
  intros a b Hab. unfold combo_url in Hab.
  apply app_inv_head in Hab. by apply app_inv_tail in Hab.
Qed.

Lemma _scrape_page_None w k url :
  _scrape_page w k url = None ↔ failed (get w k url).
Proof.
  unfold _scrape_page, failed. destruct (get w k url) as [|status content].
  - done.
  - destruct (N.eqb_spec status 404) as [->|Hne]; [split; auto|].
    destruct (raises_for_status status); [split; auto|].
    split; [discriminate|]. intros [? | ?]; [contradiction | discriminate].
Qed.

Lemma crawl_step_players_failed w idx combo st :
  failed (get w idx (combo_url combo)) →
  all_players (crawl_step w idx combo st) = all_players st.
Proof.
  intros Hf. apply _scrape_page_None in Hf.
  unfold crawl_step. simpl. by rewrite Hf.
Qed.

Lemma crawl_step_keeps_names w idx combo st name :
  is_Some (all_players st !! name) →
  is_Some (all_players (crawl_step w idx combo st) !! name).
Proof.
  intros Hn. unfold crawl_step. simpl.
  destruct (_scrape_page w idx (combo_url combo)); [|done].
  apply lookup_union_is_Some. by right.
Qed.

Lemma crawl_loop_keeps_names w idx combos st name :
  is_Some (all_players st !! name) →
  is_Some (all_players (crawl_loop w idx combos st) !! name).
Proof.
  revert idx st. induction combos as [|combo combos IH]; intros idx st Hn; simpl.
  - done.
  - apply IH. by apply crawl_step_keeps_names.
Qed.

(** ** Extraction from one page *)

Lemma extract_link_eq players l :
  extract_link players l =
  if is_player_link l then
    match players !! text l with
    | None => <[text l := stats_url l]> players
    | Some _ => players
    end
  else players.
Proof.
  unfold extract_link, is_player_link, stats_url.
  destruct (contains (u "/players/") (href l)); [|reflexivity].
  destruct (4 <=? count 47 (href l))%nat; [|reflexivity].
  destruct (contains (u "-Stats") (href l) || contains (u "matchlogs") (href l));
    [reflexivity|].
  destruct (List.length (text l) <? 3)%nat; reflexivity.
Qed.

Lemma extract_fold_lookup page players name :
  fold_left extract_link page players !! name =
  match players !! name with
  | Some url => Some url
  | None => first_url name page
  end.
Proof.
  revert players. induction page as [|l page IH]; intros players.
  - cbn [fold_left first_url]. by destruct (players !! name).
  - cbn [fold_left first_url]. rewrite IH, extract_link_eq.
    destruct (is_player_link l); cbn [andb]; [|reflexivity].
    destruct (decide (text l = name)) as [Heq | Hne].
    + rewrite (bool_decide_eq_true_2 _ Heq). subst name.
      destruct (players !! text l) as [url|] eqn:Hl.
      * by rewrite Hl.
      * by rewrite lookup_insert_eq.
    + rewrite (bool_decide_eq_false_2 _ Hne).
      destruct (players !! text l) as [url|] eqn:Hl; [reflexivity|].
      by rewrite lookup_insert_ne.
Qed.

Lemma extract_lookup page name :
  _extract_players_from_page page !! name = first_url name page.
Proof.
  unfold _extract_players_from_page.
  by rewrite extract_fold_lookup, lookup_empty.
Qed.

(** ** The whole run *)

Lemma run_processed w file resume combos :
  processed_combos (scrape_player_index w file resume (Some combos))
  = list_to_set
      (remaining_of combos (processed_combos (load_checkpoint resume file)))
    ∪ processed_combos (load_checkpoint resume file).
Proof. unfold scrape_player_index. cbn [processed_combos]. apply crawl_loop_processed. Qed.

Lemma run_requested w file resume combos :
  requested (scrape_player_index w file resume (Some combos))
  = map combo_url
      (remaining_of combos (processed_combos (load_checkpoint resume file))).
Proof.
  unfold scrape_player_index. cbn [requested].
  rewrite crawl_loop_requested. by destruct resume, file.
Qed.

Lemma targets_processed w file resume combos c :
  c ∈ combos →
  c ∈ processed_combos (scrape_player_index w file resume (Some combos)).
Proof.
  intros Hc. rewrite run_processed, elem_of_union, elem_of_list_to_set.
  unfold remaining_of. rewrite list_elem_of_filter.
  destruct (decide (c ∈ processed_combos (load_checkpoint resume file))); auto.
Qed.

Lemma crawl_loop_app w idx (combos1 combos2 : list str) st :
  crawl_loop w idx (combos1 ++ combos2) st
  = crawl_loop w (idx + List.length combos1) combos2
      (crawl_loop w idx combos1 st).
Proof.
  revert idx st. induction combos1 as [|combo combos1 IH]; intros idx st.
  - cbn [app crawl_loop List.length]. by rewrite Nat.add_0_r.
  - cbn [app crawl_loop List.length]. rewrite IH. f_equal. lia.
Qed.

Lemma crawl_loop_snoc w idx (combos : list str) (combo : str) st :
  crawl_loop w idx (combos ++ [combo]) st
  = crawl_step w (idx + List.length combos) combo (crawl_loop w idx combos st).
Proof. by rewrite crawl_loop_app. Qed.

Lemma targets_of_requested w file resume target_combos :
  requested (scrape_player_index w file resume target_combos)
  = map combo_url
      (remaining_of
         (match target_combos with
          | Some combos => combos
          | None => _generate_two_letter_combos
          end)
         (processed_combos (load_checkpoint resume file))).
Proof.
  unfold scrape_player_index. cbn [requested].
  rewrite crawl_loop_requested. by destruct resume, file.
Qed.

Lemma final_checkpoint w file resume target_combos :
  ∃ timestamp,
    checkpoint_file (scrape_player_index w file resume target_combos)
    = Some (_save_checkpoint
              (all_players (scrape_player_index w file resume target_combos))
              (elements (processed_combos
                           (scrape_player_index w file resume target_combos)))
              timestamp).
Proof. eexists. reflexivity. Qed.

Lemma crawl_step_source w idx combo st name url :
  all_players (crawl_step w idx combo st) !! name = Some url →
  all_players st !! name = Some url
  ∨ ∃ page, _scrape_page w idx (combo_url combo) = Some page
            ∧ _extract_players_from_page page !! name = Some url.
Proof.
  unfold crawl_step. cbn [all_players].
  destruct (_scrape_page w idx (combo_url combo)) as [page|]; [|by left].
  intros [Hpage | [_ Hold]]%lookup_union_Some_raw.
  - right. by exists page.
  - by left.
Qed.

Lemma crawl_loop_take_S w (remaining : list str) i combo st :
  remaining !! i = Some combo →
  crawl_loop w 1 (take (S i) remaining) st
  = crawl_step w (S i) combo (crawl_loop w 1 (take i remaining) st).
Proof.
  intros Hi. rewrite (take_S_r _ _ _ Hi), crawl_loop_snoc.
  rewrite length_take_le; [reflexivity|].
  apply lookup_lt_Some in Hi. lia.
Qed.

Lemma resumed_processed w file resume target_combos :
  processed_combos
    (load_checkpoint true
       (checkpoint_file (scrape_player_index w file resume target_combos)))
  = processed_combos (scrape_player_index w file resume target_combos).
Proof.
  destruct (final_checkpoint w file resume target_combos) as [ts ->].
  cbn [load_checkpoint _save_checkpoint cd_processed_combos from_option id
         processed_combos].
  apply list_to_set_elements_L.
Qed.

(** C1 (as amended): every shard the run requests is recorded as
    processed, in the state and in the checkpoint the run writes,
    whatever the outcome of its fetch, and no run resumed from that
    checkpoint requests it again; when the fetch failed (the request
    raised, or the status was 404 or another error status), the
    accumulated entries after that shard are those before it. *)
Theorem failed_fetch_recorded (w : world) (file : option checkpoint_data)
    (resume : bool) (combos : list str) (i : nat) (combo : str) :
  let st := load_checkpoint resume file in
  let remaining := remaining_of combos (processed_combos st) in
  let r := scrape_player_index w file resume (Some combos) in
  remaining !! i = Some combo →
  (requested r !! i = Some (combo_url combo)
   ∧ combo ∈ processed_combos r
   ∧ (∃ saved, checkpoint_file r = Some saved
               ∧ combo ∈ default [] (cd_processed_combos saved))
   ∧ (∀ w' target_combos',
        combo_url combo
        ∉ requested
            (scrape_player_index w' (checkpoint_file r) true target_combos')))
  ∧ (failed (get w (S i) (combo_url combo)) →
     all_players (crawl_loop w 1 (take (S i) remaining) st)
     = all_players (crawl_loop w 1 (take i remaining) st)).
Proof.
  intros st remaining r Hi.
  assert (Hin : combo ∈ combos).
  { apply list_elem_of_lookup_2 in Hi. unfold remaining, remaining_of in Hi.
    by apply list_elem_of_filter in Hi as [_ ?]. }
  assert (Hproc : combo ∈ processed_combos r) by by apply targets_processed.
  split; [split; [|split; [exact Hproc|split]]|].
  - unfold r. rewrite run_requested. fold st. fold remaining.
    by rewrite list_lookup_fmap, Hi.
  - destruct (final_checkpoint w file resume (Some combos)) as [ts Hfile].
    fold r in Hfile. eexists. split; [exact Hfile|].
    cbn [_save_checkpoint cd_processed_combos from_option id].
    by apply elem_of_elements.
  - intros w' target_combos' Hreq.
    rewrite targets_of_requested in Hreq.
    apply list_elem_of_fmap in Hreq as (c' & Heq & Hrem).
    apply (inj combo_url) in Heq. subst c'.
    unfold remaining_of in Hrem. apply list_elem_of_filter in Hrem as [Hnot _].
    apply Hnot. unfold r. by rewrite resumed_processed.
  - intros Hf. rewrite (crawl_loop_take_S _ _ _ _ _ Hi).
    by apply crawl_step_players_failed.
Qed.

Lemma failed_fetch_recorded_witness :
  remaining_of [u "aa"; u "ab"]
    (processed_combos (load_checkpoint true (Some old_checkpoint))) !! 0%nat
  = Some (u "ab")
  ∧ failed (get offline 1 (combo_url (u "ab")))
  ∧ all_players
      (crawl_loop offline 1 [u "ab"] (load_checkpoint true (Some old_checkpoint)))
    = {[ u "Ab Cd" := stats_url_of (u "11111111") ]}.
Proof.
  assert (Hi : remaining_of [u "aa"; u "ab"]
                 (processed_combos (load_checkpoint true (Some old_checkpoint)))
               !! 0%nat = Some (u "ab")).
  { vm_compute. reflexivity. }
  assert (Hf : failed (get offline 1 (combo_url (u "ab")))) by exact I.
  split; [exact Hi|]. split; [exact Hf|].
  pose proof (proj2 (failed_fetch_recorded offline (Some old_checkpoint) true
                       [u "aa"; u "ab"] 0 (u "ab") Hi) Hf) as Hkept.
  exact Hkept.
Defined.

(** C1 (as stated) fails: the request for shard "ab" raises, and "ab" is
    in the processed set of the run and of the checkpoint it writes. *)
Lemma transient_failure_marked_processed :
  get offline 1 (combo_url (u "ab")) = RequestException
  ∧ u "ab" ∈ processed_combos
               (scrape_player_index offline None true (Some [u "ab"]))
  ∧ (checkpoint_file (scrape_player_index offline None true (Some [u "ab"]))
       ≫= cd_processed_combos) = Some [u "ab"].
Proof.
  split; [reflexivity|]. split.
  - apply targets_processed. by apply list_elem_of_singleton.
  - vm_compute. reflexivity.
Qed.

Lemma crawl_step_lookup w idx combo st name :
  all_players (crawl_step w idx combo st) !! name
  = match _scrape_page w idx (combo_url combo) with
    | Some page =>
        match _extract_players_from_page page !! name with
        | Some url => Some url
        | None => all_players st !! name
        end
    | None => all_players st !! name
    end.
Proof.
  unfold crawl_step. cbn [all_players].
  destruct (_scrape_page w idx (combo_url combo)) as [page|]; [|reflexivity].
  rewrite lookup_union.
  by destruct (_extract_players_from_page page !! name),
       (all_players st !! name).
Qed.

(** When no fetched page lists the name, the run holds what it held. *)
Lemma crawl_loop_unfetched w (combos : list str) name :
  ∀ idx st,
    (∀ page, page ∈ fetched w idx combos →
             _extract_players_from_page page !! name = None) →
    all_players (crawl_loop w idx combos st) !! name = all_players st !! name.
Proof.
  induction combos as [|combo combos IH]; intros idx st Hnone;
    cbn [crawl_loop]; [reflexivity|].
  cbn [fetched] in Hnone.
  destruct (_scrape_page w idx (combo_url combo)) as [page|] eqn:Hpage.
  - rewrite IH by (intros p Hp; apply Hnone; by right).
    rewrite crawl_step_lookup, Hpage.
    rewrite (Hnone page) by left. reflexivity.
  - rewrite IH by exact Hnone.
    by rewrite crawl_step_lookup, Hpage.
Qed.

(** The last fetched page that lists the name gives its URL. *)
Lemma crawl_loop_last_page w (combos : list str) name url :
  ∀ idx st pages1 page pages2,
    fetched w idx combos = pages1 ++ page :: pages2 →
    _extract_players_from_page page !! name = Some url →
    (∀ p, p ∈ pages2 → _extract_players_from_page p !! name = None) →
    all_players (crawl_loop w idx combos st) !! name = Some url.
Proof.
  induction combos as [|combo combos IH];
    intros idx st pages1 page pages2 Hfetched Hpage Hlater.
  - cbn [fetched] in Hfetched. by destruct pages1.
  - cbn [fetched] in Hfetched. cbn [crawl_loop].
    destruct (_scrape_page w idx (combo_url combo)) as [page'|] eqn:Hp.
    + destruct pages1 as [|p1 pages1].
      * injection Hfetched as -> Hrest.
        rewrite crawl_loop_unfetched by (rewrite Hrest; exact Hlater).
        by rewrite crawl_step_lookup, Hp, Hpage.
      * injection Hfetched as _ Hrest.
        by apply (IH _ _ _ _ _ Hrest).
    + by apply (IH _ _ _ _ _ Hfetched).
Qed.

(** C2 (as amended): a run resumed from a checkpoint requests no shard
    of the checkpoint's processed list, ends with every target shard and
    every shard of the checkpoint processed, and keeps every name of the
    checkpoint's mapping.  A name keeps its checkpoint URL when no page
    fetched in the resumed run lists it; when fetched pages list it, the
    URL of the last such page replaces the one held before, the
    checkpoint's included. *)
Theorem resume_skips_and_keeps (w : world) (checkpoint : checkpoint_data)
    (combos : list str) :
  let P := default [] (cd_processed_combos checkpoint) in
  let M := default ∅ (cd_players checkpoint) in
  let r := scrape_player_index w (Some checkpoint) true (Some combos) in
  let pages := fetched w 1 (remaining_of combos (list_to_set P)) in
  (∀ c, c ∈ P → combo_url c ∉ requested r)
  ∧ (∀ c, c ∈ combos → c ∈ processed_combos r)
  ∧ (∀ c, c ∈ P → c ∈ processed_combos r)
  ∧ (∀ name, is_Some (M !! name) → is_Some (all_players r !! name))
  ∧ (∀ name,
       (∀ page, page ∈ pages →
                _extract_players_from_page page !! name = None) →
       all_players r !! name = M !! name)
  ∧ (∀ name url pages1 page pages2,
       pages = pages1 ++ page :: pages2 →
       _extract_players_from_page page !! name = Some url →
       (∀ p, p ∈ pages2 → _extract_players_from_page p !! name = None) →
       all_players r !! name = Some url).
Proof.
  intros P M r pages. split; [|split; [|split; [|split; [|split]]]].
  - intros c Hc Hreq. subst r. rewrite run_requested in Hreq.
    apply list_elem_of_fmap in Hreq as (c' & Heq & Hrem).
    apply (inj combo_url) in Heq. subst c'.
    unfold remaining_of in Hrem. apply list_elem_of_filter in Hrem as [Hnot _].
    apply Hnot. cbn [load_checkpoint processed_combos].
    by apply elem_of_list_to_set.
  - intros c Hc. by apply targets_processed.
  - intros c Hc. subst r. rewrite run_processed, elem_of_union. right.
    cbn [load_checkpoint processed_combos]. by apply elem_of_list_to_set.
  - intros name Hn. subst r. unfold scrape_player_index. cbn [all_players].
    by apply crawl_loop_keeps_names.
  - intros name Hnone. subst r. unfold scrape_player_index.
    cbn [all_players]. by rewrite crawl_loop_unfetched.
  - intros name url pages1 page pages2 Hpages Hpage Hlater. subst r.
    unfold scrape_player_index. cbn [all_players].
    by apply (crawl_loop_last_page _ _ _ _ _ _ _ _ _ Hpages Hpage Hlater).
Qed.

(** C2 (as stated) fails: the checkpoint maps "Ab Cd" to the URL with id
    11111111 and has shard "aa" processed; the page of shard "ab" lists
    "Ab Cd" with id 22222222, and the resumed run ends with that URL:
    its mapping does not include the checkpoint's. *)
Lemma resume_replaces_url :
  let w := site_listing (fun _ => u "22222222") in
  let r := scrape_player_index w (Some old_checkpoint) true
             (Some [u "aa"; u "ab"]) in
  default ∅ (cd_players old_checkpoint) !! u "Ab Cd"
    = Some (stats_url_of (u "11111111"))
  ∧ requested r = [combo_url (u "ab")]
  ∧ all_players r !! u "Ab Cd" = Some (stats_url_of (u "22222222"))
  ∧ ¬ (default ∅ (cd_players old_checkpoint) ⊆ all_players r).
Proof.
  intros w r.
  assert (Hold : default ∅ (cd_players old_checkpoint) !! u "Ab Cd"
                 = Some (stats_url_of (u "11111111"))).
  { vm_compute. reflexivity. }
  assert (Hnew : all_players r !! u "Ab Cd" = Some (stats_url_of (u "22222222"))).
  { vm_compute. reflexivity. }
  split; [exact Hold|]. split; [vm_compute; reflexivity|].
  split; [exact Hnew|].
  intros Hsub. pose proof (lookup_weaken _ _ _ _ Hold Hsub) as Hkept.
  rewrite Hnew in Hkept. vm_compute in Hkept. discriminate.
Qed.

(** C3 (as amended): within one page the first player link with a given
    text gives the URL of that name; when a page lists a name, its URL
    replaces the one the run held for that name, and when it does not,
    the held URL stays. *)
Theorem first_link_wins_within_page (w : world) (idx : nat) (combo : str)
    (st : crawl_state) (name : str) :
  (∀ page, _extract_players_from_page page !! name = first_url name page)
  ∧ (∀ page url,
       _scrape_page w idx (combo_url combo) = Some page →
       first_url name page = Some url →
       all_players (crawl_step w idx combo st) !! name = Some url)
  ∧ (∀ page,
       _scrape_page w idx (combo_url combo) = Some page →
       first_url name page = None →
       all_players (crawl_step w idx combo st) !! name
       = all_players st !! name).
Proof.
  split; [|split].
  - intros page. apply extract_lookup.
  - intros page url Hp Hfirst. unfold crawl_step. cbn [all_players].
    rewrite Hp. apply lookup_union_Some_l. by rewrite extract_lookup.
  - intros page Hp Hfirst. unfold crawl_step. cbn [all_players].
    rewrite Hp. apply lookup_union_r. by rewrite extract_lookup.
Qed.

(** C3 (as stated) fails: the page of shard "aa" lists "Ab Cd" with id
    11111111, the page of shard "ab" lists "Ab Cd" with id 22222222; the
    run ends with the URL seen last. *)
Lemma later_page_overwrites :
  let w := site_listing (fun k => if (k =? 1)%nat then u "11111111"
                                  else u "22222222") in
  let r := scrape_player_index w None true (Some [u "aa"; u "ab"]) in
  all_players (crawl_step w 1 (u "aa") (load_checkpoint true None)) !! u "Ab Cd"
    = Some (stats_url_of (u "11111111"))
  ∧ all_players r !! u "Ab Cd" = Some (stats_url_of (u "22222222"))
  ∧ stats_url_of (u "11111111") ≠ stats_url_of (u "22222222").
Proof.
  intros w r. split; [vm_compute; reflexivity|].
  split; [vm_compute; reflexivity|].
  vm_compute. discriminate.
Qed.

End CrawlFacts.

(** * Properties of the join *)

Module MergeFacts.
Import Merge.

Local Open Scope string_scope.
Local Open Scope Z_scope.

(** ** Series *)

Lemma series_get_set_eq l v s : series_get l (series_set l v s) = Some v.
Proof.
  induction s as [|[l' v'] s IH]; simpl.
  - by rewrite String.eqb_refl.
  - destruct (String.eqb_spec l' l) as [->|Hne]; simpl.
    + by rewrite String.eqb_refl.
    + destruct (String.eqb_spec l' l); [done | exact IH].
Qed.

Lemma series_get_set_ne l l' v s :
  l ≠ l' → series_get l' (series_set l v s) = series_get l' s.
Proof.
  intros Hne. induction s as [|[l0 v0] s IH]; simpl.
  - destruct (String.eqb_spec l l'); [done | reflexivity].
  - destruct (String.eqb_spec l0 l) as [->|Hne0]; simpl.
    + destruct (String.eqb_spec l l'); [done | reflexivity].
    + destruct (String.eqb_spec l0 l'); [reflexivity | exact IH].
Qed.


(** ** The combined row *)







Lemma get_player_stats_found fs player season stats_type df k :
  fs (stats_path player stats_type) = Some (Csv df) →
  column_index "Season" (columns df) = Some k →
  get_player_stats fs player season stats_type =
  match season_rows k season (rows df) with
  | [] => None
  | [row] => Some (row_series (columns df) row)
  | first :: _ :: _ =>
      Some (combined_row (columns df) season
              (season_rows k season (rows df)) first)
  end.
Proof.
  intros Hfile Hk. unfold get_player_stats, glob.
  rewrite Hfile. rewrite Hfile, Hk. reflexivity.
Qed.

Lemma get_player_stats_absent fs player season stats_type :
  match fs (stats_path player stats_type) with
  | Some (Csv df) => column_index "Season" (columns df) = None
  | _ => True
  end →
  get_player_stats fs player season stats_type = None.
Proof.
  unfold get_player_stats, glob.
  destruct (fs (stats_path player stats_type)) as [[|df]|] eqn:Hfile.
  - intros _. by rewrite Hfile.
  - intros Hk. by rewrite Hfile, Hk.
  - reflexivity.
Qed.








(** ** Seasons *)

(** C10: for a season string whose first token is two digits YY,
    [parse_transfer_season] returns the text of 2000+YY-1, a hyphen and
    the text of 2000+YY; "10/11" gives "2009-2010" and "99/00" gives
    "2098-2099". *)
Theorem previous_season_two_digits (a b : nat) (rest : string) :
  (a < 10)%nat → (b < 10)%nat →
  parse_transfer_season (season_string a b rest)
  = Return (format_int (2000 + Z.of_nat (10 * a + b) - 1) ++ "-"
            ++ format_int (2000 + Z.of_nat (10 * a + b)))
  ∧ parse_transfer_season "10/11" = Return "2009-2010"
  ∧ parse_transfer_season "99/00" = Return "2098-2099".
Proof.
  intros Ha Hb. split; [|split; vm_compute; reflexivity].
  do 10 (destruct a as [|a];
         [do 10 (destruct b as [|b]; [vm_compute; reflexivity|]); lia|]).
  lia.
Qed.

Lemma previous_season_two_digits_witness :
  (1 < 10)%nat ∧ (0 < 10)%nat
  ∧ parse_transfer_season (season_string 1 0 "11") = Return "2009-2010".
Proof.
  split; [lia|]. split; [lia|].
  exact (proj1 (previous_season_two_digits 1 0 "11" ltac:(lia) ltac:(lia))).
Defined.

(** ** Failures inside the loop *)

(** An exception of one row ends the loop; the rows after it are not
    read. *)
Lemma merge_loop_raise fs st transfer rest e :
  merge_step fs st transfer = Raise e →
  merge_loop fs (transfer :: rest) st = Raise e.
Proof. intros Hstep. cbn [merge_loop]. by rewrite Hstep. Qed.

(** A player whose statistics are missing or cannot be read is put on
    the not-found list, and the loop goes on. *)
Lemma merge_step_not_found fs st player season prev :
  parse_transfer_season season = Return prev →
  get_player_stats fs player prev "standard_stats" = None →
  merge_step fs st (transfer player season)
  = Return {| results := results st;
              not_found := not_found st ++
                [ {| nf_Player := player;
                     nf_Transfer_Season := season;
                     nf_Looking_For := prev |} ] |}.
Proof.
  intros Hparse Hstats. unfold merge_step, transfer.
  cbn [item series_get String.eqb Ascii.eqb Bool.eqb as_str mbind result_bind].
  rewrite Hparse. cbn [mbind result_bind]. by rewrite Hstats.
Qed.

(** C5, at rows the code can receive: the season "xx/yy" of the second
    of three transfers raises [ValueError] in [parse_transfer_season];
    nothing catches it, and the whole loop ends with it, although the
    first row alone and the third row alone each give a merged
    record. *)
Theorem bad_season_aborts_merge :
  parse_transfer_season "xx/yy" = Raise ValueError
  ∧ merge_transfers_with_stats one_player three_transfers = Raise ValueError
  ∧ (∃ st, merge_transfers_with_stats one_player (take 1 three_transfers)
           = Return st ∧ List.length (results st) = 1%nat)
  ∧ (∃ st, merge_transfers_with_stats one_player (drop 2 three_transfers)
           = Return st ∧ List.length (results st) = 1%nat).
Proof.
  split; [vm_compute; reflexivity|].
  split; [vm_compute; reflexivity|].
  split; eexists; (split; [vm_compute; reflexivity|]); reflexivity.
Qed.

End MergeFacts.

(** * Properties of the matching *)

Module MatchFacts.
Import Unicode Names Match.

Lemma match_and_filter_eq (csv_players : list str) (all_urls : items) :
  match_and_filter csv_players all_urls
  = match csv_players with
    | [] => ZeroDivisionError
    | _ :: _ => Returned (match_players csv_players all_urls)
    end.
Proof. by destruct csv_players. Qed.

#[local] Opaque _normalize_name normalize_name.

Lemma normalized_index_fold (index_players : items)
    (m : gmap str (str * str)) (key : str) :
  fold_left (fun m item => <[_normalize_name item.1 := item]> m)
    index_players m !! key
  = match last_with key index_players with
    | Some found => Some found
    | None => m !! key
    end.
Proof.
  revert m. induction index_players as [|item rest IH]; intros m.
  - reflexivity.
  - cbn [fold_left last_with]. rewrite IH.
    destruct (last_with key rest) as [found|]; [reflexivity|].
    destruct (decide (_normalize_name item.1 = key)) as [Heq | Hne].
    + rewrite (bool_decide_eq_true_2 _ Heq). rewrite <- Heq.
      apply lookup_insert_eq.
    + rewrite (bool_decide_eq_false_2 _ Hne). by apply lookup_insert_ne.
Qed.

Lemma normalized_index_lookup (index_players : items) (key : str) :
  normalized_index_of index_players !! key = last_with key index_players.
Proof.
  unfold normalized_index_of. rewrite normalized_index_fold.
  destruct (last_with key index_players); [reflexivity | apply lookup_empty].
Qed.

Lemma match_step_url (index_players : items) st (csv_name : str) :
  match_step (normalized_index_of index_players) st csv_name
  = match url_for index_players csv_name with
    | Some url =>
        {| matched := <[csv_name := url]> (matched st);
           unmatched := unmatched st |}
    | None =>
        {| matched := matched st;
           unmatched := unmatched st ++ [csv_name] |}
    end.
Proof.
  unfold match_step, url_for. rewrite normalized_index_lookup.
  by destruct (last_with (_normalize_name csv_name) index_players) as [[? ?]|].
Qed.

Lemma match_fold_matched (index_players : items) (csv_players : list str)
    st (q : str) :
  matched (fold_left (match_step (normalized_index_of index_players))
             csv_players st) !! q
  = if decide (q ∈ csv_players) then
      match url_for index_players q with
      | Some url => Some url
      | None => matched st !! q
      end
    else matched st !! q.
Proof.
  revert st. induction csv_players as [|name rest IH]; intros st.
  - reflexivity.
  - cbn [fold_left]. rewrite IH, match_step_url.
    destruct (decide (q = name)) as [-> | Hne].
    + rewrite (decide_True (P := name ∈ name :: rest)) by left.
      destruct (url_for index_players name) as [url|] eqn:Hurl;
        cbn [matched].
      * destruct (decide (name ∈ rest)); [reflexivity|].
        apply lookup_insert_eq.
      * by destruct (decide (name ∈ rest)).
    + assert (Hin : q ∈ name :: rest ↔ q ∈ rest).
      { rewrite elem_of_cons. naive_solver. }
      assert (Hst : matched
                (match url_for index_players name with
                 | Some url =>
                     {| matched := <[name := url]> (matched st);
                        unmatched := unmatched st |}
                 | None =>
                     {| matched := matched st;
                        unmatched := unmatched st ++ [name] |}
                 end) !! q = matched st !! q).
      { destruct (url_for index_players name); cbn [matched];
          [by apply lookup_insert_ne | reflexivity]. }
      rewrite Hst.
      destruct (decide (q ∈ rest)) as [Hr | Hr].
      * by rewrite (decide_True (P := q ∈ name :: rest)) by by apply Hin.
      * rewrite (decide_False (P := q ∈ name :: rest)); [done|].
        intros H. by apply Hr, Hin.
Qed.

Lemma match_fold_unmatched (index_players : items)
    (csv_players : list str) st :
  unmatched (fold_left (match_step (normalized_index_of index_players))
               csv_players st)
  = unmatched st
    ++ filter (fun q => url_for index_players q = None) csv_players.
Proof.
  revert st. induction csv_players as [|name rest IH]; intros st.
  - cbn [fold_left]. by rewrite filter_nil, app_nil_r.
  - cbn [fold_left]. rewrite IH, match_step_url, filter_cons.
    destruct (url_for index_players name) as [url|] eqn:Hurl;
      cbn [unmatched].
    + by rewrite decide_False.
    + rewrite decide_True by done. by rewrite <- app_assoc.
Qed.

Lemma matched_lookup (csv_players : list str) (index_players : items)
    (q : str) :
  matched (match_players csv_players index_players) !! q
  = if decide (q ∈ csv_players) then url_for index_players q else None.
Proof.
  unfold match_players. rewrite match_fold_matched. cbn [matched].
  rewrite lookup_empty.
  destruct (decide (q ∈ csv_players)); [|reflexivity].
  by destruct (url_for index_players q).
Qed.

Lemma unmatched_eq (csv_players : list str) (index_players : items) :
  unmatched (match_players csv_players index_players)
  = filter (fun q => url_for index_players q = None) csv_players.
Proof. unfold match_players. by rewrite match_fold_unmatched. Qed.

Lemma last_with_None (key : str) (index_players : items) :
  last_with key index_players = None ↔
  Forall (fun item => _normalize_name item.1 ≠ key) index_players.
Proof.
  induction index_players as [|item rest IH]; cbn [last_with].
  - split; [constructor | done].
  - rewrite Forall_cons, <- IH.
    destruct (last_with key rest) as [found|].
    + split; [done | by intros [_ ?]].
    + destruct (decide (_normalize_name item.1 = key)) as [Heq | Hne].
      * rewrite (bool_decide_eq_true_2 _ Heq). split; [done | by intros [? _]].
      * by rewrite (bool_decide_eq_false_2 _ Hne).
Qed.

Lemma last_with_Some (key : str) (index_players : items) (item : str * str) :
  last_with key index_players = Some item ↔
  ∃ before after,
    index_players = before ++ item :: after
    ∧ _normalize_name item.1 = key
    ∧ Forall (fun later => _normalize_name later.1 ≠ key) after.
Proof.
  revert item. induction index_players as [|first rest IH]; intros item.
  - cbn [last_with]. split; [done|].
    intros (before & after & Heq & _). by destruct before.
  - cbn [last_with]. destruct (last_with key rest) as [found|] eqn:Hrest.
    + split.
      * intros [= <-].
        destruct (proj1 (IH found) eq_refl) as (before & after & -> & Hk & Hafter).
        by exists (first :: before), after.
      * intros (before & after & Heq & Hk & Hafter).
        destruct before as [|b before]; simplify_eq/=.
        -- apply last_with_None in Hafter. congruence.
        -- apply IH. by exists before, after.
    + split.
      * destruct (decide (_normalize_name first.1 = key)) as [Hk | Hk].
        -- rewrite (bool_decide_eq_true_2 _ Hk). intros [= <-].
           exists [], rest. split; [done|]. split; [done|].
           by apply last_with_None.
        -- by rewrite (bool_decide_eq_false_2 _ Hk).
      * intros (before & after & Heq & Hk & Hafter).
        destruct before as [|b before]; simplify_eq/=.
        -- by rewrite bool_decide_eq_true_2.
        -- assert (Hsome : None = Some item).
           { apply IH. by exists before, after. }
           discriminate.
Qed.

(** X1: every name of the CSV file ends up among the matched names or in
    the unmatched list, never in both, and nothing else does.
    [match_and_filter] computes the same result and returns it when the
    CSV file has a name; for an empty list its summary divides by
    zero. *)
Theorem match_partition (csv_players : list str) (index_players : items)
    (q : str) :
  let r := match_players csv_players index_players in
  (q ∈ csv_players ↔ is_Some (matched r !! q) ∨ q ∈ unmatched r)
  ∧ ¬ (is_Some (matched r !! q) ∧ q ∈ unmatched r)
  ∧ match_and_filter csv_players index_players
    = match csv_players with
      | [] => ZeroDivisionError
      | _ :: _ => Returned r
      end.
Proof.
  intros r. subst r. rewrite matched_lookup, unmatched_eq.
  rewrite list_elem_of_filter.
  split; [|split; [|apply match_and_filter_eq]].
  - destruct (decide (q ∈ csv_players)) as [Hin | Hin].
    + split; [|done]. intros _.
      destruct (url_for index_players q) as [url|]; [left; eauto | by right].
    + split; [done|]. intros [[? [=]] | [_ ?]]. done.
  - intros [Hm [Hu Hin]]. rewrite decide_True in Hm by done.
    rewrite Hu in Hm. by destruct Hm.
Qed.

(** X2: the unmatched list is the list of CSV names with the matched
    names taken out: the order of the input and its repetitions are
    kept. *)
Theorem unmatched_keeps_order (csv_players : list str)
    (index_players : items) :
  let r := match_players csv_players index_players in
  unmatched r = filter (fun q => matched r !! q = None) csv_players.
Proof.
  intros r. subst r. rewrite unmatched_eq.
  assert (Hext : ∀ l : list str,
             (∀ q, q ∈ l → q ∈ csv_players) →
             filter (fun q => url_for index_players q = None) l
             = filter (fun q => matched (match_players csv_players
                                           index_players) !! q = None) l).
  { induction l as [|q l IH]; intros Hsub; [reflexivity|].
    rewrite !filter_cons.
    rewrite IH by (intros q' Hq'; apply Hsub; by right).
    rewrite matched_lookup.
    rewrite (decide_True (P := q ∈ csv_players)) by (apply Hsub; left).
    reflexivity. }
  by apply Hext.
Qed.

(** X3: a CSV name is matched with a URL exactly when that URL belongs
    to the last item of the index whose name has the same normalised
    form as the CSV name. *)
Theorem matched_is_last_entry (csv_players : list str)
    (index_players : items) (q url : str) :
  matched (match_players csv_players index_players) !! q = Some url ↔
  q ∈ csv_players
  ∧ ∃ name before after,
      index_players = before ++ (name, url) :: after
      ∧ _normalize_name name = _normalize_name q
      ∧ Forall (fun later => _normalize_name later.1 ≠ _normalize_name q)
          after.
Proof.
  rewrite matched_lookup. unfold url_for.
  destruct (decide (q ∈ csv_players)) as [Hin | Hin].
  - split.
    + intros Hurl. split; [done|].
      destruct (last_with (_normalize_name q) index_players)
        as [[name url']|] eqn:Hlast; [|done].
      injection Hurl as ->.
      apply last_with_Some in Hlast as (before & after & ? & ? & ?).
      by exists name, before, after.
    + intros (_ & name & before & after & Heq & Hk & Hafter).
      assert (Hlast : last_with (_normalize_name q) index_players
                      = Some (name, url)).
      { apply last_with_Some. by exists before, after. }
      by rewrite Hlast.
  - split; [done | by intros [? _]].
Qed.

(** X4: two names of the CSV file with the same normalised form get the
    same answer: both the same URL, or both none. *)
Theorem same_key_same_answer (csv_players : list str) (index_players : items)
    (q1 q2 : str) :
  q1 ∈ csv_players → q2 ∈ csv_players →
  _normalize_name q1 = _normalize_name q2 →
  matched (match_players csv_players index_players) !! q1
  = matched (match_players csv_players index_players) !! q2.
Proof.
  intros H1 H2 Hk. rewrite !matched_lookup, !decide_True by done.
  unfold url_for. by rewrite Hk.
Qed.

Lemma same_key_same_answer_witness :
  kylian_mbappe ∈ three_names ∧ u "KYLIAN  MBAPPE" ∈ three_names
  ∧ _normalize_name kylian_mbappe = _normalize_name (u "KYLIAN  MBAPPE")
  ∧ matched (match_players three_names one_entry) !! kylian_mbappe
    = matched (match_players three_names one_entry) !! u "KYLIAN  MBAPPE".
Proof.
  assert (H1 : kylian_mbappe ∈ three_names).
  { apply (bool_decide_unpack _). vm_compute. exact I. }
  assert (H2 : u "KYLIAN  MBAPPE" ∈ three_names).
  { apply (bool_decide_unpack _). vm_compute. exact I. }
  assert (Hk : _normalize_name kylian_mbappe
               = _normalize_name (u "KYLIAN  MBAPPE")).
  { vm_compute. reflexivity. }
  split; [exact H1|]. split; [exact H2|]. split; [exact Hk|].
  exact (same_key_same_answer three_names one_entry _ _ H1 H2 Hk).
Defined.

(** X5: a CSV name that is itself a name of the index is always
    matched. *)
Theorem index_name_is_matched (csv_players : list str)
    (index_players : items) (q url : str) :
  q ∈ csv_players → (q, url) ∈ index_players →
  is_Some (matched (match_players csv_players index_players) !! q).
Proof.
  intros Hin Hidx. rewrite matched_lookup, decide_True by done.
  unfold url_for.
  destruct (last_with (_normalize_name q) index_players) eqn:Hlast; [by eexists|].
  apply last_with_None in Hlast. rewrite Forall_forall in Hlast.
  by destruct (Hlast _ Hidx).
Qed.

Lemma index_name_is_matched_witness :
  u "Kylian Mbappe" ∈ [u "Kylian Mbappe"]
  ∧ (u "Kylian Mbappe",
     u "https://fbref.com/en/players/42fd9c7f/Kylian-Mbappe-Stats") ∈ one_entry
  ∧ is_Some (matched (match_players [u "Kylian Mbappe"] one_entry)
               !! u "Kylian Mbappe").
Proof.
  assert (H1 : u "Kylian Mbappe" ∈ [u "Kylian Mbappe"]).
  { apply (bool_decide_unpack _). vm_compute. exact I. }
  assert (H2 : (u "Kylian Mbappe",
     u "https://fbref.com/en/players/42fd9c7f/Kylian-Mbappe-Stats") ∈ one_entry).
  { apply (bool_decide_unpack _). vm_compute. exact I. }
  split; [exact H1|]. split; [exact H2|].
  exact (index_name_is_matched _ _ _ _ H1 H2).
Defined.

Lemma match_fold_count (index_players : items) (csv_players : list str) st :
  NoDup csv_players →
  (∀ q, q ∈ csv_players → matched st !! q = None) →
  let r := fold_left (match_step (normalized_index_of index_players))
             csv_players st in
  (size (matched r) + List.length (unmatched r)
   = size (matched st) + List.length (unmatched st) + List.length csv_players)%nat.
Proof.
  revert st. induction csv_players as [|name rest IH]; intros st Hnd Hfresh r.
  - subst r. cbn [fold_left List.length]. lia.
  - apply NoDup_cons in Hnd as [Hname Hnd].
    subst r. cbn [fold_left]. rewrite match_step_url.
    destruct (url_for index_players name) as [url|].
    + rewrite IH; [|done|].
      * cbn [matched unmatched List.length].
        rewrite map_size_insert_None by (apply Hfresh; left). lia.
      * intros q Hq. cbn [matched]. rewrite lookup_insert_ne.
        -- apply Hfresh. by right.
        -- intros ->. done.
    + rewrite IH; [|done|].
      * cbn [matched unmatched]. rewrite length_app. cbn [List.length]. lia.
      * intros q Hq. cbn [matched]. apply Hfresh. by right.
Qed.

(** X6: when the names of the CSV file are distinct, the number of
    matched names and the number of unmatched names add up to the number
    of names. *)
Theorem matched_and_unmatched_count (csv_players : list str)
    (index_players : items) :
  NoDup csv_players →
  (size (matched (match_players csv_players index_players))
   + List.length (unmatched (match_players csv_players index_players))
   = List.length csv_players)%nat.
Proof.
  intros Hnd. unfold match_players.
  rewrite (match_fold_count index_players csv_players _ Hnd).
  - cbn [matched unmatched List.length]. by rewrite map_size_empty.
  - intros q _. apply lookup_empty.
Qed.

Lemma matched_and_unmatched_count_witness :
  NoDup three_names
  ∧ (size (matched (match_players three_names one_entry))
     + List.length (unmatched (match_players three_names one_entry))
     = 3)%nat.
Proof.
  assert (H : NoDup three_names).
  { apply (bool_decide_unpack _). vm_compute. exact I. }
  split; [exact H|].
  exact (matched_and_unmatched_count three_names one_entry H).
Defined.

End MatchFacts.

(** * Properties of the batches *)

Module BatchFacts.
Import Batches.

Lemma four_batches_cover (total : nat) : (total ≤ 4 * batch_size total)%nat.
Proof.
  unfold batch_size.
  pose proof (Nat.div_mod_eq total 4) as Hdiv.
  pose proof (Nat.mod_upper_bound total 4) as Hmod.
  destruct (Nat.eqb_spec (total mod 4) 0); lia.
Qed.

Lemma batch_take_drop {A : Type} (players_list : list A) (i : nat) :
  batch players_list i
  = take (batch_size (List.length players_list))
      (drop (i * batch_size (List.length players_list)) players_list).
Proof.
  unfold batch, slice.
  generalize (batch_size (List.length players_list)). intros bs.
  pose proof (length_drop players_list (i * bs)) as Hlen.
  revert Hlen. generalize (drop (i * bs) players_list). intros rest Hlen.
  destruct (decide (bs ≤ List.length rest)%nat) as [Hle | Hgt].
  - f_equal. nia.
  - rewrite (take_ge rest bs) by lia. apply take_ge. nia.
Qed.

(** X7: the four batches, one after the other, are the list of players:
    no player is lost, none is put in two batches, and the order is
    kept. *)
Theorem batches_partition {A : Type} (players_list : list A) :
  concat (batches players_list) = players_list.
Proof.
  unfold batches. cbn [map concat]. rewrite !batch_take_drop.
  pose proof (four_batches_cover (List.length players_list)) as Hcover.
  revert Hcover. generalize (batch_size (List.length players_list)).
  intros bs Hcover. rewrite app_nil_r.
  replace (0 * bs)%nat with 0%nat by lia.
  replace (1 * bs)%nat with bs by lia.
  rewrite drop_0.
  assert (H3 : take bs (drop (3 * bs) players_list)
               = drop (3 * bs) players_list).
  { apply take_ge. rewrite length_drop. lia. }
  assert (H2 : take bs (drop (2 * bs) players_list)
               ++ drop (3 * bs) players_list
               = drop (2 * bs) players_list).
  { replace (3 * bs)%nat with (2 * bs + bs)%nat by lia.
    rewrite <- drop_drop. apply take_drop. }
  assert (H1 : take bs (drop bs players_list) ++ drop (2 * bs) players_list
               = drop bs players_list).
  { replace (2 * bs)%nat with (bs + bs)%nat by lia.
    rewrite <- drop_drop. apply take_drop. }
  rewrite H3, H2, H1. apply take_drop.
Qed.

(** X8: batch number [i] (counted from 0) holds the players from
    position [i] times the batch size on, at most a batch size of them;
    a batch is short or empty only when the players have run out. *)
Theorem batch_length {A : Type} (players_list : list A) (i : nat) :
  List.length (batch players_list i)
  = (batch_size (List.length players_list)
     `min` (List.length players_list
            - i * batch_size (List.length players_list)))%nat
  ∧ (List.length (batch players_list i)
     ≤ batch_size (List.length players_list))%nat.
Proof.
  rewrite batch_take_drop, length_take, length_drop. split; lia.
Qed.

End BatchFacts.

(** * Further properties of the index crawl *)

Module CrawlMore.
Import Unicode Names Crawl CrawlFacts.

(** ** Pages *)

Lemma first_url_Some (name : str) (page : soup) (url : str) :
  first_url name page = Some url →
  ∃ l, l ∈ page ∧ is_player_link l = true ∧ text l = name
       ∧ url = stats_url l.
Proof.
  induction page as [|l page IH]; cbn [first_url]; [done|].
  destruct (is_player_link l) eqn:Hl; cbn [andb].
  - destruct (decide (text l = name)) as [Heq | Hne].
    + rewrite (bool_decide_eq_true_2 _ Heq). intros [= <-].
      exists l. split; [left|]. done.
    + rewrite (bool_decide_eq_false_2 _ Hne). intros Hrest.
      destruct (IH Hrest) as (l' & Hin & ?). exists l'. split; [by right | done].
  - intros Hrest.
    destruct (IH Hrest) as (l' & Hin & ?). exists l'. split; [by right | done].
Qed.

Lemma first_url_app (name : str) (page1 page2 : soup) :
  first_url name (page1 ++ page2)
  = match first_url name page1 with
    | Some url => Some url
    | None => first_url name page2
    end.
Proof.
  induction page1 as [|l page1 IH]; cbn [app first_url]; [reflexivity|].
  by destruct (is_player_link l && bool_decide (text l = name)).
Qed.

Lemma first_url_filter (name : str) (page : soup) :
  first_url name (List.filter is_player_link page) = first_url name page.
Proof.
  induction page as [|l page IH]; cbn [List.filter first_url]; [reflexivity|].
  destruct (is_player_link l) eqn:Hl; cbn [first_url andb]; [|exact IH].
  rewrite Hl. cbn [andb]. by rewrite IH.
Qed.

Lemma stats_url_shape (l : link) :
  ∃ path, stats_url l = base_url ++ u "/" ++ path ++ u "-Stats".
Proof.
  unfold stats_url. destruct (href l) as [|c rest].
  - exists []. reflexivity.
  - change (startswith (u "/") (c :: rest)) with ((47 =? c) && true).
    destruct (N.eqb_spec 47 c) as [<- | Hne]; cbn [andb].
    + exists rest. reflexivity.
    + exists (c :: rest). reflexivity.
Qed.

(** X9: every entry that [_extract_players_from_page] returns comes
    from a link of the page: the name is the text of the link and has at
    least three characters, the address of the link contains "/players/"
    and at least four slashes and neither "-Stats" nor "matchlogs", and
    the URL is "https://fbref.com/", the address and "-Stats". *)
Theorem extracted_entry_wellformed (page : soup) (name url : str) :
  _extract_players_from_page page !! name = Some url →
  (3 ≤ List.length name)%nat
  ∧ (∃ path, url = base_url ++ u "/" ++ path ++ u "-Stats")
  ∧ ∃ l, l ∈ page ∧ text l = name
         ∧ contains (u "/players/") (href l) = true
         ∧ (4 ≤ count 0x2F (href l))%nat
         ∧ contains (u "-Stats") (href l) = false
         ∧ contains (u "matchlogs") (href l) = false
         ∧ (url = base_url ++ href l ++ u "-Stats"
            ∨ url = base_url ++ u "/" ++ href l ++ u "-Stats").
Proof.
  rewrite extract_lookup. intros Hfirst.
  apply first_url_Some in Hfirst as (l & Hin & Hl & Htext & ->).
  unfold is_player_link in Hl.
  apply andb_true_iff in Hl as [Hl Hlen].
  apply andb_true_iff in Hl as [Hl Hskip].
  apply andb_true_iff in Hl as [Hplayers Hcount].
  apply negb_true_iff in Hlen, Hskip.
  apply orb_false_iff in Hskip as [Hstats Hlogs].
  split; [|split].
  - subst name. apply Nat.ltb_ge in Hlen. exact Hlen.
  - apply stats_url_shape.
  - exists l. repeat (split; [try done|]).
    + by apply Nat.leb_le.
    + unfold stats_url. destruct (startswith (u "/") (href l)); auto.
Qed.

Lemma extracted_entry_wellformed_witness :
  _extract_players_from_page (page_of (u "42fd9c7f")) !! u "Ab Cd"
    = Some (stats_url_of (u "42fd9c7f"))
  ∧ (3 ≤ List.length (u "Ab Cd"))%nat.
Proof.
  assert (H : _extract_players_from_page (page_of (u "42fd9c7f")) !! u "Ab Cd"
              = Some (stats_url_of (u "42fd9c7f"))).
  { vm_compute. reflexivity. }
  split; [exact H|].
  exact (proj1 (extracted_entry_wellformed _ _ _ H)).
Defined.

(** X10: extraction goes through a page from top to bottom: the entries
    of two pieces of a page put one after the other are those of the
    first piece, and those of the second piece for the names the first
    does not have; the links that are no player links make no
    difference. *)
Theorem extract_app (page1 page2 : soup) :
  _extract_players_from_page (page1 ++ page2)
  = _extract_players_from_page page1 ∪ _extract_players_from_page page2
  ∧ _extract_players_from_page (List.filter is_player_link page1)
    = _extract_players_from_page page1.
Proof.
  split; apply map_eq; intros name.
  - rewrite lookup_union, !extract_lookup, first_url_app.
    by destruct (first_url name page1), (first_url name page2).
  - by rewrite !extract_lookup, first_url_filter.
Qed.

(** ** Runs *)

(** X11: a run asks the site for exactly the target shards that the
    checkpoint does not list as processed, in the order of the targets,
    one request for each place such a shard has in the target list, at
    the address of the index followed by the shard and a slash.  When
    the target list has no repetition no address is requested twice;
    that is so for the 676 shards from "aa" to "zz", the targets when
    no list is given, and for every plan of [_get_required_combos]. *)
Theorem requests_are_remaining_targets (w : world)
    (file : option checkpoint_data) (resume : bool)
    (target_combos : option (list str)) :
  let combos := default _generate_two_letter_combos target_combos in
  let done_before := processed_combos (load_checkpoint resume file) in
  let r := scrape_player_index w file resume target_combos in
  requested r
  = map (fun combo => player_index_url ++ combo ++ u "/")
      (filter (fun combo => combo ∉ done_before) combos)
  ∧ (List.length (requested r) ≤ List.length combos)%nat
  ∧ (NoDup combos → NoDup (requested r))
  ∧ NoDup _generate_two_letter_combos
  ∧ (∀ names, NoDup (_get_required_combos names)).
Proof.
  intros combos done_before r. unfold r. rewrite targets_of_requested.
  assert (Hcombos : match target_combos with
                    | Some combos => combos
                    | None => _generate_two_letter_combos
                    end = combos) by by destruct target_combos.
  rewrite Hcombos. split; [reflexivity|]. split; [|split; [|split]].
  - rewrite length_map. unfold remaining_of. apply length_filter.
  - intros Hnd. apply (NoDup_fmap_2 combo_url). unfold remaining_of.
    by apply NoDup_filter.
  - apply (bool_decide_unpack _). vm_compute. exact I.
  - intros names. unfold _get_required_combos, sorted.
    rewrite merge_sort_Permutation. apply NoDup_elements.
Qed.

Lemma remaining_of_processed (combos : list str) (processed : gset str) :
  (∀ c, c ∈ combos → c ∈ processed) → remaining_of combos processed = [].
Proof.
  unfold remaining_of. induction combos as [|c combos IH]; intros Hsub.
  - reflexivity.
  - rewrite filter_cons, decide_False.
    + apply IH. intros c' Hc'. apply Hsub. by right.
    + intros Hnot. apply Hnot, Hsub. left.
Qed.

(** X12: a run resumed from the checkpoint that an earlier run wrote,
    for targets that were all among the targets of the earlier run,
    makes no request and returns what the earlier run returned. *)
Theorem resume_after_complete_run (w1 w2 : world)
    (file : option checkpoint_data) (resume : bool)
    (combos combos' : list str) :
  (∀ c, c ∈ combos' → c ∈ combos) →
  let r1 := scrape_player_index w1 file resume (Some combos) in
  let r2 := scrape_player_index w2 (checkpoint_file r1) true (Some combos') in
  requested r2 = []
  ∧ all_players r2 = all_players r1
  ∧ processed_combos r2 = processed_combos r1.
Proof.
  intros Hsub r1 r2.
  destruct (final_checkpoint w1 file resume (Some combos)) as [ts Hfile].
  fold r1 in Hfile.
  assert (Hrem : remaining_of combos' (processed_combos r1) = []).
  { apply remaining_of_processed. intros c Hc.
    apply targets_processed. by apply Hsub. }
  clearbody r1. subst r2. rewrite Hfile. unfold scrape_player_index.
  cbn [load_checkpoint _save_checkpoint cd_players cd_processed_combos
         from_option id all_players processed_combos requested].
  rewrite list_to_set_elements_L, Hrem. by cbn [crawl_loop requested
         all_players processed_combos].
Qed.

Lemma resume_after_complete_run_witness :
  (∀ c, c ∈ [u "ab"] → c ∈ [u "aa"; u "ab"])
  ∧ requested
      (scrape_player_index offline
         (checkpoint_file
            (scrape_player_index (site_listing (fun _ => u "11111111")) None
               true (Some [u "aa"; u "ab"])))
         true (Some [u "ab"])) = [].
Proof.
  assert (H : ∀ c, c ∈ [u "ab"] → c ∈ [u "aa"; u "ab"]).
  { intros c Hc. apply list_elem_of_singleton in Hc as ->.
    apply (bool_decide_unpack _). vm_compute. exact I. }
  split; [exact H|].
  exact (proj1 (resume_after_complete_run
                  (site_listing (fun _ => u "11111111")) offline None true
                  [u "aa"; u "ab"] [u "ab"] H)).
Defined.

Lemma last_multiple_next (n : nat) :
  (S n mod 50 ≠ 0 → 50 * (S n / 50) = 50 * (n / 50))%nat.
Proof.
  intros Hne.
  pose proof (Nat.div_mod_eq n 50) as Hn.
  pose proof (Nat.mod_upper_bound n 50) as Hr.
  pose proof (Nat.div_mod_eq (S n) 50) as Hn'.
  pose proof (Nat.mod_upper_bound (S n) 50) as Hr'.
  nia.
Qed.

Lemma last_multiple_full (n : nat) :
  (S n mod 50 = 0 → 50 * (S n / 50) = S n)%nat.
Proof.
  intros Heq. pose proof (Nat.div_mod_eq (S n) 50) as Hn'. lia.
Qed.

(** X13: when the loop has gone through a list of shards, the last
    checkpoint it has written is the state it had after the last shard
    whose number is a multiple of 50: the mapping and the processed
    shards of that moment.  Before the fiftieth shard it has written
    none, and the file is as the run found it.  (This is about the
    saves that have returned; see [_save_checkpoint].) *)
Theorem checkpoint_is_last_fiftieth (w : world) (combos : list str)
    (st : crawl_state) :
  let k := (50 * (List.length combos / 50))%nat in
  let reached := crawl_loop w 1 (take k combos) st in
  checkpoint_file (crawl_loop w 1 combos st)
  = if (k =? 0)%nat then checkpoint_file st
    else Some (_save_checkpoint (all_players reached)
                 (elements (processed_combos reached)) (now w k)).
Proof.
  induction combos as [|combo combos IH] using rev_ind; intros k reached.
  - reflexivity.
  - subst k reached. rewrite length_app. cbn [List.length].
    rewrite Nat.add_1_r, crawl_loop_snoc.
    unfold crawl_step at 1. cbn [checkpoint_file].
    replace (1 + List.length combos)%nat with (S (List.length combos)) by lia.
    destruct (Nat.eqb_spec (S (List.length combos) mod 50) 0) as [Hfull | Hnot].
    + rewrite (last_multiple_full _ Hfull).
      cbn [Nat.eqb].
      rewrite (take_ge (combos ++ [combo])) by (rewrite length_app; simpl; lia).
      rewrite crawl_loop_snoc.
      replace (1 + List.length combos)%nat with (S (List.length combos)) by lia.
      reflexivity.
    + rewrite (last_multiple_next _ Hnot).
      assert (Hk : (50 * (List.length combos / 50) ≤ List.length combos)%nat).
      { pose proof (Nat.div_mod_eq (List.length combos) 50). lia. }
      rewrite take_app_le by exact Hk.
      exact IH.
Qed.

Lemma crawl_loop_source w (remaining : list str) name url :
  ∀ idx st,
    all_players (crawl_loop w idx remaining st) !! name = Some url →
    all_players st !! name = Some url
    ∨ ∃ i combo page,
        remaining !! i = Some combo
        ∧ _scrape_page w (idx + i) (combo_url combo) = Some page
        ∧ _extract_players_from_page page !! name = Some url.
Proof.
  induction remaining as [|combo remaining IH]; intros idx st Hlook.
  - by left.
  - cbn [crawl_loop] in Hlook.
    destruct (IH _ _ Hlook) as [Hstep | (i & c & page & Hi & Hpage & Hentry)].
    + apply crawl_step_source in Hstep as [Hold | (page & Hpage & Hentry)].
      * by left.
      * right. exists 0%nat, combo, page. rewrite Nat.add_0_r. done.
    + right. exists (S i), c, page. rewrite Nat.add_succ_r. done.
Qed.

(** X14: every entry of the mapping a run returns was in the checkpoint
    it started from, or was extracted from the page that the run got in
    answer to one of its own requests: its ([i]+1)-th request, for a
    target shard. *)
Theorem entries_have_a_source (w : world) (file : option checkpoint_data)
    (resume : bool) (combos : list str) (name url : str) :
  let r := scrape_player_index w file resume (Some combos) in
  all_players r !! name = Some url →
  all_players (load_checkpoint resume file) !! name = Some url
  ∨ ∃ i combo page,
      requested r !! i = Some (combo_url combo)
      ∧ combo ∈ combos
      ∧ _scrape_page w (S i) (combo_url combo) = Some page
      ∧ _extract_players_from_page page !! name = Some url.
Proof.
  intros r Hlook. unfold r in *. rewrite run_requested.
  unfold scrape_player_index in Hlook. cbn [all_players] in Hlook.
  apply crawl_loop_source in Hlook
    as [Hold | (i & combo & page & Hi & Hpage & Hentry)]; [by left|].
  right. exists i, combo, page.
  split; [by rewrite list_lookup_fmap, Hi|].
  split; [|done].
  apply list_elem_of_lookup_2 in Hi. unfold remaining_of in Hi.
  by apply list_elem_of_filter in Hi as [_ ?].
Qed.

Lemma entries_have_a_source_witness :
  all_players
    (scrape_player_index (site_listing (fun _ => u "11111111")) None true
       (Some [u "aa"])) !! u "Ab Cd"
  = Some (stats_url_of (u "11111111"))
  ∧ (all_players (load_checkpoint true None) !! u "Ab Cd"
       = Some (stats_url_of (u "11111111"))
     ∨ ∃ i combo page,
         requested
           (scrape_player_index (site_listing (fun _ => u "11111111")) None
              true (Some [u "aa"])) !! i
         = Some (combo_url combo)
         ∧ combo ∈ [u "aa"]
         ∧ _scrape_page (site_listing (fun _ => u "11111111")) (S i)
             (combo_url combo) = Some page
         ∧ _extract_players_from_page page !! u "Ab Cd"
           = Some (stats_url_of (u "11111111"))).
Proof.
  assert (H : all_players
    (scrape_player_index (site_listing (fun _ => u "11111111")) None true
       (Some [u "aa"])) !! u "Ab Cd"
  = Some (stats_url_of (u "11111111"))).
  { vm_compute. reflexivity. }
  split; [exact H|].
  exact (entries_have_a_source _ _ _ _ _ _ H).
Defined.

Lemma crawl_loop_ignores_file w idx (combos : list str) st st' :
  all_players st = all_players st' →
  processed_combos st = processed_combos st' →
  requested st = requested st' →
  all_players (crawl_loop w idx combos st)
    = all_players (crawl_loop w idx combos st')
  ∧ processed_combos (crawl_loop w idx combos st)
    = processed_combos (crawl_loop w idx combos st')
  ∧ requested (crawl_loop w idx combos st)
    = requested (crawl_loop w idx combos st').
Proof.
  revert idx st st'. induction combos as [|combo combos IH];
    intros idx st st' Ha Hp Hr.
  - done.
  - cbn [crawl_loop].
    apply IH; unfold crawl_step;
      cbn [all_players processed_combos requested];
      rewrite ?Ha, ?Hp, ?Hr; reflexivity.
Qed.

(** X15: with [resume=False] the checkpoint file is not read: the run
    does what it does when there is no checkpoint file, and ends by
    overwriting the file. *)
Theorem no_resume_ignores_checkpoint (w : world)
    (file : option checkpoint_data) (target_combos : option (list str)) :
  scrape_player_index w file false target_combos
  = scrape_player_index w None false target_combos.
Proof.
  unfold scrape_player_index.
  assert (Hload : processed_combos (load_checkpoint false file)
                  = processed_combos (load_checkpoint false None))
    by by destruct file.
  rewrite Hload.
  destruct (crawl_loop_ignores_file w 1
              (remaining_of (match target_combos with
                             | Some combos => combos
                             | None => _generate_two_letter_combos
                             end)
                 (processed_combos (load_checkpoint false None)))
              (load_checkpoint false file) (load_checkpoint false None))
    as (Ha & Hp & Hr); try by destruct file.
  by rewrite Ha, Hp, Hr.
Qed.

End CrawlMore.

(** * Further properties of the join *)

Module MergeMore.
Import Merge MergeFacts.

Local Open Scope string_scope.
Local Open Scope Z_scope.

(** ** Seasons *)

Lemma split_no_slash (first : string) :
  no_slash first → split "/" first = [first].
Proof.
  unfold no_slash. induction first as [|a first IH]; cbn [list_ascii_of_string split].
  - reflexivity.
  - intros [Ha Hrest]%Forall_cons.
    destruct (Ascii.eqb_spec a "/"); [done|].
    by rewrite (IH Hrest).
Qed.

Lemma split_first_token (first rest : string) :
  no_slash first →
  split "/" (first ++ String "/" rest) = first :: split "/" rest.
Proof.
  unfold no_slash. induction first as [|a first IH]; simpl.
  - reflexivity.
  - intros [Ha Hrest]%Forall_cons.
    destruct (Ascii.eqb_spec a "/"); [done|].
    by rewrite (IH Hrest).
Qed.

(** X16: [parse_transfer_season] reads the text before the first slash
    only: what follows the slash (the second year) makes no
    difference. *)
Theorem season_after_slash_ignored (first rest : string) :
  no_slash first →
  parse_transfer_season (first ++ "/" ++ rest) = parse_transfer_season first.
Proof.
  intros Hfirst. unfold parse_transfer_season.
  change (first ++ "/" ++ rest) with (first ++ String "/" rest).
  by rewrite split_first_token, split_no_slash.
Qed.

Lemma season_after_slash_ignored_witness :
  no_slash "10"
  ∧ parse_transfer_season ("10" ++ "/" ++ "99") = parse_transfer_season "10".
Proof.
  assert (H : no_slash "10").
  { repeat constructor; discriminate. }
  split; [exact H|].
  exact (season_after_slash_ignored "10" "99" H).
Defined.

(** X17: a season that is empty, or that starts with a slash, is not
    refused: [int('20')] is 20 and the answer is "19-20". *)
Theorem blank_season_accepted (rest : string) :
  parse_transfer_season "" = Return "19-20"
  ∧ parse_transfer_season (String "/" rest) = Return "19-20".
Proof.
  split; [vm_compute; reflexivity|].
  change (String "/" rest) with ("" ++ "/" ++ rest).
  rewrite season_after_slash_ignored by constructor.
  vm_compute. reflexivity.
Qed.

Lemma lstrip_keeps (x : list N) (a : N) (y : list N) :
  is_space a = false → lstrip (x ++ a :: y)%list = (lstrip x ++ a :: y)%list.
Proof.
  intros Ha. induction x as [|b x IH]; cbn [app lstrip].
  - by rewrite Ha.
  - by destruct (is_space b).
Qed.

Lemma strip_keeps_head (a b c : N) (rest : list N) :
  is_space a = false → is_space c = false →
  ∃ rest', strip (a :: b :: c :: rest) = a :: b :: c :: rest'.
Proof.
  intros Ha Hc. unfold strip. cbn [lstrip]. rewrite Ha.
  cbn [rev]. rewrite <- !app_assoc. cbn [app].
  rewrite (lstrip_keeps (rev rest) c [b; a] Hc).
  rewrite rev_app_distr. cbn [rev app]. by eexists.
Qed.

(** What [int] makes of "20" and a character below U+0080 that is no
    digit, no underscore and no white space: text that still has such a
    character in third place. *)
Lemma to_ascii_third (n : N) (cps : list N) :
  (n < 128)%N → is_digit n = false → n ≠ 95%N → is_space n = false →
  ∃ c tail,
    to_ascii (50 :: 48 :: n :: cps)%N = (50 :: 48 :: c :: tail)%N
    ∧ is_digit c = false ∧ c ≠ 95%N ∧ is_space c = false.
Proof.
  intros Hn Hdigit Hunder Hspace.
  change (to_ascii (50 :: 48 :: n :: cps)%N)
    with (50 :: 48 :: to_ascii (n :: cps))%N.
  cbn [to_ascii]. destruct (N.ltb_spec n 127) as [Hlt | Hge].
  - by exists n, (to_ascii cps).
  - assert (n = 127%N) as -> by lia.
    exists 63%N, []. split; [|by repeat split].
    vm_compute. reflexivity.
Qed.

Lemma int_20_stops (c : N) (rest : list N) :
  is_digit c = false → c ≠ 95%N →
  int_digits 0 0 false (50 :: 48 :: c :: rest)%N = None.
Proof.
  intros Hdigit Hunder. cbn [int_digits].
  change (is_digit 50) with true. change (is_digit 48) with true.
  cbn match. rewrite Hdigit.
  by destruct (N.eqb_spec c 95).
Qed.

(** X18: a season whose first character is a character below U+0080
    that is no digit, no underscore, no white space and no slash raises
    [ValueError]. *)
Theorem season_not_a_number (a : ascii) (rest : string) :
  (N_of_ascii a < 128)%N →
  is_digit (N_of_ascii a) = false → a ≠ "_"%char →
  is_space (N_of_ascii a) = false → a ≠ "/"%char →
  parse_transfer_season (String a rest) = Raise ValueError.
Proof.
  intros Hascii Hdigit Hunder Hspace Hslash. unfold parse_transfer_season.
  cbn [split]. destruct (Ascii.eqb_spec a "/"); [done|].
  assert (Hparts : ∃ p ps, match split "/" rest with
                           | p :: ps => String a p :: ps
                           | [] => [String a EmptyString]
                           end = String a p :: ps).
  { destruct (split "/" rest); by eexists _, _. }
  destruct Hparts as (p & ps & ->).
  cbn [mbind result_bind]. unfold int.
  change (u ("20" ++ String a p)) with (50 :: 48 :: N_of_ascii a :: u p)%N.
  assert (Hunder' : N_of_ascii a ≠ 95%N).
  { intros Heq. apply Hunder. rewrite <- (ascii_N_embedding a), Heq.
    reflexivity. }
  revert Hascii Hdigit Hspace Hunder'. generalize (N_of_ascii a).
  intros m Hascii Hdigit Hspace Hunder'.
  assert (Hdec : utf8_decode (50 :: 48 :: m :: u p)%N
                 = (fun cps => 50 :: 48 :: m :: cps)%N <$> utf8_decode (u p)).
  { change (utf8_decode (50 :: 48 :: m :: u p)%N)
      with (cons 50%N <$> (cons 48%N <$> utf8_decode (m :: u p))).
    cbn [utf8_decode]. destruct (N.ltb_spec m 128) as [_|Hge]; [|lia].
    by destruct (utf8_decode (u p)). }
  rewrite Hdec. destruct (utf8_decode (u p)) as [cps|]; [|reflexivity].
  cbn [fmap option_fmap option_map].
  destruct (to_ascii_third m cps Hascii Hdigit Hunder' Hspace)
    as (c & tail & -> & Hc1 & Hc2 & Hc3).
  destruct (strip_keeps_head 50 48 c tail eq_refl Hc3) as [rest' ->].
  change (50 =? 43)%N with false. change (50 =? 45)%N with false.
  cbn match. by rewrite (int_20_stops c rest' Hc1 Hc2).
Qed.

Lemma season_not_a_number_witness :
  (N_of_ascii "x" < 128)%N
  ∧ is_digit (N_of_ascii "x") = false ∧ "x"%char ≠ "_"%char
  ∧ is_space (N_of_ascii "x") = false ∧ "x"%char ≠ "/"%char
  ∧ parse_transfer_season "xx/yy" = Raise ValueError.
Proof.
  split; [reflexivity|].
  split; [reflexivity|]. split; [discriminate|]. split; [reflexivity|].
  split; [discriminate|].
  exact (season_not_a_number "x" "x/yy" eq_refl eq_refl ltac:(discriminate)
           eq_refl ltac:(discriminate)).
Defined.

(** ** The loop *)

Lemma bind_Return {A B : Type} (r : result A) (k : A → result B) (b : B) :
  r ≫= k = Return b → ∃ a, r = Return a ∧ k a = Return b.
Proof. destruct r as [a|e]; [by exists a | discriminate]. Qed.

Lemma item_Return label (row : Series) c :
  item label row = Return c → series_get label row = Some c.
Proof. unfold item. by destruct (series_get label row); intros [= ->]. Qed.

Lemma as_str_Return c s : as_str c = Return s → c = Text s.
Proof. by destruct c; intros [= ->]. Qed.

Lemma add_prefixed_other prefix skip (stats row : Series) l :
  (∀ col, l ≠ prefix ++ col) →
  series_get l (add_prefixed prefix skip stats row) = series_get l row.
Proof.
  intros Hl. unfold add_prefixed. revert row.
  induction stats as [|[col val] stats IH]; intros row; cbn [fold_left].
  - reflexivity.
  - rewrite IH. cbn [fst snd].
    destruct (existsb (String.eqb col) skip); [reflexivity|].
    apply series_get_set_ne. intros Heq. by apply (Hl col).
Qed.

(** The two ways in which one turn of the loop ends without an
    exception. *)
Lemma merge_step_Return fs st transfer st' :
  merge_step fs st transfer = Return st' →
  (∃ row, results st' = (results st ++ [row])%list
          ∧ not_found st' = not_found st
          ∧ merged_from transfer row)
  ∨ (∃ entry, results st' = results st
              ∧ not_found st' = (not_found st ++ [entry])%list
              ∧ reported_from fs transfer entry).
Proof.
  unfold merge_step. intros Hstep.
  apply bind_Return in Hstep as (player_cell & Hplayer & Hstep).
  apply bind_Return in Hstep as (season_cell & Hseason & Hstep).
  apply bind_Return in Hstep as (season & Hstr & Hstep).
  apply bind_Return in Hstep as (prev & Hparse & Hstep).
  apply bind_Return in Hstep as (player & Hname & Hstep).
  apply item_Return in Hplayer, Hseason.
  apply as_str_Return in Hstr, Hname. subst player_cell season_cell.
  destruct (get_player_stats fs player prev "standard_stats")
    as [standard|] eqn:Hstd.
  - left. injection Hstep as <-. eexists. cbn [results not_found].
    split; [reflexivity|]. split; [reflexivity|].
    exists season, prev. split; [done|]. split; [done|].
    split; [apply series_get_set_eq|].
    intros l [Hstats Hdef].
    rewrite series_get_set_ne by (intros Heq; by apply (Hstats "Season")).
    destruct (get_player_stats fs player prev "defensive_actions").
    + rewrite add_prefixed_other by done. by apply add_prefixed_other.
    + by apply add_prefixed_other.
  - right. injection Hstep as <-. eexists. cbn [results not_found].
    split; [reflexivity|]. split; [reflexivity|]. done.
Qed.

Lemma merge_step_readable fs st transfer :
  readable transfer → ∃ st', merge_step fs st transfer = Return st'.
Proof.
  intros (player & season & prev & Hp & Hs & Hparse).
  unfold merge_step, item. rewrite Hp, Hs.
  cbn [mbind result_bind as_str]. rewrite Hparse.
  cbn [mbind result_bind].
  destruct (get_player_stats fs player prev "standard_stats"); by eexists.
Qed.

Lemma merge_step_Return_readable fs st transfer st' :
  merge_step fs st transfer = Return st' → readable transfer.
Proof.
  unfold merge_step. intros Hstep.
  apply bind_Return in Hstep as (player_cell & Hplayer & Hstep).
  apply bind_Return in Hstep as (season_cell & Hseason & Hstep).
  apply bind_Return in Hstep as (season & Hstr & Hstep).
  apply bind_Return in Hstep as (prev & Hparse & Hstep).
  apply bind_Return in Hstep as (player & Hname & Hstep).
  apply item_Return in Hplayer, Hseason.
  apply as_str_Return in Hstr, Hname. subst player_cell season_cell.
  by exists player, season, prev.
Qed.

Lemma merge_loop_Return fs (transfers : list Series) st0 st :
  merge_loop fs transfers st0 = Return st →
  ∃ rows entries,
    results st = (results st0 ++ rows)%list
    ∧ not_found st = (not_found st0 ++ entries)%list
    ∧ (List.length rows + List.length entries = List.length transfers)%nat
    ∧ Forall (fun row => ∃ t, t ∈ transfers ∧ merged_from t row) rows
    ∧ Forall (fun entry => ∃ t, t ∈ transfers ∧ reported_from fs t entry)
        entries.
Proof.
  revert st0. induction transfers as [|t transfers IH]; intros st0 Hloop.
  - injection Hloop as <-. exists [], []. rewrite !app_nil_r. done.
  - cbn [merge_loop] in Hloop.
    apply bind_Return in Hloop as (st1 & Hstep & Hloop).
    destruct (IH _ Hloop) as (rows & entries & Hr & Hn & Hlen & Hrows & Hents).
    assert (Hrows' : Forall (fun row => ∃ t', t' ∈ t :: transfers
                                              ∧ merged_from t' row) rows).
    { eapply Forall_impl; [exact Hrows|].
      intros row (t' & Hin & ?). exists t'. split; [by right | done]. }
    assert (Hents' : Forall (fun entry => ∃ t', t' ∈ t :: transfers
                                                ∧ reported_from fs t' entry)
                       entries).
    { eapply Forall_impl; [exact Hents|].
      intros entry (t' & Hin & ?). exists t'. split; [by right | done]. }
    apply merge_step_Return in Hstep
      as [(row & Hr1 & Hn1 & Hrow) | (entry & Hr1 & Hn1 & Hentry)].
    + exists (row :: rows), entries.
      rewrite Hr, Hn, Hr1, Hn1, <- app_assoc. cbn [List.length app].
      repeat split; [lia | | done].
      constructor; [|done]. exists t. split; [left | done].
    + exists rows, (entry :: entries).
      rewrite Hr, Hn, Hr1, Hn1, <- app_assoc. cbn [List.length app].
      repeat split; [lia | done |].
      constructor; [|done]. exists t. split; [left | done].
Qed.

Lemma two_transfers_result :
  merge_transfers_with_stats one_player two_transfers
  = Return two_transfers_merged.
Proof. vm_compute. reflexivity. Qed.

(** X19: when the loop ends without an exception, every transfer has
    given one merged record or one not-found record: the two lists
    together are as long as the list of transfers. *)
Theorem merge_accounting (fs : files) (transfers : list Series)
    (st : merge_state) :
  merge_transfers_with_stats fs transfers = Return st →
  (List.length (results st) + List.length (not_found st)
   = List.length transfers)%nat.
Proof.
  intros Hloop.
  apply merge_loop_Return in Hloop as (rows & entries & -> & -> & Hlen & _).
  exact Hlen.
Qed.

Lemma merge_accounting_witness :
  merge_transfers_with_stats one_player two_transfers
    = Return two_transfers_merged
  ∧ (List.length (results two_transfers_merged)
     + List.length (not_found two_transfers_merged) = 2)%nat.
Proof.
  split; [exact two_transfers_result|].
  exact (merge_accounting one_player two_transfers two_transfers_merged
           two_transfers_result).
Defined.

(** X20: the loop ends without an exception exactly when every transfer
    has a text in [Player] and in [Season] and a season that
    [parse_transfer_season] accepts; the files of statistics, missing,
    unreadable or without the season, never make it raise. *)
Theorem merge_returns_iff_readable (fs : files) (transfers : list Series) :
  (∃ st, merge_transfers_with_stats fs transfers = Return st)
  ↔ Forall readable transfers.
Proof.
  unfold merge_transfers_with_stats.
  generalize {| results := []; not_found := [] |}.
  induction transfers as [|t transfers IH]; intros st0.
  - split; [constructor | by eexists].
  - cbn [merge_loop]. rewrite Forall_cons. split.
    + intros (st & Hloop).
      apply bind_Return in Hloop as (st1 & Hstep & Hloop).
      split; [by eapply merge_step_Return_readable|].
      apply (IH st1). by exists st.
    + intros [Ht Hrest].
      destruct (merge_step_readable fs st0 t Ht) as [st1 Hstep].
      rewrite Hstep. cbn [mbind result_bind]. by apply IH.
Qed.

(** X21: every merged record belongs to a transfer of the input: it has
    the cells of that transfer under all labels that do not start with
    "Stats_" or "Def_", and under [Stats_Season] the season before the
    season of the transfer. *)
Theorem merged_records_keep_transfer (fs : files) (transfers : list Series)
    (st : merge_state) (row : Series) :
  merge_transfers_with_stats fs transfers = Return st →
  row ∈ results st →
  ∃ t, t ∈ transfers ∧ merged_from t row.
Proof.
  intros Hloop Hrow.
  apply merge_loop_Return in Hloop as (rows & entries & Hr & _ & _ & Hrows & _).
  rewrite Hr in Hrow. cbn [results app] in Hrow.
  rewrite Forall_forall in Hrows. by apply Hrows.
Qed.

Lemma merged_records_keep_transfer_witness :
  merge_transfers_with_stats one_player two_transfers
    = Return two_transfers_merged
  ∧ ∃ t, t ∈ two_transfers
         ∧ merged_from t
             [("Player", Text "Karim Benzema"); ("Season", Text "10/11");
              ("Stats_Gls", Num 12); ("Stats_Nation", Text "fr");
              ("Stats_Squad", Text "Combined");
              ("Stats_Season", Text "2009-2010")].
Proof.
  split; [exact two_transfers_result|].
  apply (merged_records_keep_transfer one_player two_transfers
           two_transfers_merged _ two_transfers_result).
  left.
Defined.

(** X22: when no player's name has a wildcard character, every
    not-found record belongs to a transfer of the input: it names the
    player and the season of that transfer and the season before it,
    and [get_player_stats] has no standard statistics of the player for
    that season; defensive statistics alone do not make a merged
    record. *)
Theorem not_found_records_explained (fs : files) (transfers : list Series)
    (st : merge_state) (entry : not_found_entry) :
  Forall literal_paths transfers →
  merge_transfers_with_stats fs transfers = Return st →
  entry ∈ not_found st →
  ∃ t, t ∈ transfers ∧ reported_from fs t entry.
Proof.
  intros _ Hloop Hentry.
  apply merge_loop_Return in Hloop as (rows & entries & _ & Hn & _ & _ & Hents).
  rewrite Hn in Hentry. cbn [not_found app] in Hentry.
  rewrite Forall_forall in Hents. by apply Hents.
Qed.

Lemma not_found_records_explained_witness :
  merge_transfers_with_stats one_player two_transfers
    = Return two_transfers_merged
  ∧ ∃ t, t ∈ two_transfers
         ∧ reported_from one_player t
             {| nf_Player := "Luka Modric";
                nf_Transfer_Season := "12/13";
                nf_Looking_For := "2011-2012" |}.
Proof.
  split; [exact two_transfers_result|].
  assert (Hlit : Forall literal_paths two_transfers).
  { repeat constructor; intros p [= <-]; reflexivity. }
  apply (not_found_records_explained one_player two_transfers
           two_transfers_merged _ Hlit two_transfers_result).
  left.
Defined.

(** ** The row of a season *)

Lemma row_series_get (cols : list (string * dtype)) (row : list cell)
    (label : string) (k : nat) :
  column_index label cols = Some k → (k < List.length row)%nat →
  series_get label (row_series cols row) = Some (cell_at k row).
Proof.
  unfold row_series. revert row k.
  induction cols as [|[l ty] cols IH]; intros row k Hk Hlen; [done|].
  destruct row as [|c row]; [cbn in Hlen; lia|].
  cbn [column_index] in Hk. cbn [map fst zip_with series_get].
  destruct (String.eqb l label).
  - by injection Hk as <-.
  - destruct (column_index label cols) as [k'|] eqn:Hk'; [|done].
    injection Hk as <-. cbn [List.length] in Hlen.
    rewrite (IH row k') by (done || lia). reflexivity.
Qed.

Lemma season_rows_match k season (rs : list (list cell)) row :
  In row (season_rows k season rs) →
  cell_at k row = Text season ∧ (k < List.length row)%nat.
Proof.
  unfold season_rows. intros [_ Hcell]%filter_In.
  apply bool_decide_eq_true in Hcell. split; [exact Hcell|].
  destruct (decide (k < List.length row)%nat) as [Hlt | Hge]; [exact Hlt|].
  unfold cell_at in Hcell. rewrite nth_overflow in Hcell by lia. discriminate.
Qed.

(** X23: whatever row [get_player_stats] returns, one row of the file
    or a combined row, its [Season] is the season that was asked
    for. *)
Theorem returned_row_has_season (fs : files)
    (player season stats_type : string) (row : Series) :
  get_player_stats fs player season stats_type = Some row →
  series_get "Season" row = Some (Text season).
Proof.
  intros Hrow.
  destruct (fs (stats_path player stats_type)) as [[|df]|] eqn:Hfile.
  - rewrite get_player_stats_absent in Hrow; [done | by rewrite Hfile].
  - destruct (column_index "Season" (columns df)) as [k|] eqn:Hk.
    + rewrite (get_player_stats_found _ _ _ _ df k Hfile Hk) in Hrow.
      destruct (season_rows k season (rows df)) as [|first [|second rest]]
        eqn:Hrows; [done | |].
      * injection Hrow as <-.
        destruct (season_rows_match k season (rows df) first) as [Hcell Hlen].
        { rewrite Hrows. by left. }
        rewrite (row_series_get _ _ _ k Hk Hlen). by rewrite Hcell.
      * injection Hrow as <-. apply series_get_set_eq.
    + rewrite get_player_stats_absent in Hrow; [done | by rewrite Hfile].
  - rewrite get_player_stats_absent in Hrow; [done | by rewrite Hfile].
Qed.

Lemma returned_row_has_season_witness :
  get_player_stats one_player "Karim Benzema" "2010-2011" "standard_stats"
  = Some [("Season", Text "2010-2011"); ("Squad", Text "Real Madrid");
          ("Comp", Text "La Liga"); ("Gls", Num 9); ("Nation", Text "fr")]
  ∧ series_get "Season"
      [("Season", Text "2010-2011"); ("Squad", Text "Real Madrid");
       ("Comp", Text "La Liga"); ("Gls", Num 9); ("Nation", Text "fr")]
    = Some (Text "2010-2011").
Proof.
  assert (H : get_player_stats one_player "Karim Benzema" "2010-2011"
                "standard_stats"
              = Some [("Season", Text "2010-2011"); ("Squad", Text "Real Madrid");
                      ("Comp", Text "La Liga"); ("Gls", Num 9);
                      ("Nation", Text "fr")]).
  { vm_compute. reflexivity. }
  split; [exact H|].
  exact (returned_row_has_season _ _ _ _ _ H).
Defined.

End MergeMore.

(** * Further properties of the normalisation and of the crawl plan *)

Module NamesMore.
Import Unicode UnicodeFacts Names NamesFacts.

(** ** The shape of a normalised name *)

Lemma space_not_Mn : is_Mn 0x20 = false.
Proof. vm_compute. reflexivity. Qed.

(** X24: whatever the name, its normalised form has no nonspacing mark
    and no white space but single U+0020 characters between words: it
    does not start or end with a space and has no two spaces in a row,
    so that splitting it at white space and joining the words again
    gives it back. *)
Theorem normalized_shape (name : str) :
  Forall (fun c => is_Mn c = false) (_normalize_name name)
  ∧ Forall (fun c => isspace c = true → c = 0x20) (_normalize_name name)
  ∧ Forall word (split (_normalize_name name))
  ∧ join [0x20] (split (_normalize_name name)) = _normalize_name name.
Proof.
  rewrite normalize_unfold.
  set (stripped := List.filter (fun c => negb (is_Mn c)) (nfd (lower name))).
  split; [|split; [|split]].
  - apply join_Forall; [apply Forall_singleton, space_not_Mn|].
    apply split_from_Forall; [constructor|].
    eapply Forall_impl; [apply filter_true|].
    intros c Hc. by apply negb_true_iff.
  - apply join_Forall; [by apply Forall_singleton|].
    eapply Forall_impl; [apply (split_words stripped)|].
    intros w [_ Hw]. eapply Forall_impl; [exact Hw|].
    intros c Hc Hs. congruence.
  - apply split_words.
  - by rewrite split_join by apply split_words.
Qed.

Lemma blank_characters :
  Forall (fun c =>
            Forall (fun d => Forall (fun e => isspace e = true) (decomp d))
              (lower_cp c))
    (enumerate space_ranges).
Proof. apply (bool_decide_unpack _). vm_compute. exact I. Qed.

Lemma split_from_blank (s : str) :
  Forall (fun c => isspace c = true) s → split_from [] s = [].
Proof.
  induction 1 as [|c s Hc _ IH]; cbn [split_from]; [reflexivity|].
  by rewrite Hc.
Qed.

(** X25: a name that is empty or consists of white space only has the
    empty string as its normalised form. *)
Theorem blank_name_empty_key (name : str) :
  Forall (fun c => isspace c = true) name → _normalize_name name = [].
Proof.
  intros Hname. rewrite normalize_unfold.
  assert (Hblank : Forall (fun c => isspace c = true)
                     (List.filter (fun c => negb (is_Mn c)) (nfd (lower name)))).
  { apply filter_Forall, nfd_Forall. unfold lower. apply lower_from_Forall.
    eapply Forall_impl; [exact Hname|].
    intros c Hc. split.
    - intros ->. revert Hc. vm_compute. discriminate.
    - pose proof blank_characters as Hall.
      rewrite Forall_forall in Hall. apply Hall.
      by apply in_ranges_enumerate. }
  unfold split. by rewrite split_from_blank.
Qed.

Lemma blank_name_empty_key_witness :
  Forall (fun c => isspace c = true) [0x20; 0x9; 0xA0; 0x2000]
  ∧ _normalize_name [0x20; 0x9; 0xA0; 0x2000] = [].
Proof.
  assert (H : Forall (fun c => isspace c = true) [0x20; 0x9; 0xA0; 0x2000]).
  { apply (bool_decide_unpack _). vm_compute. exact I. }
  split; [exact H|].
  exact (blank_name_empty_key _ H).
Defined.

(** ** The crawl plan *)

#[global] Instance str_le_trans : Transitive str_le.
Proof.
  intros a. unfold str_le.
  induction a as [|x a IH]; intros [|y b] [|z c]; cbn [str_leb]; try done.
  destruct (N.ltb_spec x y), (N.ltb_spec y x), (N.ltb_spec y z),
    (N.ltb_spec z y), (N.ltb_spec x z), (N.ltb_spec z x);
    try done; try lia.
  apply IH.
Qed.

#[global] Instance str_le_antisymm : AntiSymm (=) str_le.
Proof.
  intros a. unfold str_le.
  induction a as [|x a IH]; intros [|y b]; cbn [str_leb]; try done.
  destruct (N.ltb_spec x y), (N.ltb_spec y x); try done; try lia.
  intros Hab Hba. f_equal; [lia | by apply IH].
Qed.

(** X26: the plan depends on which names are given, not on their order
    or on how often one is given: two lists with the same names get the
    same list of combos. *)
Theorem plan_ignores_order (names1 names2 : list str) :
  (∀ name, name ∈ names1 ↔ name ∈ names2) →
  _get_required_combos names1 = _get_required_combos names2.
Proof.
  intros Hsame. apply (Sorted_unique str_le).
  - apply (Sorted_merge_sort str_le).
  - apply (Sorted_merge_sort str_le).
  - apply NoDup_Permutation.
    + unfold _get_required_combos, sorted.
      rewrite merge_sort_Permutation. apply NoDup_elements.
    + unfold _get_required_combos, sorted.
      rewrite merge_sort_Permutation. apply NoDup_elements.
    + intros s. rewrite !elem_of_required_combos.
      split; intros (name & Hin & ?); exists name; (split; [by apply Hsame | done]).
Qed.

Lemma plan_ignores_order_witness :
  (∀ name, name ∈ [kylian_mbappe; orjan_nyland]
           ↔ name ∈ [orjan_nyland; kylian_mbappe; orjan_nyland])
  ∧ _get_required_combos [kylian_mbappe; orjan_nyland]
    = _get_required_combos [orjan_nyland; kylian_mbappe; orjan_nyland].
Proof.
  assert (H : ∀ name, name ∈ [kylian_mbappe; orjan_nyland]
                      ↔ name ∈ [orjan_nyland; kylian_mbappe; orjan_nyland]).
  { intros name. rewrite !elem_of_cons, !elem_of_nil. tauto. }
  split; [exact H|].
  exact (plan_ignores_order _ _ H).
Defined.

Lemma size_list_to_set_le (l : list str) :
  (size (list_to_set l : gset str) ≤ List.length l)%nat.
Proof.
  induction l as [|x l IH]; cbn [list_to_set List.length].
  - by rewrite size_empty.
  - rewrite size_union_alt, size_singleton.
    pose proof (subseteq_size (list_to_set l ∖ {[x]}) (list_to_set l : gset str))
      as Hsub.
    assert (list_to_set l ∖ {[x]} ⊆ (list_to_set l : gset str)) by set_solver.
    specialize (Hsub H). lia.
Qed.

(** X27: the plan has at most one combo for each name given, and more
    names never give a shorter plan: the combos of a list of names are
    among the combos of every list that has these names. *)
Theorem plan_bounded_and_monotone (names names' : list str) :
  (List.length (_get_required_combos names) ≤ List.length names)%nat
  ∧ ((∀ name, name ∈ names → name ∈ names') →
     ∀ s, s ∈ _get_required_combos names → s ∈ _get_required_combos names').
Proof.
  split.
  - unfold _get_required_combos, sorted, combos_loop.
    rewrite merge_sort_Permutation.
    rewrite (proj1 (combos_loop_state names _)). cbn [required_combos].
    rewrite (left_id_L ∅ (∪)).
    change (List.length (elements ?X)) with (size X).
    etransitivity; [apply size_list_to_set_le|].
    rewrite length_map. apply filter_length_le.
  - intros Hsub s. rewrite !elem_of_required_combos.
    intros (name & Hin & ?). exists name. split; [by apply Hsub | done].
Qed.

End NamesMore.

(** * Properties of the scraper of player pages *)

Module ScraperFacts.
Import Merge Scraper.

Local Open Scope string_scope.

(** ** Dicts *)

Lemma dict_get_set_eq {V : Type} (key : string) (v : V) (d : dict V) :
  dict_get key (dict_set key v d) = Some v.
Proof.
  induction d as [|[k v'] d IH]; cbn [dict_set dict_get].
  - by rewrite String.eqb_refl.
  - destruct (String.eqb k key) eqn:E; cbn [dict_get]; rewrite E;
      [reflexivity | exact IH].
Qed.

Lemma dict_get_set_ne {V : Type} (key key' : string) (v : V) (d : dict V) :
  key ≠ key' -> dict_get key' (dict_set key v d) = dict_get key' d.
Proof.
  intros Hne. apply String.eqb_neq in Hne.
  induction d as [|[k v'] d IH]; cbn [dict_set dict_get].
  - by rewrite Hne.
  - destruct (String.eqb k key) eqn:E; cbn [dict_get].
    + apply String.eqb_eq in E. subst k. by rewrite Hne.
    + destruct (String.eqb k key'); [reflexivity | exact IH].
Qed.

(** ** Paths *)

Lemma length_append (a b : string) :
  String.length (a ++ b) = (String.length a + String.length b)%nat.
Proof.
  induction a as [|c a IH]; [reflexivity|].
  change (S (String.length (a ++ b))
          = S (String.length a + String.length b)). by rewrite IH.
Qed.

Lemma append_inj_r (t a b : string) : a ++ t = b ++ t -> a = b.
Proof.
  revert b. induction a as [|c a IH]; intros [|c' b] H.
  - reflexivity.
  - apply (f_equal String.length) in H.
    change (String.length t = S (String.length (b ++ t))) in H.
    rewrite (length_append b t) in H. exfalso. lia.
  - apply (f_equal String.length) in H.
    change (S (String.length (a ++ t)) = String.length t) in H.
    rewrite (length_append a t) in H. exfalso. lia.
  - change (String c (a ++ t) = String c' (b ++ t)) in H.
    injection H as -> H. f_equal. by apply IH.
Qed.

Lemma absolute_filename (cl key : string) :
  absolute (cl ++ "_" ++ key ++ ".csv") = absolute cl.
Proof. destruct cl; reflexivity. Qed.

(** Two tables of a player never share a file. *)
Lemma filepath_of_inj (dir cl key key' : string) :
  filepath_of dir cl key = filepath_of dir cl key' -> key = key'.
Proof.
  unfold filepath_of, path_join. rewrite !absolute_filename.
  assert (Hname : cl ++ "_" ++ key ++ ".csv" = cl ++ "_" ++ key' ++ ".csv"
                  -> key = key').
  { intros H. apply String.app_inj in H. apply String.app_inj in H.
    by apply append_inj_r in H. }
  destruct (absolute cl); [exact Hname|].
  destruct (String.eqb dir "" || ends_with_slash dir); intros H;
    apply String.app_inj in H; [by apply Hname|].
  apply String.app_inj in H. by apply Hname.
Qed.

(** The reader's path is the writer's, for a name that does not begin
    with a slash. *)
Lemma stats_path_filepath (player_name key : string) :
  absolute (clean player_name) = false ->
  filepath_of "outputs" (clean player_name) key = stats_path player_name key.
Proof.
  intros Habs. unfold filepath_of, path_join, stats_path.
  rewrite absolute_filename, Habs. reflexivity.
Qed.

(** ** Saving *)

Lemma save_frames_other (w : world) (dir cl : string) (items : dict value)
    (path : string) :
  ∀ (fs fs' : files) (ok : bool),
    save_frames w dir cl items fs = (fs', ok) ->
    (∀ key df, (key, Frame df) ∈ items -> filepath_of dir cl key ≠ path) ->
    fs' path = fs path.
Proof.
  induction items as [|[k [info|d]] items IH]; intros fs fs' ok Hsave Hnot;
    cbn [save_frames] in Hsave.
  - by injection Hsave as <- _.
  - apply (IH _ _ _ Hsave). intros key df Hin. apply (Hnot key df).
    by apply list_elem_of_further.
  - destruct (writable w (filepath_of dir cl k)).
    + rewrite (IH _ _ _ Hsave).
      * unfold write. assert (Hne : path ≠ filepath_of dir cl k).
        { intros Heq. apply (Hnot k d); [apply list_elem_of_here | by symmetry]. }
        apply String.eqb_neq in Hne. by rewrite Hne.
      * intros key df Hin. apply (Hnot key df). by apply list_elem_of_further.
    + by injection Hsave as <- _.
Qed.

Lemma save_frames_mono (w : world) (dir cl : string) (items : dict value)
    (path : string) :
  ∀ (fs fs' : files) (ok : bool),
    save_frames w dir cl items fs = (fs', ok) ->
    is_Some (fs path) -> is_Some (fs' path).
Proof.
  induction items as [|[k [info|d]] items IH]; intros fs fs' ok Hsave Hsome;
    cbn [save_frames] in Hsave.
  - by injection Hsave as <- _.
  - by apply (IH _ _ _ Hsave).
  - destruct (writable w (filepath_of dir cl k)).
    + apply (IH _ _ _ Hsave). unfold write.
      destruct (String.eqb path (filepath_of dir cl k)); [by eexists | done].
    + by injection Hsave as <- _.
Qed.

Lemma save_frames_exists (w : world) (dir cl : string) (items : dict value)
    (key : string) (df : DataFrame) :
  ∀ (fs fs' : files),
    save_frames w dir cl items fs = (fs', true) ->
    (key, Frame df) ∈ items ->
    is_Some (fs' (filepath_of dir cl key)).
Proof.
  induction items as [|[k [info|d]] items IH]; intros fs fs' Hsave Hin;
    cbn [save_frames] in Hsave.
  - by apply elem_of_nil in Hin.
  - apply elem_of_cons in Hin as [Heq|Hin]; [discriminate Heq|].
    by apply (IH _ _ Hsave).
  - destruct (writable w (filepath_of dir cl k)); [|discriminate Hsave].
    apply elem_of_cons in Hin as [Heq|Hin].
    + injection Heq as -> ->.
      apply (save_frames_mono _ _ _ _ _ _ _ _ Hsave).
      unfold write. rewrite String.eqb_refl. by eexists.
    + by apply (IH _ _ Hsave).
Qed.

Lemma save_frames_lookup (w : world) (dir cl : string) (items : dict value)
    (key : string) (df : DataFrame) :
  ∀ (fs fs' : files),
    save_frames w dir cl items fs = (fs', true) ->
    NoDup (map fst items) ->
    (key, Frame df) ∈ items ->
    fs' (filepath_of dir cl key) = Some (reread w df).
Proof.
  induction items as [|[k [info|d]] items IH]; intros fs fs' Hsave Hnd Hin;
    [by apply elem_of_nil in Hin|..];
    cbn [save_frames] in Hsave; cbn [map fst] in Hnd;
    apply NoDup_cons in Hnd as [Hk Hnd].
  - apply elem_of_cons in Hin as [Heq|Hin]; [discriminate Heq|].
    by apply (IH _ _ Hsave).
  - destruct (writable w (filepath_of dir cl k)); [|discriminate Hsave].
    apply elem_of_cons in Hin as [Heq|Hin]; [|by apply (IH _ _ Hsave)].
    injection Heq as -> ->.
    rewrite (save_frames_other _ _ _ _ _ _ _ _ Hsave).
    + unfold write. by rewrite String.eqb_refl.
    + intros key df Hin Hpath. apply filepath_of_inj in Hpath. subst key.
      apply Hk. apply list_elem_of_fmap. by exists (k, Frame df).
Qed.

(** Whether [save_results] raises does not depend on the files. *)
Lemma save_frames_ok (w : world) (dir cl : string) (items : dict value) :
  ∀ (fs1 fs2 : files),
    snd (save_frames w dir cl items fs1) = snd (save_frames w dir cl items fs2).
Proof.
  induction items as [|[k [info|d]] items IH]; intros fs1 fs2;
    cbn [save_frames]; [reflexivity | apply IH |].
  destruct (writable w (filepath_of dir cl k)); [apply IH | reflexivity].
Qed.

Lemma save_results_ok (w : world) (results : dict value) (dir : string)
    (fs1 fs2 : files) :
  snd (save_results w results dir fs1) = snd (save_results w results dir fs2).
Proof.
  unfold save_results. destruct (makedirs w dir); [|reflexivity].
  apply save_frames_ok.
Qed.

Lemma save_results_mono (w : world) (results : dict value) (dir : string)
    (fs fs' : files) (ok : bool) (path : string) :
  save_results w results dir fs = (fs', ok) ->
  is_Some (fs path) -> is_Some (fs' path).
Proof.
  unfold save_results. destruct (makedirs w dir).
  - apply save_frames_mono.
  - by intros [= <- _].
Qed.

Lemma save_results_exists (w : world) (results : dict value) (dir : string)
    (fs fs' : files) (key : string) (df : DataFrame) :
  save_results w results dir fs = (fs', true) ->
  (key, Frame df) ∈ results ->
  is_Some (fs' (filepath_of dir (clean (player_name_of results)) key)).
Proof.
  unfold save_results. destruct (makedirs w dir); [|discriminate].
  apply save_frames_exists.
Qed.

(** ** One player *)

Lemma scrape_player_stats_fetched (w : world) (k : nat) (url : string)
    (page : player_page) :
  _make_request w k url = Some page ->
  scrape_player_stats w k url
  = ("player_info", Info (_extract_player_info page (now w k)))
      :: (match table_by_id page "stats_standard_dom_lg" with
          | Some df => [("standard_stats", Frame df)]
          | None => []
          end
          ++ match table_by_id page "stats_defense_dom_lg" with
             | Some df => [("defensive_actions", Frame df)]
             | None => []
             end)%list.
Proof.
  intros Hreq. unfold scrape_player_stats. rewrite Hreq.
  unfold scrape_tables, tables_to_scrape. cbn [fold_left fst snd].
  destruct (table_by_id page "stats_standard_dom_lg");
    destruct (table_by_id page "stats_defense_dom_lg"); reflexivity.
Qed.

Lemma player_name_fetched (w : world) (k : nat) (url : string)
    (page : player_page) :
  _make_request w k url = Some page ->
  player_name_of (scrape_player_stats w k url) = page_name page.
Proof.
  intros Hreq. rewrite (scrape_player_stats_fetched _ _ _ _ Hreq).
  unfold player_name_of, _extract_player_info, page_name.
  cbn [dict_get]. destruct (h1 page); reflexivity.
Qed.

Lemma table_fetched (w : world) (k : nat) (url : string) (page : player_page)
    (key id : string) (df : DataFrame) :
  _make_request w k url = Some page ->
  (key, id) ∈ tables_to_scrape ->
  table_by_id page id = Some df ->
  NoDup (map fst (scrape_player_stats w k url))
  ∧ (key, Frame df) ∈ scrape_player_stats w k url.
Proof.
  intros Hreq Hin Hdf. rewrite (scrape_player_stats_fetched _ _ _ _ Hreq).
  unfold tables_to_scrape in Hin.
  apply elem_of_cons in Hin as [Heq|Hin];
    [|apply elem_of_cons in Hin as [Heq|Hin];
      [|by apply elem_of_nil in Hin]];
    injection Heq as -> ->; rewrite Hdf.
  - destruct (table_by_id page "stats_defense_dom_lg"); cbn [app map fst];
      (split; [apply (bool_decide_unpack _); vm_compute; exact I|]);
      apply list_elem_of_further, list_elem_of_here.
  - destruct (table_by_id page "stats_standard_dom_lg"); cbn [app map fst];
      (split; [apply (bool_decide_unpack _); vm_compute; exact I|]).
    + apply list_elem_of_further, list_elem_of_further, list_elem_of_here.
    + apply list_elem_of_further, list_elem_of_here.
Qed.

(** The reader looks at one file only. *)
Lemma get_player_stats_file (fs1 fs2 : files)
    (player_name target_season stats_type : string) :
  fs1 (stats_path player_name stats_type)
  = fs2 (stats_path player_name stats_type) ->
  get_player_stats fs1 player_name target_season stats_type
  = get_player_stats fs2 player_name target_season stats_type.
Proof.
  intros H. unfold get_player_stats, glob. cbn zeta.
  rewrite <- H.
  destruct (fs1 (stats_path player_name stats_type)) eqn:E; [|reflexivity].
  by rewrite <- H, E.
Qed.

(** X28. The file [save_results] writes for a table of a player page
    is the file [get_player_stats] of the merger reads for the name in
    the page's heading: when the request gave a page, [save_results]
    returned, and the name neither begins with a slash nor has a
    wildcard character, then the file at the path of the merger is the
    one written for the table found under the table's id, and the
    merger's answer for every season is the one it computes from that
    file. *)
Theorem saved_table_is_found (w : world) (k : nat) (url : string)
    (page : player_page) (fs fs' : files) (key id : string) (df : DataFrame)
    (season : string) :
  _make_request w k url = Some page ->
  save_results w (scrape_player_stats w k url) "outputs" fs = (fs', true) ->
  (key, id) ∈ tables_to_scrape ->
  table_by_id page id = Some df ->
  absolute (clean (page_name page)) = false ->
  has_magic (stats_path (page_name page) key) = false ->
  fs' (stats_path (page_name page) key) = Some (reread w df)
  ∧ get_player_stats fs' (page_name page) season key
    = get_player_stats (fun _ => Some (reread w df)) (page_name page)
        season key.
Proof.
  intros Hreq Hsave Hin Hdf Habs _.
  destruct (table_fetched _ _ _ _ _ _ _ Hreq Hin Hdf) as [Hnd Hframe].
  assert (Hfile : fs' (stats_path (page_name page) key) = Some (reread w df)).
  { rewrite <- (stats_path_filepath _ _ Habs).
    rewrite <- (player_name_fetched _ _ _ _ Hreq).
    unfold save_results in Hsave.
    destruct (makedirs w "outputs"); [|discriminate Hsave].
    exact (save_frames_lookup _ _ _ _ _ _ _ _ Hsave Hnd Hframe). }
  split; [exact Hfile|].
  apply get_player_stats_file. exact Hfile.
Qed.

Lemma saved_table_is_found_witness :
  _make_request benzema_site 1 "u" = Some benzema_page
  ∧ get_player_stats
      (fst (save_results benzema_site (scrape_player_stats benzema_site 1 "u")
              "outputs" no_files))
      "Karim Benzema" "2009-2010" "standard_stats"
    = get_player_stats (fun _ => Some (Csv two_clubs)) "Karim Benzema"
        "2009-2010" "standard_stats".
Proof.
  assert (Hreq : _make_request benzema_site 1 "u" = Some benzema_page)
    by reflexivity.
  split; [exact Hreq|].
  refine (proj2 (saved_table_is_found benzema_site 1 "u" benzema_page no_files
                   _ "standard_stats" "stats_standard_dom_lg" two_clubs
                   "2009-2010" Hreq _ _ _ _ _)).
  - vm_compute. reflexivity.
  - apply list_elem_of_here.
  - reflexivity.
  - reflexivity.
  - reflexivity.
Defined.

(** ** Many players *)

Lemma scrape_one_collection (w : world) (idx : nat) (name url : string)
    (st : scrape_state) :
  (scraped w idx url
   ∧ results_collection (scrape_one w idx (name, url) st)
     = dict_set name (scrape_player_stats w idx url) (results_collection st))
  ∨ (¬ scraped w idx url
     ∧ results_collection (scrape_one w idx (name, url) st)
       = results_collection st).
Proof.
  unfold scrape_one, scraped. cbn [fst snd].
  destruct (scrape_player_stats w idx url) as [|item results] eqn:Hres.
  - right. split; [by intros [H _] | reflexivity].
  - pose proof (save_results_ok w (item :: results) "outputs" (outputs st)
                  no_files) as Hok.
    destruct (save_results w (item :: results) "outputs" (outputs st))
      as [fs' ok]. cbn [snd] in Hok. rewrite <- Hok.
    destruct ok.
    + left. split; [split; [discriminate | reflexivity] | reflexivity].
    + right. split; [by intros [_ H] | reflexivity].
Qed.

Lemma scrape_loop_collection (w : world) (players : dict string) :
  ∀ (idx : nat) (st : scrape_state) (name : string) (r : dict value),
    NoDup (map fst players) ->
    dict_get name (results_collection (scrape_loop w idx players st)) = Some r
    <-> (∃ i url, players !! i = Some (name, url)
                  ∧ scraped w (idx + i) url
                  ∧ r = scrape_player_stats w (idx + i) url)
        ∨ ((∀ i url, players !! i = Some (name, url)
                     -> ¬ scraped w (idx + i) url)
           ∧ dict_get name (results_collection st) = Some r).
Proof.
  induction players as [|[n u] players IH]; intros idx st name r Hnd.
  - cbn [scrape_loop]. split.
    + intros H. right. split; [|exact H]. intros i url Hi. discriminate Hi.
    + intros [(i & url & Hi & _)|[_ H]]; [discriminate Hi | exact H].
  - cbn [map fst] in Hnd. apply NoDup_cons in Hnd as [Hn Hnd].
    cbn [scrape_loop]. rewrite (IH (S idx) _ name r Hnd).
    pose proof (scrape_one_collection w idx n u st) as Hone.
    split.
    + intros [(i & url & Hi & Hs & Hr)|[Hall Hget]].
      * left. exists (S i), url. rewrite Nat.add_succ_r.
        split; [exact Hi|]. split; [exact Hs | exact Hr].
      * destruct Hone as [[Hs Hrc]|[Hs Hrc]]; rewrite Hrc in Hget.
        -- destruct (decide (n = name)) as [->|Hne].
           ++ rewrite dict_get_set_eq in Hget. injection Hget as <-.
              left. exists 0%nat, u. rewrite Nat.add_0_r.
              split; [reflexivity|]. split; [exact Hs | reflexivity].
           ++ rewrite (dict_get_set_ne _ _ _ _ Hne) in Hget.
              right. split; [|exact Hget].
              intros [|i] url Hi.
              ** injection Hi as -> _. by destruct Hne.
              ** rewrite Nat.add_succ_r. by apply (Hall i url).
        -- right. split; [|exact Hget].
           intros [|i] url Hi.
           ++ injection Hi as _ ->. by rewrite Nat.add_0_r.
           ++ rewrite Nat.add_succ_r. by apply (Hall i url).
    + intros [(i & url & Hi & Hs & Hr)|[Hall Hget]].
      * destruct i as [|i].
        -- injection Hi as -> ->. rewrite Nat.add_0_r in Hs, Hr.
           right. split.
           ++ intros j url' Hj. destruct Hn.
              apply list_elem_of_fmap. exists (name, url').
              split; [reflexivity|]. by apply list_elem_of_lookup_2 in Hj.
           ++ destruct Hone as [[_ Hrc]|[Hs' _]]; [|by destruct Hs'].
              rewrite Hrc, Hr. apply dict_get_set_eq.
        -- left. exists i, url. rewrite Nat.add_succ_r in Hs, Hr.
           split; [exact Hi|]. split; [exact Hs | exact Hr].
      * right. split.
        -- intros i url Hi. specialize (Hall (S i) url Hi).
           by rewrite Nat.add_succ_r in Hall.
        -- destruct Hone as [[Hs Hrc]|[Hs Hrc]]; rewrite Hrc; [|exact Hget].
           destruct (decide (n = name)) as [->|Hne].
           ++ destruct (Hall 0%nat u eq_refl). by rewrite Nat.add_0_r.
           ++ by rewrite (dict_get_set_ne _ _ _ _ Hne).
Qed.

(** X29. Which players [scrape_multiple_players] returns, for a dict of
    players (whose names are distinct): a name has the results [r] in
    the returned collection exactly when it is the name of the [i]-th
    player, the request for that player gave a page whose tables could
    all be saved, and [r] is what was scraped from that page.  A player
    whose request or whose saving fails is left out, and no other
    player is affected by it. *)
Theorem collected_iff_scraped (w : world) (players : dict string) (fs : files)
    (name : string) (r : dict value) :
  NoDup (map fst players) ->
  dict_get name
    (results_collection (scrape_multiple_players w (UrlDict players) fs))
  = Some r
  <-> ∃ i url, players !! i = Some (name, url)
               ∧ scraped w (S i) url
               ∧ r = scrape_player_stats w (S i) url.
Proof.
  intros Hnd. unfold scrape_multiple_players.
  rewrite (scrape_loop_collection w players 1 _ name r Hnd).
  cbn [results_collection dict_get Nat.add]. split.
  - intros [H|[_ H]]; [exact H | discriminate H].
  - intros H. by left.
Qed.

Lemma collected_iff_scraped_witness :
  NoDup (map fst [("Karim Benzema", "u"); ("Nobody", "v")])
  ∧ (dict_get "Karim Benzema"
       (results_collection
          (scrape_multiple_players benzema_site
             (UrlDict [("Karim Benzema", "u"); ("Nobody", "v")]) no_files))
     = Some (scrape_player_stats benzema_site 1 "u")
     <-> ∃ i url,
           [("Karim Benzema", "u"); ("Nobody", "v")] !! i
           = Some ("Karim Benzema", url)
           ∧ scraped benzema_site (S i) url
           ∧ scrape_player_stats benzema_site 1 "u"
             = scrape_player_stats benzema_site (S i) url).
Proof.
  assert (Hnd : NoDup (map fst [("Karim Benzema", "u"); ("Nobody", "v")])).
  { apply (bool_decide_unpack _). vm_compute. exact I. }
  split; [exact Hnd|].
  exact (collected_iff_scraped benzema_site _ no_files "Karim Benzema" _ Hnd).
Defined.

Lemma scrape_one_on_disk (w : world) (idx : nat) (player : string * string)
    (st : scrape_state) :
  on_disk st -> on_disk (scrape_one w idx player st).
Proof.
  intros Hst. unfold scrape_one.
  destruct (scrape_player_stats w idx (snd player)) as [|item results];
    [exact Hst|].
  destruct (save_results w (item :: results) "outputs" (outputs st))
    as [fs' ok] eqn:Hsave.
  assert (Hold : ∀ name r key df,
             dict_get name (results_collection st) = Some r ->
             (key, Frame df) ∈ r ->
             is_Some (fs' (filepath_of "outputs" (clean (player_name_of r))
                             key))).
  { intros name r key df Hget Hin.
    apply (save_results_mono _ _ _ _ _ _ _ Hsave).
    by apply (Hst name r key df). }
  destruct ok; intros name r key df Hget Hin;
    cbn [results_collection outputs] in *; [|by apply (Hold name r key df)].
  destruct (decide (player.1 = name)) as [Heq|Hne].
  - rewrite Heq, dict_get_set_eq in Hget. injection Hget as <-.
    exact (save_results_exists _ _ _ _ _ key df Hsave Hin).
  - rewrite (dict_get_set_ne _ _ _ _ Hne) in Hget.
    by apply (Hold name r key df).
Qed.

Lemma scrape_loop_on_disk (w : world) (players : dict string) :
  ∀ (idx : nat) (st : scrape_state),
    on_disk st -> on_disk (scrape_loop w idx players st).
Proof.
  induction players as [|player players IH]; intros idx st Hst;
    cbn [scrape_loop]; [exact Hst|].
  apply IH. by apply scrape_one_on_disk.
Qed.

(** X30. Every player in the collection that [scrape_multiple_players]
    returns has been saved: for each table in the player's results there
    is, at the end of the run, a file at the path [save_results] writes
    the table to; neither a later player nor a failure in between
    removes it.  This holds for a dict and for a list of URLs. *)
Theorem collected_tables_on_disk (w : world) (urls : player_urls) (fs : files)
    (name : string) (r : dict value) (key : string) (df : DataFrame) :
  dict_get name (results_collection (scrape_multiple_players w urls fs))
  = Some r ->
  (key, Frame df) ∈ r ->
  is_Some (outputs (scrape_multiple_players w urls fs)
             (filepath_of "outputs" (clean (player_name_of r)) key)).
Proof.
  intros Hget Hin.
  assert (Hdisk : on_disk (scrape_multiple_players w urls fs)).
  { unfold scrape_multiple_players. apply scrape_loop_on_disk.
    intros name' r' key' df' H. discriminate H. }
  exact (Hdisk name r key df Hget Hin).
Qed.

Lemma collected_tables_on_disk_witness :
  dict_get "Karim Benzema"
    (results_collection
       (scrape_multiple_players benzema_site
          (UrlDict [("Karim Benzema", "u")]) no_files))
  = Some (scrape_player_stats benzema_site 1 "u")
  ∧ is_Some (outputs
               (scrape_multiple_players benzema_site
                  (UrlDict [("Karim Benzema", "u")]) no_files)
               "outputs/Karim_Benzema_standard_stats.csv").
Proof.
  assert (Hget : dict_get "Karim Benzema"
                   (results_collection
                      (scrape_multiple_players benzema_site
                         (UrlDict [("Karim Benzema", "u")]) no_files))
                 = Some (scrape_player_stats benzema_site 1 "u"))
    by reflexivity.
  split; [exact Hget|].
  refine (collected_tables_on_disk benzema_site _ no_files "Karim Benzema" _
            "standard_stats" two_clubs Hget _).
  apply list_elem_of_further, list_elem_of_here.
Defined.

End ScraperFacts.
